(** * Site intelligence engine: buildability, scoring, precedent, aggregation

    A shallow embedding of the pure core of the urbix planning API
    (app/services/buildability.py, ai_summary.py, scc_planning.py,
    da_history.py, constraints.py, flood.py, infrastructure.py) and the
    properties its specification states about it.

    Conventions of the embedding.
    - A Python [float] is a primitive binary64 float ([PrimFloat.float]);
      a Python [int] is a [Z]; [None] and absent dictionary keys are [None].
    - A Python [str] is a [string] whose characters are the code points
      below 256; [lower], [isspace], [isdigit] follow Python on that range.
      Display literals of the source with characters beyond it (dashes,
      icons) are spelled in UTF-8; the code never inspects them.
    - A dictionary with a fixed set of keys is a record; a key that may be
      missing is an optional field. Where the code tests a dictionary for
      truth, the argument is an [option]: [None] stands for [None] and for
      the empty dictionary.
    - Provider records are typed as the provider's schema gives them. A
      JSON null is modelled where the code raises on it: the text attributes
      of an application, on which the code calls [strip].
    - A Python exception is a value of [exn]; code that can raise returns
      [py A], and [try/except] is a match on the raised exception. *)

From Stdlib Require Import ZArith Lia Floats Ascii String.
From Stdlib Require Import DecimalString DecimalPos DecimalZ Sorted.
From stdpp Require Import base option list strings gmap.

Local Open Scope Z_scope.

(** ** Exceptions and the error monad *)

Inductive exn : Type :=
| ValueError
| TypeError
| OSError
| IndexError
| OverflowError
| AttributeError.

(** How one request to a provider ends: an exception inside the [try]
    block of the query (transport failure, timeout, error status from
    [raise_for_status], a body that is not JSON, JSON that is not an object),
    or a JSON object, with its ["features"] list when it has one. The
    provider's schema makes ["features"] an array of objects; an object
    where it holds anything else is not represented. *)
Inductive failure : Type :=
| TransportError
| TimeoutException
| HTTPStatusError (status : Z)
| JSONDecodeError
| NotAnObject.

Inductive response (F : Type) : Type :=
| Failed (e : failure)
| Json (features : option (list F)).
Arguments Failed {F} e.
Arguments Json {F} features.

Inductive py (A : Type) : Type :=
| Return (a : A)
| Raise (e : exn).
Arguments Return {A} a.
Arguments Raise {A} e.

Definition py_bind {A B : Type} (m : py A) (k : A -> py B) : py B :=
  match m with
  | Return a => k a
  | Raise e => Raise e
  end.

Notation "'let*' x ':=' m 'in' k" := (py_bind m (fun x => k))
  (at level 10, x name, m at level 100, k at level 200).

Definition returns {A : Type} (m : py A) : Prop := exists a, m = Return a.

(** ** Python strings *)

Module PyStr.

Definition code (c : ascii) : N := Ascii.N_of_ascii c.

(** [str.isspace] on code points below 256. *)
Definition isspace (c : ascii) : bool :=
  let n := code c in
  ((9 <=? n) && (n <=? 13) || (28 <=? n) && (n <=? 32)
   || (n =? 133) || (n =? 160))%N.

(** Decimal digits, the only characters [int] accepts as digits. *)
Definition isdecimal (c : ascii) : bool :=
  let n := code c in ((48 <=? n) && (n <=? 57))%N.

(** [str.isdigit]: the decimal digits and the superscripts 1, 2, 3. *)
Definition isdigit (c : ascii) : bool :=
  let n := code c in
  (isdecimal c || (n =? 178) || (n =? 179) || (n =? 185))%N.

Definition lower_char (c : ascii) : ascii :=
  let n := code c in
  if ((65 <=? n) && (n <=? 90)
      || (192 <=? n) && (n <=? 222) && negb (n =? 215))%N
  then Ascii.ascii_of_N (n + 32) else c.

Fixpoint lower (s : string) : string :=
  match s with
  | EmptyString => EmptyString
  | String c s' => String (lower_char c) (lower s')
  end.

(** [needle in hay]. *)
Fixpoint contains (needle hay : string) : bool :=
  String.prefix needle hay ||
  match hay with
  | EmptyString => false
  | String _ hay' => contains needle hay'
  end.

(** [s.split(sep)] for a non-empty [sep]; [skip] counts the characters of
    a separator found at an earlier position that are still to be dropped. *)
Fixpoint split_from (sep : string) (skip : nat) (s : string) : list string :=
  match s with
  | EmptyString => [EmptyString]
  | String c s' =>
      match skip with
      | S k => split_from sep k s'
      | O =>
          if String.prefix sep s
          then EmptyString :: split_from sep (String.length sep - 1) s'
          else match split_from sep O s' with
               | p :: ps => String c p :: ps
               | [] => [String c EmptyString]
               end
      end
  end.

Definition split (sep s : string) : list string := split_from sep O s.

Fixpoint drop (n : nat) (s : string) : string :=
  match n, s with
  | S k, String _ s' => drop k s'
  | _, _ => s
  end.

(** [s.split(sep, 1)] when [sep] occurs in [s]: the text before the first
    occurrence and the text after it. *)
Fixpoint split_once (sep s : string) : option (string * string) :=
  match s with
  | EmptyString => None
  | String c s' =>
      if String.prefix sep s then Some (EmptyString, drop (String.length sep) s)
      else match split_once sep s' with
           | Some (before, after) => Some (String c before, after)
           | None => None
           end
  end.

(** [s.replace(old, new)] for a non-empty [old]. *)
Fixpoint replace_from (old new : string) (skip : nat) (s : string) : string :=
  match s with
  | EmptyString => EmptyString
  | String c s' =>
      match skip with
      | S k => replace_from old new k s'
      | O =>
          if String.prefix old s
          then new +:+ replace_from old new (String.length old - 1) s'
          else String c (replace_from old new O s')
      end
  end.

Definition replace (old new s : string) : string := replace_from old new O s.

(** [sep.join(parts)]. *)
Fixpoint join (sep : string) (parts : list string) : string :=
  match parts with
  | [] => EmptyString
  | [p] => p
  | p :: ps => p +:+ sep +:+ join sep ps
  end.

Definition nonempty (s : string) : bool :=
  match s with EmptyString => false | _ => true end.

Fixpoint lstrip (s : string) : string :=
  match s with
  | EmptyString => EmptyString
  | String c s' => if isspace c then lstrip s' else s
  end.

Fixpoint rstrip (s : string) : string :=
  match s with
  | EmptyString => EmptyString
  | String c s' =>
      match rstrip s' with
      | EmptyString => if isspace c then EmptyString else String c EmptyString
      | r => String c r
      end
  end.

Definition strip (s : string) : string := rstrip (lstrip s).

(** ["".join(filter(pred, s))]. *)
Fixpoint filter (pred : ascii -> bool) (s : string) : string :=
  match s with
  | EmptyString => EmptyString
  | String c s' => if pred c then String c (filter pred s') else filter pred s'
  end.

Definition digit_value (c : ascii) : Z := Z.of_N (code c) - 48.

(** The digit part of an integer literal: decimal digits, with single
    underscores allowed between two digits. [after_digit] tells whether the
    previous character was a digit. *)
Fixpoint digits_value (s : string) (acc : Z) (after_digit : bool) : option Z :=
  match s with
  | EmptyString => if after_digit then Some acc else None
  | String c s' =>
      if isdecimal c then digits_value s' (10 * acc + digit_value c) true
      else if Ascii.eqb c "_"%char && after_digit then digits_value s' acc false
      else None
  end.

(** [int(s)] for a string [s] without surrounding white space (both call
    sites strip or filter the argument first): an optional sign and the
    digits; anything else raises [ValueError]. *)
Definition int_of_str (s : string) : py Z :=
  let signed :=
    match s with
    | String "-"%char s' => (-1, s')
    | String "+"%char s' => (1, s')
    | _ => (1, s)
    end in
  match digits_value (snd signed) 0 false with
  | Some n => Return (fst signed * n)
  | None => Raise ValueError
  end.

(** [str(n)] and [f"{n}"] for an integer. *)
Definition str_of_int (n : Z) : string := NilZero.string_of_int (Z.to_int n).

End PyStr.

(** ** Python numbers *)

Module PyNum.

Local Open Scope float_scope.

(** Truth value of a float: everything but the two zeros. *)
Definition truthy (x : float) : bool := negb (x =? 0).

(** [float(n)] and the implicit conversion of an [int] operand: the
    nearest float, ties to even; an integer beyond the float range raises. *)
Definition float_of_int (n : Z) : py float :=
  match binary_normalize prec emax n 0 false with
  | S754_infinity _ => Raise OverflowError
  | f => Return (SF2Prim f)
  end.

(** [int(x)]: truncation toward zero; raises on infinities and NaN. *)
Definition int_of_float (x : float) : py Z :=
  match Prim2SF x with
  | S754_zero _ => Return 0%Z
  | S754_infinity _ => Raise OverflowError
  | S754_nan => Raise ValueError
  | S754_finite s m e =>
      let mag := match e with
                 | Zneg p => (Zpos m / 2 ^ Zpos p)%Z
                 | _ => (Zpos m * 2 ^ e)%Z
                 end in
      Return (if s then (- mag)%Z else mag)
  end.

(** [max(0, x)]: the first argument unless the second is greater. *)
Definition max0 (x : float) : float := if 0 <? x then x else 0.

(** [min(a, b)]: the first argument unless the second is smaller. *)
Definition min (a b : float) : float := if b <? a then b else a.

(** [math.sqrt]: a negative argument is a domain error. *)
Definition sqrt (x : float) : py float :=
  if x <? 0 then Raise ValueError else Return (PrimFloat.sqrt x).

(** Nearest integer, ties to even, of [num / den] for [den > 0]. *)
Definition round_half_even (num den : Z) : Z :=
  let q := (num / den)%Z in
  let r := (num mod den)%Z in
  match (2 * r ?= den)%Z with
  | Lt => q
  | Gt => (q + 1)%Z
  | Eq => if Z.even q then q else (q + 1)%Z
  end.

(** [round(x, 1)]: the exact value of [x] is rounded to one decimal place,
    ties to even, and the decimal is converted back to the nearest float. *)
Definition round1 (x : float) : float :=
  match Prim2SF x with
  | S754_finite s m e =>
      let tenths :=
        match e with
        | Zneg p => round_half_even (10 * Zpos m) (2 ^ Zpos p)
        | _ => (10 * Zpos m * 2 ^ e)%Z
        end in
      match tenths with
      | Zpos t =>
          SF2Prim (SFdiv prec emax (S754_finite s t 0) (S754_finite false 10 0))
      | _ => SF2Prim (S754_zero s)
      end
  | _ => x
  end.

End PyNum.

(** ** Data model shared by the services *)

Inductive scalar : Type :=
| SNull
| SBool (b : bool)
| SInt (n : Z)
| SFloat (x : float)
| SStr (s : string).

(** A text attribute of a provider record: the key is absent, holds null,
    or holds a text. *)
Inductive text : Type :=
| Absent
| Null
| Text (s : string).

(** A case identifier as the provider sends it: missing, a number or a
    text. *)
Inductive ident : Type :=
| NoId
| IntId (n : Z)
| StrId (s : string).

#[global] Instance ident_eq_dec : EqDecision ident.
Proof. solve_decision. Defined.

#[global] Instance ident_countable : Countable ident.
Proof.
  refine (inj_countable'
    (fun i => match i with
              | NoId => None
              | IntId n => Some (inl n)
              | StrId s => Some (inr s)
              end)
    (fun o => match o with
              | None => NoId
              | Some (inl n) => IntId n
              | Some (inr s) => StrId s
              end) _).
  intros []; reflexivity.
Defined.

(** Truth value of an identifier: a missing one, zero and the empty text
    are false. *)
Definition ident_truthy (i : ident) : bool :=
  match i with
  | NoId => false
  | IntId n => negb (n =? 0)
  | StrId s => PyStr.nonempty s
  end.

(** A development application as [_process_da_features] builds it. *)
Module Da.
Record t : Type := {
  ram_id : ident;
  description : string;
  category : option string;
  decision : option string;
  progress : option string;
  assessment_level : string;
  date_received : option string;
  date_decided : option string;
  land_parcel_relationship : string;
}.
End Da.

Module Zone.
Record t : Type := {
  code : option string;
  category : option string;
  label : option string;
  description : option string;
}.
End Zone.

Module Overlay.
Record layer : Type := {
  layer_id : Z;
  name : option string;
  label : option string;
  height_m : option float;
  attributes : option (list (string * scalar));
}.
Record group : Type := {
  category : option string;
  layers : list layer;
}.
End Overlay.

(** ** app/services/buildability.py *)

Module Buildability.

Local Open Scope float_scope.

Record Rules : Type := {
  zone_category : option string;
  max_height_m : option float;
  max_storeys : option Z;
  max_site_cover_pct : option float;
  front_setback_m : option float;
  side_setback_m : option float;
  rear_setback_m : option float;
  min_lot_size_sqm : option float;
  min_frontage_m : option float;
  max_dwelling_density : option string;
  accepted_uses : option (list string);
  assessable_uses : option (list string);
  zone_code : option string;
  source : option string;
}.

(** The empty dictionary [{}]. *)
Definition no_rules : Rules :=
  {| zone_category := None; max_height_m := None; max_storeys := None;
     max_site_cover_pct := None; front_setback_m := None;
     side_setback_m := None; rear_setback_m := None;
     min_lot_size_sqm := None; min_frontage_m := None;
     max_dwelling_density := None; accepted_uses := None;
     assessable_uses := None; zone_code := None; source := None |}.

Definition table_entry (cat : string) (height : float) (storeys : Z)
    (cover front side rear : float) (lot frontage : option float)
    (density : string) (accepted assessable : list string) : Rules :=
  {| zone_category := Some cat; max_height_m := Some height;
     max_storeys := Some storeys; max_site_cover_pct := Some cover;
     front_setback_m := Some front; side_setback_m := Some side;
     rear_setback_m := Some rear; min_lot_size_sqm := lot;
     min_frontage_m := frontage; max_dwelling_density := Some density;
     accepted_uses := Some accepted; assessable_uses := Some assessable;
     zone_code := None; source := None |}.

(** The superscript two of the square-metre sign in some use names. *)
Definition sup2 : string := String (Ascii.ascii_of_N 178) EmptyString.

(** [ZONE_RULES], in the order of the source. *)
Definition ZONE_RULES : list (string * Rules) :=
  [
   ("Low Density Residential Zone",
    table_entry "Residential Zones Category" 8.5 2 50
      6 1.5 6 (Some 400) (Some 12)
      "1 per lot"
      ["Dwelling house"; "Home-based business"; "Caretaker's accommodation"]
      ["Dual occupancy"; "Secondary dwelling"; "Community facility"; "Childcare centre"]);
   ("Low-medium Density Residential Zone",
    table_entry "Residential Zones Category" 12 3 50
      6 2 6 (Some 300) (Some 10)
      "1 per 300sqm"
      ["Dwelling house"; "Dual occupancy"; "Home-based business"]
      ["Multiple dwelling"; "Short-term accommodation"; "Rooming accommodation"; "Childcare centre"]);
   ("Medium Density Residential Zone",
    table_entry "Residential Zones Category" 15 4 50
      6 3 6 (Some 200) (Some 10)
      "1 per 200sqm"
      ["Dwelling house"; "Dual occupancy"; "Multiple dwelling"]
      ["Short-term accommodation"; "Rooming accommodation"; "Retirement facility"; "Childcare centre"]);
   ("High Density Residential Zone",
    table_entry "Residential Zones Category" 22 6 60
      6 3 6 (Some 150) (Some 15)
      "1 per 100sqm"
      ["Dwelling house"; "Dual occupancy"; "Multiple dwelling"]
      ["Short-term accommodation"; "Rooming accommodation"; "Retirement facility"; "Shop (< 250m" +:+ sup2 +:+ ")"]);
   ("Principal Centre Zone",
    table_entry "Centre Zones Category" 45 12 80
      0 0 3 (Some 200) None
      "1 per 50sqm"
      ["Shop"; "Office"; "Food and drink outlet"; "Multiple dwelling"]
      ["Hotel"; "Nightclub"; "Indoor sport"; "Health care service"; "Educational establishment"]);
   ("Major Centre Zone",
    table_entry "Centre Zones Category" 25 7 80
      0 0 3 (Some 200) None
      "1 per 75sqm"
      ["Shop"; "Office"; "Food and drink outlet"; "Multiple dwelling"]
      ["Hotel"; "Indoor sport"; "Health care service"; "Educational establishment"]);
   ("District Centre Zone",
    table_entry "Centre Zones Category" 15 4 70
      0 0 3 (Some 200) None
      "1 per 100sqm"
      ["Shop"; "Office"; "Food and drink outlet"; "Health care service"]
      ["Multiple dwelling"; "Short-term accommodation"; "Hotel"; "Childcare centre"]);
   ("Local Centre Zone",
    table_entry "Centre Zones Category" 12 3 60
      0 0 3 (Some 300) None
      "1 per 150sqm"
      ["Shop"; "Food and drink outlet"; "Office (< 250m" +:+ sup2 +:+ ")"; "Health care service"]
      ["Multiple dwelling"; "Short-term accommodation"; "Childcare centre"]);
   ("Neighbourhood Centre Zone",
    table_entry "Centre Zones Category" 8.5 2 60
      3 0 3 (Some 400) None
      "1 per 200sqm"
      ["Shop (< 500m" +:+ sup2 +:+ ")"; "Food and drink outlet"; "Health care service"]
      ["Dwelling house"; "Childcare centre"]);
   ("Low Impact Industry Zone",
    table_entry "Industry Zones Category" 12 2 70
      6 3 6 (Some 1000) (Some 20)
      "Caretaker only"
      ["Low impact industry"; "Warehouse"; "Service industry"]
      ["Medium impact industry"; "Outdoor storage"; "Transport depot"]);
   ("Medium Impact Industry Zone",
    table_entry "Industry Zones Category" 15 3 70
      10 5 10 (Some 2000) (Some 30)
      "Caretaker only"
      ["Medium impact industry"; "Low impact industry"; "Warehouse"]
      ["High impact industry"; "Transport depot"; "Outdoor storage"]);
   ("High Impact Industry Zone",
    table_entry "Industry Zones Category" 15 3 70
      20 10 20 (Some 4000) (Some 50)
      "Caretaker only"
      ["High impact industry"; "Medium impact industry"; "Special industry"]
      ["Extractive industry"; "Hazardous chemical facility"]);
   ("Sport and Recreation Zone",
    table_entry "Specialised Zones Category" 12 2 40
      6 3 6 None None
      "Caretaker only"
      ["Park"; "Sport and recreation"]
      ["Club"; "Food and drink outlet"; "Market"]);
   ("Open Space Zone",
    table_entry "Specialised Zones Category" 8.5 2 10
      6 3 6 None None
      "None"
      ["Park"]
      ["Environment facility"; "Utility installation"]);
   ("Environmental Management and Conservation Zone",
    table_entry "Other Zones Category" 8.5 2 10
      10 5 10 None None
      "Caretaker only"
      ["Park"; "Nature-based tourism"]
      ["Environment facility"; "Dwelling house"]);
   ("Community Facilities Zone",
    table_entry "Specialised Zones Category" 12 3 50
      6 3 6 None None
      "Caretaker only"
      ["Community facility"; "Educational establishment"; "Hospital"]
      ["Childcare centre"; "Health care service"; "Place of worship"]);
   ("Tourist Accommodation Zone",
    table_entry "Residential Zones Category" 15 4 50
      6 3 6 (Some 800) (Some 20)
      "1 per 200sqm"
      ["Short-term accommodation"; "Tourist park"]
      ["Multiple dwelling"; "Food and drink outlet"; "Shop (< 100m" +:+ sup2 +:+ ")"; "Resort complex"]);
   ("Rural Zone",
    table_entry "Other Zones Category" 8.5 2 10
      20 10 20 (Some 40000) (Some 100)
      "1 per lot"
      ["Dwelling house"; "Home-based business"; "Animal husbandry"; "Cropping"; "Rural activity"]
      ["Rural industry"; "Roadside stall"; "Tourist park"; "Nature-based tourism"; "Winery"]);
   ("Rural Residential Zone",
    table_entry "Other Zones Category" 8.5 2 15
      10 5 10 (Some 4000) (Some 40)
      "1 per lot"
      ["Dwelling house"; "Home-based business"]
      ["Dual occupancy"; "Nature-based tourism"; "Roadside stall"; "Rural activity"]);
   ("Emerging Community Zone",
    table_entry "Other Zones Category" 8.5 2 50
      6 1.5 6 (Some 600) (Some 15)
      "1 per lot"
      ["Dwelling house"; "Home-based business"]
      ["Park"; "Community facility"]);
   ("Mixed Use Zone",
    table_entry "Centre Zones Category" 15 4 80
      0 0 3 (Some 200) None
      "1 per 100sqm"
      ["Shop"; "Office"; "Food and drink outlet"; "Multiple dwelling"]
      ["Hotel"; "Health care service"; "Short-term accommodation"]);
   ("Specialised Centre Zone",
    table_entry "Centre Zones Category" 12 3 60
      6 3 6 (Some 1000) (Some 20)
      "Caretaker only"
      ["Office"; "Research and technology"; "Health care service"]
      ["Shop"; "Food and drink outlet"; "Educational establishment"])
  ].

Definition with_zone (r : Rules) (code src : string) : Rules :=
  {| zone_category := zone_category r; max_height_m := max_height_m r;
     max_storeys := max_storeys r; max_site_cover_pct := max_site_cover_pct r;
     front_setback_m := front_setback_m r; side_setback_m := side_setback_m r;
     rear_setback_m := rear_setback_m r; min_lot_size_sqm := min_lot_size_sqm r;
     min_frontage_m := min_frontage_m r;
     max_dwelling_density := max_dwelling_density r;
     accepted_uses := accepted_uses r; assessable_uses := assessable_uses r;
     zone_code := Some code; source := Some src |}.

(** [ZONE_RULES.get(zone_code)]. *)
Fixpoint table_get (tbl : list (string * Rules)) (key : string) : option Rules :=
  match tbl with
  | [] => None
  | (k, v) :: tbl' => if String.eqb k key then Some v else table_get tbl' key
  end.

(** The loop of the fuzzy match: the first key, in table order, that
    contains the lowered zone code or is contained in it. *)
Fixpoint fuzzy_match (tbl : list (string * Rules)) (zone_lower : string)
    : option (string * Rules) :=
  match tbl with
  | [] => None
  | (key, val) :: tbl' =>
      if PyStr.contains zone_lower (PyStr.lower key)
         || PyStr.contains (PyStr.lower key) zone_lower
      then Some (key, val)
      else fuzzy_match tbl' zone_lower
  end.

Definition get_zone_rules (zone_code : string) : option Rules :=
  match table_get ZONE_RULES zone_code with
  | Some rules => Some (with_zone rules zone_code "scc_planning_scheme")
  | None =>
      match fuzzy_match ZONE_RULES (PyStr.lower zone_code) with
      | Some (key, val) => Some (with_zone val key "scc_planning_scheme_fuzzy")
      | None => None
      end
  end.

Section PlanningRules.
(** The planning_rules table of the database: [try_db_rules] returns the
    row found for a zone code and a local government area, and [None]
    when there is none or the query fails. *)
Variable try_db_rules : string -> string -> option Rules.

End PlanningRules.

Record Parcel : Type := {
  area_sqm : option float;
}.

(** One entry of the ["constraints"] list of the result. *)
Record Constraint : Type := {
  type : string;
  icon : string;
  text : string;
}.

(** A lot-compliance message, by the values its text is formatted from
    (the decimal rendering of floats is not modelled). *)
Inductive Issue : Type :=
| LotTooSmall (area min_lot_size : float)
| CheckFrontage (min_frontage : float).

Module Result.
Record Zone : Type := {
  code : string;
  category : string;
  source : string;
}.
Record Rules : Type := {
  max_height_m : option float;
  max_storeys : option Z;
  min_lot_size_sqm : option float;
  max_site_cover_pct : float;
  front_setback_m : float;
  side_setback_m : float;
  rear_setback_m : float;
  min_frontage_m : option float;
}.
Record BuildableEnvelope : Type := {
  max_footprint_sqm : float;
  max_gfa_sqm : float;
  max_dwellings : Z;
  buildable_area_after_setbacks_sqm : float;
}.
Record Subdivision : Type := {
  can_subdivide : bool;
  max_new_lots : Z;
  sub_min_lot_size_sqm : option float;
}.
Record Uses : Type := {
  accepted : list string;
  assessable : list string;
}.
Record LotCompliance : Type := {
  compliant : bool;
  issues : list Issue;
}.
Record t : Type := {
  zone : Zone;
  rules : Rules;
  buildable_envelope : BuildableEnvelope;
  subdivision : Subdivision;
  uses : Uses;
  constraints : list Constraint;
  lot_compliance : LotCompliance;
  disclaimer : string;
}.
End Result.

(** What [calculate_buildability] returns: the error dictionary for a lot
    without area, or the full result. *)
Inductive Outcome : Type :=
| NoArea (zone_code zone_category : string) (error : string)
| Computed (r : Result.t).

(** The helper [f]: [float(v)], or the default for [None]. *)
Definition f (v : option float) (default : float) : float :=
  match v with
  | None => default
  | Some x => x
  end.

(** The locals of the envelope computation. *)
Record Envelope : Type := {
  max_footprint : float;
  side_length : float;
  buildable_width : float;
  buildable_depth : float;
  buildable_area_after_setbacks : float;
  effective_footprint : float;
}.

Definition envelope (area max_site_cover front_setback side_setback
    rear_setback : float) : py Envelope :=
  let max_footprint := area * (max_site_cover / 100) in
  let* side_length := PyNum.sqrt area in
  let buildable_width := PyNum.max0 (side_length - 2 * side_setback) in
  let buildable_depth :=
    PyNum.max0 (side_length - front_setback - rear_setback) in
  let buildable_area_after_setbacks := buildable_width * buildable_depth in
  let effective_footprint :=
    PyNum.min max_footprint buildable_area_after_setbacks in
  Return {| max_footprint := max_footprint;
            side_length := side_length;
            buildable_width := buildable_width;
            buildable_depth := buildable_depth;
            buildable_area_after_setbacks := buildable_area_after_setbacks;
            effective_footprint := effective_footprint |}.

(** The two numbers the [try] block reads from the rule: the count before
    the first "per", and the digits of the text after it. *)
Definition density_numbers (density_rule : string) : py (Z * Z) :=
  let parts := PyStr.split "per" density_rule in
  let* units :=
    match parts with
    | p0 :: _ => PyStr.int_of_str (PyStr.strip p0)
    | [] => Raise IndexError
    end in
  let* per_sqm :=
    match parts with
    | _ :: p1 :: _ => PyStr.int_of_str (PyStr.filter PyStr.isdigit p1)
    | _ => Raise IndexError
    end in
  Return (units, per_sqm).

(** The body of the [try] block of the density parser. *)
Definition parse_density (area : float) (density_rule : string) : py Z :=
  let* numbers := density_numbers density_rule in
  let units := fst numbers in
  let per_sqm := snd numbers in
  if (per_sqm >? 0)%Z then
    let* d := PyNum.float_of_int per_sqm in
    let* q := PyNum.int_of_float (area / d) in
    Return (Z.max 1 (q * units))
  else Return 1%Z.

Definition max_dwellings (area : float) (density_rule : option string)
    : py Z :=
  match density_rule with
  | None | Some EmptyString => Return 1%Z
  | Some rule =>
      if PyStr.contains "per" rule
         && negb (PyStr.contains "lot" (PyStr.lower rule))
      then match parse_density area rule with
           | Raise ValueError | Raise IndexError => Return 1%Z
           | r => r
           end
      else if PyStr.contains "lot" (PyStr.lower rule) then Return 1%Z
      else if String.eqb rule "Caretaker only" || String.eqb rule "None"
      then Return 0%Z
      else Return 1%Z
  end.

Definition can_subdivide (area min_lot_size : float) : bool :=
  if PyNum.truthy min_lot_size then min_lot_size * 2 <=? area else false.

Definition max_new_lots (area min_lot_size : float) : py Z :=
  if PyNum.truthy min_lot_size && (0 <? min_lot_size)
  then PyNum.int_of_float (area / min_lot_size)
  else Return 0%Z.

Definition note (t i x : string) : option Constraint :=
  Some {| type := t; icon := i; text := x |}.

(** The constraint note of one layer of an overlay group of category [cat]. *)
Definition constraint_note (cat lname : string) : option Constraint :=
  let c := PyStr.lower cat in
  if PyStr.contains "bushfire" c then
    note "bushfire" "🔥" ("Bushfire: " +:+ lname +:+ " — BAL assessment required")
  else if PyStr.contains "flood" c then
    note "flood" "🌊"
      ("Flood: " +:+ lname
       +:+ " — may require flood assessment and minimum floor levels")
  else if PyStr.contains "heritage" c || PyStr.contains "character" c then
    note "heritage" "🏛️"
      ("Heritage/Character: " +:+ lname +:+ " — design controls apply")
  else if PyStr.contains "landslide" c then
    note "landslide" "⛰️"
      ("Landslide Hazard: " +:+ lname +:+ " — geotechnical assessment required")
  else if PyStr.contains "steep" c || PyStr.contains "slope" c then
    note "steep_land" "📐"
      ("Steep Land: " +:+ lname +:+ " — earthworks and retaining may be needed")
  else if PyStr.contains "biodiversity" c || PyStr.contains "waterway" c
          || PyStr.contains "wetland" c then
    note "biodiversity" "🌿"
      ("Biodiversity: " +:+ lname +:+ " — ecological assessment likely required")
  else if PyStr.contains "coastal" c then
    note "coastal" "🏖️"
      ("Coastal: " +:+ lname +:+ " — coastal protection requirements apply")
  else if PyStr.contains "acid" c then
    note "acid_sulfate" "⚗️"
      "Acid Sulfate Soils — soil investigation may be required"
  else if negb (String.eqb c "height of buildings and structures") then
    note "other" "📌" (cat +:+ ": " +:+ lname)
  else None.

Definition layer_name (l : Overlay.layer) : string :=
  match Overlay.label l with
  | Some lbl => lbl
  | None => default EmptyString (Overlay.name l)
  end.

Definition overlay_constraints (overlays : option (list Overlay.group))
    : list Constraint :=
  flat_map
    (fun group =>
       let cat := default EmptyString (Overlay.category group) in
       omap (fun layer => constraint_note cat (layer_name layer))
            (Overlay.layers group))
    (default [] overlays).

Definition opt_truthy (v : option float) : option float :=
  match v with
  | Some x => if PyNum.truthy x then Some x else None
  | None => None
  end.

Definition DISCLAIMER : string :=
  "Indicative only based on Sunshine Coast Planning Scheme 2014. "
  +:+ "Zone data sourced from SCC ArcGIS services. "
  +:+ "Always verify with Sunshine Coast Council before making decisions.".

(** [float(parcel.get("area_sqm") or 0)]. *)
Definition area_of (parcel : Parcel) : float :=
  default 0 (opt_truthy (area_sqm parcel)).

(** [zone.get("code", "Unknown") if zone else "Unknown"]. *)
Definition zone_code_of (zone : option Zone.t) : string :=
  match zone with
  | Some z => default "Unknown"%string (Zone.code z)
  | None => "Unknown"%string
  end.

(** [zone.get("category", "") if zone else ""]. *)
Definition zone_category_of (zone : option Zone.t) : string :=
  match zone with
  | Some z => default EmptyString (Zone.category z)
  | None => EmptyString
  end.

(** [if not rules: rules = get_zone_rules(zone_code) or {}]. *)
Definition rules_for (zone_code : string) (rules : option Rules) : Rules :=
  match rules with
  | Some r => r
  | None => default no_rules (get_zone_rules zone_code)
  end.

(** [max_storeys or 1]. *)
Definition storeys_of (max_storeys : option Z) : Z :=
  match max_storeys with
  | Some n => if (n =? 0)%Z then 1%Z else n
  | None => 1%Z
  end.

Definition calculate_buildability (parcel : Parcel) (zone : option Zone.t)
    (rules : option Rules) (overlays : option (list Overlay.group))
    (height_override : option float) : py Outcome :=
  let area := area_of parcel in
  let zone_code := zone_code_of zone in
  let zone_category := zone_category_of zone in
  let rules := rules_for zone_code rules in
  if negb (PyNum.truthy area) then
    Return (NoArea zone_code zone_category
              "No lot area data — cannot calculate buildability")
  else
    let max_height :=
      match opt_truthy height_override with
      | Some h => Some h
      | None => max_height_m rules
      end in
    let max_storeys := max_storeys rules in
    let max_site_cover := f (max_site_cover_pct rules) 50 in
    let front_setback := f (front_setback_m rules) 6 in
    let side_setback := f (side_setback_m rules) 1.5 in
    let rear_setback := f (rear_setback_m rules) 6 in
    let min_lot_size := f (min_lot_size_sqm rules) 0 in
    let min_frontage := min_frontage_m rules in
    let density_rule := max_dwelling_density rules in
    let* env := envelope area max_site_cover front_setback side_setback
                  rear_setback in
    let storeys := storeys_of max_storeys in
    let* storeys_f := PyNum.float_of_int storeys in
    let max_gfa := effective_footprint env * storeys_f in
    let* dwellings := max_dwellings area density_rule in
    let subdividable := can_subdivide area min_lot_size in
    let* new_lots := max_new_lots area min_lot_size in
    let too_small := PyNum.truthy min_lot_size && (area <? min_lot_size) in
    let compliance_issues :=
      (if too_small then [LotTooSmall area min_lot_size] else [])
      ++ match opt_truthy min_frontage with
         | Some fr => [CheckFrontage fr]
         | None => []
         end in
    Return (Computed
      {| Result.zone :=
           {| Result.code := zone_code;
              Result.category := zone_category;
              Result.source := "scc_arcgis" |};
         Result.rules :=
           {| Result.max_height_m := opt_truthy max_height;
              Result.max_storeys := max_storeys;
              Result.min_lot_size_sqm := opt_truthy (Some min_lot_size);
              Result.max_site_cover_pct := max_site_cover;
              Result.front_setback_m := front_setback;
              Result.side_setback_m := side_setback;
              Result.rear_setback_m := rear_setback;
              Result.min_frontage_m := opt_truthy min_frontage |};
         Result.buildable_envelope :=
           {| Result.max_footprint_sqm :=
                PyNum.round1 (effective_footprint env);
              Result.max_gfa_sqm := PyNum.round1 max_gfa;
              Result.max_dwellings := dwellings;
              Result.buildable_area_after_setbacks_sqm :=
                PyNum.round1 (buildable_area_after_setbacks env) |};
         Result.subdivision :=
           {| Result.can_subdivide := subdividable;
              Result.max_new_lots := new_lots;
              Result.sub_min_lot_size_sqm := opt_truthy (Some min_lot_size) |};
         Result.uses :=
           {| Result.accepted := default [] (accepted_uses rules);
              Result.assessable := default [] (assessable_uses rules) |};
         Result.constraints := overlay_constraints overlays;
         Result.lot_compliance :=
           {| Result.compliant := negb too_small;
              Result.issues := compliance_issues |};
         Result.disclaimer := DISCLAIMER |}).

End Buildability.

(** ** app/services/scc_planning.py *)

Module SccPlanning.

Definition HEIGHT_LAYER : Z := 50.

(** [OVERLAY_LAYERS]: category to the list of (layer id, name). *)
Definition OVERLAY_LAYERS : list (string * list (Z * string)) :=
  [
   ("Acid Sulfate Soils",
    [(0, "Acid Sulfate Soils")]);
   ("Airport Environs",
    [(2, "Sunshine Coast Airport");
     (3, "Public Safety Area");
     (9, "Obstacle Limitation Surface (OLS)");
     (12, "Australian Noise Exposure Forecast (ANEF) Level");
     (13, "Caloundra Aerodrome")]);
   ("Biodiversity, Waterways and Wetlands",
    [(24, "Waterways");
     (25, "Declared Fish Habitat Area");
     (26, "Riparian Protection Area");
     (27, "Ramsar Wetlands");
     (28, "Wetlands");
     (29, "Waterbodies");
     (30, "Native Vegetation Area")]);
   ("Bushfire Hazard",
    [(32, "High Bushfire Hazard Area");
     (33, "High Bushfire Hazard Area Buffer");
     (34, "Medium Bushfire Hazard Area");
     (35, "Medium Bushfire Hazard Area Buffer")]);
   ("Coastal Protection",
    [(37, "Coastal Protection Area");
     (38, "Maritime Development Area")]);
   ("Extractive Resources",
    [(40, "Transport Route and Separation Area");
     (41, "Local Resource / Processing Area");
     (43, "State Key Resource Area")]);
   ("Flood Hazard",
    [(46, "Flooding and Inundation Area");
     (47, "Drainage Deficient Areas")]);
   ("Height of Buildings and Structures",
    [(50, "Maximum Height of Buildings and Structures")]);
   ("Heritage and Character Areas",
    [(52, "Local Heritage Place (Shipwreck)");
     (53, "State Heritage Place");
     (54, "Local Heritage Place");
     (55, "Land In Proximity to a Local Heritage Place");
     (56, "Character Building");
     (57, "Character Area")]);
   ("Landslide Hazard",
    [(58, "Landslide Hazard Area")]);
   ("Steep Land",
    [(59, "Steep Land (Slope)")]);
   ("Regional Infrastructure",
    [(61, "Gas Pipeline Corridor and Buffer");
     (62, "High Voltage Electricity Line (Distribution)");
     (63, "High Voltage Electricity Line (Transmission)");
     (64, "Water Supply Pipeline and Buffer");
     (65, "Wastewater Treatment Plant and Buffer");
     (66, "Railway Corridor and Buffer");
     (67, "Dedicated Transit Corridor and Buffer");
     (68, "Major Road Corridor and Buffer")]);
   ("Scenic Amenity",
    [(69, "Scenic Amenity");
     (70, "Scenic Route");
     (71, "Regional Inter-Urban Break")]);
   ("Water Resource Catchments",
    [(73, "Water Resource Catchment Area");
     (74, "Water Supply Storage")])
  ].

Definition ALL_OVERLAY_LAYER_IDS : list Z :=
  flat_map (fun '(_, layers) => map fst layers) OVERLAY_LAYERS.

(** [LAYER_INFO]: layer id to (category, name); a later entry for the same
    id replaces an earlier one. *)
Definition LAYER_INFO : gmap Z (string * string) :=
  fold_left
    (fun info '(cat, layers) =>
       fold_left (fun info '(lid, name) => <[lid := (cat, name)]> info)
                 layers info)
    OVERLAY_LAYERS ∅.

(** A feature of an overlay layer: the attributes the code reads, and the
    others. *)
Record feature : Type := {
  LABEL : option string;
  HeightRestrictionMetres : option float;
  others : list (string * scalar);
}.

(** [_query_layer]: the features of the response, or the empty list when
    anything in the exchange raised. *)
Definition _query_layer (r : response feature) : list feature :=
  match r with
  | Failed _ => []
  | Json features => default [] features
  end.

(** An item of the list [get_overlays] returns. *)
Record entry : Type := {
  layer_id : Z;
  name : string;
  category : string;
  label : string;
  attributes : list (string * scalar);
  height_m : option float;
}.

Definition attrs_items (feat : feature) : list (string * scalar) :=
  match LABEL feat with Some l => [("LABEL"%string, SStr l)] | None => [] end
  ++ match HeightRestrictionMetres feat with
     | Some h => [("HeightRestrictionMetres"%string, SFloat h)]
     | None => []
     end
  ++ others feat.

Definition key_in (keys : list string) (k : string) : bool :=
  existsb (String.eqb k) keys.

Definition is_null (v : scalar) : bool :=
  match v with SNull => true | _ => false end.

Definition make_entry (lid : Z) (feat : feature) : entry :=
  let '(cat, name) :=
    default ("Unknown"%string, "Unknown"%string) (LAYER_INFO !! lid) in
  {| layer_id := lid;
     name := name;
     category := cat;
     label := default name (LABEL feat);
     attributes :=
       List.filter
         (fun '(k, v) =>
            negb (key_in ["OBJECTID"; "Shape"; "Shape.STArea()";
                          "Shape.STLength()"]%string k)
            && negb (is_null v))
         (attrs_items feat);
     height_m :=
       if (lid =? HEIGHT_LAYER)%Z then HeightRestrictionMetres feat else None |}.

Section Overlays.
(** The answer of the overlay service to the query of one layer at the
    location (point or parcel envelope) of the request. *)
Variable fetch : Z -> response feature.

(** The layers are queried in batches of eight; the results are appended
    in the order of [ALL_OVERLAY_LAYER_IDS]. *)
Definition get_overlays : list entry :=
  flat_map (fun lid => map (make_entry lid) (_query_layer (fetch lid)))
           ALL_OVERLAY_LAYER_IDS.
End Overlays.

(** [groups[cat]["layers"].append(layer_entry)], creating the group at the
    end of the dictionary when the category is new. *)
Fixpoint add_layer (groups : list (string * list Overlay.layer))
    (cat : string) (l : Overlay.layer) : list (string * list Overlay.layer) :=
  match groups with
  | [] => [(cat, [l])]
  | (c, ls) :: groups' =>
      if String.eqb c cat then (c, ls ++ [l]) :: groups'
      else (c, ls) :: add_layer groups' cat l
  end.

Definition dedup_key (item : entry) : string :=
  PyStr.str_of_int (layer_id item) +:+ "|" +:+ label item.

Definition layer_entry (item : entry) : Overlay.layer :=
  let extra :=
    List.filter
      (fun '(k, _) => negb (key_in ["DESCRIPT"; "HEADING"; "LABEL"]%string k))
      (attributes item) in
  {| Overlay.layer_id := layer_id item;
     Overlay.name := Some (name item);
     Overlay.label := Some (label item);
     Overlay.height_m := height_m item;
     Overlay.attributes := match extra with [] => None | _ => Some extra end |}.

(** One turn of the loop of [get_overlays_grouped] over the raw items. *)
Definition group_step
    (st : list (string * list Overlay.layer) * gset string) (item : entry)
    : list (string * list Overlay.layer) * gset string :=
  let '(groups, seen_keys) := st in
  if bool_decide (dedup_key item ∈ seen_keys) then st
  else (add_layer groups (category item) (layer_entry item),
        {[dedup_key item]} ∪ seen_keys).

Definition group_overlays (raw : list entry) : list Overlay.group :=
  map (fun '(cat, ls) =>
         {| Overlay.category := Some cat; Overlay.layers := ls |})
      (fst (fold_left group_step raw ([], ∅))).

Definition get_overlays_grouped (fetch : Z -> response feature)
    : list Overlay.group :=
  group_overlays (get_overlays fetch).

End SccPlanning.

(** ** app/services/da_history.py *)

Module DaHistory.

Definition DA_IN_PROGRESS : Z := 0.
Definition DA_DECIDED_PAST : Z := 1.
Definition BUILDING_IN_PROGRESS : Z := 2.
Definition BUILDING_DECIDED_PAST : Z := 3.

(** The attributes of a feature of an application layer. *)
Record feature : Type := {
  ram_id : ident;
  description : text;
  category_desc : text;
  decision : text;
  progress : text;
  assessment_level : text;
  d_date_rec : option Z;
  d_decision_made : option Z;
  land_parcel_relationship : text;
}.

(** [_query_da_layer]: as [_query_layer], the empty list when anything in
    the exchange raised. *)
Definition _query_da_layer (r : response feature) : list feature :=
  match r with
  | Failed _ => []
  | Json features => default [] features
  end.

Record History : Type := {
  on_parcel : list Da.t;
  nearby : list Da.t;
  on_parcel_count : Z;
  nearby_count : Z;
  total_count : Z;
  on_parcel_in_progress : Z;
  nearby_in_progress : Z;
  total_in_progress : Z;
  portal_link : option string;
  summary : string;
}.

Definition str_truthy (s : option string) : bool :=
  match s with Some s' => PyStr.nonempty s' | None => false end.

Definition _is_in_progress (da : Da.t) : bool :=
  let progress := PyStr.lower (default EmptyString (Da.progress da)) in
  let decision := PyStr.lower (default EmptyString (Da.decision da)) in
  if negb (str_truthy (Da.date_decided da)) && str_truthy (Da.date_received da)
  then true
  else if PyStr.contains "progress" progress
          || PyStr.contains "current" progress
          || PyStr.contains "pending" progress
  then true
  else if negb (PyStr.nonempty decision)
          || PyStr.contains "pending" decision
          || PyStr.contains "current" decision
  then true
  else false.

Definition _build_summary (on_parcel_count nearby_count in_progress_count : Z)
    : string :=
  if (on_parcel_count =? 0)%Z && (nearby_count =? 0)%Z
  then "No development applications found in area"
  else
    let parts :=
      (if (on_parcel_count >? 0)%Z
       then [PyStr.str_of_int on_parcel_count +:+ " on parcel"] else [])
      ++ (if (nearby_count >? 0)%Z
          then [PyStr.str_of_int nearby_count +:+ " nearby"] else []) in
    let summary := PyStr.join ", " parts in
    if (in_progress_count >? 0)%Z
    then summary +:+ " (" +:+ PyStr.str_of_int in_progress_count
         +:+ " in progress)"
    else summary.

Definition make_portal_link (lot_plan : option string) : option string :=
  match lot_plan with
  | Some lp =>
      match PyStr.split_once "/" lp with
      | Some (lot, plan) =>
          let clean_plan := PyStr.replace "SP" "" (PyStr.replace "RP" "" plan) in
          Some ("https://developmenti.sunshinecoast.qld.gov.au/Home/FilterDirect?LotPlan="
                +:+ lot +:+ "/" +:+ clean_plan)
      | None => None
      end
  | None => None
  end.

Section History.
(** [datetime.fromtimestamp(timestamp / 1000).strftime("%d/%m/%Y")]: the
    local date of a timestamp in milliseconds, or the exception the
    conversion raises: [ValueError] for a year out of range, [OSError] where
    the platform reports one, [OverflowError] for a timestamp beyond the
    range of the platform's time. *)
Variable strftime : Z -> py string.

(** [_format_date]: a missing, null or zero timestamp has no date; of the
    exceptions of the conversion, [ValueError], [TypeError] and [OSError]
    are caught and give no date, any other one goes through. *)
Definition _format_date (timestamp : option Z) : py (option string) :=
  match timestamp with
  | Some t =>
      if (t =? 0)%Z then Return None
      else match strftime t with
           | Return s => Return (Some s)
           | Raise ValueError | Raise TypeError | Raise OSError => Return None
           | Raise e => Raise e
           end
  | None => Return None
  end.

(** [attrs.get(key, "").strip()]: a null has no [strip]. *)
Definition stripped (t : text) : py string :=
  match t with
  | Absent => Return EmptyString
  | Null => Raise AttributeError
  | Text s => Return (PyStr.strip s)
  end.

Definition process_feature (feat : feature) : py (option Da.t) :=
  let* description := stripped (description feat) in
  let* category := stripped (category_desc feat) in
  let* decision := stripped (decision feat) in
  let* progress := stripped (progress feat) in
  let* assessment_level := stripped (assessment_level feat) in
  let* date_received := _format_date (d_date_rec feat) in
  let* date_decided := _format_date (d_decision_made feat) in
  let* relationship := stripped (land_parcel_relationship feat) in
  let da :=
    {| Da.ram_id := ram_id feat;
       Da.description := description;
       Da.category := Some category;
       Da.decision := Some decision;
       Da.progress := Some progress;
       Da.assessment_level := assessment_level;
       Da.date_received := date_received;
       Da.date_decided := date_decided;
       Da.land_parcel_relationship := relationship |} in
  if negb (ident_truthy (Da.ram_id da))
     && negb (PyStr.nonempty (Da.description da))
  then Return None
  else Return (Some da).

Fixpoint _process_da_features (features : list feature) : py (list Da.t) :=
  match features with
  | [] => Return []
  | feat :: features' =>
      let* da := process_feature feat in
      let* processed := _process_da_features features' in
      Return match da with
             | Some d => d :: processed
             | None => processed
             end
  end.

(** The answer of the application service for a layer and a search
    distance: 50 for the envelope of the parcel, 500 for the surroundings. *)
Variable fetch : Z -> Z -> response feature.

Definition count_in_progress (das : list Da.t) : Z :=
  Z.of_nat (length (List.filter _is_in_progress das)).

Definition get_da_history (lot_plan : option string) : py History :=
  let da_progress_on := _query_da_layer (fetch DA_IN_PROGRESS 50) in
  let da_past_on := _query_da_layer (fetch DA_DECIDED_PAST 50) in
  let building_progress_on :=
    _query_da_layer (fetch BUILDING_IN_PROGRESS 50) in
  let building_past_on := _query_da_layer (fetch BUILDING_DECIDED_PAST 50) in
  let da_progress_nearby := _query_da_layer (fetch DA_IN_PROGRESS 500) in
  let da_past_nearby := _query_da_layer (fetch DA_DECIDED_PAST 500) in
  let building_progress_nearby :=
    _query_da_layer (fetch BUILDING_IN_PROGRESS 500) in
  let building_past_nearby :=
    _query_da_layer (fetch BUILDING_DECIDED_PAST 500) in
  let* on_parcel_das :=
    _process_da_features (da_progress_on ++ da_past_on) in
  let* on_parcel_building :=
    _process_da_features (building_progress_on ++ building_past_on) in
  let on_parcel := on_parcel_das ++ on_parcel_building in
  let* nearby_das :=
    _process_da_features (da_progress_nearby ++ da_past_nearby) in
  let* nearby_building :=
    _process_da_features (building_progress_nearby ++ building_past_nearby) in
  let on_parcel_ids : gset ident :=
    list_to_set
      (List.filter ident_truthy (map Da.ram_id on_parcel)) in
  let nearby :=
    List.filter (fun da => negb (bool_decide (Da.ram_id da ∈ on_parcel_ids)))
                (nearby_das ++ nearby_building) in
  let on_parcel_in_progress := count_in_progress on_parcel in
  let nearby_in_progress := count_in_progress nearby in
  let total_in_progress := on_parcel_in_progress + nearby_in_progress in
  let n_on := Z.of_nat (length on_parcel) in
  let n_near := Z.of_nat (length nearby) in
  Return
    {| on_parcel := on_parcel;
       nearby := nearby;
       on_parcel_count := n_on;
       nearby_count := n_near;
       total_count := n_on + n_near;
       on_parcel_in_progress := on_parcel_in_progress;
       nearby_in_progress := nearby_in_progress;
       total_in_progress := total_in_progress;
       portal_link := make_portal_link lot_plan;
       summary := _build_summary n_on n_near total_in_progress |}.
End History.

End DaHistory.

(** ** app/services/ai_summary.py *)

Module AiSummary.

Record FloodInfo : Type := {
  has_flood_data : option bool;
}.

(** The ["koala"] and ["esa"] dictionaries: the status text is all the
    scorer reads. *)
Record StatusInfo : Type := {
  status : option string;
}.

Record Constraints : Type := {
  easements_count : option Z;
  covenants_count : option Z;
  koala : option StatusInfo;
  esa : option StatusInfo;
}.

Record Service : Type := {
  available : option bool;
}.

Record Infrastructure : Type := {
  water : option Service;
  sewer : option Service;
}.

(** The running score and the list of deductions. *)
Definition deduct (st : Z * list string) (amount : Z) (reason : string)
    : Z * list string :=
  (fst st - amount, snd st ++ [reason]).

Definition minus (n : Z) : string := "(-" +:+ PyStr.str_of_int n +:+ ")".

(** The deduction of one overlay group: the branch of the category chain
    it falls in, if any. *)
Definition overlay_deduction (group : Overlay.group) : option (Z * string) :=
  let cat := PyStr.lower (default EmptyString (Overlay.category group)) in
  let count := Z.of_nat (length (Overlay.layers group)) in
  if PyStr.contains "bushfire" cat then
    Some (12 * count, "Bushfire overlay " +:+ minus (12 * count))
  else if PyStr.contains "flood" cat then
    Some (15 * count, "Flood overlay " +:+ minus (15 * count))
  else if PyStr.contains "heritage" cat || PyStr.contains "character" cat then
    Some (8 * count, "Heritage/Character " +:+ minus (8 * count))
  else if PyStr.contains "landslide" cat then
    Some (15, "Landslide hazard (-15)"%string)
  else if PyStr.contains "steep" cat || PyStr.contains "slope" cat then
    Some (10, "Steep land (-10)"%string)
  else if PyStr.contains "biodiversity" cat || PyStr.contains "waterway" cat
          || PyStr.contains "wetland" cat then
    Some (10 * count, "Biodiversity/Waterway " +:+ minus (10 * count))
  else if PyStr.contains "coastal" cat then
    Some (10 * count, "Coastal protection " +:+ minus (10 * count))
  else if PyStr.contains "acid" cat then
    Some (5, "Acid sulfate soils (-5)"%string)
  else if PyStr.contains "scenic" cat then
    Some (5, "Scenic amenity (-5)"%string)
  else None.

Definition overlay_step (st : Z * list string) (group : Overlay.group)
    : Z * list string :=
  match overlay_deduction group with
  | Some (amount, reason) => deduct st amount reason
  | None => st
  end.

Definition flood_step (flood_info : option FloodInfo) (st : Z * list string)
    : Z * list string :=
  match flood_info with
  | Some fi =>
      if default false (has_flood_data fi)
      then deduct st 15 "Direct flood mapping (-15)"
      else st
  | None => st
  end.

Definition status_truthy (info : option StatusInfo) : bool :=
  match info with
  | Some i => DaHistory.str_truthy (status i)
  | None => false
  end.

Definition constraints_step (constraints : option Constraints)
    (st : Z * list string) : Z * list string :=
  match constraints with
  | Some c =>
      let ease_count := default 0 (easements_count c) in
      let cov_count := default 0 (covenants_count c) in
      let st :=
        if ease_count >? 0
        then deduct st (5 * ease_count)
               ("Easements (" +:+ PyStr.str_of_int ease_count +:+ ") "
                +:+ minus (5 * ease_count))
        else st in
      let st :=
        if cov_count >? 0
        then deduct st (5 * cov_count)
               ("Covenants (" +:+ PyStr.str_of_int cov_count +:+ ") "
                +:+ minus (5 * cov_count))
        else st in
      let st :=
        if status_truthy (koala c) then deduct st 10 "Koala habitat (-10)"
        else st in
      if status_truthy (esa c) then deduct st 10 "ESA area (-10)" else st
  | None => st
  end.

Definition service_available (s : option Service) : bool :=
  match s with
  | Some sv => default false (available sv)
  | None => false
  end.

Definition infrastructure_step (infrastructure : option Infrastructure)
    (st : Z * list string) : Z * list string :=
  match infrastructure with
  | Some i =>
      let st :=
        if negb (service_available (water i))
        then deduct st 8 "No reticulated water (-8)" else st in
      if negb (service_available (sewer i))
      then deduct st 8 "No reticulated sewer (-8)" else st
  | None => st
  end.

(** [buildability.get("lot_compliance", {}).get("compliant", True)]: the
    error dictionary of a lot without area has no ["lot_compliance"]. *)
Definition lot_compliant (b : Buildability.Outcome) : bool :=
  match b with
  | Buildability.NoArea _ _ _ => true
  | Buildability.Computed r =>
      Buildability.Result.compliant (Buildability.Result.lot_compliance r)
  end.

Definition compliance_step (buildability : option Buildability.Outcome)
    (st : Z * list string) : Z * list string :=
  match buildability with
  | Some b =>
      if negb (lot_compliant b) then deduct st 5 "Lot non-compliant (-5)"
      else st
  | None => st
  end.

Definition _calculate_constraints_score (overlays : list Overlay.group)
    (flood_info : option FloodInfo) (constraints : option Constraints)
    (infrastructure : option Infrastructure)
    (buildability : option Buildability.Outcome) : Z * list string :=
  let st := fold_left overlay_step overlays (100, []) in
  let st := flood_step flood_info st in
  let st := constraints_step constraints st in
  let st := infrastructure_step infrastructure st in
  let st := compliance_step buildability st in
  (Z.max 1 (Z.min 100 (fst st)), snd st).

(** *** Precedent analysis *)

Record DaInput : Type := {
  on_parcel : option (list Da.t);
  nearby : option (list Da.t);
}.

Inductive Outlook : Type := positive | neutral | negative.

Record Precedent : Type := {
  approved_count : Z;
  refused_count : Z;
  in_progress_count : Z;
  lapsed_count : Z;
  total_count : Z;
  on_parcel_count : Z;
  nearby_count : Z;
  top_categories : list (string * Z);
  assessment : string;
  outlook : Outlook;
}.

Inductive Decision : Type := Approved | Refused | Lapsed | InProgress.

Definition classify (da : Da.t) : Decision :=
  let decision := PyStr.lower (default EmptyString (Da.decision da)) in
  if PyStr.nonempty decision && PyStr.contains "approved" decision then Approved
  else if PyStr.nonempty decision && PyStr.contains "refused" decision
  then Refused
  else if PyStr.nonempty decision && PyStr.contains "lapsed" decision
  then Lapsed
  else InProgress.

(** The counters of the loop: approved, refused, in progress, lapsed, and
    the dictionary of categories in insertion order. *)
Record Tally : Type := {
  approved : Z;
  refused : Z;
  in_progress : Z;
  lapsed : Z;
  categories : list (string * Z);
}.

(** [categories[category] = categories.get(category, 0) + 1]. *)
Fixpoint bump (categories : list (string * Z)) (category : string)
    : list (string * Z) :=
  match categories with
  | [] => [(category, 1)]
  | (c, n) :: cs =>
      if String.eqb c category then (c, n + 1) :: cs
      else (c, n) :: bump cs category
  end.

Definition tally_step (t : Tally) (da : Da.t) : Tally :=
  let category := default "Other"%string (Da.category da) in
  let cats := bump (categories t) category in
  match classify da with
  | Approved =>
      {| approved := approved t + 1; refused := refused t;
         in_progress := in_progress t; lapsed := lapsed t;
         categories := cats |}
  | Refused =>
      {| approved := approved t; refused := refused t + 1;
         in_progress := in_progress t; lapsed := lapsed t;
         categories := cats |}
  | Lapsed =>
      {| approved := approved t; refused := refused t;
         in_progress := in_progress t; lapsed := lapsed t + 1;
         categories := cats |}
  | InProgress =>
      {| approved := approved t; refused := refused t;
         in_progress := in_progress t + 1; lapsed := lapsed t;
         categories := cats |}
  end.

(** [sorted(items, key=lambda x: -x[1])]: a stable sort, larger counts
    first. *)
Fixpoint insert_by_count (x : string * Z) (l : list (string * Z))
    : list (string * Z) :=
  match l with
  | [] => [x]
  | y :: l' => if snd y >? snd x then y :: insert_by_count x l' else x :: l
  end.

Definition sorted_by_count (l : list (string * Z)) : list (string * Z) :=
  foldr insert_by_count [] l.

Definition assess (approved refused total : Z) : string * Outlook :=
  if total =? 0 then
    ("No precedent data available in area"%string, neutral)
  else if (refused =? 0) && (approved >? 0) then
    ("Strong approval trend — all applications in the area have been approved"%string,
     positive)
  else if approved >? refused * 2 then
    ("Positive approval trend — majority of applications approved"%string,
     positive)
  else if refused >? approved then
    ("Challenging area — more refusals than approvals"%string, negative)
  else
    ("Mixed results — assess carefully against planning scheme"%string,
     neutral).

Definition _analyze_da_precedent (da_history : DaInput) : Precedent :=
  let on_parcel := default [] (on_parcel da_history) in
  let nearby := default [] (nearby da_history) in
  let all_das := on_parcel ++ nearby in
  let t :=
    fold_left tally_step all_das
      {| approved := 0; refused := 0; in_progress := 0; lapsed := 0;
         categories := [] |} in
  let total := approved t + refused t + lapsed t + in_progress t in
  let '(assessment, outlook) := assess (approved t) (refused t) total in
  {| approved_count := approved t;
     refused_count := refused t;
     in_progress_count := in_progress t;
     lapsed_count := lapsed t;
     total_count := total;
     on_parcel_count := Z.of_nat (length on_parcel);
     nearby_count := Z.of_nat (length nearby);
     top_categories := take 5 (sorted_by_count (categories t));
     assessment := assessment;
     outlook := outlook |}.

End AiSummary.

(** ** app/services/scc_planning.py: zone, transport, parcel envelope *)

Module SccLookup.

Local Open Scope float_scope.

(** The features, or the results, of a response: the empty list when the
    exchange raised ([_query_layer], [_identify_service]). *)
Definition answered {F : Type} (r : response F) : list F :=
  match r with
  | Failed _ => []
  | Json items => default [] items
  end.











(** A position of a GeoJSON geometry: longitude, latitude. *)
Definition position : Type := float * float.

(** A GeoJSON geometry, by its type and its coordinates. *)
Inductive geometry : Type :=
| Polygon (rings : list (list position))
| MultiPolygon (polygons : list (list (list position)))
| Point (p : position)
| OtherGeometry.

(** [min] of a non-empty list: the first item no later item is less than. *)
Definition py_min (x : float) (l : list float) : float :=
  fold_left (fun m y => if y <? m then y else m) l x.

(** [max] of a non-empty list: the first item no later item is greater
    than. *)
Definition py_max (x : float) (l : list float) : float :=
  fold_left (fun m y => if m <? y then y else m) l x.

(** The envelope: minimum longitude and latitude, maximum longitude and
    latitude. *)
Record bbox : Type := {
  min_lng : float;
  min_lat : float;
  max_lng : float;
  max_lat : float;
}.

Definition coords_of (g : geometry) : list position :=
  match g with
  | Polygon rings => concat rings
  | MultiPolygon polygons => concat (concat polygons)
  | Point p => [p]
  | OtherGeometry => []
  end.

Definition _compute_parcel_bbox (g : geometry) : option bbox :=
  match coords_of g with
  | [] => None
  | c :: coords =>
      let lngs := map fst coords in
      let lats := map snd coords in
      Some {| min_lng := py_min (fst c) lngs;
              min_lat := py_min (snd c) lats;
              max_lng := py_max (fst c) lngs;
              max_lat := py_max (snd c) lats |}
  end.

End SccLookup.

(** ** app/services/constraints.py *)

Module SiteConstraints.

(** Truth value of a text value: [None] and the empty text are false. *)
Definition text_truthy (s : option string) : bool :=
  match s with Some s' => PyStr.nonempty s' | None => false end.

Section Constraints.
(** The geometry objects of the provider, when not empty, and the features
    of the habitat layers, of which only the number is used. *)
Variables (G K : Type).

(** A feature of the easement layer or of the covenant layer. *)
Record feature : Type := {
  LOTPLAN : text;
  GAZETTEDAREA : text;
  NAME : text;
  PURPOSE1 : text;
  INFAVOUR1 : text;
  STATUS : text;
  geometry : option G;
}.

Record easement : Type := {
  e_lotplan : string;
  e_area : string;
  e_name : string;
  e_purpose : string;
  e_in_favour : string;
  e_status : string;
  e_geometry : option G;
}.

Record covenant : Type := {
  c_lotplan : string;
  c_name : string;
  c_purpose : string;
  c_in_favour : string;
  c_status : string;
}.

Definition process_easement (feat : feature) : py (option easement) :=
  let* lotplan := DaHistory.stripped (LOTPLAN feat) in
  let* area := DaHistory.stripped (GAZETTEDAREA feat) in
  let* name := DaHistory.stripped (NAME feat) in
  let* purpose := DaHistory.stripped (PURPOSE1 feat) in
  let* in_favour := DaHistory.stripped (INFAVOUR1 feat) in
  let* status := DaHistory.stripped (STATUS feat) in
  if negb (PyStr.nonempty name || PyStr.nonempty purpose) then Return None
  else Return (Some {| e_lotplan := lotplan; e_area := area; e_name := name;
                       e_purpose := purpose; e_in_favour := in_favour;
                       e_status := status; e_geometry := geometry feat |}).

Fixpoint _process_easements (easement_features : list feature)
    : py (list easement) :=
  match easement_features with
  | [] => Return []
  | feat :: rest =>
      let* e := process_easement feat in
      let* easements := _process_easements rest in
      Return match e with
             | Some x => x :: easements
             | None => easements
             end
  end.

Definition process_covenant (feat : feature) : py (option covenant) :=
  let* lotplan := DaHistory.stripped (LOTPLAN feat) in
  let* name := DaHistory.stripped (NAME feat) in
  let* purpose := DaHistory.stripped (PURPOSE1 feat) in
  let* in_favour := DaHistory.stripped (INFAVOUR1 feat) in
  let* status := DaHistory.stripped (STATUS feat) in
  if negb (PyStr.nonempty name) && negb (PyStr.nonempty purpose)
  then Return None
  else Return (Some {| c_lotplan := lotplan; c_name := name;
                       c_purpose := purpose; c_in_favour := in_favour;
                       c_status := status |}).

Fixpoint _process_covenants (covenant_features : list feature)
    : py (list covenant) :=
  match covenant_features with
  | [] => Return []
  | feat :: rest =>
      let* c := process_covenant feat in
      let* covenants := _process_covenants rest in
      Return match c with
             | Some x => x :: covenants
             | None => covenants
             end
  end.

Record koala_info : Type := {
  has_priority : bool;
  has_habitat : bool;
  has_core_habitat : bool;
  priority_count : Z;
  habitat_count : Z;
  core_habitat_count : Z;
  k_status : option string;
  k_significance : string;
}.

Definition count (l : list K) : Z := Z.of_nat (length l).

Definition _process_koala_habitat
    (priority_areas habitat_areas core_habitat_areas : list K) : koala_info :=
  let has_priority := count priority_areas >? 0 in
  let has_habitat := count habitat_areas >? 0 in
  let has_core_habitat := count core_habitat_areas >? 0 in
  let '(status, significance) :=
    if has_core_habitat then (Some "Core Koala Habitat", "high")
    else if has_habitat then (Some "Koala Habitat Area", "medium")
    else if has_priority then (Some "Koala Priority Area", "medium")
    else (None, "none") in
  {| has_priority := has_priority;
     has_habitat := has_habitat;
     has_core_habitat := has_core_habitat;
     priority_count := count priority_areas;
     habitat_count := count habitat_areas;
     core_habitat_count := count core_habitat_areas;
     k_status := status;
     k_significance := significance |}%string.

Record esa_info : Type := {
  has_category_a : bool;
  has_category_b : bool;
  category_a_count : Z;
  category_b_count : Z;
  category : option string;
  s_significance : string;
  s_status : option string;
}.

Definition _process_esa_areas (category_a category_b : list K) : esa_info :=
  let has_category_a := count category_a >? 0 in
  let has_category_b := count category_b >? 0 in
  let '(cat, significance, status) :=
    if has_category_a
    then (Some "Category A", "high",
          Some "Environmentally Sensitive Area (Category A)")
    else if has_category_b
    then (Some "Category B", "medium",
          Some "Environmentally Sensitive Area (Category B)")
    else (None, "none", None) in
  {| has_category_a := has_category_a;
     has_category_b := has_category_b;
     category_a_count := count category_a;
     category_b_count := count category_b;
     category := cat;
     s_significance := significance;
     s_status := status |}%string.

(** The value of the ["has_constraints"] entry: [True], or the last
    operand of the [or] chain that was evaluated. *)
Inductive flag : Type :=
| FlagTrue
| FlagValue (v : option string).

Definition flag_truthy (f : flag) : bool :=
  match f with
  | FlagTrue => true
  | FlagValue v => text_truthy v
  end.

Record Result : Type := {
  easements : list easement;
  covenants : list covenant;
  koala : koala_info;
  esa : esa_info;
  easements_count : Z;
  covenants_count : Z;
  has_constraints : flag;
  summary : string;
}.

(** ["s"] unless the number is one. *)
Definition plural (n : Z) : string := if n =? 1 then "" else "s".

(** [get_constraints], on the answers of the easement and covenant layers
    at the parcel and of the habitat and sensitive-area layers around it. *)
Definition get_constraints (easements_r covenants_r : response feature)
    (priority_r habitat_r core_habitat_r category_a_r category_b_r : response K)
    : py Result :=
  let* easements := _process_easements (SccLookup.answered easements_r) in
  let* covenants := _process_covenants (SccLookup.answered covenants_r) in
  let koala_info :=
    _process_koala_habitat (SccLookup.answered priority_r)
      (SccLookup.answered habitat_r) (SccLookup.answered core_habitat_r) in
  let esa_info :=
    _process_esa_areas (SccLookup.answered category_a_r)
      (SccLookup.answered category_b_r) in
  let n_e := Z.of_nat (length easements) in
  let n_c := Z.of_nat (length covenants) in
  let constraint_items :=
    (match easements with
     | [] => []
     | _ => [PyStr.str_of_int n_e +:+ " easement" +:+ plural n_e]
     end)
    ++ (match covenants with
        | [] => []
        | _ => [PyStr.str_of_int n_c +:+ " covenant" +:+ plural n_c]
        end)
    ++ (if text_truthy (k_status koala_info)
        then [default EmptyString (k_status koala_info)] else [])
    ++ (if text_truthy (s_status esa_info)
        then [default EmptyString (s_status esa_info)] else []) in
  let summary :=
    match constraint_items with
    | [] => "✅ No major site constraints identified"
    | _ => "⚠️ " +:+ PyStr.join ", " constraint_items
    end in
  Return
    {| easements := easements;
       covenants := covenants;
       koala := koala_info;
       esa := esa_info;
       easements_count := n_e;
       covenants_count := n_c;
       has_constraints :=
         if n_e >? 0 then FlagTrue
         else if n_c >? 0 then FlagTrue
         else if text_truthy (k_status koala_info)
         then FlagValue (k_status koala_info)
         else FlagValue (s_status esa_info);
       summary := summary |}%string.

(** What the scorer reads of the result. *)
Definition scored (c : Result) : AiSummary.Constraints :=
  {| AiSummary.easements_count := Some (easements_count c);
     AiSummary.covenants_count := Some (covenants_count c);
     AiSummary.koala := Some {| AiSummary.status := k_status (koala c) |};
     AiSummary.esa := Some {| AiSummary.status := s_status (esa c) |} |}.

End Constraints.

Arguments LOTPLAN {G} _.
Arguments GAZETTEDAREA {G} _.
Arguments NAME {G} _.
Arguments PURPOSE1 {G} _.
Arguments INFAVOUR1 {G} _.
Arguments STATUS {G} _.
Arguments geometry {G} _.
Arguments e_name {G} _.
Arguments e_purpose {G} _.
Arguments e_geometry {G} _.
Arguments easements {G} _.
Arguments covenants {G} _.
Arguments koala {G} _.
Arguments esa {G} _.
Arguments easements_count {G} _.
Arguments covenants_count {G} _.
Arguments has_constraints {G} _.
Arguments summary {G} _.
Arguments scored {G} _.
Arguments get_constraints {G K} _ _ _ _ _ _ _.
Arguments _process_easements {G} _.
Arguments _process_covenants {G} _.
Arguments process_easement {G} _.
Arguments process_covenant {G} _.
Arguments _process_koala_habitat {K} _ _ _.
Arguments _process_esa_areas {K} _ _.

End SiteConstraints.

(** ** app/services/flood.py *)

Module Flood.

(** A feature of the flood mapping layer of the council. *)
Record feature : Type := {
  SCENARIO : text;
  MAX_FLOOD_FORMAT : text;
  MAX_FLOOR_FORMAT : text;
  FREEBOARD : text;
  MAX_VEL_FORMAT : text;
  SOURCE : text;
  NOTES : text;
  COMPLEX : text;
  address_format : text;
  lotplan : text;
}.

(** The cleaned dictionary: a key is present only with a text that is not
    empty. *)
Record flood_data : Type := {
  scenario : option string;
  max_flood_level : option string;
  min_floor_level : option string;
  freeboard : option string;
  velocity : option string;
  source : option string;
  notes : option string;
  complex_note : option string;
  address : option string;
  fd_lotplan : option string;
}.

(** [{k: v for k, v in ... if v}] on one value. *)
Definition kept (s : string) : option string :=
  if PyStr.nonempty s then Some s else None.

Definition _process_scc_flood (features : list feature)
    : py (option flood_data) :=
  match features with
  | [] => Return None
  | feat :: _ =>
      let* scenario := DaHistory.stripped (SCENARIO feat) in
      let* max_flood_level := DaHistory.stripped (MAX_FLOOD_FORMAT feat) in
      let* min_floor_level := DaHistory.stripped (MAX_FLOOR_FORMAT feat) in
      let* freeboard := DaHistory.stripped (FREEBOARD feat) in
      let* velocity := DaHistory.stripped (MAX_VEL_FORMAT feat) in
      let* source := DaHistory.stripped (SOURCE feat) in
      let* notes := DaHistory.stripped (NOTES feat) in
      let* complex_note := DaHistory.stripped (COMPLEX feat) in
      let* address := DaHistory.stripped (address_format feat) in
      let* lotplan := DaHistory.stripped (lotplan feat) in
      let flood_data :=
        {| scenario := kept scenario;
           max_flood_level := kept max_flood_level;
           min_floor_level := kept min_floor_level;
           freeboard := kept freeboard;
           velocity := kept velocity;
           source := kept source;
           notes := kept notes;
           complex_note := kept complex_note;
           address := kept address;
           fd_lotplan := kept lotplan |} in
      if PyStr.nonempty scenario || PyStr.nonempty max_flood_level
         || PyStr.nonempty min_floor_level || PyStr.nonempty freeboard
         || PyStr.nonempty velocity || PyStr.nonempty source
         || PyStr.nonempty notes || PyStr.nonempty complex_note
         || PyStr.nonempty address || PyStr.nonempty lotplan
      then Return (Some flood_data)
      else Return None
  end.

(** Truth value of a JSON scalar. *)
Definition scalar_truthy (v : scalar) : bool :=
  match v with
  | SNull => false
  | SBool b => b
  | SInt n => negb (n =? 0)
  | SFloat x => PyNum.truthy x
  | SStr s => PyStr.nonempty s
  end.

(** [a or b]. *)
Definition or_else (a b : scalar) : scalar := if scalar_truthy a then a else b.

(** A feature of a flood study layer: the names under which the code looks
    for the title of the study, and the four details, each under two
    spellings. A missing attribute is null. *)
Record study_feature : Type := {
  STUDY_NAME : text;
  StudyName : text;
  NAME : text;
  name_ : text;
  TITLE : text;
  AUTHORITY : scalar;
  Authority : scalar;
  DATE : scalar;
  Date : scalar;
  STATUS : scalar;
  Status : scalar;
  TYPE : scalar;
  Type_ : scalar;
}.

Record study : Type := {
  name : option string;
  authority : option scalar;
  date : option scalar;
  status : option scalar;
  type : option scalar;
}.

(** The text of a text attribute that counts as true. *)
Definition true_text (t : text) : option string :=
  match t with
  | Text s => if PyStr.nonempty s then Some s else None
  | _ => None
  end.

(** The [or] chain of the names: the first that counts as true. *)
Definition study_name_of (feat : study_feature) : option string :=
  match true_text (STUDY_NAME feat) with
  | Some s => Some s
  | None =>
      match true_text (StudyName feat) with
      | Some s => Some s
      | None =>
          match true_text (NAME feat) with
          | Some s => Some s
          | None =>
              match true_text (name_ feat) with
              | Some s => Some s
              | None => true_text (TITLE feat)
              end
          end
      end
  end.

(** [{k: v.strip() if isinstance(v, str) else v ... if v}] on one value. *)
Definition cleaned (v : scalar) : option scalar :=
  if scalar_truthy v
  then Some match v with SStr s => SStr (PyStr.strip s) | _ => v end
  else None.

Definition make_study (study_name : string) (feat : study_feature) : study :=
  {| name := if PyStr.nonempty study_name
             then Some (PyStr.strip study_name) else None;
     authority :=
       cleaned (or_else (or_else (AUTHORITY feat) (Authority feat))
                  (SStr EmptyString));
     date := cleaned (or_else (or_else (DATE feat) (Date feat))
                        (SStr EmptyString));
     status := cleaned (or_else (or_else (STATUS feat) (Status feat))
                          (SStr EmptyString));
     type := cleaned (or_else (or_else (TYPE feat) (Type_ feat))
                        (SStr EmptyString)) |}.

(** One turn of the loop over the features of all layers. *)
Definition study_step (st : list study * gset string) (feat : study_feature)
    : list study * gset string :=
  let '(studies, seen_studies) := st in
  match study_name_of feat with
  | None => st
  | Some raw =>
      let study_name := PyStr.strip raw in
      if bool_decide (study_name ∈ seen_studies) then st
      else (studies ++ [make_study study_name feat],
            {[study_name]} ∪ seen_studies)
  end.

Definition _process_qld_flood_studies
    (layer_0 layer_1 layer_2 : list study_feature) : list study :=
  take 5 (fst (fold_left study_step (layer_0 ++ layer_1 ++ layer_2) ([], ∅))).

(** For a text that is not empty: [None] without a "/". *)
Definition _parse_lotplan_for_flood (lot_plan : string) : option string :=
  match PyStr.split_once "/" lot_plan with
  | Some (lot, plan) =>
      let plan_num := PyStr.replace "SP" "" (PyStr.replace "RP" "" plan) in
      Some (PyStr.strip lot +:+ PyStr.strip plan_num)
  | None => None
  end.

Record Info : Type := {
  has_flood_data : bool;
  info_flood_data : option flood_data;
  flood_studies : list study;
  has_flood_studies : bool;
  summary : string;
  lotplan_searched : option string;
}.

Section FloodInfo.
(** The answer of the flood mapping layer for a lot and plan reference,
    and the answers of the three study layers around the point. *)
Variable mapping : string -> response feature.
Variables studies_0 studies_1 studies_2 : response study_feature.

Definition get_flood_info (lot_plan : option string) : py Info :=
  let lotplan :=
    match lot_plan with
    | Some lp => if PyStr.nonempty lp then _parse_lotplan_for_flood lp else None
    | None => None
    end in
  let scc_flood_features :=
    match lotplan with
    | Some ref => if PyStr.nonempty ref
                  then SccLookup.answered (mapping ref) else []
    | None => []
    end in
  let* flood_data := _process_scc_flood scc_flood_features in
  let flood_studies :=
    _process_qld_flood_studies (SccLookup.answered studies_0)
      (SccLookup.answered studies_1) (SccLookup.answered studies_2) in
  let n := Z.of_nat (length flood_studies) in
  let has_flood_studies := n >? 0 in
  let summary :=
    match flood_data with
    | Some fd =>
        match max_flood_level fd, min_floor_level fd with
        | Some _, Some floor => "⚠️ Flood affected — Floor level " +:+ floor
        | _, _ => "⚠️ Flood mapping data available — check requirements"
        end
    | None =>
        if has_flood_studies
        then "✅ No direct flood mapping — studies available in area"
        else "✅ No flood mapping or studies identified"
    end in
  let summary :=
    if has_flood_studies
    then if n =? 1 then summary +:+ " (1 flood study in area)"
         else summary +:+ " (" +:+ PyStr.str_of_int n
              +:+ " flood studies in area)"
    else summary in
  Return {| has_flood_data :=
              match flood_data with Some _ => true | None => false end;
            info_flood_data := flood_data;
            flood_studies := flood_studies;
            has_flood_studies := has_flood_studies;
            summary := summary;
            lotplan_searched := lotplan |}%string.
End FloodInfo.

(** What the scorer reads of the result. *)
Definition scored (f : Info) : AiSummary.FloodInfo :=
  {| AiSummary.has_flood_data := Some (has_flood_data f) |}.

End Flood.

(** ** app/services/infrastructure.py *)

Module Infrastructure.

(** A feature of a network layer: the attributes the service reads, each
    null when the feature does not have it, and the geometry when there is
    one that is not empty. *)
Record feature (G : Type) : Type := {
  NominalDiameter : scalar;
  Diameter : scalar;
  Material : scalar;
  Name : scalar;
  GNAME : scalar;
  name_ : scalar;
  PipeDiameter_mm : scalar;
  InletType : scalar;
  geometry : option G;
}.
Arguments NominalDiameter {G} _.
Arguments Diameter {G} _.
Arguments Material {G} _.
Arguments Name {G} _.
Arguments GNAME {G} _.
Arguments name_ {G} _.
Arguments PipeDiameter_mm {G} _.
Arguments InletType {G} _.
Arguments geometry {G} _.

(** An entry of a geometry list: its type, the geometry, and the details
    the kind of entry has. *)
Module Drawn.
Record t (G : Type) : Type := {
  type : string;
  geometry : G;
  diameter : option scalar;
  material : option scalar;
  inlet_type : option scalar;
}.
Arguments type {G} _.
Arguments geometry {G} _.
Arguments diameter {G} _.
Arguments material {G} _.
Arguments inlet_type {G} _.
End Drawn.

Module Water.
Record t (G : Type) : Type := {
  available : bool;
  mains_count : Z;
  nearest_diameter_mm : option Z;
  nearest_material : scalar;
  hydrants_nearby : Z;
  summary : string;
  geometries : list (Drawn.t G);
  hydrant_geometries : list (Drawn.t G);
}.
Arguments available {G} _.
Arguments mains_count {G} _.
Arguments nearest_diameter_mm {G} _.
Arguments nearest_material {G} _.
Arguments hydrants_nearby {G} _.
Arguments summary {G} _.
Arguments geometries {G} _.
Arguments hydrant_geometries {G} _.
End Water.

Module Sewer.
Record t (G : Type) : Type := {
  available : bool;
  mains_count : Z;
  gravity_count : Z;
  pressure_count : Z;
  nearest_diameter_mm : option Z;
  nearest_type : option string;
  summary : string;
  geometries : list (Drawn.t G);
}.
Arguments available {G} _.
Arguments mains_count {G} _.
Arguments gravity_count {G} _.
Arguments pressure_count {G} _.
Arguments nearest_diameter_mm {G} _.
Arguments nearest_type {G} _.
Arguments summary {G} _.
Arguments geometries {G} _.
End Sewer.

Module Stormwater.
Record t (G : Type) : Type := {
  available : bool;
  nearby_waterways : Z;
  drainage_info : scalar;
  pipe_count : Z;
  pit_count : Z;
  culvert_count : Z;
  largest_diameter_mm : option Z;
  summary : string;
  geometries : list (Drawn.t G);
  pit_geometries : list (Drawn.t G);
}.
Arguments available {G} _.
Arguments nearby_waterways {G} _.
Arguments drainage_info {G} _.
Arguments pipe_count {G} _.
Arguments pit_count {G} _.
Arguments culvert_count {G} _.
Arguments largest_diameter_mm {G} _.
Arguments summary {G} _.
Arguments geometries {G} _.
Arguments pit_geometries {G} _.
End Stormwater.

Record t (G : Type) : Type := {
  water : Water.t G;
  sewer : Sewer.t G;
  stormwater : Stormwater.t G;
}.
Arguments water {G} _.
Arguments sewer {G} _.
Arguments stormwater {G} _.

Section Services.
(** The geometry objects of the provider, when not empty. The reading of a
    text as a number by [float(s)] and by [int(s)], [None] for the texts
    that raise [ValueError], and the text [str(x)] of a float are those of
    Python; the functions below do not depend on what they are. *)
Variable G : Type.
Variable float_of_str : string -> option float.
Variable int_of_str : string -> option Z.
Variable str_of_float : float -> string.

Definition is_none {A : Type} (o : option A) : bool :=
  match o with None => true | Some _ => false end.

Definition len {A : Type} (l : list A) : Z := Z.of_nat (length l).

(** [float(v)] under [except (ValueError, TypeError)]: [Return None] when
    the conversion raises one of the two. An integer beyond the float range
    raises [OverflowError], which goes through. *)
Definition float_of (v : scalar) : py (option float) :=
  match v with
  | SNull => Return None
  | SBool b => Return (Some (if b then 1 else 0)%float)
  | SInt n => let* x := PyNum.float_of_int n in Return (Some x)
  | SFloat x => Return (Some x)
  | SStr s => Return (float_of_str s)
  end.

(** [int(v)] under [except (ValueError, TypeError)]: NaN raises
    [ValueError], an infinity raises [OverflowError], which goes through. *)
Definition int_of (v : scalar) : py (option Z) :=
  match v with
  | SNull => Return None
  | SBool b => Return (Some (if b then 1 else 0))
  | SInt n => Return (Some n)
  | SFloat x =>
      match PyNum.int_of_float x with
      | Return n => Return (Some n)
      | Raise ValueError => Return None
      | Raise e => Raise e
      end
  | SStr s => Return (int_of_str s)
  end.

(** [str(v)], as an f-string renders a value. *)
Definition str_of (v : scalar) : string :=
  match v with
  | SNull => "None"
  | SBool true => "True"
  | SBool false => "False"
  | SInt n => PyStr.str_of_int n
  | SFloat x => str_of_float x
  | SStr s => s
  end.

(** [f"{v or ''}"]. *)
Definition str_or_empty (v : scalar) : string :=
  if Flood.scalar_truthy v then str_of v else EmptyString.

(** The diameter of a main: [NominalDiameter or Diameter], converted when
    it is not [None]; [Return None] when there is none or the conversion
    raises a caught exception. *)
Definition main_diameter (feat : feature G) : py (option float) :=
  let diam := Flood.or_else (NominalDiameter feat) (Diameter feat) in
  match diam with
  | SNull => Return None
  | _ => float_of diam
  end.

(** [int(nearest_diameter) if nearest_diameter else None]. *)
Definition diameter_mm (nearest_diameter : option float) : py (option Z) :=
  match nearest_diameter with
  | Some x =>
      if PyNum.truthy x
      then let* n := PyNum.int_of_float x in Return (Some n)
      else Return None
  | None => Return None
  end.

(** [f"{int(nearest_diameter) if nearest_diameter else '?'}"]. *)
Definition diameter_text (nearest_diameter : option float) : py string :=
  let* mm := diameter_mm nearest_diameter in
  Return match mm with
         | Some n => PyStr.str_of_int n
         | None => "?"%string
         end.

(** One round of the loop over the water mains, on the nearest diameter
    and material found so far. *)
Definition water_step (st : option float * scalar) (feat : feature G)
    : py (option float * scalar) :=
  let nearest_diameter := fst st in
  let mat := Material feat in
  let* diam := main_diameter feat in
  match diam with
  | Some diam_val =>
      if is_none nearest_diameter || (0 <? diam_val)%float
      then if is_none nearest_diameter
           then Return (Some diam_val, mat)
           else Return st
      else Return st
  | None => Return st
  end.

Fixpoint water_loop (water_mains : list (feature G))
    (st : option float * scalar) : py (option float * scalar) :=
  match water_mains with
  | [] => Return st
  | feat :: rest => let* st' := water_step st feat in water_loop rest st'
  end.

(** The entries of a geometry list: one for each feature with a geometry. *)
Definition drawn (entry : feature G -> G -> Drawn.t G)
    (features : list (feature G)) : list (Drawn.t G) :=
  omap (fun feat => match geometry feat with
                    | Some geom => Some (entry feat geom)
                    | None => None
                    end) features.

Definition _process_water (water_mains hydrants : list (feature G))
    : py (Water.t G) :=
  let mains_count := len water_mains in
  let hydrants_count := len hydrants in
  let* found := water_loop water_mains (None, SNull) in
  let nearest_diameter := fst found in
  let nearest_material := snd found in
  let available := mains_count >? 0 in
  let* summary :=
    if available
    then let* mm := diameter_text nearest_diameter in
         Return (PyStr.strip
                   ("✅ Reticulated water available — " +:+ mm +:+ "mm "
                    +:+ str_or_empty nearest_material
                    +:+ " main within 100m"))
    else Return "❌ No reticulated water — tank/bore required"%string in
  let water_geometries :=
    drawn (fun feat geom =>
             {| Drawn.type := "water_main"; Drawn.geometry := geom;
                Drawn.diameter := Some (NominalDiameter feat);
                Drawn.material := Some (Material feat);
                Drawn.inlet_type := None |}) water_mains in
  let hydrant_geometries :=
    drawn (fun feat geom =>
             {| Drawn.type := "hydrant"; Drawn.geometry := geom;
                Drawn.diameter := None; Drawn.material := None;
                Drawn.inlet_type := None |}) hydrants in
  let* mm := diameter_mm nearest_diameter in
  Return {| Water.available := available;
            Water.mains_count := mains_count;
            Water.nearest_diameter_mm := mm;
            Water.nearest_material := nearest_material;
            Water.hydrants_nearby := hydrants_count;
            Water.summary := summary;
            Water.geometries := water_geometries;
            Water.hydrant_geometries := hydrant_geometries |}.

(** One round of a loop over sewer mains of one type. *)
Definition sewer_step (type : string) (st : option float * option string)
    (feat : feature G) : py (option float * option string) :=
  let nearest_diameter := fst st in
  let* diam := main_diameter feat in
  match diam with
  | Some diam_val =>
      if is_none nearest_diameter
      then Return (Some diam_val, Some type)
      else Return st
  | None => Return st
  end.

Fixpoint sewer_loop (type : string) (mains : list (feature G))
    (st : option float * option string) : py (option float * option string) :=
  match mains with
  | [] => Return st
  | feat :: rest =>
      let* st' := sewer_step type st feat in sewer_loop type rest st'
  end.

Definition _process_sewer (sewer_gravity sewer_pressure : list (feature G))
    : py (Sewer.t G) :=
  let gravity_count := len sewer_gravity in
  let pressure_count := len sewer_pressure in
  let total_count := gravity_count + pressure_count in
  let* st := sewer_loop "gravity" sewer_gravity (None, None) in
  let* found := sewer_loop "pressure" sewer_pressure st in
  let nearest_diameter := fst found in
  let nearest_type := snd found in
  let available := total_count >? 0 in
  let* summary :=
    if available
    then let* mm := diameter_text nearest_diameter in
         Return ("✅ Reticulated sewer available — " +:+ mm +:+ "mm "
                 +:+ default EmptyString nearest_type
                 +:+ " main within 100m")
    else Return "❌ No reticulated sewer — on-site system required"%string in
  let sewer_geometries :=
    drawn (fun feat geom =>
             {| Drawn.type := "sewer_gravity"; Drawn.geometry := geom;
                Drawn.diameter := Some (NominalDiameter feat);
                Drawn.material := None; Drawn.inlet_type := None |})
      sewer_gravity
    ++ drawn (fun feat geom =>
                {| Drawn.type := "sewer_pressure"; Drawn.geometry := geom;
                   Drawn.diameter := Some (NominalDiameter feat);
                   Drawn.material := None; Drawn.inlet_type := None |})
         sewer_pressure in
  let* mm := diameter_mm nearest_diameter in
  Return {| Sewer.available := available;
            Sewer.mains_count := total_count;
            Sewer.gravity_count := gravity_count;
            Sewer.pressure_count := pressure_count;
            Sewer.nearest_diameter_mm := mm;
            Sewer.nearest_type := nearest_type;
            Sewer.summary := summary;
            Sewer.geometries := sewer_geometries |}.

(** The name of the first waterway that has one. *)
Fixpoint drainage (waterways : list (feature G)) : scalar :=
  match waterways with
  | [] => SNull
  | feat :: rest =>
      let name :=
        Flood.or_else (Flood.or_else (Name feat) (GNAME feat)) (name_ feat) in
      if Flood.scalar_truthy name then name else drainage rest
  end.

(** One round of the loop over pipes and culverts, on the largest diameter
    found so far. *)
Definition largest_step (largest_diameter : option Z) (feat : feature G)
    : py (option Z) :=
  match PipeDiameter_mm feat with
  | SNull => Return largest_diameter
  | diam =>
      let* converted := int_of diam in
      Return match converted with
             | Some diam_val =>
                 if (diam_val >? 0)
                    && match largest_diameter with
                       | None => true
                       | Some largest => diam_val >? largest
                       end
                 then Some diam_val
                 else largest_diameter
             | None => largest_diameter
             end
  end.

Fixpoint largest_loop (features : list (feature G))
    (largest_diameter : option Z) : py (option Z) :=
  match features with
  | [] => Return largest_diameter
  | feat :: rest =>
      let* largest := largest_step largest_diameter feat in
      largest_loop rest largest
  end.

Definition _process_stormwater
    (waterways sw_pipes sw_pits sw_culverts : list (feature G))
    : py (Stormwater.t G) :=
  let waterway_count := len waterways in
  let pipe_count := len sw_pipes in
  let pit_count := len sw_pits in
  let culvert_count := len sw_culverts in
  let drainage_info := drainage waterways in
  let has_network := pipe_count + culvert_count >? 0 in
  let* largest_diameter := largest_loop (sw_pipes ++ sw_culverts) None in
  let parts_str :=
    if has_network
    then
      let parts :=
        ["✅ Council stormwater network — " +:+ PyStr.str_of_int pipe_count
         +:+ " pipe" +:+ SiteConstraints.plural pipe_count]
        ++ (if negb (culvert_count =? 0)
            then [PyStr.str_of_int culvert_count +:+ " culvert"
                  +:+ SiteConstraints.plural culvert_count]
            else []) in
      PyStr.join ", " parts +:+ " within 200m"
    else "No council stormwater pipes within 200m" in
  let parts_str :=
    if waterway_count >? 0
    then
      let ww := PyStr.str_of_int waterway_count +:+ " waterway"
                +:+ SiteConstraints.plural waterway_count
                +:+ " within 200m" in
      let ww := if Flood.scalar_truthy drainage_info
                then "Natural drainage via " +:+ str_of drainage_info
                     +:+ " — " +:+ ww
                else ww in
      parts_str +:+ " | " +:+ ww
    else parts_str in
  let pipe_geometries :=
    drawn (fun feat geom =>
             {| Drawn.type := "stormwater_pipe"; Drawn.geometry := geom;
                Drawn.diameter := Some (PipeDiameter_mm feat);
                Drawn.material := Some (Material feat);
                Drawn.inlet_type := None |}) sw_pipes
    ++ drawn (fun feat geom =>
                {| Drawn.type := "stormwater_culvert"; Drawn.geometry := geom;
                   Drawn.diameter := Some (PipeDiameter_mm feat);
                   Drawn.material := Some (Material feat);
                   Drawn.inlet_type := None |}) sw_culverts in
  let pit_geometries :=
    drawn (fun feat geom =>
             {| Drawn.type := "stormwater_pit"; Drawn.geometry := geom;
                Drawn.diameter := None; Drawn.material := None;
                Drawn.inlet_type := Some (InletType feat) |}) sw_pits in
  Return {| Stormwater.available := has_network;
            Stormwater.nearby_waterways := waterway_count;
            Stormwater.drainage_info := drainage_info;
            Stormwater.pipe_count := pipe_count;
            Stormwater.pit_count := pit_count;
            Stormwater.culvert_count := culvert_count;
            Stormwater.largest_diameter_mm := largest_diameter;
            Stormwater.summary := parts_str;
            Stormwater.geometries := pipe_geometries;
            Stormwater.pit_geometries := pit_geometries |}%string.

(** [get_infrastructure], on the answers of the eight layers; a query that
    fails counts as one that found nothing. *)
Definition get_infrastructure
    (water_mains hydrants sewer_gravity sewer_pressure waterways sw_pipes
       sw_pits sw_culverts : response (feature G)) : py (t G) :=
  let* water_result :=
    _process_water (SccLookup.answered water_mains)
      (SccLookup.answered hydrants) in
  let* sewer_result :=
    _process_sewer (SccLookup.answered sewer_gravity)
      (SccLookup.answered sewer_pressure) in
  let* stormwater_result :=
    _process_stormwater (SccLookup.answered waterways)
      (SccLookup.answered sw_pipes) (SccLookup.answered sw_pits)
      (SccLookup.answered sw_culverts) in
  Return {| water := water_result; sewer := sewer_result;
            stormwater := stormwater_result |}.

End Services.

Arguments is_none {A} _.
Arguments len {A} _.
Arguments main_diameter {G} _ _.
Arguments water_step {G} _ _ _.
Arguments water_loop {G} _ _ _.
Arguments drawn {G} _ _.
Arguments _process_water {G} _ _ _ _.
Arguments sewer_step {G} _ _ _ _.
Arguments sewer_loop {G} _ _ _ _.
Arguments _process_sewer {G} _ _ _.
Arguments drainage {G} _.
Arguments largest_step {G} _ _ _.
Arguments largest_loop {G} _ _ _.
Arguments _process_stormwater {G} _ _ _ _ _ _.
Arguments get_infrastructure {G} _ _ _ _ _ _ _ _ _ _ _.

(** What the scorer reads of the result. *)
Definition scored {G : Type} (i : t G) : AiSummary.Infrastructure :=
  {| AiSummary.water :=
       Some {| AiSummary.available := Some (Water.available (water i)) |};
     AiSummary.sewer :=
       Some {| AiSummary.available := Some (Sewer.available (sewer i)) |} |}.

End Infrastructure.

(** ** app/services/ai_summary.py: strengths and risks *)

Module Findings.

Section Findings.
(** The geometry objects of the constraint and network services. The text
    of a float in a lot-compliance message of [calculate_buildability],
    [f"{x:,.0f}"] for an area and [f"{x}"] for a frontage, is that of
    Python; the functions below do not depend on what it is. *)
Variables (G H : Type).
Variable format_whole : float -> string.
Variable str_of_float : float -> string.

(** The text of a lot-compliance message. *)
Definition issue_text (issue : Buildability.Issue) : string :=
  match issue with
  | Buildability.LotTooSmall area min_lot_size =>
      "Lot is " +:+ format_whole area +:+ "m² but zone requires min "
      +:+ format_whole min_lot_size +:+ "m²"
  | Buildability.CheckFrontage min_frontage =>
      "Check frontage ≥ " +:+ str_of_float min_frontage
      +:+ "m (unable to verify without survey)"
  end.

(** [sum(len(g.get("layers", [])) for g in overlays if ...)]: the layers of
    the groups other than the building height group. *)
Definition overlay_count (overlays : list Overlay.group) : Z :=
  fold_left Z.add
    (map (fun g => Z.of_nat (length (Overlay.layers g)))
       (List.filter
          (fun g =>
             negb (String.eqb
                     (PyStr.lower (default EmptyString (Overlay.category g)))
                     "height of buildings and structures"))
          overlays))
    0.

Definition _identify_strengths (zone : option Zone.t)
    (overlays : list Overlay.group) (flood_info : option Flood.Info)
    (constraints : option (SiteConstraints.Result G))
    (infrastructure : option (Infrastructure.t H))
    (buildability : option Buildability.Outcome)
    (precedent : AiSummary.Precedent) : list string :=
  let water_ok :=
    match infrastructure with
    | Some i => Infrastructure.Water.available (Infrastructure.water i)
    | None => false
    end in
  let sewer_ok :=
    match infrastructure with
    | Some i => Infrastructure.Sewer.available (Infrastructure.sewer i)
    | None => false
    end in
  let sw_ok :=
    match infrastructure with
    | Some i =>
        Infrastructure.Stormwater.available (Infrastructure.stormwater i)
    | None => false
    end in
  let strengths := [] in
  let strengths :=
    strengths
    ++ (if water_ok && sewer_ok
        then ["Full reticulated water and sewer services available"]
        else if water_ok then ["Reticulated water supply available"]
        else if sewer_ok then ["Reticulated sewer available"]
        else []) in
  let strengths :=
    strengths
    ++ (if sw_ok then ["Council stormwater network available nearby"]
        else []) in
  let strengths :=
    strengths
    ++ match flood_info with
       | Some f =>
           if negb (Flood.has_flood_data f)
           then ["No direct flood mapping on parcel"] else []
       | None => []
       end in
  let strengths :=
    strengths
    ++ (if overlay_count overlays =? 0
        then ["No significant planning overlays"] else []) in
  let strengths :=
    strengths
    ++ match constraints with
       | Some c =>
           if negb (SiteConstraints.flag_truthy
                      (SiteConstraints.has_constraints c))
           then ["No easements, covenants, or environmental constraints"]
           else []
       | None => []
       end in
  let strengths :=
    strengths
    ++ match buildability with
       | Some (Buildability.Computed r) =>
           let sub := Buildability.Result.subdivision r in
           if Buildability.Result.can_subdivide sub
           then
             let max_lots := Buildability.Result.max_new_lots sub in
             if max_lots >? 1
             then ["Subdivision potential — up to "
                   +:+ PyStr.str_of_int max_lots +:+ " lots"]
             else []
           else []
       | _ => []
       end in
  let strengths :=
    strengths
    ++ match buildability with
       | Some b =>
           let max_dw :=
             match b with
             | Buildability.Computed r =>
                 Buildability.Result.max_dwellings
                   (Buildability.Result.buildable_envelope r)
             | Buildability.NoArea _ _ _ => 0
             end in
           if negb (max_dw =? 0) && (max_dw >? 1)
           then ["Multi-dwelling potential — up to "
                 +:+ PyStr.str_of_int max_dw +:+ " units"]
           else []
       | None => []
       end in
  let strengths :=
    strengths
    ++ match AiSummary.outlook precedent with
       | AiSummary.positive =>
           ["Strong approval precedent — "
            +:+ PyStr.str_of_int (AiSummary.approved_count precedent)
            +:+ " approvals in area"]
       | _ => []
       end in
  let strengths :=
    strengths
    ++ match buildability with
       | Some b =>
           if AiSummary.lot_compliant b
           then ["Lot size compliant with zone requirements"] else []
       | None => []
       end in
  strengths.

(** The risk of one overlay group: the branch of the category chain it
    falls in, if any. *)
Definition overlay_risk (group : Overlay.group) : option string :=
  let cat := PyStr.lower (default EmptyString (Overlay.category group)) in
  if PyStr.contains "bushfire" cat then
    Some "Bushfire hazard area — BAL assessment required"%string
  else if PyStr.contains "flood" cat then
    Some "Flood overlay present — flood assessment may be required"%string
  else if PyStr.contains "heritage" cat || PyStr.contains "character" cat then
    Some "Heritage/character area — design controls apply"%string
  else if PyStr.contains "landslide" cat then
    Some "Landslide hazard — geotechnical assessment required"%string
  else if PyStr.contains "steep" cat || PyStr.contains "slope" cat then
    Some "Steep land — additional earthworks and retaining likely"%string
  else if PyStr.contains "biodiversity" cat || PyStr.contains "waterway" cat
          || PyStr.contains "wetland" cat then
    Some "Biodiversity/waterway overlay — ecological assessment likely required"%string
  else if PyStr.contains "coastal" cat then
    Some "Coastal protection area — additional requirements apply"%string
  else if PyStr.contains "acid" cat then
    Some "Acid sulfate soils — soil investigation may be required"%string
  else None.

(** The risk of the flood mapping; the flood data of a result that says it
    has some is read without a check. *)
Definition flood_risks (flood_info : option Flood.Info) : py (list string) :=
  match flood_info with
  | Some f =>
      if Flood.has_flood_data f
      then
        match Flood.info_flood_data f with
        | Some fd =>
            Return
              [if SiteConstraints.text_truthy (Flood.min_floor_level fd)
               then "Flood affected — minimum floor level "
                    +:+ default EmptyString (Flood.min_floor_level fd)
               else "Flood mapping data on parcel — check requirements"]
        | None => Raise AttributeError
        end
      else Return []
  | None => Return []
  end.

Definition constraint_risks (constraints : option (SiteConstraints.Result G))
    : list string :=
  match constraints with
  | Some c =>
      let koala := SiteConstraints.koala c in
      let esa := SiteConstraints.esa c in
      (if SiteConstraints.easements_count c >? 0
       then [PyStr.str_of_int (SiteConstraints.easements_count c)
             +:+ " easement(s) on parcel — may restrict building location"]
       else [])
      ++ (if SiteConstraints.covenants_count c >? 0
          then [PyStr.str_of_int (SiteConstraints.covenants_count c)
                +:+ " covenant(s) on parcel — may restrict development"]
          else [])
      ++ (if SiteConstraints.text_truthy (SiteConstraints.k_status koala)
          then ["Koala habitat: "
                +:+ default EmptyString (SiteConstraints.k_status koala)]
          else [])
      ++ (if SiteConstraints.text_truthy (SiteConstraints.s_status esa)
          then ["Environmental: "
                +:+ default EmptyString (SiteConstraints.s_status esa)]
          else [])
  | None => []
  end.

Definition infrastructure_risks (infrastructure : option (Infrastructure.t H))
    : list string :=
  match infrastructure with
  | Some i =>
      (if negb (Infrastructure.Water.available (Infrastructure.water i))
       then ["No reticulated water — tank/bore required"] else [])
      ++ (if negb (Infrastructure.Sewer.available (Infrastructure.sewer i))
          then ["No reticulated sewer — on-site system required"] else [])
  | None => []
  end.

(** The lot-compliance messages that say the lot is too small. *)
Definition lot_risks (buildability : option Buildability.Outcome)
    : list string :=
  match buildability with
  | Some (Buildability.Computed r) =>
      List.filter
        (fun issue => PyStr.contains "lot is" (PyStr.lower issue))
        (map issue_text
           (Buildability.Result.issues (Buildability.Result.lot_compliance r)))
  | _ => []
  end.

Definition precedent_risks (precedent : AiSummary.Precedent) : list string :=
  match AiSummary.outlook precedent with
  | AiSummary.negative =>
      ["Challenging approval area — "
       +:+ PyStr.str_of_int (AiSummary.refused_count precedent)
       +:+ " refusals vs "
       +:+ PyStr.str_of_int (AiSummary.approved_count precedent)
       +:+ " approvals"]
  | _ => []
  end.

Definition _identify_risks (zone : option Zone.t)
    (overlays : list Overlay.group) (flood_info : option Flood.Info)
    (constraints : option (SiteConstraints.Result G))
    (infrastructure : option (Infrastructure.t H))
    (buildability : option Buildability.Outcome)
    (precedent : AiSummary.Precedent) : py (list string) :=
  let risks := [] in
  let risks := risks ++ omap overlay_risk overlays in
  let* flood := flood_risks flood_info in
  let risks := risks ++ flood in
  let risks := risks ++ constraint_risks constraints in
  let risks := risks ++ infrastructure_risks infrastructure in
  let risks := risks ++ lot_risks buildability in
  let risks := risks ++ precedent_risks precedent in
  Return risks.

(** The score of the same data, as [generate_ai_summary] asks for it. *)
Definition score (overlays : list Overlay.group)
    (flood_info : option Flood.Info)
    (constraints : option (SiteConstraints.Result G))
    (infrastructure : option (Infrastructure.t H))
    (buildability : option Buildability.Outcome) : Z * list string :=
  AiSummary._calculate_constraints_score overlays
    (option_map Flood.scored flood_info)
    (option_map SiteConstraints.scored constraints)
    (option_map Infrastructure.scored infrastructure)
    buildability.

End Findings.

Arguments _identify_strengths {G H} _ _ _ _ _ _ _.
Arguments constraint_risks {G} _.
Arguments infrastructure_risks {H} _.
Arguments _identify_risks {G H} _ _ _ _ _ _ _ _ _.
Arguments score {G H} _ _ _ _ _.

End Findings.


(** * Vocabulary of the statements *)

(** ** Vocabulary: the constraint score *)

Module ScoreSpec.
Import AiSummary.

(** The input of the scorer. *)
Record Input : Type := {
  overlays : list Overlay.group;
  flood_info : option FloodInfo;
  constraints : option Constraints;
  infrastructure : option Infrastructure;
  buildability : option Buildability.Outcome;
}.

Definition score (i : Input) : Z :=
  fst (_calculate_constraints_score (overlays i) (flood_info i)
         (constraints i) (infrastructure i) (buildability i)).

(** The amount each stage takes off the score. *)
Definition overlay_amount (g : Overlay.group) : Z :=
  match overlay_deduction g with
  | Some (amount, _) => amount
  | None => 0
  end.

Definition overlay_total (l : list Overlay.group) : Z :=
  foldr (fun g acc => overlay_amount g + acc) 0 l.

Definition flood_flag (f : option FloodInfo) : bool :=
  match f with
  | Some fi => default false (has_flood_data fi)
  | None => false
  end.

Definition easements (c : option Constraints) : Z :=
  match c with Some c' => default 0 (easements_count c') | None => 0 end.

Definition covenants (c : option Constraints) : Z :=
  match c with Some c' => default 0 (covenants_count c') | None => 0 end.

Definition koala_flag (c : option Constraints) : bool :=
  match c with Some c' => status_truthy (koala c') | None => false end.

Definition esa_flag (c : option Constraints) : bool :=
  match c with Some c' => status_truthy (esa c') | None => false end.

Definition water_missing (i : option Infrastructure) : bool :=
  match i with Some i' => negb (service_available (water i')) | None => false end.

Definition sewer_missing (i : option Infrastructure) : bool :=
  match i with Some i' => negb (service_available (sewer i')) | None => false end.

Definition non_compliant (b : option Buildability.Outcome) : bool :=
  match b with Some b' => negb (lot_compliant b') | None => false end.

Definition flag (b : bool) (amount : Z) : Z := if b then amount else 0.

Definition per_item (n : Z) : Z := if n >? 0 then 5 * n else 0.

Definition total_deduction (i : Input) : Z :=
  overlay_total (overlays i)
  + flag (flood_flag (flood_info i)) 15
  + per_item (easements (constraints i))
  + per_item (covenants (constraints i))
  + flag (koala_flag (constraints i)) 10
  + flag (esa_flag (constraints i)) 10
  + flag (water_missing (infrastructure i)) 8
  + flag (sewer_missing (infrastructure i)) 8
  + flag (non_compliant (buildability i)) 5.

(** Nothing in the input triggers a deduction. *)
Definition clean (i : Input) : Prop :=
  overlays i = []
  /\ flood_flag (flood_info i) = false
  /\ easements (constraints i) <= 0
  /\ covenants (constraints i) <= 0
  /\ koala_flag (constraints i) = false
  /\ esa_flag (constraints i) = false
  /\ water_missing (infrastructure i) = false
  /\ sewer_missing (infrastructure i) = false
  /\ non_compliant (buildability i) = false.

Definition add_layer_to (g : Overlay.group) (l : Overlay.layer) : Overlay.group :=
  {| Overlay.category := Overlay.category g;
     Overlay.layers := Overlay.layers g ++ [l] |}.

(** [extends i j]: [j] is [i] with one more deduction-triggering element. *)
Inductive extends (i : Input) : Input -> Prop :=
| one_more_layer (before after : list Overlay.group) (g : Overlay.group)
    (l : Overlay.layer) :
    overlays i = before ++ g :: after ->
    extends i {| overlays := before ++ add_layer_to g l :: after;
                 flood_info := flood_info i; constraints := constraints i;
                 infrastructure := infrastructure i;
                 buildability := buildability i |}
| one_more_group (before after : list Overlay.group) (g : Overlay.group) :
    overlays i = before ++ after ->
    extends i {| overlays := before ++ g :: after;
                 flood_info := flood_info i; constraints := constraints i;
                 infrastructure := infrastructure i;
                 buildability := buildability i |}
| flood_becomes_present (f : option FloodInfo) :
    flood_flag f = true ->
    extends i {| overlays := overlays i; flood_info := f;
                 constraints := constraints i;
                 infrastructure := infrastructure i;
                 buildability := buildability i |}
| one_more_easement (c : option Constraints) :
    easements c = easements (constraints i) + 1 ->
    covenants c = covenants (constraints i) ->
    koala_flag c = koala_flag (constraints i) ->
    esa_flag c = esa_flag (constraints i) ->
    extends i {| overlays := overlays i; flood_info := flood_info i;
                 constraints := c; infrastructure := infrastructure i;
                 buildability := buildability i |}
| one_more_covenant (c : option Constraints) :
    easements c = easements (constraints i) ->
    covenants c = covenants (constraints i) + 1 ->
    koala_flag c = koala_flag (constraints i) ->
    esa_flag c = esa_flag (constraints i) ->
    extends i {| overlays := overlays i; flood_info := flood_info i;
                 constraints := c; infrastructure := infrastructure i;
                 buildability := buildability i |}
| habitat_becomes_present (c : option Constraints) :
    easements c = easements (constraints i) ->
    covenants c = covenants (constraints i) ->
    implb (koala_flag (constraints i)) (koala_flag c) = true ->
    implb (esa_flag (constraints i)) (esa_flag c) = true ->
    extends i {| overlays := overlays i; flood_info := flood_info i;
                 constraints := c; infrastructure := infrastructure i;
                 buildability := buildability i |}
| water_becomes_missing (n : option Infrastructure) :
    water_missing n = true ->
    implb (sewer_missing (infrastructure i)) (sewer_missing n) = true ->
    extends i {| overlays := overlays i; flood_info := flood_info i;
                 constraints := constraints i; infrastructure := n;
                 buildability := buildability i |}
| sewer_becomes_missing (n : option Infrastructure) :
    sewer_missing n = true ->
    implb (water_missing (infrastructure i)) (water_missing n) = true ->
    extends i {| overlays := overlays i; flood_info := flood_info i;
                 constraints := constraints i; infrastructure := n;
                 buildability := buildability i |}
| lot_becomes_non_compliant (b : option Buildability.Outcome) :
    non_compliant b = true ->
    extends i {| overlays := overlays i; flood_info := flood_info i;
                 constraints := constraints i;
                 infrastructure := infrastructure i; buildability := b |}.

End ScoreSpec.

(** ** Vocabulary: precedent counts *)

Module PrecedentSpec.
Import AiSummary.

#[global] Instance decision_eq_dec : EqDecision Decision.
Proof. solve_decision. Defined.

(** The applications the analyzer looks at. *)
Definition all_das (h : DaInput) : list Da.t :=
  default [] (on_parcel h) ++ default [] (nearby h).

(** How many applications of a list fall in a class. *)
Definition count (d : Decision) (l : list Da.t) : Z :=
  Z.of_nat (length (List.filter (fun da => bool_decide (classify da = d)) l)).

End PrecedentSpec.

(** ** Vocabulary: texts *)

Module StrSpec.

(** Every character of the string satisfies [P]. *)
Fixpoint all (P : ascii -> bool) (s : string) : bool :=
  match s with
  | EmptyString => true
  | String c s' => P c && all P s'
  end.

Definition is_not (x : ascii) (c : ascii) : bool := negb (Ascii.eqb c x).

Definition not_space (c : ascii) : bool := negb (PyStr.isspace c).

(** The characters of the decimal rendering of an integer. *)
Definition int_char (c : ascii) : bool := PyStr.isdecimal c || Ascii.eqb c "-".

(** The value of a sequence of decimal digits read after [acc]. *)
Fixpoint uint_value (d : Decimal.uint) (acc : Z) : Z :=
  match d with
  | Decimal.Nil => acc
  | Decimal.D0 d' => uint_value d' (10 * acc + 0)
  | Decimal.D1 d' => uint_value d' (10 * acc + 1)
  | Decimal.D2 d' => uint_value d' (10 * acc + 2)
  | Decimal.D3 d' => uint_value d' (10 * acc + 3)
  | Decimal.D4 d' => uint_value d' (10 * acc + 4)
  | Decimal.D5 d' => uint_value d' (10 * acc + 5)
  | Decimal.D6 d' => uint_value d' (10 * acc + 6)
  | Decimal.D7 d' => uint_value d' (10 * acc + 7)
  | Decimal.D8 d' => uint_value d' (10 * acc + 8)
  | Decimal.D9 d' => uint_value d' (10 * acc + 9)
  end.

(** The rule text "N per M sqm" for two integers. *)
Definition density_text (n m : Z) : string :=
  PyStr.str_of_int n +:+ " per " +:+ PyStr.str_of_int m +:+ "sqm".

(** A rule the density parser cannot read: it mentions no lot, is none of
    the two texts for no dwelling, and has no "per", or numbers that do not
    parse, or a unit of area that is not positive. *)
Definition unparseable (rule : string) : Prop :=
  PyStr.contains "lot" (PyStr.lower rule) = false
  /\ rule <> "Caretaker only"%string /\ rule <> "None"%string
  /\ (PyStr.contains "per" rule = false
      \/ (exists e, Buildability.density_numbers rule = Raise e)
      \/ (exists units per_sqm,
            Buildability.density_numbers rule = Return (units, per_sqm)
            /\ per_sqm <= 0)).

End StrSpec.

(** ** Vocabulary: stable keys *)

Module DedupSpec.

(** The stable key of a layer entry: its layer id and its label. *)
Definition layer_key (l : Overlay.layer) : Z * option string :=
  (Overlay.layer_id l, Overlay.label l).

(** The keys of the layers of the grouped output, group after group. *)
Definition output_keys (groups : list Overlay.group) : list (Z * option string) :=
  flat_map (fun g => map layer_key (Overlay.layers g)) groups.

Definition group_keys (groups : list (string * list Overlay.layer))
    : list (Z * option string) :=
  flat_map (fun g => map layer_key (snd g)) groups.

(** The text the loop remembers for a key. *)
Definition key_text (k : Z * option string) : string :=
  PyStr.str_of_int (fst k) +:+ "|" +:+ default EmptyString (snd k).

End DedupSpec.

(** ** Vocabulary: floats *)

Module FloatSpec.

Local Open Scope float_scope.

(** A positive float that is not the infinity. *)
Definition positive_finite (a : float) : Prop :=
  (0 <? a) = true /\ (a <? infinity) = true.

(** A finite divisor of magnitude at least 2. *)
Definition divisor_ok (d : float) : bool :=
  match Prim2SF d with
  | S754_finite _ m e => (2 <=? Zpos (digits2_pos m) + e)%Z
  | _ => false
  end.

(** The result of a float operation is a number. *)
Definition is_number (x : spec_float) : Prop :=
  match x with
  | S754_zero _ | S754_finite _ _ _ => True
  | _ => False
  end.

End FloatSpec.

(** ** Vocabulary: rules that cannot make the calculator raise *)

Module RulesSpec.
Import Buildability FloatSpec.
Local Open Scope float_scope.

(** The number of storeys converts to a float. *)
Definition storeys_ok (r : Rules) : bool :=
  match PyNum.float_of_int (storeys_of (max_storeys r)) with
  | Return _ => true
  | Raise _ => false
  end.

(** The unit of area of a density rule, when the rule has one, converts to
    a float of magnitude 2 or more. *)
Definition density_ok (density : option string) : bool :=
  match density with
  | None => true
  | Some rule =>
      if PyStr.contains "per" rule
         && negb (PyStr.contains "lot" (PyStr.lower rule))
      then match density_numbers rule with
           | Return (_, per_sqm) =>
               if (per_sqm >? 0)%Z
               then match PyNum.float_of_int per_sqm with
                    | Return d => divisor_ok d
                    | Raise _ => false
                    end
               else true
           | Raise _ => true
           end
      else true
  end.

(** The minimum lot size, when positive, has magnitude 2 or more. *)
Definition lot_ok (min_lot_size : float) : bool :=
  negb (PyNum.truthy min_lot_size && (0 <? min_lot_size))
  || divisor_ok min_lot_size.

Definition rules_safe (r : Rules) : bool :=
  storeys_ok r && density_ok (max_dwelling_density r)
  && lot_ok (f (min_lot_size_sqm r) 0).

End RulesSpec.

(** ** Vocabulary: overlay groups *)

Module OverlaySpec.

(** The category of the group, as the calculator reads it. *)
Definition category_text (g : Overlay.group) : string :=
  default EmptyString (Overlay.category g).

(** The group of the building-height overlay, in any letter case. *)
Definition height_group (g : Overlay.group) : bool :=
  String.eqb (PyStr.lower (category_text g))
    "height of buildings and structures".

(** All layers of the groups that are not the height group. *)
Definition noted_layers (groups : list Overlay.group) : list Overlay.layer :=
  flat_map Overlay.layers (List.filter (fun g => negb (height_group g)) groups).

End OverlaySpec.

(** ** Vocabulary: processed applications *)

Module DaSpec.

(** A text without white space at either end. *)
Definition trimmed (s : string) : Prop := PyStr.strip s = s.

(** The application has a case identifier or a description. *)
Definition identified (da : Da.t) : Prop :=
  ident_truthy (Da.ram_id da) = true \/ Da.description da <> EmptyString.

(** The texts of the application are present and trimmed. *)
Definition clean (da : Da.t) : Prop :=
  trimmed (Da.description da)
  /\ (exists s, Da.category da = Some s /\ trimmed s)
  /\ (exists s, Da.decision da = Some s /\ trimmed s)
  /\ (exists s, Da.progress da = Some s /\ trimmed s)
  /\ trimmed (Da.assessment_level da)
  /\ trimmed (Da.land_parcel_relationship da).

(** An application of the list has the same case identifier, and that
    identifier counts as one. *)
Definition same_case_in (das : list Da.t) (d : Da.t) : Prop :=
  exists on, In on das /\ ident_truthy (Da.ram_id on) = true
             /\ Da.ram_id on = Da.ram_id d.

(** The first character is a decimal digit. *)
Definition head_decimal (s : string) : bool :=
  match s with
  | String c _ => PyStr.isdecimal c
  | EmptyString => false
  end.

End DaSpec.

(** ** Vocabulary: categories of applications *)

Module CategorySpec.

(** [da.get("category", "Other")]. *)
Definition category_of (da : Da.t) : string :=
  default "Other"%string (Da.category da).

(** How many applications of the list have the category. *)
Definition category_count (c : string) (das : list Da.t) : Z :=
  Z.of_nat (length (List.filter (fun d => String.eqb (category_of d) c) das)).

(** Counts in non-increasing order. *)
Definition descending (l : list (string * Z)) : Prop :=
  StronglySorted (fun x y => snd y <= snd x) l.

(** The dictionary of counts of a list of applications: one entry for each
    category that occurs, with its number of applications. *)
Definition tallies (cs : list (string * Z)) (das : list Da.t) : Prop :=
  NoDup (map fst cs)
  /\ forall c n, In (c, n) cs <-> n = category_count c das /\ 0 < n.

End CategorySpec.

(** ** Vocabulary: overlay entries *)

Module EntrySpec.
Import SccPlanning.

(** The layer is listed under the category, with the name, in
    [OVERLAY_LAYERS]. *)
Definition listed (cat : string) (lid : Z) (name : string) : bool :=
  existsb
    (fun '(c, layers) =>
       String.eqb c cat
       && existsb (fun '(i, n) => (i =? lid) && String.eqb n name) layers)
    OVERLAY_LAYERS.

(** [LAYER_INFO] registers the layer under a category and a name with which
    [OVERLAY_LAYERS] lists it. *)
Definition registered (lid : Z) : bool :=
  match LAYER_INFO !! lid with
  | Some (cat, name) => listed cat lid name
  | None => false
  end.

(** The attribute is kept by [get_overlays]: not null, and none of the
    geometry bookkeeping keys. *)
Definition kept (kv : string * scalar) : Prop :=
  snd kv <> SNull
  /\ ~ In (fst kv) ["OBJECTID"; "Shape"; "Shape.STArea()"; "Shape.STLength()"]%string.

(** The state of the grouping loop after the items [done]: the groups in
    the order of their first layer, and the keys seen. *)
Definition grouped (st : list (string * list Overlay.layer) * gset string)
    (done : list entry) : Prop :=
  NoDup (map fst (fst st))
  /\ (forall c ls, In (c, ls) (fst st) -> ls <> [])
  /\ (forall c ls l, In (c, ls) (fst st) -> In l ls ->
        exists item, In item done /\ l = layer_entry item
                     /\ c = category item)
  /\ (forall item, In item done -> dedup_key item ∈ snd st)
  /\ (forall k, k ∈ snd st ->
        exists c ls item, In (c, ls) (fst st) /\ In (layer_entry item) ls
                          /\ dedup_key item = k)
  /\ (length (flat_map snd (fst st)) <= length done)%nat.

End EntrySpec.

(** ** Vocabulary: roads and parcel envelopes *)

Module LookupSpec.
Import SccLookup.



(** A float that is a number: anything but NaN. *)
Definition number (x : float) : Prop := Prim2SF x <> S754_nan.

(** The position has numbers for coordinates. *)
Definition located (p : position) : Prop := number (fst p) /\ number (snd p).

(** The position lies in the envelope, borders included. *)
Definition inside (b : bbox) (p : position) : Prop :=
  (min_lng b <=? fst p)%float = true /\ (fst p <=? max_lng b)%float = true
  /\ (min_lat b <=? snd p)%float = true /\ (snd p <=? max_lat b)%float = true.

(** The place of a float that is a number in the order of the floats: by
    sign and kind, then exponent, then mantissa. *)
Definition ord (f : spec_float) : Z * Z * Z :=
  match f with
  | S754_zero _ => (0, 0, 0)
  | S754_infinity s => (if s then -2 else 2, 0, 0)
  | S754_nan => (0, 0, 0)
  | S754_finite s m e => if s then (-1, - e, - Zpos m) else (1, e, Zpos m)
  end.

Definition lex_le (a b : Z * Z * Z) : Prop :=
  fst (fst a) < fst (fst b)
  \/ (fst (fst a) = fst (fst b)
      /\ (snd (fst a) < snd (fst b)
          \/ (snd (fst a) = snd (fst b) /\ snd a <= snd b))).

End LookupSpec.

(** ** Vocabulary: site constraints *)

Module ConstraintSpec.
Import SiteConstraints.

(** The easement names what it is, by a name or by a purpose. *)
Definition named {G : Type} (e : easement G) : Prop :=
  e_name e <> EmptyString \/ e_purpose e <> EmptyString.

Definition covenant_named (c : covenant) : Prop :=
  c_name c <> EmptyString \/ c_purpose c <> EmptyString.

(** Nothing was found: no easement, no covenant, no habitat status and no
    sensitive-area status. *)
Definition unconstrained {G : Type} (c : Result G) : Prop :=
  easements c = [] /\ covenants c = []
  /\ k_status (koala c) = None /\ s_status (esa c) = None.

(** The points the scorer takes for the constraints. *)
Definition points {G : Type} (c : Result G) : Z :=
  5 * easements_count c + 5 * covenants_count c
  + (if text_truthy (k_status (koala c)) then 10 else 0)
  + (if text_truthy (s_status (esa c)) then 10 else 0).

End ConstraintSpec.

(** ** Vocabulary: flood information *)

Module FloodSpec.
Import Flood.

(** A value of the cleaned dictionary: absent, or a trimmed text that is
    not empty. *)
Definition filled (v : option string) : Prop :=
  match v with
  | Some s => s <> EmptyString /\ DaSpec.trimmed s
  | None => True
  end.

Definition fields (fd : flood_data) : list (option string) :=
  [scenario fd; max_flood_level fd; min_floor_level fd; freeboard fd;
   velocity fd; source fd; notes fd; complex_note fd; address fd;
   fd_lotplan fd].

(** Every value is filled and at least one key is present. *)
Definition well_formed (fd : flood_data) : Prop :=
  Forall filled (fields fd) /\ exists s, In (Some s) (fields fd).

(** The state of the loop over the study features after [done]. *)
Definition gathered (st : list study * gset string)
    (done : list study_feature) : Prop :=
  NoDup (map name (fst st))
  /\ (forall k, k ∈ snd st -> DaSpec.trimmed k)
  /\ (forall x, In x (fst st) ->
        exists feat raw,
          In feat done /\ study_name_of feat = Some raw
          /\ PyStr.strip raw ∈ snd st
          /\ x = make_study (PyStr.strip raw) feat)
  /\ (forall feat raw, In feat done -> study_name_of feat = Some raw ->
        PyStr.strip raw ∈ snd st).

End FloodSpec.

(** ** Vocabulary: the network services *)

Module InfraSpec.
Import Infrastructure.

(** A main without a diameter the service can read. *)
Definition unmeasured {G : Type} (float_of_str : string -> option float)
    (feat : feature G) : Prop :=
  main_diameter float_of_str feat = Return None.

(** A value that is an infinite float. *)
Definition infinite (v : scalar) : bool :=
  match v with
  | SFloat x =>
      match Prim2SF x with
      | S754_infinity _ => true
      | _ => false
      end
  | _ => false
  end.

(** The state of the loop over pipes and culverts, started on [acc], after
    [done]: the largest positive diameter so far. *)
Definition largest_of {G : Type} (int_of_str : string -> option Z)
    (acc : option Z) (done : list (feature G)) (r : option Z) : Prop :=
  (forall d, r = Some d ->
     acc = Some d
     \/ (0 < d /\ exists feat, In feat done
                   /\ int_of int_of_str (PipeDiameter_mm feat)
                      = Return (Some d)))
  /\ (forall a, acc = Some a -> exists d, r = Some d /\ a <= d)
  /\ (forall feat v, In feat done ->
        int_of int_of_str (PipeDiameter_mm feat) = Return (Some v) ->
        0 < v -> exists d, r = Some d /\ v <= d).

End InfraSpec.

(** * Properties *)

(** ** The embedding on concrete inputs *)

Example split_examples :
  PyStr.split "per" "1 per 200sqm" = ["1 "; " 200sqm"]
  /\ PyStr.split "per" "perperxper" = [""; ""; "x"; ""]
  /\ PyStr.split "aa" "aaa" = [""; "a"]
  /\ PyStr.split "per" "" = [""].
Proof. repeat split; reflexivity. Qed.

Example strip_examples :
  PyStr.strip "  1 per  " = "1 per" /\ PyStr.strip "   " = ""
  /\ PyStr.lower "Rural Zone" = "rural zone".
Proof. repeat split; reflexivity. Qed.

Example int_of_str_examples :
  PyStr.int_of_str "007" = Return 7 /\ PyStr.int_of_str "1_0" = Return 10
  /\ PyStr.int_of_str "-12" = Return (-12)
  /\ PyStr.int_of_str "1__0" = Raise ValueError
  /\ PyStr.int_of_str "_1" = Raise ValueError
  /\ PyStr.int_of_str "" = Raise ValueError
  /\ PyStr.int_of_str "2a" = Raise ValueError.
Proof. repeat split; reflexivity. Qed.

Example number_examples :
  PyNum.int_of_float 2.25 = Return 2
  /\ PyNum.int_of_float (-2.75) = Return (-2)
  /\ PyNum.int_of_float infinity = Raise OverflowError
  /\ PyNum.int_of_float nan = Raise ValueError
  /\ PyNum.float_of_int 200 = Return 200%float
  /\ PyNum.float_of_int (2 ^ 53 + 1) = Return 9007199254740992%float
  /\ PyNum.float_of_int (10 ^ 400) = Raise OverflowError.
Proof. repeat split; vm_compute; reflexivity. Qed.

Example round1_examples :
  PyNum.round1 0.25 = 0x1.999999999999ap-3%float
  /\ PyNum.round1 0x1.5666666666666p+1 = 0x1.599999999999ap+1%float
  /\ PyNum.round1 0x1.ccccccccccccdp-2 = 0.5%float
  /\ PyNum.round1 0x1.0f0cf064dd592p+73 = 0x1.0f0cf064dd592p+73%float
  /\ PyNum.round1 542 = 542%float.
Proof. repeat split; vm_compute; reflexivity. Qed.

Example zone_rules_examples :
  Buildability.zone_code <$> Buildability.get_zone_rules "Rural Zone"
  = Some (Some "Rural Zone")
  /\ Buildability.source <$> Buildability.get_zone_rules "Rural Zone"
     = Some (Some "scc_planning_scheme")
  /\ Buildability.zone_code <$> Buildability.get_zone_rules "medium density"
     = Some (Some "Low-medium Density Residential Zone")
  /\ Buildability.source <$> Buildability.get_zone_rules "medium density"
     = Some (Some "scc_planning_scheme_fuzzy")
  /\ Buildability.get_zone_rules "Unknown" = None.
Proof. repeat split; vm_compute; reflexivity. Qed.

Example density_examples :
  Buildability.max_dwellings 1000 (Some "1 per 300sqm") = Return 3
  /\ Buildability.max_dwellings 1000 (Some "1 per 0sqm") = Return 1
  /\ Buildability.max_dwellings nan (Some "1 per 200sqm") = Return 1
  /\ Buildability.max_dwellings infinity (Some "1 per 200sqm")
     = Raise OverflowError.
Proof. repeat split; vm_compute; reflexivity. Qed.


(** ** The constraint score *)

Section ScoreFacts.
Import AiSummary ScoreSpec.

Lemma overlay_amount_nonneg (g : Overlay.group) : 0 <= overlay_amount g.
Proof.
  unfold overlay_amount, overlay_deduction.
  repeat match goal with
         | |- context [if ?b then _ else _] => destruct b
         end; simpl; lia.
Qed.

Lemma overlay_total_nonneg (l : list Overlay.group) : 0 <= overlay_total l.
Proof.
  induction l as [|g l IH]; simpl; [lia|].
  pose proof (overlay_amount_nonneg g). lia.
Qed.

Lemma overlay_total_app (l1 l2 : list Overlay.group) :
  overlay_total (l1 ++ l2) = overlay_total l1 + overlay_total l2.
Proof. induction l1 as [|g l1 IH]; simpl; lia. Qed.

Lemma overlay_fold_fst (l : list Overlay.group) (st : Z * list string) :
  fst (fold_left overlay_step l st) = fst st - overlay_total l.
Proof.
  revert st. induction l as [|g l IH]; intros st; simpl; [lia|].
  rewrite IH. unfold overlay_step, overlay_amount.
  destruct (overlay_deduction g) as [[a r]|]; simpl; lia.
Qed.

Lemma flood_step_fst f st :
  fst (flood_step f st) = fst st - flag (flood_flag f) 15.
Proof.
  unfold flood_step, flood_flag, flag.
  destruct f as [fi|]; simpl; [|lia].
  destruct (default false (has_flood_data fi)); simpl; lia.
Qed.

Lemma constraints_step_fst c st :
  fst (constraints_step c st)
  = fst st - per_item (easements c) - per_item (covenants c)
    - flag (koala_flag c) 10 - flag (esa_flag c) 10.
Proof.
  unfold constraints_step, easements, covenants, koala_flag, esa_flag,
    per_item, flag.
  destruct c as [c|]; simpl; [|lia].
  destruct (default 0 (easements_count c) >? 0);
    destruct (default 0 (covenants_count c) >? 0);
    destruct (status_truthy (koala c)); destruct (status_truthy (esa c));
    simpl; lia.
Qed.

Lemma infrastructure_step_fst i st :
  fst (infrastructure_step i st)
  = fst st - flag (water_missing i) 8 - flag (sewer_missing i) 8.
Proof.
  unfold infrastructure_step, water_missing, sewer_missing, flag.
  destruct i as [i|]; simpl; [|lia].
  destruct (service_available (water i));
    destruct (service_available (sewer i)); simpl; lia.
Qed.

Lemma compliance_step_fst b st :
  fst (compliance_step b st) = fst st - flag (non_compliant b) 5.
Proof.
  unfold compliance_step, non_compliant, flag.
  destruct b as [b|]; simpl; [|lia].
  destruct (lot_compliant b); simpl; lia.
Qed.

(** The score is 100 less the deductions, kept between 1 and 100. *)
Lemma score_total (i : Input) :
  score i = Z.max 1 (Z.min 100 (100 - total_deduction i)).
Proof.
  unfold score, _calculate_constraints_score, total_deduction. simpl.
  rewrite compliance_step_fst, infrastructure_step_fst, constraints_step_fst,
    flood_step_fst, overlay_fold_fst. simpl.
  f_equal. f_equal. lia.
Qed.

Lemma flag_nonneg b a : 0 <= a -> 0 <= flag b a.
Proof. unfold flag. destruct b; lia. Qed.

Lemma per_item_nonneg n : 0 <= per_item n.
Proof. unfold per_item. destruct (n >? 0) eqn:E; lia. Qed.

Lemma per_item_mono n m : n <= m -> per_item n <= per_item m.
Proof. unfold per_item. destruct (n >? 0) eqn:E, (m >? 0) eqn:F; lia. Qed.

Lemma flag_mono b c a : 0 <= a -> implb b c = true -> flag b a <= flag c a.
Proof. unfold flag. destruct b, c; simpl; intros; try discriminate; lia. Qed.

Lemma flag_top b a : 0 <= a -> flag b a <= flag true a.
Proof. unfold flag. destruct b; lia. Qed.

Lemma total_deduction_nonneg (i : Input) : 0 <= total_deduction i.
Proof.
  unfold total_deduction.
  pose proof (overlay_total_nonneg (overlays i)).
  pose proof (per_item_nonneg (easements (constraints i))).
  pose proof (per_item_nonneg (covenants (constraints i))).
  pose proof (flag_nonneg (flood_flag (flood_info i)) 15).
  pose proof (flag_nonneg (koala_flag (constraints i)) 10).
  pose proof (flag_nonneg (esa_flag (constraints i)) 10).
  pose proof (flag_nonneg (water_missing (infrastructure i)) 8).
  pose proof (flag_nonneg (sewer_missing (infrastructure i)) 8).
  pose proof (flag_nonneg (non_compliant (buildability i)) 5).
  lia.
Qed.

Lemma overlay_amount_add_layer g l :
  overlay_amount g <= overlay_amount (add_layer_to g l).
Proof.
  unfold overlay_amount, overlay_deduction, add_layer_to. simpl.
  rewrite length_app. simpl.
  repeat match goal with
         | |- context [if ?b then _ else _] => destruct b
         end; simpl; lia.
Qed.

Lemma extends_total (i j : Input) :
  extends i j -> total_deduction i <= total_deduction j.
Proof.
  intros H. destruct H; unfold total_deduction; simpl.
  - rewrite H, !overlay_total_app. simpl.
    pose proof (overlay_amount_add_layer g l). lia.
  - rewrite H, !overlay_total_app. simpl.
    pose proof (overlay_amount_nonneg g). lia.
  - rewrite H. pose proof (flag_top (flood_flag (flood_info i)) 15). lia.
  - rewrite H, H0, H1, H2.
    pose proof (per_item_mono (easements (constraints i))
                  (easements (constraints i) + 1)). lia.
  - rewrite H, H0, H1, H2.
    pose proof (per_item_mono (covenants (constraints i))
                  (covenants (constraints i) + 1)). lia.
  - rewrite H, H0.
    pose proof (flag_mono _ _ 10 ltac:(lia) H1).
    pose proof (flag_mono _ _ 10 ltac:(lia) H2). lia.
  - rewrite H. pose proof (flag_mono _ _ 8 ltac:(lia) H0).
    pose proof (flag_top (water_missing (infrastructure i)) 8). lia.
  - rewrite H. pose proof (flag_mono _ _ 8 ltac:(lia) H0).
    pose proof (flag_top (sewer_missing (infrastructure i)) 8). lia.
  - rewrite H. pose proof (flag_top (non_compliant (buildability i)) 5). lia.
Qed.

End ScoreFacts.

(** C1. For every combination of overlays, flood information, constraints,
    infrastructure and buildability, the score the constraint scorer returns
    is an integer between 1 and 100; when nothing in the input triggers a
    deduction (no overlay group, no flood data, no easement, covenant, koala
    or ESA status, water and sewer available or no infrastructure data, lot
    compliant or no buildability data) the score is exactly 100. *)
Theorem score_bounded_and_clean_is_100 :
  forall (o : list Overlay.group) (f : option AiSummary.FloodInfo)
         (c : option AiSummary.Constraints)
         (n : option AiSummary.Infrastructure)
         (b : option Buildability.Outcome),
    let s := fst (AiSummary._calculate_constraints_score o f c n b) in
    1 <= s <= 100
    /\ (ScoreSpec.clean
          {| ScoreSpec.overlays := o; ScoreSpec.flood_info := f;
             ScoreSpec.constraints := c; ScoreSpec.infrastructure := n;
             ScoreSpec.buildability := b |} -> s = 100).
Proof.
  intros o f c n b.
  pose proof (score_total
    {| ScoreSpec.overlays := o; ScoreSpec.flood_info := f;
       ScoreSpec.constraints := c; ScoreSpec.infrastructure := n;
       ScoreSpec.buildability := b |}) as Hs.
  unfold ScoreSpec.score in Hs. simpl in Hs. simpl.
  split; [rewrite Hs; lia|].
  intros (Ho & Hf & He & Hc & Hk & Hx & Hw & Hsw & Hb).
  simpl in *. rewrite Hs. unfold ScoreSpec.total_deduction. simpl.
  rewrite Ho, Hf, Hk, Hx, Hw, Hsw, Hb. simpl.
  unfold ScoreSpec.per_item.
  destruct (ScoreSpec.easements c >? 0) eqn:E1;
    destruct (ScoreSpec.covenants c >? 0) eqn:E2; lia.
Qed.

Lemma score_bounded_and_clean_is_100_witness :
  fst (AiSummary._calculate_constraints_score [] None
         (Some {| AiSummary.easements_count := Some 0;
                  AiSummary.covenants_count := None;
                  AiSummary.koala := Some {| AiSummary.status := None |};
                  AiSummary.esa := None |})
         (Some {| AiSummary.water :=
                    Some {| AiSummary.available := Some true |};
                  AiSummary.sewer :=
                    Some {| AiSummary.available := Some true |} |})
         None) = 100.
Proof.
  apply score_bounded_and_clean_is_100.
  unfold ScoreSpec.clean. simpl. repeat split; try reflexivity; lia.
Defined.

(** C6. The constraint score never increases when a deduction-triggering
    element is added to the input: one more layer in an overlay group, one
    more overlay group, flood data becoming present, one more easement or
    covenant, a koala or ESA status, a missing water or sewer service, or a
    non-compliant lot. *)
Theorem score_monotone :
  forall i j : ScoreSpec.Input,
    ScoreSpec.extends i j -> ScoreSpec.score j <= ScoreSpec.score i.
Proof.
  intros i j H. rewrite !score_total.
  pose proof (extends_total i j H). lia.
Qed.

Lemma score_monotone_witness :
  ScoreSpec.score
    {| ScoreSpec.overlays :=
         [{| Overlay.category := Some "Bushfire Hazard";
             Overlay.layers :=
               [{| Overlay.layer_id := 32; Overlay.name := None;
                   Overlay.label := None; Overlay.height_m := None;
                   Overlay.attributes := None |}] |}];
       ScoreSpec.flood_info := None; ScoreSpec.constraints := None;
       ScoreSpec.infrastructure := None; ScoreSpec.buildability := None |}
  <= ScoreSpec.score
       {| ScoreSpec.overlays :=
            [{| Overlay.category := Some "Bushfire Hazard";
                Overlay.layers := [] |}];
          ScoreSpec.flood_info := None; ScoreSpec.constraints := None;
          ScoreSpec.infrastructure := None; ScoreSpec.buildability := None |}.
Proof.
  apply score_monotone.
  exact (ScoreSpec.one_more_layer
           {| ScoreSpec.overlays :=
                [{| Overlay.category := Some "Bushfire Hazard";
                    Overlay.layers := [] |}];
              ScoreSpec.flood_info := None; ScoreSpec.constraints := None;
              ScoreSpec.infrastructure := None;
              ScoreSpec.buildability := None |}
           [] []
           {| Overlay.category := Some "Bushfire Hazard";
              Overlay.layers := [] |}
           {| Overlay.layer_id := 32; Overlay.name := None;
              Overlay.label := None; Overlay.height_m := None;
              Overlay.attributes := None |}
           eq_refl).
Defined.

(** ** Precedent analysis *)


Section PrecedentFacts.
Import AiSummary PrecedentSpec.

Lemma count_cons d da l :
  count d (da :: l) = (if bool_decide (classify da = d) then 1 else 0) + count d l.
Proof.
  unfold count. simpl. destruct (bool_decide (classify da = d)); simpl; lia.
Qed.

Lemma count_total (l : list Da.t) :
  count Approved l + count Refused l + count Lapsed l + count InProgress l
  = Z.of_nat (length l).
Proof.
  induction l as [|da l IH]; [reflexivity|].
  rewrite !count_cons. simpl length.
  destruct (classify da); simpl; lia.
Qed.

Lemma tally_counts (l : list Da.t) (t : Tally) :
  let t' := fold_left tally_step l t in
  approved t' = approved t + count Approved l
  /\ refused t' = refused t + count Refused l
  /\ lapsed t' = lapsed t + count Lapsed l
  /\ in_progress t' = in_progress t + count InProgress l.
Proof.
  revert t. induction l as [|da l IH]; intros t; simpl.
  - unfold count. simpl. lia.
  - destruct (IH (tally_step t da)) as (Ha & Hr & Hl & Hi).
    rewrite Ha, Hr, Hl, Hi, !count_cons.
    unfold tally_step. destruct (classify da); simpl; lia.
Qed.

Lemma count_nonneg d l : 0 <= count d l.
Proof. unfold count. lia. Qed.

(** The record the analyzer returns, field by field. *)
Lemma analyze_fields (h : DaInput) :
  let p := _analyze_da_precedent h in
  let das := all_das h in
  approved_count p = count Approved das
  /\ refused_count p = count Refused das
  /\ lapsed_count p = count Lapsed das
  /\ in_progress_count p = count InProgress das
  /\ total_count p = Z.of_nat (length das)
  /\ (assessment p, outlook p)
     = assess (count Approved das) (count Refused das)
         (Z.of_nat (length das)).
Proof.
  intros p das. subst p. unfold _analyze_da_precedent.
  fold (all_das h). fold das.
  pose proof (tally_counts das
    {| approved := 0; refused := 0; in_progress := 0; lapsed := 0;
       categories := [] |}) as (Ha & Hr & Hl & Hi).
  simpl in Ha, Hr, Hl, Hi.
  pose proof (count_total das) as Htot.
  set (t := fold_left tally_step das _) in *.
  assert (Ht : approved t + refused t + lapsed t + in_progress t
               = Z.of_nat (length das)) by lia.
  rewrite Ht, Ha, Hr, Hl, Hi. simpl.
  destruct (assess _ _ _) as [x y]. simpl. repeat split; reflexivity.
Qed.

(** The outlook as a function of the counts. *)
Lemma assess_cases (a r total : Z) :
  (total = 0 ->
   assess a r total = ("No precedent data available in area"%string, neutral))
  /\ (total <> 0 -> r = 0 -> a > 0 -> snd (assess a r total) = positive)
  /\ (total <> 0 -> ~ (r = 0 /\ a > 0) -> a > 2 * r ->
      snd (assess a r total) = positive)
  /\ (total <> 0 -> ~ (r = 0 /\ a > 0) -> ~ a > 2 * r -> r > a ->
      snd (assess a r total) = negative)
  /\ (total <> 0 -> ~ (r = 0 /\ a > 0) -> ~ a > 2 * r -> ~ r > a ->
      snd (assess a r total) = neutral).
Proof.
  unfold assess.
  destruct (total =? 0) eqn:E0.
  { repeat split; intros; try reflexivity; exfalso; lia. }
  destruct ((r =? 0) && (a >? 0)) eqn:E1.
  { apply andb_true_iff in E1 as [E1 E1'].
    repeat split; intros; try reflexivity; exfalso; lia. }
  assert (~ (r = 0 /\ a > 0)).
  { intros [? ?]. apply andb_false_iff in E1 as [E1|E1]; lia. }
  destruct (a >? r * 2) eqn:E2.
  { repeat split; intros; try reflexivity; exfalso; try tauto; lia. }
  destruct (r >? a) eqn:E3;
    repeat split; intros; try reflexivity; exfalso; try tauto; lia.
Qed.

End PrecedentFacts.

(** C7. For every history of applications the precedent analyzer counts
    the approved, refused, lapsed and in-progress applications, and
    classifies the outlook in this order: no application at all gives the
    baseline (neutral outlook, "No precedent data available in area", all
    counts zero); else positive when there is no refusal and at least one
    approval; else positive when approvals exceed twice the refusals; else
    negative when refusals exceed approvals; else neutral. So 3 approvals
    and no refusal give positive, 1 approval and 2 refusals give negative. *)
Theorem precedent_outlook_priority :
  forall h : AiSummary.DaInput,
    let p := AiSummary._analyze_da_precedent h in
    let das := PrecedentSpec.all_das h in
    let a := PrecedentSpec.count AiSummary.Approved das in
    let r := PrecedentSpec.count AiSummary.Refused das in
    (AiSummary.approved_count p = a
     /\ AiSummary.refused_count p = r
     /\ AiSummary.lapsed_count p = PrecedentSpec.count AiSummary.Lapsed das
     /\ AiSummary.in_progress_count p
        = PrecedentSpec.count AiSummary.InProgress das
     /\ AiSummary.total_count p = Z.of_nat (length das))
    /\ (das = [] ->
        AiSummary.outlook p = AiSummary.neutral
        /\ AiSummary.assessment p = "No precedent data available in area"%string
        /\ AiSummary.approved_count p = 0 /\ AiSummary.refused_count p = 0
        /\ AiSummary.lapsed_count p = 0 /\ AiSummary.in_progress_count p = 0
        /\ AiSummary.total_count p = 0)
    /\ (das <> [] -> r = 0 -> a > 0 ->
        AiSummary.outlook p = AiSummary.positive)
    /\ (das <> [] -> ~ (r = 0 /\ a > 0) -> a > 2 * r ->
        AiSummary.outlook p = AiSummary.positive)
    /\ (das <> [] -> ~ (r = 0 /\ a > 0) -> ~ a > 2 * r -> r > a ->
        AiSummary.outlook p = AiSummary.negative)
    /\ (das <> [] -> ~ (r = 0 /\ a > 0) -> ~ a > 2 * r -> ~ r > a ->
        AiSummary.outlook p = AiSummary.neutral)
    /\ (a = 3 -> r = 0 -> AiSummary.outlook p = AiSummary.positive)
    /\ (a = 1 -> r = 2 -> AiSummary.outlook p = AiSummary.negative).
Proof.
  intros h p das a r.
  destruct (analyze_fields h) as (Ha & Hr & Hl & Hi & Ht & Hout).
  fold p das a r in Ha, Hr, Hl, Hi, Ht, Hout.
  destruct (assess_cases a r (Z.of_nat (length das)))
    as (C0 & C1 & C2 & C3 & C4).
  assert (Ho : AiSummary.outlook p
               = snd (AiSummary.assess a r (Z.of_nat (length das))))
    by (rewrite <- Hout; reflexivity).
  assert (Has : AiSummary.assessment p
                = fst (AiSummary.assess a r (Z.of_nat (length das))))
    by (rewrite <- Hout; reflexivity).
  pose proof (count_total das) as Htot.
  pose proof (count_nonneg AiSummary.Lapsed das) as Hl0.
  pose proof (count_nonneg AiSummary.InProgress das) as Hi0.
  pose proof (count_nonneg AiSummary.Approved das) as Ha0.
  pose proof (count_nonneg AiSummary.Refused das) as Hr0.
  fold a r in Htot, Ha0, Hr0.
  assert (Hlen : das <> [] -> Z.of_nat (length das) <> 0).
  { destruct das; [congruence|simpl; lia]. }
  split; [tauto|]. split.
  { intros E. rewrite Ho, Has, Ha, Hr, Hl, Hi, Ht.
    assert (E0 : Z.of_nat (length das) = 0) by (rewrite E; reflexivity).
    rewrite (C0 E0). simpl. repeat split; lia. }
  rewrite Ho.
  split; [intros; apply C1; auto|].
  split; [intros; apply C2; auto|].
  split; [intros; apply C3; auto|].
  split; [intros; apply C4; auto|].
  split; intros Ha' Hr'.
  - apply C1; lia.
  - apply C3; lia.
Qed.

Lemma precedent_outlook_priority_witness :
  AiSummary.outlook
    (AiSummary._analyze_da_precedent
       {| AiSummary.on_parcel :=
            Some [{| Da.ram_id := IntId 101; Da.description := "Dual occupancy";
                     Da.category := Some "MCU"; Da.decision := Some "Approved";
                     Da.progress := Some "Decided"; Da.assessment_level := "Code";
                     Da.date_received := None; Da.date_decided := None;
                     Da.land_parcel_relationship := "" |}];
          AiSummary.nearby :=
            Some [{| Da.ram_id := IntId 102; Da.description := "Shop";
                     Da.category := Some "MCU"; Da.decision := Some "Refused";
                     Da.progress := Some "Decided"; Da.assessment_level := "Impact";
                     Da.date_received := None; Da.date_decided := None;
                     Da.land_parcel_relationship := "" |};
                  {| Da.ram_id := IntId 103; Da.description := "Subdivision";
                     Da.category := Some "ROL";
                     Da.decision := Some "Application Refused";
                     Da.progress := Some "Decided"; Da.assessment_level := "Impact";
                     Da.date_received := None; Da.date_decided := None;
                     Da.land_parcel_relationship := "" |}] |})
  = AiSummary.negative.
Proof.
  apply precedent_outlook_priority; vm_compute; reflexivity.
Defined.

(** ** Floats *)

Section FloatFacts.
Local Open Scope float_scope.

Lemma positive_spec (a : float) :
  (0 <? a) = true ->
  Prim2SF a = S754_infinity false
  \/ exists m e, Prim2SF a = S754_finite false m e.
Proof.
  rewrite FloatAxioms.ltb_spec. change (Prim2SF 0) with (S754_zero false).
  destruct (Prim2SF a) as [s|s| |s m e]; simpl; try discriminate.
  - destruct s; [discriminate|]. left. reflexivity.
  - destruct s; [discriminate|]. right. eauto.
Qed.

Lemma positive_truthy (a : float) : (0 <? a) = true -> PyNum.truthy a = true.
Proof.
  intros H. unfold PyNum.truthy. rewrite FloatAxioms.eqb_spec.
  change (Prim2SF 0) with (S754_zero false).
  destruct (positive_spec a H) as [E|(m & e & E)]; rewrite E; reflexivity.
Qed.

Lemma positive_not_negative (a : float) : (0 <? a) = true -> (a <? 0) = false.
Proof.
  intros H. rewrite FloatAxioms.ltb_spec. change (Prim2SF 0) with (S754_zero false).
  destruct (positive_spec a H) as [E|(m & e & E)]; rewrite E; reflexivity.
Qed.


Lemma sqrt_positive (a : float) :
  (0 <? a) = true -> PyNum.sqrt a = Return (PrimFloat.sqrt a).
Proof.
  intros H. unfold PyNum.sqrt. rewrite (positive_not_negative a H). reflexivity.
Qed.

End FloatFacts.

(** ** The buildability calculator *)

Section BuildabilityFacts.
Import Buildability.
Local Open Scope float_scope.

Lemma opt_truthy_idem (v : option float) : opt_truthy (opt_truthy v) = opt_truthy v.
Proof.
  destruct v as [x|]; [|reflexivity]. simpl.
  destruct (PyNum.truthy x) eqn:E; simpl; [rewrite E|]; reflexivity.
Qed.

Lemma area_of_positive (a : float) :
  (0 <? a) = true -> area_of {| area_sqm := Some a |} = a.
Proof.
  intros H. unfold area_of. simpl. rewrite (positive_truthy a H). reflexivity.
Qed.


(** The envelope of a lot of positive area is computed without error. *)
Lemma envelope_positive (area cover front side rear : float) :
  (0 <? area) = true ->
  envelope area cover front side rear
  = Return
      (let side_length := PrimFloat.sqrt area in
       let width := PyNum.max0 (side_length - 2 * side) in
       let depth := PyNum.max0 (side_length - front - rear) in
       {| max_footprint := area * (cover / 100);
          side_length := side_length;
          buildable_width := width;
          buildable_depth := depth;
          buildable_area_after_setbacks := width * depth;
          effective_footprint :=
            PyNum.min (area * (cover / 100)) (width * depth) |}).
Proof.
  intros H. unfold envelope. rewrite (sqrt_positive area H). reflexivity.
Qed.


(** The result for a lot of positive area when no rules are passed and the
    zone code resolves to none: every rule takes its default. *)
Lemma unresolved_zone_result (a : float) zone overlays height :
  (0 <? a) = true ->
  get_zone_rules (zone_code_of zone) = None ->
  exists env,
    envelope a 50 6 1.5 6 = Return env
    /\ calculate_buildability {| area_sqm := Some a |} zone None overlays
         height
       = Return (Computed
           {| Result.zone :=
                {| Result.code := zone_code_of zone;
                   Result.category := zone_category_of zone;
                   Result.source := "scc_arcgis" |};
              Result.rules :=
                {| Result.max_height_m := opt_truthy height;
                   Result.max_storeys := None;
                   Result.min_lot_size_sqm := None;
                   Result.max_site_cover_pct := 50;
                   Result.front_setback_m := 6;
                   Result.side_setback_m := 1.5;
                   Result.rear_setback_m := 6;
                   Result.min_frontage_m := None |};
              Result.buildable_envelope :=
                {| Result.max_footprint_sqm :=
                     PyNum.round1 (effective_footprint env);
                   Result.max_gfa_sqm :=
                     PyNum.round1 (effective_footprint env * 1);
                   Result.max_dwellings := 1;
                   Result.buildable_area_after_setbacks_sqm :=
                     PyNum.round1 (buildable_area_after_setbacks env) |};
              Result.subdivision :=
                {| Result.can_subdivide := false;
                   Result.max_new_lots := 0;
                   Result.sub_min_lot_size_sqm := None |};
              Result.uses :=
                {| Result.accepted := []; Result.assessable := [] |};
              Result.constraints := overlay_constraints overlays;
              Result.lot_compliance :=
                {| Result.compliant := true; Result.issues := [] |};
              Result.disclaimer := DISCLAIMER |}).
Proof.
  intros Ha Hz. eexists. split; [apply (envelope_positive a 50 6 1.5 6 Ha)|].
  unfold calculate_buildability.
  unfold rules_for.
  rewrite (area_of_positive a Ha), (positive_truthy a Ha), Hz. simpl.
  rewrite (envelope_positive a 50 6 1.5 6 Ha). simpl.
  replace (match opt_truthy height with Some h => Some h | None => None end)
    with (opt_truthy height) by (destruct (opt_truthy height); reflexivity).
  rewrite opt_truthy_idem. reflexivity.
Qed.

(** What a computed result holds, in terms of the stages of the
    computation. *)
Lemma computed_result (p : Parcel) zone rules overlays height res :
  calculate_buildability p zone rules overlays height = Return (Computed res) ->
  let area := area_of p in
  let r := rules_for (zone_code_of zone) rules in
  let min_lot_size := f (min_lot_size_sqm r) 0 in
  PyNum.truthy area = true
  /\ exists env storeys_f dwellings new_lots,
      envelope area (f (max_site_cover_pct r) 50) (f (front_setback_m r) 6)
        (f (side_setback_m r) 1.5) (f (rear_setback_m r) 6) = Return env
      /\ PyNum.float_of_int (storeys_of (max_storeys r)) = Return storeys_f
      /\ max_dwellings area (max_dwelling_density r) = Return dwellings
      /\ max_new_lots area min_lot_size = Return new_lots
      /\ Result.buildable_envelope res
         = {| Result.max_footprint_sqm :=
                PyNum.round1 (effective_footprint env);
              Result.max_gfa_sqm :=
                PyNum.round1 (effective_footprint env * storeys_f);
              Result.max_dwellings := dwellings;
              Result.buildable_area_after_setbacks_sqm :=
                PyNum.round1 (buildable_area_after_setbacks env) |}
      /\ Result.subdivision res
         = {| Result.can_subdivide := can_subdivide area min_lot_size;
              Result.max_new_lots := new_lots;
              Result.sub_min_lot_size_sqm := opt_truthy (Some min_lot_size) |}.
Proof.
  intros H area r min_lot_size. unfold calculate_buildability in H.
  fold area r in H. fold min_lot_size in H.
  destruct (PyNum.truthy area) eqn:Ht; simpl in H; [|discriminate].
  split; [reflexivity|].
  destruct (envelope area _ _ _ _) as [env|] eqn:Eenv; simpl in H;
    [|discriminate].
  destruct (PyNum.float_of_int _) as [sf|] eqn:Esf; simpl in H; [|discriminate].
  destruct (max_dwellings area _) as [dw|] eqn:Edw; simpl in H; [|discriminate].
  destruct (max_new_lots area _) as [nl|] eqn:Enl; simpl in H; [|discriminate].
  exists env, sf, dw, nl. injection H as <-. simpl.
  repeat split; reflexivity.
Qed.

End BuildabilityFacts.




(** C8. For a lot of positive area and a positive minimum lot size, the lot
    can be subdivided exactly when the area is at least twice the minimum
    lot size, and the number of new lots is the integer part of the area
    divided by the minimum lot size; without a minimum lot size the lot
    cannot be subdivided and the number of new lots is 0. These are the
    values a computed result reports. A lot of 900 square metres with a
    minimum of 400 can be subdivided, into at most 2 lots. *)
Theorem subdivision_feasibility :
  (forall area min_lot : float,
      (0 <? area)%float = true -> (0 <? min_lot)%float = true ->
      Buildability.can_subdivide area min_lot = (min_lot * 2 <=? area)%float
      /\ Buildability.max_new_lots area min_lot
         = PyNum.int_of_float (area / min_lot)%float)
  /\ (forall (area : float) (r : Buildability.Rules),
         Buildability.min_lot_size_sqm r = None ->
         Buildability.can_subdivide area
           (Buildability.f (Buildability.min_lot_size_sqm r) 0) = false
         /\ Buildability.max_new_lots area
              (Buildability.f (Buildability.min_lot_size_sqm r) 0)
            = Return 0)
  /\ (forall p zone rules overlays height res,
         Buildability.calculate_buildability p zone rules overlays height
         = Return (Buildability.Computed res) ->
         let min_lot :=
           Buildability.f
             (Buildability.min_lot_size_sqm
                (Buildability.rules_for (Buildability.zone_code_of zone) rules))
             0 in
         Buildability.Result.can_subdivide (Buildability.Result.subdivision res)
         = Buildability.can_subdivide (Buildability.area_of p) min_lot
         /\ Buildability.max_new_lots (Buildability.area_of p) min_lot
            = Return (Buildability.Result.max_new_lots
                        (Buildability.Result.subdivision res)))
  /\ Buildability.can_subdivide 900 400 = true
  /\ Buildability.max_new_lots 900 400 = Return 2.
Proof.
  split; [|split; [|split; [|split]]].
  - intros area min_lot Ha Hm.
    unfold Buildability.can_subdivide, Buildability.max_new_lots.
    rewrite (positive_truthy min_lot Hm), Hm. split; reflexivity.
  - intros area r ->. split; reflexivity.
  - intros p zone rules overlays height res H min_lot.
    destruct (computed_result p zone rules overlays height res H)
      as (_ & env & sf & dw & nl & _ & _ & _ & Hnl & _ & Hsub).
    rewrite Hsub. simpl. split; [reflexivity|exact Hnl].
  - vm_compute. reflexivity.
  - vm_compute. reflexivity.
Qed.

Lemma subdivision_feasibility_witness :
  (Buildability.can_subdivide 900 400 = (400 * 2 <=? 900)%float
   /\ Buildability.max_new_lots 900 400
      = PyNum.int_of_float (900 / 400)%float)
  /\ exists res,
       Buildability.calculate_buildability
         {| Buildability.area_sqm := Some 900%float |}
         (Some {| Zone.code := Some "Low Density Residential Zone";
                  Zone.category := Some "Residential Zones Category";
                  Zone.label := None; Zone.description := None |})
         None None None
       = Return (Buildability.Computed res)
       /\ Buildability.Result.can_subdivide
            (Buildability.Result.subdivision res) = true
       /\ Buildability.Result.max_new_lots
            (Buildability.Result.subdivision res) = 2.
Proof.
  split.
  - apply (proj1 subdivision_feasibility 900%float 400%float);
      vm_compute; reflexivity.
  - eexists. split; [vm_compute; reflexivity|].
    split; vm_compute; reflexivity.
Defined.

(** C4, as stated, fails on its example: for a lot of 600 square metres
    with 50% cover and setbacks 6, 1.5 and 6 the effective footprint is not
    268.75 square metres. The side is the square root of 600, about 24.495
    and not 24.5, so the area left by the setbacks is about 268.577, below
    268.625; the calculator reports it as 268.6. *)
Lemma footprint_example_counterexample :
  exists env,
    Buildability.envelope 600 50 6 1.5 6 = Return env
    /\ (Buildability.effective_footprint env =? 268.75)%float = false
    /\ (Buildability.effective_footprint env <? 268.625)%float = true
    /\ (PyNum.round1 (Buildability.effective_footprint env) =? 268.75)%float
       = false.
Proof.
  eexists. split; [vm_compute; reflexivity|].
  repeat split; vm_compute; reflexivity.
Qed.

(** C4, amended. For a lot of positive area the calculator takes the
    maximum footprint as area times cover over 100, the side of the lot as
    the square root of the area, the buildable width as the side less twice
    the side setback and the buildable depth as the side less the front and
    rear setbacks, both not below 0, and the effective footprint as the
    smaller of the maximum footprint and width times depth; a computed
    result reports the effective footprint rounded to one decimal. For 600
    square metres, 50% cover and setbacks 6, 1.5 and 6 the side is about
    24.495, the width about 21.495, the depth about 12.495, and the
    effective footprint is their product, about 268.577 and reported as
    268.6: the tighter of the two bounds, the maximum footprint being 300. *)
Theorem effective_footprint_formula :
  (forall area cover front side rear : float,
      (0 <? area)%float = true ->
      exists env,
        Buildability.envelope area cover front side rear = Return env
        /\ Buildability.max_footprint env = (area * (cover / 100))%float
        /\ Buildability.side_length env = PrimFloat.sqrt area
        /\ Buildability.buildable_width env
           = PyNum.max0 (Buildability.side_length env - 2 * side)%float
        /\ Buildability.buildable_depth env
           = PyNum.max0 (Buildability.side_length env - front - rear)%float
        /\ Buildability.buildable_area_after_setbacks env
           = (Buildability.buildable_width env
              * Buildability.buildable_depth env)%float
        /\ Buildability.effective_footprint env
           = PyNum.min (Buildability.max_footprint env)
               (Buildability.buildable_area_after_setbacks env))
  /\ (forall p zone rules overlays height res,
         Buildability.calculate_buildability p zone rules overlays height
         = Return (Buildability.Computed res) ->
         let r :=
           Buildability.rules_for (Buildability.zone_code_of zone) rules in
         exists env,
           Buildability.envelope (Buildability.area_of p)
             (Buildability.f (Buildability.max_site_cover_pct r) 50)
             (Buildability.f (Buildability.front_setback_m r) 6)
             (Buildability.f (Buildability.side_setback_m r) 1.5)
             (Buildability.f (Buildability.rear_setback_m r) 6)
           = Return env
           /\ Buildability.Result.max_footprint_sqm
                (Buildability.Result.buildable_envelope res)
              = PyNum.round1 (Buildability.effective_footprint env))
  /\ Buildability.envelope 600 50 6 1.5 6
     = Return {| Buildability.max_footprint := 300;
                 Buildability.side_length := 0x1.87eb1990b697ap+4;
                 Buildability.buildable_width := 0x1.57eb1990b697ap+4;
                 Buildability.buildable_depth := 0x1.8fd633216d2f4p+3;
                 Buildability.buildable_area_after_setbacks :=
                   0x1.0c93980854d1dp+8;
                 Buildability.effective_footprint := 0x1.0c93980854d1dp+8 |}
  /\ (268.5 <? 0x1.0c93980854d1dp+8)%float = true
  /\ (0x1.0c93980854d1dp+8 <? 268.625)%float = true
  /\ PyNum.round1 0x1.0c93980854d1dp+8 = 0x1.0c9999999999ap+8%float.
Proof.
  split; [|split; [|split; [|split; [|split]]]].
  - intros area cover front side rear Ha.
    eexists. split; [apply (envelope_positive _ _ _ _ _ Ha)|].
    simpl. repeat split; reflexivity.
  - intros p zone rules overlays height res H r.
    destruct (computed_result p zone rules overlays height res H)
      as (_ & env & sf & dw & nl & Henv & _ & _ & _ & Hbe & _).
    exists env. split; [exact Henv|]. rewrite Hbe. reflexivity.
  - vm_compute. reflexivity.
  - vm_compute. reflexivity.
  - vm_compute. reflexivity.
  - vm_compute. reflexivity.
Qed.

Lemma effective_footprint_formula_witness :
  exists env,
    Buildability.envelope 600 50 6 1.5 6 = Return env
    /\ Buildability.max_footprint env = (600 * (50 / 100))%float
    /\ Buildability.side_length env = PrimFloat.sqrt 600
    /\ Buildability.buildable_width env
       = PyNum.max0 (Buildability.side_length env - 2 * 1.5)%float
    /\ Buildability.buildable_depth env
       = PyNum.max0 (Buildability.side_length env - 6 - 6)%float
    /\ Buildability.buildable_area_after_setbacks env
       = (Buildability.buildable_width env
          * Buildability.buildable_depth env)%float
    /\ Buildability.effective_footprint env
       = PyNum.min (Buildability.max_footprint env)
           (Buildability.buildable_area_after_setbacks env).
Proof.
  apply (proj1 effective_footprint_formula 600%float 50%float 6%float
           1.5%float 6%float).
  vm_compute. reflexivity.
Defined.

(** ** Strings *)


Section StringFacts.
Import StrSpec.

Lemma append_nil (t : string) : EmptyString +:+ t = t.
Proof. reflexivity. Qed.

Lemma append_cons (c : ascii) (s t : string) :
  String c s +:+ t = String c (s +:+ t).
Proof. reflexivity. Qed.

Lemma append_assoc (s t u : string) : (s +:+ t) +:+ u = s +:+ (t +:+ u).
Proof.
  induction s as [|c s IH]; [reflexivity|].
  rewrite !append_cons, IH. reflexivity.
Qed.

Lemma all_app P (s t : string) : all P (s +:+ t) = all P s && all P t.
Proof.
  induction s as [|c s IH]; [reflexivity|].
  rewrite append_cons. simpl. rewrite IH, andb_assoc. reflexivity.
Qed.

Lemma all_impl (P Q : ascii -> bool) (s : string) :
  (forall c, P c = true -> Q c = true) -> all P s = true -> all Q s = true.
Proof.
  intros HPQ. induction s as [|c s IH]; simpl; [reflexivity|].
  intros H. apply andb_true_iff in H as [H1 H2].
  rewrite (HPQ c H1), (IH H2). reflexivity.
Qed.

Lemma all_lower P (s : string) :
  all P (PyStr.lower s) = all (fun c => P (PyStr.lower_char c)) s.
Proof. induction s as [|c s IH]; simpl; [reflexivity|]. rewrite IH. reflexivity. Qed.

Lemma uint_string_decimal (d : Decimal.uint) :
  all PyStr.isdecimal (NilEmpty.string_of_uint d) = true.
Proof. induction d; simpl; try rewrite IHd; reflexivity. Qed.

Lemma nilzero_string (d : Decimal.uint) :
  d <> Decimal.Nil -> NilZero.string_of_uint d = NilEmpty.string_of_uint d.
Proof. destruct d; [congruence|reflexivity..]. Qed.

Lemma str_of_int_chars (z : Z) : all int_char (PyStr.str_of_int z) = true.
Proof.
  assert (Hd : forall d, all int_char (NilZero.string_of_uint d) = true).
  { intros d. destruct d; try reflexivity;
      simpl; apply (all_impl PyStr.isdecimal); try apply uint_string_decimal;
      intros c Hc; unfold int_char; rewrite Hc; reflexivity. }
  unfold PyStr.str_of_int. destruct z as [|p|p]; simpl.
  - reflexivity.
  - apply Hd.
  - apply Hd.
Qed.

Lemma str_of_nonneg_chars (z : Z) :
  0 <= z -> all PyStr.isdecimal (PyStr.str_of_int z) = true.
Proof.
  intros Hz. unfold PyStr.str_of_int. destruct z as [|p|p]; simpl.
  - reflexivity.
  - rewrite nilzero_string by apply DecimalPos.Unsigned.to_uint_nonnil.
    apply uint_string_decimal.
  - lia.
Qed.

Lemma digits_value_uint (d : Decimal.uint) (acc : Z) (b : bool) :
  d <> Decimal.Nil \/ b = true ->
  PyStr.digits_value (NilEmpty.string_of_uint d) acc b
  = Some (uint_value d acc).
Proof.
  revert acc b. induction d; intros acc b H; simpl;
    try (apply IHd; right; reflexivity).
  destruct H as [H| ->]; [congruence|reflexivity].
Qed.

Lemma uint_value_acc (d : Decimal.uint) (acc : positive) :
  uint_value d (Zpos acc) = Zpos (Pos.of_uint_acc d acc).
Proof.
  revert acc. induction d; intros acc; simpl; try reflexivity;
    match goal with
    | |- uint_value _ ?x = Zpos (Pos.of_uint_acc _ ?y) =>
        replace x with (Zpos y) by lia; apply IHd
    end.
Qed.

Lemma uint_value_of_uint (d : Decimal.uint) : uint_value d 0 = Z.of_uint d.
Proof.
  unfold Z.of_uint. induction d; simpl; try reflexivity; try exact IHd;
    match goal with
    | |- uint_value _ ?x = _ =>
        match eval cbv in x with
        | Zpos ?p => change x with (Zpos p); apply uint_value_acc
        end
    end.
Qed.

(** Reading back the decimal rendering of an integer. *)
Lemma int_of_str_of_int (z : Z) : PyStr.int_of_str (PyStr.str_of_int z) = Return z.
Proof.
  pose proof (DecimalZ.of_to z) as Hz.
  unfold PyStr.str_of_int. destruct z as [|p|p]; [reflexivity| |].
  - simpl in *. rewrite nilzero_string by apply DecimalPos.Unsigned.to_uint_nonnil.
    pose proof (DecimalPos.Unsigned.to_uint_nonnil p) as Hn.
    unfold PyStr.int_of_str.
    assert (E : PyStr.digits_value (NilEmpty.string_of_uint (Pos.to_uint p)) 0
                  false = Some (Zpos p)).
    { rewrite digits_value_uint by (left; exact Hn).
      rewrite uint_value_of_uint. rewrite Hz. reflexivity. }
    destruct (Pos.to_uint p); try congruence; simpl in *; rewrite E;
      reflexivity.
  - simpl in *. rewrite nilzero_string by apply DecimalPos.Unsigned.to_uint_nonnil.
    pose proof (DecimalPos.Unsigned.to_uint_nonnil p) as Hn.
    unfold PyStr.int_of_str. simpl.
    rewrite digits_value_uint by (left; exact Hn).
    rewrite uint_value_of_uint. f_equal. lia.
Qed.

Lemma prefix_other (x c : ascii) (n s : string) :
  is_not x c = true -> String.prefix (String x n) (String c s) = false.
Proof.
  unfold is_not. intros H. simpl.
  destruct (ascii_dec x c) as [->|]; [|reflexivity].
  rewrite Ascii.eqb_refl in H. discriminate.
Qed.

Lemma contains_without (x : ascii) (n s : string) :
  all (is_not x) s = true -> PyStr.contains (String x n) s = false.
Proof.
  induction s as [|c s IH]; [reflexivity|]. simpl all.
  intros H. apply andb_true_iff in H as [H1 H2].
  cbn [PyStr.contains]. rewrite (prefix_other x c n s H1), (IH H2). reflexivity.
Qed.

Lemma prefix_append (n s : string) : String.prefix n (n +:+ s) = true.
Proof.
  induction n as [|c n IH]; [destruct s; reflexivity|].
  rewrite append_cons. simpl. destruct (ascii_dec c c); [exact IH|congruence].
Qed.

Lemma contains_append (n u v : string) :
  PyStr.contains n (u +:+ n +:+ v) = true.
Proof.
  induction u as [|c u IH].
  - rewrite append_nil. destruct (n +:+ v) eqn:E; cbn [PyStr.contains];
      rewrite <- E, prefix_append; reflexivity.
  - rewrite append_cons. cbn [PyStr.contains]. rewrite IH. apply orb_true_r.
Qed.

Lemma split_without (x : ascii) (n s : string) :
  all (is_not x) s = true -> PyStr.split_from (String x n) 0 s = [s].
Proof.
  induction s as [|c s IH]; [reflexivity|]. simpl all.
  intros H. apply andb_true_iff in H as [H1 H2].
  cbn [PyStr.split_from]. rewrite (prefix_other x c n s H1), (IH H2).
  reflexivity.
Qed.

(** Splitting at "per" a text whose two sides have no letter p. *)
Lemma split_per (u v : string) :
  all (is_not "p") u = true -> all (is_not "p") v = true ->
  PyStr.split "per" (u +:+ "per" +:+ v) = [u; v].
Proof.
  intros Hu Hv. unfold PyStr.split. induction u as [|c u IH].
  - rewrite append_nil. change ("per" +:+ v) with (String "p" (String "e" (String "r" v))).
    cbn [PyStr.split_from String.prefix String.length Nat.sub].
    destruct (ascii_dec "p" "p"); [|congruence].
    destruct (ascii_dec "e" "e"); [|congruence].
    destruct (ascii_dec "r" "r"); [|congruence].
    destruct v; cbn [String.prefix];
      rewrite <- ?(split_without "p" "er" _ Hv); reflexivity.
  - simpl all in Hu. apply andb_true_iff in Hu as [H1 H2].
    rewrite append_cons. cbn [PyStr.split_from].
    rewrite (prefix_other "p" c "er" _ H1), (IH H2). reflexivity.
Qed.

Lemma lstrip_not_space (s : string) :
  all not_space s = true -> PyStr.lstrip (s +:+ " ") = s +:+ " "
                            \/ s = EmptyString.
Proof.
  destruct s as [|c s]; [right; reflexivity|]. simpl all. intros H.
  apply andb_true_iff in H as [H1 _]. left. rewrite append_cons.
  cbn [PyStr.lstrip]. unfold not_space in H1.
  destruct (PyStr.isspace c); [discriminate|reflexivity].
Qed.

Lemma rstrip_not_space (s : string) :
  all not_space s = true -> PyStr.rstrip (s +:+ " ") = s.
Proof.
  induction s as [|c s IH]; [reflexivity|]. simpl all. intros H.
  apply andb_true_iff in H as [H1 H2]. rewrite append_cons.
  cbn [PyStr.rstrip]. rewrite (IH H2). unfold not_space in H1.
  destruct s; [|reflexivity].
  destruct (PyStr.isspace c); [discriminate|reflexivity].
Qed.

Lemma strip_not_space (s : string) :
  all not_space s = true -> PyStr.strip (s +:+ " ") = s.
Proof.
  intros H. unfold PyStr.strip.
  destruct (lstrip_not_space s H) as [E| ->]; [|reflexivity].
  rewrite E. apply rstrip_not_space, H.
Qed.

Lemma filter_app P (s t : string) :
  PyStr.filter P (s +:+ t) = PyStr.filter P s +:+ PyStr.filter P t.
Proof.
  induction s as [|c s IH]; [reflexivity|].
  rewrite append_cons. cbn [PyStr.filter]. rewrite IH.
  destruct (P c); reflexivity.
Qed.

Lemma filter_all P (s : string) : all P s = true -> PyStr.filter P s = s.
Proof.
  induction s as [|c s IH]; [reflexivity|]. simpl all. intros H.
  apply andb_true_iff in H as [H1 H2]. cbn [PyStr.filter].
  rewrite H1, (IH H2). reflexivity.
Qed.

Lemma append_empty (s : string) : s +:+ EmptyString = s.
Proof.
  induction s as [|c s IH]; [reflexivity|]. rewrite append_cons, IH.
  reflexivity.
Qed.

Lemma int_char_facts (c : ascii) :
  int_char c = true ->
  is_not "p" c = true /\ not_space c = true
  /\ is_not "l" (PyStr.lower_char c) = true.
Proof.
  destruct c as [[] [] [] [] [] [] [] []]; vm_compute; intros H;
    try discriminate; repeat split.
Qed.

Lemma decimal_is_digit (c : ascii) :
  PyStr.isdecimal c = true -> PyStr.isdigit c = true.
Proof. unfold PyStr.isdigit. intros ->. reflexivity. Qed.

Lemma decimal_is_int_char (c : ascii) :
  PyStr.isdecimal c = true -> int_char c = true.
Proof. unfold int_char. intros ->. reflexivity. Qed.

(** The two numbers read from the text "N per M sqm". *)
Lemma density_text_numbers (n m : Z) :
  0 <= m ->
  PyStr.contains "per" (density_text n m) = true
  /\ PyStr.contains "lot" (PyStr.lower (density_text n m)) = false
  /\ Buildability.density_numbers (density_text n m) = Return (n, m).
Proof.
  intros Hm.
  pose proof (str_of_int_chars n) as Hn.
  pose proof (str_of_nonneg_chars m Hm) as Hmd.
  assert (Hmi : all int_char (PyStr.str_of_int m) = true)
    by (apply (all_impl PyStr.isdecimal); [apply decimal_is_int_char|exact Hmd]).
  assert (Etext : density_text n m
                  = (PyStr.str_of_int n +:+ " ") +:+ "per"
                    +:+ (" " +:+ PyStr.str_of_int m +:+ "sqm")).
  { unfold density_text. rewrite append_assoc. reflexivity. }
  assert (Hu : forall P, (forall c, int_char c = true -> P c = true) ->
                         P " "%char = true ->
                         all P (PyStr.str_of_int n +:+ " ") = true).
  { intros P HP Hsp. rewrite all_app, (all_impl _ _ _ HP Hn). simpl.
    rewrite Hsp. reflexivity. }
  assert (Hv : forall P, (forall c, int_char c = true -> P c = true) ->
                         P " "%char = true -> P "s"%char = true ->
                         P "q"%char = true -> P "m"%char = true ->
                         all P (" " +:+ PyStr.str_of_int m +:+ "sqm") = true).
  { intros P HP Hsp Hs Hq Hm'. rewrite append_cons, append_nil. simpl.
    rewrite Hsp, all_app, (all_impl _ _ _ HP Hmi). simpl.
    rewrite Hs, Hq, Hm'. reflexivity. }
  split; [rewrite Etext; apply contains_append|].
  split.
  - apply (contains_without "l" "ot"). rewrite all_lower, Etext, all_app.
    rewrite (Hu (fun c => is_not "l" (PyStr.lower_char c)))
      by (try reflexivity; intros c Hc; apply int_char_facts, Hc).
    rewrite all_app.
    rewrite (Hv (fun c => is_not "l" (PyStr.lower_char c)))
      by (try reflexivity; intros c Hc; apply int_char_facts, Hc).
    reflexivity.
  - unfold Buildability.density_numbers. rewrite Etext.
    rewrite split_per.
    + rewrite strip_not_space
        by (apply (all_impl int_char); [intros c Hc; apply int_char_facts, Hc
                                       |exact Hn]).
      rewrite int_of_str_of_int. simpl.
      rewrite append_nil, filter_app, (filter_all PyStr.isdigit)
        by (apply (all_impl PyStr.isdecimal);
            [apply decimal_is_digit|exact Hmd]).
      change (PyStr.filter PyStr.isdigit "sqm") with EmptyString.
      rewrite append_empty, int_of_str_of_int. reflexivity.
    + apply Hu; [intros c Hc; apply int_char_facts, Hc|reflexivity].
    + apply Hv; try reflexivity. intros c Hc; apply int_char_facts, Hc.
Qed.

End StringFacts.

(** ** The density parser *)

Section DensityFacts.
Import Buildability StrSpec.

Lemma density_numbers_raises (rule : string) (e : exn) :
  density_numbers rule = Raise e -> e = ValueError \/ e = IndexError.
Proof.
  unfold density_numbers, PyStr.int_of_str.
  destruct (PyStr.split "per" rule) as [|p0 [|p1 ps]]; simpl;
    repeat match goal with
           | |- context [match ?x with Some _ => _ | None => _ end] =>
               destruct x; simpl
           end;
    intros H; inversion H; auto.
Qed.

Lemma max_dwellings_per (area : float) (rule : string) :
  PyStr.contains "per" rule = true ->
  PyStr.contains "lot" (PyStr.lower rule) = false ->
  max_dwellings area (Some rule)
  = match parse_density area rule with
    | Raise ValueError | Raise IndexError => Return 1
    | r => r
    end.
Proof.
  intros Hper Hlot. unfold max_dwellings.
  destruct rule as [|c rule]; [discriminate|].
  rewrite Hper, Hlot. reflexivity.
Qed.

Lemma max_dwellings_other (area : float) (rule : string) :
  PyStr.contains "per" rule = false ->
  PyStr.contains "lot" (PyStr.lower rule) = false ->
  rule <> "Caretaker only"%string -> rule <> "None"%string ->
  max_dwellings area (Some rule) = Return 1.
Proof.
  intros Hper Hlot Hc Hn. unfold max_dwellings.
  destruct rule as [|c rule]; [reflexivity|].
  rewrite Hper, Hlot. simpl andb. cbv iota.
  destruct (String.eqb_spec (String c rule) "Caretaker only"); [congruence|].
  destruct (String.eqb_spec (String c rule) "None"); [congruence|].
  reflexivity.
Qed.

Lemma max_dwellings_lot (area : float) (rule : string) :
  PyStr.contains "lot" (PyStr.lower rule) = true ->
  max_dwellings area (Some rule) = Return 1.
Proof.
  intros Hlot. unfold max_dwellings.
  destruct rule as [|c rule]; [reflexivity|].
  rewrite Hlot, andb_false_r. reflexivity.
Qed.

End DensityFacts.

(** C3, as stated, fails for the rule "N per M sqm": on a lot of 100
    square metres the rule "1 per 200sqm" gives 1 dwelling, and not
    1 x floor(100 / 200) = 0. *)
Lemma density_floor_counterexample :
  StrSpec.density_text 1 200 = "1 per 200sqm"%string
  /\ PyNum.float_of_int 200 = Return 200%float
  /\ PyNum.int_of_float (100 / 200)%float = Return 0
  /\ Buildability.max_dwellings 100 (Some "1 per 200sqm") = Return 1
  /\ Buildability.max_dwellings 100 (Some "1 per 200sqm") <> Return (1 * 0).
Proof.
  repeat split; try (vm_compute; reflexivity).
  vm_compute. discriminate.
Qed.

(** C3, amended. For a rule "N per M sqm" with M positive the number of
    dwellings is N times the integer part of the area divided by M, but
    never less than 1; for a rule that mentions a lot it is 1 whatever the
    area; for "Caretaker only" and "None" it is 0; for a rule that cannot
    be parsed, and without a rule, it is 1. On 1000 square metres
    "1 per 200sqm" gives 5. *)
Theorem max_dwellings_by_rule :
  (forall (area : float) (n m : Z) (d : float) (q : Z),
      0 < m ->
      PyNum.float_of_int m = Return d ->
      PyNum.int_of_float (area / d)%float = Return q ->
      Buildability.max_dwellings area (Some (StrSpec.density_text n m))
      = Return (Z.max 1 (n * q)))
  /\ (forall (area : float) (rule : string),
         PyStr.contains "lot" (PyStr.lower rule) = true ->
         Buildability.max_dwellings area (Some rule) = Return 1)
  /\ (forall area : float,
         Buildability.max_dwellings area (Some "Caretaker only") = Return 0
         /\ Buildability.max_dwellings area (Some "None") = Return 0)
  /\ (forall (area : float) (rule : string),
         StrSpec.unparseable rule ->
         Buildability.max_dwellings area (Some rule) = Return 1)
  /\ (forall area : float,
         Buildability.max_dwellings area None = Return 1
         /\ Buildability.max_dwellings area (Some EmptyString) = Return 1)
  /\ Buildability.max_dwellings 1000 (Some "1 per 200sqm") = Return 5
  /\ Buildability.max_dwellings 1000 (Some "1 per lot") = Return 1.
Proof.
  split; [|split; [|split; [|split; [|split; [|split]]]]].
  - intros area n m d q Hm Hd Hq.
    destruct (density_text_numbers n m ltac:(lia)) as (Hper & Hlot & Hnum).
    rewrite (max_dwellings_per area _ Hper Hlot).
    unfold Buildability.parse_density. rewrite Hnum. simpl.
    destruct (m >? 0) eqn:E; [|lia].
    rewrite Hd. simpl. rewrite Hq. simpl. f_equal. lia.
  - intros area rule H. apply max_dwellings_lot, H.
  - intros area. split; reflexivity.
  - intros area rule (Hlot & Hc & Hn & [Hper|[(e & He)|(u & m & Hnum & Hm)]]).
    + apply max_dwellings_other; assumption.
    + destruct (PyStr.contains "per" rule) eqn:Hper;
        [|apply max_dwellings_other; assumption].
      rewrite (max_dwellings_per area _ Hper Hlot).
      unfold Buildability.parse_density. rewrite He. simpl.
      destruct (density_numbers_raises rule e He) as [-> | ->]; reflexivity.
    + destruct (PyStr.contains "per" rule) eqn:Hper;
        [|apply max_dwellings_other; assumption].
      rewrite (max_dwellings_per area _ Hper Hlot).
      unfold Buildability.parse_density. rewrite Hnum. simpl.
      destruct (m >? 0) eqn:E; [lia|reflexivity].
  - intros area. split; reflexivity.
  - vm_compute. reflexivity.
  - vm_compute. reflexivity.
Qed.

Lemma max_dwellings_by_rule_witness :
  Buildability.max_dwellings 1000 (Some (StrSpec.density_text 2 300))
  = Return (Z.max 1 (2 * 3))
  /\ Buildability.max_dwellings 250 (Some "Caretaker per lot") = Return 1
  /\ Buildability.max_dwellings 250 (Some "one per 200sqm") = Return 1.
Proof.
  split; [|split].
  - apply (proj1 max_dwellings_by_rule 1000%float 2 300 300%float 3);
      [lia|vm_compute; reflexivity..].
  - apply (proj1 (proj2 max_dwellings_by_rule)). vm_compute. reflexivity.
  - apply (proj1 (proj2 (proj2 (proj2 max_dwellings_by_rule)))).
    unfold StrSpec.unparseable.
    split; [vm_compute; reflexivity|].
    split; [discriminate|]. split; [discriminate|].
    right. left. exists ValueError. vm_compute. reflexivity.
Defined.

(** ** Aggregation over unreliable providers *)

Lemma make_entry_layer_id (lid : Z) (feat : SccPlanning.feature) :
  SccPlanning.layer_id (SccPlanning.make_entry lid feat) = lid.
Proof.
  unfold SccPlanning.make_entry.
  destruct (default _ (SccPlanning.LAYER_INFO !! lid)) as [cat name].
  reflexivity.
Qed.

(** C5. An answer the query accepts can still fail the aggregation. The
    application layer answers the parcel query with one application that
    has no decision yet, its decision being null. [get_da_history] then
    raises [AttributeError]: the null meets [strip] in
    [_process_da_features], outside the [try] of the query, whatever the
    other queries answer. Had that query failed instead, the history would
    have been returned, without the application. In the same way an
    application whose date of receipt lies beyond the range of the
    platform's time raises [OverflowError], which [_format_date] does not
    catch. *)
Theorem null_attribute_fails_the_aggregation :
  forall (strftime : Z -> py string) (lot_plan : option string),
    let pending received decision :=
      {| DaHistory.ram_id := IntId 7;
         DaHistory.description := Text "Dwelling house";
         DaHistory.category_desc := Text "Material Change of Use";
         DaHistory.decision := decision;
         DaHistory.progress := Text "In progress";
         DaHistory.assessment_level := Text "Code";
         DaHistory.d_date_rec := Some received;
         DaHistory.d_decision_made := None;
         DaHistory.land_parcel_relationship := Absent |} in
    let world (r : response DaHistory.feature) (lid distance : Z) :=
      if (lid =? DaHistory.DA_IN_PROGRESS) && (distance =? 50)
      then r else Json (Some []) in
    DaHistory.get_da_history strftime
      (world (Json (Some [pending 1700000000000 Null]))) lot_plan
    = Raise AttributeError
    /\ (exists h,
           DaHistory.get_da_history strftime (world (Failed TimeoutException))
             lot_plan = Return h
           /\ DaHistory.on_parcel h = [] /\ DaHistory.nearby h = [])
    /\ (forall received,
           received <> 0 -> strftime received = Raise OverflowError ->
           DaHistory.get_da_history strftime
             (world (Json (Some [pending received Absent]))) lot_plan
           = Raise OverflowError).
Proof.
  intros strftime lot_plan pending world. split; [reflexivity|].
  split; [eexists; split; [reflexivity|split; reflexivity]|].
  intros received Hne Hraise.
  unfold DaHistory.get_da_history. subst world pending.
  cbn [Z.eqb DaHistory.DA_IN_PROGRESS DaHistory.DA_DECIDED_PAST Pos.eqb andb
         DaHistory._query_da_layer default from_option id app
         DaHistory._process_da_features DaHistory.process_feature
         DaHistory.stripped DaHistory.description DaHistory.category_desc
         DaHistory.decision DaHistory.progress DaHistory.assessment_level
         DaHistory.d_date_rec py_bind DaHistory._format_date].
  destruct (Z.eqb_spec received 0) as [E|_]; [contradiction|].
  rewrite Hraise. reflexivity.
Qed.

(** ** Deduplication *)


Section DedupFacts.
Import DedupSpec.

Lemma key_text_entry (item : SccPlanning.entry) :
  key_text (layer_key (SccPlanning.layer_entry item))
  = SccPlanning.dedup_key item.
Proof. reflexivity. Qed.

Lemma add_layer_keys (groups : list (string * list Overlay.layer))
    (cat : string) (l : Overlay.layer) :
  group_keys (SccPlanning.add_layer groups cat l)
  ≡ₚ group_keys groups ++ [layer_key l].
Proof.
  induction groups as [|[c ls] groups IH]; [reflexivity|].
  cbn [SccPlanning.add_layer]. destruct (String.eqb c cat).
  - unfold group_keys. cbn [flat_map snd]. rewrite map_app. cbn [map].
    rewrite <- !app_assoc. apply Permutation_app_head.
    apply Permutation_app_comm.
  - unfold group_keys in *. cbn [flat_map snd]. rewrite IH.
    rewrite app_assoc. reflexivity.
Qed.

(** What the loop of [get_overlays_grouped] keeps true: the keys of the
    layers collected so far are distinct, and the text of each is in the
    set of seen keys. *)
Lemma group_step_invariant (raw : list SccPlanning.entry)
    (st : list (string * list Overlay.layer) * gset string) :
  NoDup (group_keys (fst st)) ->
  (forall k, k ∈ group_keys (fst st) -> key_text k ∈ snd st) ->
  let st' := fold_left SccPlanning.group_step raw st in
  NoDup (group_keys (fst st'))
  /\ (forall k, k ∈ group_keys (fst st') -> key_text k ∈ snd st').
Proof.
  revert st. induction raw as [|item raw IH]; intros [groups seen] Hnd Hin;
    [split; assumption|].
  cbn [fold_left]. apply IH; unfold SccPlanning.group_step;
    destruct (bool_decide (SccPlanning.dedup_key item ∈ seen)) eqn:E;
    cbn [fst snd] in *; try assumption.
  - apply bool_decide_eq_false in E.
    rewrite add_layer_keys. apply NoDup_app. split; [exact Hnd|].
    split; [|apply NoDup_singleton].
    intros k Hk Hk'. apply list_elem_of_singleton in Hk'. subst k.
    apply E. rewrite <- key_text_entry. apply Hin, Hk.
  - apply bool_decide_eq_false in E.
    intros k Hk. rewrite add_layer_keys in Hk.
    apply elem_of_app in Hk as [Hk|Hk].
    + apply elem_of_union_r, Hin, Hk.
    + apply list_elem_of_singleton in Hk. subst k.
      rewrite key_text_entry. apply elem_of_union_l, elem_of_singleton.
      reflexivity.
Qed.

Lemma output_keys_groups (groups : list (string * list Overlay.layer)) :
  output_keys
    (map (fun '(cat, ls) =>
            {| Overlay.category := Some cat; Overlay.layers := ls |}) groups)
  = group_keys groups.
Proof.
  induction groups as [|[c ls] groups IH]; [reflexivity|].
  unfold output_keys, group_keys in *. cbn [map flat_map snd Overlay.layers].
  rewrite IH. reflexivity.
Qed.

Lemma grouped_keys_distinct (raw : list SccPlanning.entry) :
  NoDup (output_keys (SccPlanning.group_overlays raw)).
Proof.
  unfold SccPlanning.group_overlays. rewrite output_keys_groups.
  apply (group_step_invariant raw ([], ∅)).
  - apply NoDup_nil_2.
  - intros k Hk. cbn in Hk. apply elem_of_nil in Hk. contradiction.
Qed.

(** An application of the nearby list never carries an identifier of the
    set built from the on-parcel list. *)
Lemma nearby_excludes (ids : gset ident) (das : list Da.t) (da : Da.t) :
  In da (List.filter
           (fun d => negb (bool_decide (Da.ram_id d ∈ ids))) das) ->
  Da.ram_id da ∉ ids.
Proof.
  intros H. apply List.filter_In in H as [_ H].
  apply negb_true_iff, bool_decide_eq_false in H. exact H.
Qed.

Lemma on_parcel_ids_complete (das : list Da.t) (da : Da.t) :
  In da das -> ident_truthy (Da.ram_id da) = true ->
  Da.ram_id da
  ∈ (list_to_set (List.filter ident_truthy (map Da.ram_id das)) : gset ident).
Proof.
  intros Hin Ht. apply elem_of_list_to_set, list_elem_of_In.
  apply List.filter_In. split; [|exact Ht].
  apply List.in_map, Hin.
Qed.

End DedupFacts.

(** C9, as stated, fails for the applications: the set of on-parcel case
    ids leaves out the ids that are false as Python values, so the case id
    0 of an on-parcel application is not removed from the nearby list. *)
Lemma case_id_zero_counterexample :
  let app :=
    {| DaHistory.ram_id := IntId 0;
       DaHistory.description := Text "Dwelling house";
       DaHistory.category_desc := Text "Building";
       DaHistory.decision := Text "Approved";
       DaHistory.progress := Text "Decided";
       DaHistory.assessment_level := Absent;
       DaHistory.d_date_rec := None;
       DaHistory.d_decision_made := None;
       DaHistory.land_parcel_relationship := Absent |} in
  exists h on near,
    DaHistory.get_da_history (fun _ => Raise ValueError)
      (fun _ _ => Json (Some [app])) None = Return h
    /\ In on (DaHistory.on_parcel h) /\ In near (DaHistory.nearby h)
    /\ Da.ram_id on = IntId 0 /\ Da.ram_id near = IntId 0.
Proof.
  eexists. eexists. eexists.
  split; [vm_compute; reflexivity|].
  split; [left; reflexivity|]. split; [left; reflexivity|].
  split; reflexivity.
Qed.

(** C9, amended. Within one aggregation the grouped overlay output has no
    two layer entries with the same layer id and label, whatever the raw
    entries; and no case id of an on-parcel application that is true as a
    Python value (present, not 0, not the empty text) is the case id of an
    application of the nearby list. *)
Theorem deduplicated_by_stable_key :
  (forall raw : list SccPlanning.entry,
      NoDup (DedupSpec.output_keys (SccPlanning.group_overlays raw)))
  /\ (forall (fetch : Z -> response SccPlanning.feature),
         NoDup (DedupSpec.output_keys (SccPlanning.get_overlays_grouped fetch)))
  /\ (forall strftime (fetch : Z -> Z -> response DaHistory.feature) lot_plan
             (h : DaHistory.History) (on near : Da.t),
         DaHistory.get_da_history strftime fetch lot_plan = Return h ->
         In on (DaHistory.on_parcel h) ->
         ident_truthy (Da.ram_id on) = true ->
         In near (DaHistory.nearby h) ->
         Da.ram_id near <> Da.ram_id on).
Proof.
  split; [|split].
  - apply grouped_keys_distinct.
  - intros fetch. apply grouped_keys_distinct.
  - intros strftime fetch lot_plan h on near Hh Hon Ht Hnear Heq.
    unfold DaHistory.get_da_history in Hh.
    repeat match type of Hh with
           | context [DaHistory._process_da_features strftime ?l] =>
               destruct (DaHistory._process_da_features strftime l);
               cbn [py_bind] in Hh; [|discriminate]
           end.
    injection Hh as <-.
    cbn [DaHistory.on_parcel DaHistory.nearby] in Hon, Hnear.
    apply nearby_excludes in Hnear. apply Hnear. rewrite Heq.
    apply on_parcel_ids_complete; assumption.
Qed.

Lemma deduplicated_by_stable_key_witness :
  Da.ram_id
    {| Da.ram_id := IntId 8; Da.description := "Dwelling house";
       Da.category := Some "Building"; Da.decision := Some "Approved";
       Da.progress := Some "Decided"; Da.assessment_level := "";
       Da.date_received := None; Da.date_decided := None;
       Da.land_parcel_relationship := "" |}
  <> Da.ram_id
       {| Da.ram_id := IntId 7; Da.description := "Dwelling house";
          Da.category := Some "Building"; Da.decision := Some "Approved";
          Da.progress := Some "Decided"; Da.assessment_level := "";
          Da.date_received := None; Da.date_decided := None;
          Da.land_parcel_relationship := "" |}.
Proof.
  eapply (proj2 (proj2 deduplicated_by_stable_key) (fun _ => Raise ValueError)
            (fun lid distance : Z =>
               let app (n : Z) :=
                 {| DaHistory.ram_id := IntId n;
                    DaHistory.description := Text "Dwelling house";
                    DaHistory.category_desc := Text "Building";
                    DaHistory.decision := Text "Approved";
                    DaHistory.progress := Text "Decided";
                    DaHistory.assessment_level := Absent;
                    DaHistory.d_date_rec := None;
                    DaHistory.d_decision_made := None;
                    DaHistory.land_parcel_relationship := Absent |} in
               if (lid =? 1) && (distance =? 50) then Json (Some [app 7])
               else if (lid =? 1) && (distance =? 500)
                    then Json (Some [app 7; app 8])
                    else Json None)
            None).
  - vm_compute. reflexivity.
  - left. reflexivity.
  - reflexivity.
  - left. reflexivity.
Defined.

(** ** Division of floats does not overflow for a divisor of 2 or more *)


Section DivisionFacts.
Import FloatSpec.

Lemma fexp_eq (e : Z) : fexp prec emax e = Z.max (e - 53) (-1074).
Proof. reflexivity. Qed.

Lemma digits2_pos_bounds (p : positive) :
  2 ^ (Zpos (digits2_pos p) - 1) <= Zpos p < 2 ^ Zpos (digits2_pos p).
Proof.
  induction p as [p IH|p IH|]; cbn [digits2_pos].
  - rewrite Pos2Z.inj_succ.
    replace (Z.succ (Zpos (digits2_pos p)) - 1) with
      (Z.succ (Zpos (digits2_pos p) - 1)) by lia.
    rewrite !Z.pow_succ_r by lia. lia.
  - rewrite Pos2Z.inj_succ.
    replace (Z.succ (Zpos (digits2_pos p)) - 1) with
      (Z.succ (Zpos (digits2_pos p) - 1)) by lia.
    rewrite !Z.pow_succ_r by lia. lia.
  - simpl. lia.
Qed.

Lemma Zdigits2_nonneg (m : Z) : 0 <= Zdigits2 m.
Proof. destruct m; simpl; lia. Qed.

Lemma Zdigits2_lt_pow (m : Z) : 0 <= m -> m < 2 ^ Zdigits2 m.
Proof.
  destruct m as [|p|p]; intros H; [simpl; lia| |lia].
  apply digits2_pos_bounds.
Qed.

Lemma Zdigits2_le (m k : Z) : 0 <= m -> 0 <= k -> m < 2 ^ k -> Zdigits2 m <= k.
Proof.
  intros Hm Hk H. destruct m as [|p|p]; [simpl; lia| |lia].
  cbn [Zdigits2]. pose proof (digits2_pos_bounds p) as [Hlo _].
  assert (Hlt : 2 ^ (Zpos (digits2_pos p) - 1) < 2 ^ k) by lia.
  apply Z.pow_lt_mono_r_iff in Hlt; lia.
Qed.

Lemma shr_1_m (mrs : shr_record) :
  0 <= shr_m mrs -> shr_m (shr_1 mrs) = shr_m mrs / 2.
Proof.
  destruct mrs as [m r s]. cbn [shr_m]. intros H.
  destruct m as [|[p|p|]|p]; cbn [shr_1 shr_m].
  - reflexivity.
  - rewrite Pos2Z.inj_xI. apply Z.div_unique with 1; lia.
  - rewrite Pos2Z.inj_xO. apply Z.div_unique with 0; lia.
  - reflexivity.
  - exfalso. lia.
Qed.

Lemma pow2_xO (p : positive) : 2 ^ Zpos p~0 = 2 ^ Zpos p * 2 ^ Zpos p.
Proof. rewrite <- Z.pow_add_r by lia. f_equal. lia. Qed.

Lemma pow2_xI (p : positive) : 2 ^ Zpos p~1 = 2 * (2 ^ Zpos p * 2 ^ Zpos p).
Proof.
  rewrite <- Z.pow_add_r, <- Z.pow_succ_r by lia. f_equal. lia.
Qed.

Lemma iter_shr_m (p : positive) (mrs : shr_record) :
  0 <= shr_m mrs ->
  shr_m (SpecFloat.iter_pos shr_1 p mrs) = shr_m mrs / 2 ^ Zpos p.
Proof.
  revert mrs. induction p as [p IH|p IH|]; intros mrs H; cbn [SpecFloat.iter_pos].
  - assert (H1 : 0 <= shr_m (shr_1 mrs))
      by (rewrite shr_1_m by exact H; apply Z.div_pos; lia).
    assert (H2 : 0 <= shr_m (SpecFloat.iter_pos shr_1 p (shr_1 mrs)))
      by (rewrite IH by exact H1; apply Z.div_pos; lia).
    rewrite IH by exact H2. rewrite IH by exact H1. rewrite shr_1_m by exact H.
    rewrite !Z.div_div by lia. f_equal.
    rewrite (pow2_xI p). lia.
  - assert (H2 : 0 <= shr_m (SpecFloat.iter_pos shr_1 p mrs))
      by (rewrite IH by exact H; apply Z.div_pos; lia).
    rewrite IH by exact H2. rewrite IH by exact H.
    rewrite !Z.div_div by lia. f_equal.
    rewrite (pow2_xO p). lia.
  - rewrite shr_1_m by exact H. reflexivity.
Qed.

Lemma shr_record_m (m : Z) (l : location) : shr_m (shr_record_of_loc m l) = m.
Proof. destruct l as [|[]]; reflexivity. Qed.

Lemma Zdigits2_div_pow (m n : Z) :
  0 <= m -> 0 < n -> Zdigits2 (m / 2 ^ n) <= Z.max 0 (Zdigits2 m - n).
Proof.
  intros Hm Hn.
  pose proof (Zdigits2_lt_pow m Hm) as Hlt.
  pose proof (Zdigits2_nonneg m) as Hd.
  assert (Hq : 0 <= m / 2 ^ n) by (apply Z.div_pos; lia).
  destruct (Z_le_gt_dec n (Zdigits2 m)) as [Hle|Hgt].
  - apply Zdigits2_le; [exact Hq|lia|].
    apply Z.div_lt_upper_bound; [lia|].
    rewrite <- Z.pow_add_r by lia.
    replace (n + Z.max 0 (Zdigits2 m - n)) with (Zdigits2 m) by lia.
    exact Hlt.
  - assert (E : m / 2 ^ n = 0).
    { apply Z.div_small. split; [exact Hm|].
      apply Z.lt_le_trans with (2 ^ Zdigits2 m); [exact Hlt|].
      apply Z.pow_le_mono_r; lia. }
    rewrite E. simpl. lia.
Qed.

(** The exponent and the number of digits after [shr_fexp]. *)
Lemma shr_fexp_bounds (m e : Z) (l : location) :
  0 <= m ->
  let '(mrs, e') := shr_fexp prec emax m e l in
  0 <= shr_m mrs
  /\ e' = Z.max e (fexp prec emax (Zdigits2 m + e))
  /\ Zdigits2 (shr_m mrs) + e' <= Z.max (Zdigits2 m + e) e'.
Proof.
  intros Hm. unfold shr_fexp, shr.
  set (D := Zdigits2 m + e). set (F := fexp prec emax D).
  destruct (F - e) as [|n|n] eqn:En.
  - rewrite shr_record_m. fold D. lia.
  - assert (H0 : 0 <= shr_m (shr_record_of_loc m l))
      by (rewrite shr_record_m; exact Hm).
    rewrite (iter_shr_m n _ H0), shr_record_m.
    split; [apply Z.div_pos; lia|]. split; [lia|].
    pose proof (Zdigits2_div_pow m (Zpos n) Hm ltac:(lia)). fold D. lia.
  - rewrite shr_record_m. fold D. lia.
Qed.

Lemma round_nearest_even_bounds (m : Z) (l : location) :
  0 <= m ->
  0 <= round_nearest_even m l
  /\ Zdigits2 (round_nearest_even m l) <= Zdigits2 m + 1.
Proof.
  intros Hm.
  assert (Hr : 0 <= round_nearest_even m l <= m + 1).
  { unfold round_nearest_even. destruct l as [|[]]; try lia.
    destruct (Z.even m); lia. }
  split; [lia|].
  pose proof (Zdigits2_lt_pow m Hm). pose proof (Zdigits2_nonneg m).
  apply Zdigits2_le; [lia|lia|].
  rewrite Z.pow_add_r by lia. lia.
Qed.

(** Rounding a mantissa below 2^1023 gives a number. *)
Lemma binary_round_aux_number (s : bool) (m e : Z) (l : location) :
  0 <= m -> Zdigits2 m + e <= 1023 -> e <= 971 ->
  is_number (binary_round_aux prec emax s m e l).
Proof.
  intros Hm HD He. unfold binary_round_aux.
  pose proof (shr_fexp_bounds m e l Hm) as H1.
  destruct (shr_fexp prec emax m e l) as [mrs1 e1].
  destruct H1 as (Hm1 & He1 & Hd1).
  pose proof (round_nearest_even_bounds (shr_m mrs1)
                (loc_of_shr_record mrs1) Hm1) as (Hr & Hrd).
  pose proof (shr_fexp_bounds
                (round_nearest_even (shr_m mrs1) (loc_of_shr_record mrs1))
                e1 loc_Exact Hr) as H2.
  destruct (shr_fexp prec emax _ e1 loc_Exact) as [mrs2 e2].
  destruct H2 as (Hm2 & He2 & _).
  rewrite fexp_eq in He1, He2.
  destruct (shr_m mrs2) as [|p|p]; [exact I| |lia].
  destruct (Z.leb_spec e2 (emax - prec)) as [_|Hgt]; [exact I|].
  change (emax - prec) with 971 in Hgt. lia.
Qed.

Lemma SFdiv_number (sx sy : bool) (mx my : positive) (ex ey : Z) :
  bounded prec emax mx ex = true ->
  2 <= Zpos (digits2_pos my) + ey ->
  is_number (SFdiv prec emax (S754_finite sx mx ex) (S754_finite sy my ey)).
Proof.
  intros Hb Hy. unfold bounded, canonical_mantissa in Hb.
  apply andb_true_iff in Hb as [Hc Hle].
  apply Z.eqb_eq in Hc. apply Z.leb_le in Hle.
  rewrite fexp_eq in Hc. change (emax - prec) with 971 in Hle.
  cbn [SFdiv]. unfold SFdiv_core_binary. cbn [Zdigits2].
  set (d1 := Zpos (digits2_pos mx)) in *.
  set (d2 := Zpos (digits2_pos my)) in *.
  rewrite fexp_eq.
  set (e' := Z.min (Z.max (d1 + ex - (d2 + ey) - 53) (-1074)) (ex - ey)).
  set (sh := ex - ey - e').
  assert (Hsh : 0 <= sh) by (unfold sh, e'; lia).
  set (m' := match sh with
             | 0 => Zpos mx
             | Zpos _ => Z.shiftl (Zpos mx) sh
             | Zneg _ => 0
             end).
  assert (Em' : m' = Zpos mx * 2 ^ sh).
  { unfold m'. destruct sh as [|p|p] eqn:E; [simpl; lia| |lia].
    apply Z.shiftl_mul_pow2. lia. }
  pose proof (digits2_pos_bounds mx) as [_ Hmx].
  pose proof (digits2_pos_bounds my) as [Hmy _].
  fold d1 in Hmx. fold d2 in Hmy.
  assert (Hd1 : 0 < d1) by (unfold d1; lia).
  assert (Hd2 : 0 < d2) by (unfold d2; lia).
  destruct (Z.div_eucl m' (Zpos my)) as [q r] eqn:Ediv.
  assert (Eq : q = m' / Zpos my) by (unfold Z.div; rewrite Ediv; reflexivity).
  assert (Hm'0 : 0 <= m') by (rewrite Em'; apply Z.mul_nonneg_nonneg; lia).
  assert (Hq0 : 0 <= q) by (rewrite Eq; apply Z.div_pos; lia).
  apply binary_round_aux_number; [exact Hq0| |unfold e'; lia].
  assert (Hm'lt : m' < 2 ^ (d1 + sh)).
  { rewrite Em', Z.pow_add_r by lia.
    apply Z.mul_lt_mono_pos_r; [apply Z.pow_pos_nonneg; lia|exact Hmx]. }
  destruct (Z_le_gt_dec 0 (d1 + sh - d2 + 1)) as [HK|HK].
  - assert (Hqlt : q < 2 ^ (d1 + sh - d2 + 1)).
    { rewrite Eq. apply Z.div_lt_upper_bound; [lia|].
      apply Z.lt_le_trans with (2 ^ (d1 + sh)); [exact Hm'lt|].
      replace (d1 + sh) with ((d2 - 1) + (d1 + sh - d2 + 1)) at 1 by lia.
      rewrite Z.pow_add_r by lia.
      apply Z.mul_le_mono_nonneg_r; [apply Z.pow_nonneg; lia|exact Hmy]. }
    pose proof (Zdigits2_le q _ Hq0 HK Hqlt). unfold sh in *. lia.
  - assert (E0 : q = 0).
    { rewrite Eq. apply Z.div_small. split; [exact Hm'0|].
      apply Z.lt_le_trans with (2 ^ (d1 + sh)); [exact Hm'lt|].
      apply Z.le_trans with (2 ^ (d2 - 1)); [|exact Hmy].
      apply Z.pow_le_mono_r; lia. }
    rewrite E0. simpl. unfold e'. lia.
Qed.

Lemma positive_finite_spec (a : float) :
  positive_finite a ->
  exists m e, Prim2SF a = S754_finite false m e
              /\ bounded prec emax m e = true.
Proof.
  intros [Hpos Hfin].
  pose proof (Prim2SF_valid a) as Hv.
  destruct (positive_spec a Hpos) as [E|(m & e & E)].
  - rewrite FloatAxioms.ltb_spec, E in Hfin. discriminate.
  - exists m, e. split; [exact E|]. rewrite E in Hv. exact Hv.
Qed.

(** The integer part of a positive finite float divided by a float of
    magnitude 2 or more exists. *)
Lemma int_of_quotient_returns (a d : float) :
  positive_finite a -> divisor_ok d = true ->
  returns (PyNum.int_of_float (a / d)%float).
Proof.
  intros Ha Hd. destruct (positive_finite_spec a Ha) as (m & e & Ea & Hb).
  unfold divisor_ok in Hd.
  destruct (Prim2SF d) as [| | |sy my ey] eqn:Ed; try discriminate.
  apply Z.leb_le in Hd.
  pose proof (SFdiv_number false sy m my e ey Hb Hd) as Hn.
  unfold PyNum.int_of_float. rewrite div_spec, Ea, Ed.
  unfold SF64div. unfold is_number in Hn.
  destruct (SFdiv prec emax _ _); try contradiction; eexists; reflexivity.
Qed.

End DivisionFacts.

(** ** The calculator returns for every zone *)


Section ReturnFacts.
Import Buildability FloatSpec RulesSpec.
Local Open Scope float_scope.

Lemma density_ok_returns (a : float) (density : option string) :
  positive_finite a -> density_ok density = true ->
  returns (max_dwellings a density).
Proof.
  intros Ha Hok. destruct density as [rule|]; [|eexists; reflexivity].
  unfold density_ok in Hok.
  destruct (PyStr.contains "per" rule) eqn:Hper; cycle 1.
  { unfold max_dwellings. rewrite Hper. simpl andb.
    destruct rule; [eexists; reflexivity|]. cbv iota.
    destruct (PyStr.contains "lot" _); [eexists; reflexivity|].
    destruct (_ || _); eexists; reflexivity. }
  destruct (PyStr.contains "lot" (PyStr.lower rule)) eqn:Hlot.
  { rewrite (max_dwellings_lot a rule Hlot). eexists. reflexivity. }
  simpl in Hok. rewrite (max_dwellings_per a rule Hper Hlot).
  unfold parse_density.
  destruct (density_numbers rule) as [[units per_sqm]|e] eqn:En; simpl.
  - destruct (per_sqm >? 0)%Z; [|eexists; reflexivity].
    destruct (PyNum.float_of_int per_sqm) as [d|] eqn:Ed; [|discriminate].
    simpl. destruct (int_of_quotient_returns a d Ha Hok) as [q Hq].
    rewrite Hq. simpl. eexists. reflexivity.
  - destruct (density_numbers_raises rule e En) as [-> | ->];
      eexists; reflexivity.
Qed.

Lemma lot_ok_returns (a l : float) :
  positive_finite a -> lot_ok l = true -> returns (max_new_lots a l).
Proof.
  intros Ha Hok. unfold max_new_lots, lot_ok in *.
  destruct (PyNum.truthy l && (0 <? l)); [|eexists; reflexivity].
  simpl in Hok. apply int_of_quotient_returns; assumption.
Qed.

Lemma with_zone_safe (r : Rules) (code src : string) :
  rules_safe (with_zone r code src) = rules_safe r.
Proof. reflexivity. Qed.

Lemma table_get_In (tbl : list (string * Rules)) (key : string) (r : Rules) :
  table_get tbl key = Some r -> exists k, In (k, r) tbl.
Proof.
  induction tbl as [|[k v] tbl IH]; [discriminate|]. cbn [table_get].
  destruct (String.eqb k key).
  - intros [= <-]. exists k. left. reflexivity.
  - intros H. destruct (IH H) as [k' Hk']. exists k'. right. exact Hk'.
Qed.

Lemma fuzzy_match_In (tbl : list (string * Rules)) (z k : string) (r : Rules) :
  fuzzy_match tbl z = Some (k, r) -> In (k, r) tbl.
Proof.
  induction tbl as [|[k' v] tbl IH]; [discriminate|]. cbn [fuzzy_match].
  destruct (_ || _).
  - intros [= <- <-]. left. reflexivity.
  - intros H. right. apply IH, H.
Qed.

Lemma table_safe :
  forallb (fun kv => rules_safe (snd kv)) ZONE_RULES = true.
Proof. vm_compute. reflexivity. Qed.

(** The rules the calculator finds for a zone code are safe. *)
Lemma resolved_rules_safe (code : string) :
  rules_safe (rules_for code None) = true.
Proof.
  pose proof table_safe as Hs. rewrite forallb_forall in Hs.
  unfold rules_for, get_zone_rules.
  destruct (table_get ZONE_RULES code) as [r|] eqn:Et.
  - apply table_get_In in Et as [k Hk].
    change (rules_safe (with_zone r code "scc_planning_scheme") = true).
    rewrite with_zone_safe. apply (Hs (k, r) Hk).
  - destruct (fuzzy_match ZONE_RULES (PyStr.lower code)) as [[k r]|] eqn:Ef.
    + apply fuzzy_match_In in Ef.
      change (rules_safe (with_zone r k "scc_planning_scheme_fuzzy") = true).
      rewrite with_zone_safe. apply (Hs (k, r) Ef).
    + vm_compute. reflexivity.
Qed.

Lemma safe_rules_return (a : float) zone rules overlays height :
  positive_finite a ->
  rules_safe (rules_for (zone_code_of zone) rules) = true ->
  exists res,
    calculate_buildability {| area_sqm := Some a |} zone rules overlays height
    = Return (Computed res).
Proof.
  intros Ha Hsafe. pose proof Ha as [Hpos _].
  unfold calculate_buildability.
  set (r := rules_for (zone_code_of zone) rules) in *.
  rewrite (area_of_positive a Hpos), (positive_truthy a Hpos). cbn [negb].
  rewrite (envelope_positive a _ _ _ _ Hpos). cbn [py_bind].
  unfold rules_safe in Hsafe.
  apply andb_true_iff in Hsafe as [Hsafe Hlot].
  apply andb_true_iff in Hsafe as [Hst Hden].
  unfold storeys_ok in Hst.
  destruct (PyNum.float_of_int (storeys_of (max_storeys r))) as [sf|];
    [|discriminate].
  cbn [py_bind].
  destruct (density_ok_returns a _ Ha Hden) as [dw Hdw]. rewrite Hdw.
  cbn [py_bind].
  destruct (lot_ok_returns a _ Ha Hlot) as [nl Hnl]. rewrite Hnl.
  cbn [py_bind]. eexists. reflexivity.
Qed.

Lemma rules_for_resolved (code : string) :
  rules_for code (get_zone_rules code) = rules_for code None.
Proof. unfold rules_for. destruct (get_zone_rules code); reflexivity. Qed.

End ReturnFacts.

(** C10. For every parcel with a positive finite area and every zone,
    with no rules passed or with the rules the routers pass (those of the
    rule table for the zone code), the calculator returns a full result and
    raises nothing. When the zone code resolves to no rules it takes the
    defaults: 50% cover, setbacks 6, 1.5 and 6, no minimum lot size, no
    height limit unless one is passed, and one storey for the floor area;
    one dwelling, no subdivision, a compliant lot. *)
Theorem calculator_total_with_defaults :
  forall (a : float) zone overlays height,
    FloatSpec.positive_finite a ->
    (exists res,
        Buildability.calculate_buildability
          {| Buildability.area_sqm := Some a |} zone None overlays height
        = Return (Buildability.Computed res)
        /\ Buildability.calculate_buildability
             {| Buildability.area_sqm := Some a |} zone
             (Buildability.get_zone_rules (Buildability.zone_code_of zone))
             overlays height
           = Return (Buildability.Computed res))
    /\ (Buildability.get_zone_rules (Buildability.zone_code_of zone) = None ->
        exists env,
          Buildability.envelope a 50 6 1.5 6 = Return env
          /\ Buildability.calculate_buildability
               {| Buildability.area_sqm := Some a |} zone None overlays height
             = Return (Buildability.Computed
                 {| Buildability.Result.zone :=
                      {| Buildability.Result.code :=
                           Buildability.zone_code_of zone;
                         Buildability.Result.category :=
                           Buildability.zone_category_of zone;
                         Buildability.Result.source := "scc_arcgis" |};
                    Buildability.Result.rules :=
                      {| Buildability.Result.max_height_m :=
                           Buildability.opt_truthy height;
                         Buildability.Result.max_storeys := None;
                         Buildability.Result.min_lot_size_sqm := None;
                         Buildability.Result.max_site_cover_pct := 50;
                         Buildability.Result.front_setback_m := 6;
                         Buildability.Result.side_setback_m := 1.5;
                         Buildability.Result.rear_setback_m := 6;
                         Buildability.Result.min_frontage_m := None |};
                    Buildability.Result.buildable_envelope :=
                      {| Buildability.Result.max_footprint_sqm :=
                           PyNum.round1 (Buildability.effective_footprint env);
                         Buildability.Result.max_gfa_sqm :=
                           PyNum.round1
                             (Buildability.effective_footprint env * 1)%float;
                         Buildability.Result.max_dwellings := 1;
                         Buildability.Result.buildable_area_after_setbacks_sqm :=
                           PyNum.round1
                             (Buildability.buildable_area_after_setbacks env) |};
                    Buildability.Result.subdivision :=
                      {| Buildability.Result.can_subdivide := false;
                         Buildability.Result.max_new_lots := 0;
                         Buildability.Result.sub_min_lot_size_sqm := None |};
                    Buildability.Result.uses :=
                      {| Buildability.Result.accepted := [];
                         Buildability.Result.assessable := [] |};
                    Buildability.Result.constraints :=
                      Buildability.overlay_constraints overlays;
                    Buildability.Result.lot_compliance :=
                      {| Buildability.Result.compliant := true;
                         Buildability.Result.issues := [] |};
                    Buildability.Result.disclaimer :=
                      Buildability.DISCLAIMER |})).
Proof.
  intros a zone overlays height Ha. split.
  - destruct (safe_rules_return a zone None overlays height Ha
                (resolved_rules_safe _)) as [res Hres].
    exists res. split; [exact Hres|].
    rewrite <- Hres. unfold Buildability.calculate_buildability.
    rewrite rules_for_resolved. reflexivity.
  - intros Hz. destruct Ha as [Hpos _].
    apply (unresolved_zone_result a zone overlays height Hpos Hz).
Qed.

Lemma calculator_total_with_defaults_witness :
  exists res,
    Buildability.calculate_buildability
      {| Buildability.area_sqm := Some 607.5%float |}
      (Some {| Zone.code := Some "Port Zone"; Zone.category := None;
               Zone.label := None; Zone.description := None |})
      None None (Some 8.5%float)
    = Return (Buildability.Computed res)
    /\ Buildability.calculate_buildability
         {| Buildability.area_sqm := Some 607.5%float |}
         (Some {| Zone.code := Some "Port Zone"; Zone.category := None;
                  Zone.label := None; Zone.description := None |})
         (Buildability.get_zone_rules
            (Buildability.zone_code_of
               (Some {| Zone.code := Some "Port Zone"; Zone.category := None;
                        Zone.label := None; Zone.description := None |})))
         None (Some 8.5%float)
       = Return (Buildability.Computed res).
Proof.
  apply (calculator_total_with_defaults 607.5%float).
  split; vm_compute; reflexivity.
Defined.


(** * Further properties of the code *)

(** ** The rule table *)

Section ZoneRuleFacts.
Import Buildability.

Lemma zone_keys_distinct : NoDup (map fst ZONE_RULES).
Proof. refine (bool_decide_unpack _ _). vm_compute. exact I. Qed.

Lemma table_get_first (tbl : list (string * Rules)) (k : string) (e : Rules) :
  NoDup (map fst tbl) -> In (k, e) tbl -> table_get tbl k = Some e.
Proof.
  induction tbl as [|[k' v] tbl IH]; [intros _ []|].
  cbn [map fst]. intros Hnd Hin. apply NoDup_cons in Hnd as [Hk' Hnd].
  cbn [table_get]. destruct (String.eqb_spec k' k) as [->|Hne].
  - destruct Hin as [[= ->]|Hin]; [reflexivity|].
    exfalso. apply Hk'. apply list_elem_of_In, (in_map fst _ _ Hin).
  - destruct Hin as [[= E _]|Hin]; [contradiction|]. apply IH; assumption.
Qed.

Lemma table_get_key (tbl : list (string * Rules)) (key : string) (r : Rules) :
  table_get tbl key = Some r -> In (key, r) tbl.
Proof.
  induction tbl as [|[k v] tbl IH]; [discriminate|]. cbn [table_get].
  destruct (String.eqb_spec k key) as [->|_].
  - intros [= <-]. left. reflexivity.
  - intros H. right. apply IH, H.
Qed.

Lemma table_get_none (tbl : list (string * Rules)) (key : string) :
  table_get tbl key = None <-> forall k e, In (k, e) tbl -> k <> key.
Proof.
  induction tbl as [|[k v] tbl IH]; [split; [intros _ ? ? []|reflexivity]|].
  cbn [table_get]. destruct (String.eqb_spec k key) as [->|Hne].
  - split; [discriminate|]. intros H. exfalso.
    apply (H key v); [left|]; reflexivity.
  - rewrite IH. split.
    + intros H k' e [[= <- <-]|Hin]; [exact Hne|apply (H k' e Hin)].
    + intros H k' e Hin. apply (H k' e). right. exact Hin.
Qed.

Lemma fuzzy_match_matches (tbl : list (string * Rules)) (z k : string)
    (r : Rules) :
  fuzzy_match tbl z = Some (k, r) ->
  PyStr.contains z (PyStr.lower k) = true
  \/ PyStr.contains (PyStr.lower k) z = true.
Proof.
  induction tbl as [|[k' v] tbl IH]; [discriminate|]. cbn [fuzzy_match].
  destruct (_ || _) eqn:E.
  - intros [= <- <-]. apply orb_true_iff, E.
  - exact IH.
Qed.

Lemma fuzzy_match_none (tbl : list (string * Rules)) (z : string) :
  fuzzy_match tbl z = None <->
  forall k e, In (k, e) tbl ->
    PyStr.contains z (PyStr.lower k) = false
    /\ PyStr.contains (PyStr.lower k) z = false.
Proof.
  induction tbl as [|[k v] tbl IH]; [split; [intros _ ? ? []|reflexivity]|].
  cbn [fuzzy_match]. destruct (_ || _) eqn:E.
  - split; [discriminate|]. intros H. exfalso.
    destruct (H k v) as [H1 H2]; [left; reflexivity|].
    rewrite H1, H2 in E. discriminate.
  - apply orb_false_iff in E. rewrite IH. split.
    + intros H k' e [[= <- <-]|Hin]; [exact E|apply (H k' e Hin)].
    + intros H k' e Hin. apply (H k' e). right. exact Hin.
Qed.

End ZoneRuleFacts.

(** X1. Looking up a key of the rule table gives back the rules of that
    key, tagged with the key and the source "scc_planning_scheme". Whatever
    [get_zone_rules] returns comes from the table: the rules are those of
    one of its entries, tagged with the queried code when the code is a key,
    and otherwise with the key of the entry and the source
    "scc_planning_scheme_fuzzy", the lowered code then being contained in
    the lowered key or containing it. *)
Theorem zone_rules_from_table :
  (forall (k : string) (e : Buildability.Rules),
      In (k, e) Buildability.ZONE_RULES ->
      Buildability.get_zone_rules k
      = Some (Buildability.with_zone e k "scc_planning_scheme"))
  /\ (forall (z : string) (r : Buildability.Rules),
         Buildability.get_zone_rules z = Some r ->
         exists k e,
           In (k, e) Buildability.ZONE_RULES
           /\ (k = z
               /\ r = Buildability.with_zone e k "scc_planning_scheme"
               \/ r = Buildability.with_zone e k "scc_planning_scheme_fuzzy"
                  /\ (PyStr.contains (PyStr.lower z) (PyStr.lower k) = true
                      \/ PyStr.contains (PyStr.lower k) (PyStr.lower z)
                         = true))).
Proof.
  split.
  - intros k e Hin. unfold Buildability.get_zone_rules.
    rewrite (table_get_first _ k e zone_keys_distinct Hin). reflexivity.
  - intros z r. unfold Buildability.get_zone_rules.
    destruct (Buildability.table_get _ z) as [e|] eqn:Et.
    + intros [= <-]. exists z, e. split; [apply table_get_key, Et|].
      left. split; reflexivity.
    + destruct (Buildability.fuzzy_match _ _) as [[k e]|] eqn:Ef;
        [|discriminate].
      intros [= <-]. exists k, e. split; [apply (fuzzy_match_In _ _ _ _ Ef)|].
      right. split; [reflexivity|apply (fuzzy_match_matches _ _ _ _ Ef)].
Qed.

(** The zone "rural" is resolved to the entry "Rural Zone". *)
Lemma zone_rules_from_table_witness :
  exists k e,
    In (k, e) Buildability.ZONE_RULES
    /\ (k = "rural"%string
        /\ Buildability.get_zone_rules "rural"
           = Some (Buildability.with_zone e k "scc_planning_scheme")
        \/ Buildability.get_zone_rules "rural"
           = Some (Buildability.with_zone e k "scc_planning_scheme_fuzzy")
           /\ (PyStr.contains (PyStr.lower "rural") (PyStr.lower k) = true
               \/ PyStr.contains (PyStr.lower k) (PyStr.lower "rural") = true)).
Proof.
  destruct (Buildability.get_zone_rules "rural") as [r|] eqn:E;
    [|vm_compute in E; discriminate].
  destruct (proj2 zone_rules_from_table "rural" r E) as (k & e & Hin & H).
  exists k, e. split; [exact Hin|].
  destruct H as [[Hk ->]|[-> Hc]]; [left|right]; split;
    reflexivity || assumption.
Defined.

(** X2. [get_zone_rules] finds no rules exactly when the code is no key of
    the rule table and, both lowered, the code is contained in no key and
    contains none. The empty code is contained in every key, so it is
    resolved, to the first entry of the table. *)
Theorem zone_rules_unresolved_iff :
  (forall z : string,
      Buildability.get_zone_rules z = None <->
      forall k e, In (k, e) Buildability.ZONE_RULES ->
        k <> z
        /\ PyStr.contains (PyStr.lower z) (PyStr.lower k) = false
        /\ PyStr.contains (PyStr.lower k) (PyStr.lower z) = false)
  /\ (exists e rest,
         Buildability.ZONE_RULES
         = ("Low Density Residential Zone"%string, e) :: rest
         /\ Buildability.get_zone_rules ""
            = Some (Buildability.with_zone e "Low Density Residential Zone"
                      "scc_planning_scheme_fuzzy")).
Proof.
  split.
  - intros z. unfold Buildability.get_zone_rules.
    destruct (Buildability.table_get _ z) as [e|] eqn:Et.
    + split; [discriminate|]. intros H. exfalso.
      apply table_get_key in Et. destruct (H z e Et) as [Hne _].
      apply Hne. reflexivity.
    + rewrite table_get_none in Et.
      destruct (Buildability.fuzzy_match _ _) as [[k e]|] eqn:Ef.
      * split; [discriminate|]. intros H. exfalso.
        pose proof (fuzzy_match_In _ _ _ _ Ef) as Hin.
        destruct (H k e Hin) as (_ & H1 & H2).
        destruct (fuzzy_match_matches _ _ _ _ Ef) as [Hc|Hc];
          congruence.
      * rewrite fuzzy_match_none in Ef. split; [|reflexivity].
        intros _ k e Hin. split; [apply (Et k e Hin)|apply (Ef k e Hin)].
  - eexists. eexists. split; [reflexivity|]. vm_compute. reflexivity.
Qed.


(** ** The calculator on overlays and on negative areas *)

Section OverlayNoteFacts.
Import Buildability OverlaySpec.
Local Open Scope float_scope.

Lemma negative_spec (a : float) :
  (a <? 0) = true ->
  Prim2SF a = S754_infinity true
  \/ exists m e, Prim2SF a = S754_finite true m e.
Proof.
  rewrite FloatAxioms.ltb_spec. change (Prim2SF 0) with (S754_zero false).
  destruct (Prim2SF a) as [s|s| |s m e]; simpl; try discriminate.
  - destruct s; [|discriminate]. left. reflexivity.
  - destruct s; [|discriminate]. right. eauto.
Qed.

Lemma negative_truthy (a : float) : (a <? 0) = true -> PyNum.truthy a = true.
Proof.
  intros H. unfold PyNum.truthy. rewrite FloatAxioms.eqb_spec.
  change (Prim2SF 0) with (S754_zero false).
  destruct (negative_spec a H) as [E|(m & e & E)]; rewrite E; reflexivity.
Qed.

Lemma area_of_negative (a : float) :
  (a <? 0) = true -> area_of {| area_sqm := Some a |} = a.
Proof.
  intros H. unfold area_of. simpl. rewrite (negative_truthy a H). reflexivity.
Qed.

Lemma height_note (cat lname : string) :
  constraint_note cat lname = None
  <-> PyStr.lower cat = "height of buildings and structures"%string.
Proof.
  unfold constraint_note. split.
  - repeat match goal with
           | |- context [if ?b then _ else _] => destruct b eqn:?
           end; try discriminate.
    intros _. apply String.eqb_eq. apply negb_false_iff. assumption.
  - intros ->. vm_compute. reflexivity.
Qed.

Lemma group_notes (cat : string) (layers : list Overlay.layer) :
  length (omap (fun layer => constraint_note cat (layer_name layer)) layers)
  = if String.eqb (PyStr.lower cat) "height of buildings and structures"
    then 0%nat else length layers.
Proof.
  unfold omap.
  induction layers as [|l layers IH];
    [destruct (String.eqb _ _); reflexivity|].
  cbn [list_omap].
  destruct (constraint_note cat (layer_name l)) eqn:E.
  - cbn [length]. rewrite IH.
    destruct (String.eqb_spec (PyStr.lower cat)
                "height of buildings and structures") as [Hh|_];
      [|reflexivity].
    apply (height_note cat (layer_name l)) in Hh. congruence.
  - rewrite IH. apply height_note in E. rewrite E. reflexivity.
Qed.

End OverlayNoteFacts.

(** X3. A negative lot area is not treated as missing: the calculator
    raises [ValueError] (the square root of the area is undefined),
    whatever the zone, the rules, the overlays and the height. *)
Theorem negative_area_raises :
  forall (a : float) zone rules overlays height,
    (a <? 0)%float = true ->
    Buildability.calculate_buildability
      {| Buildability.area_sqm := Some a |} zone rules overlays height
    = Raise ValueError.
Proof.
  intros a zone rules overlays height H.
  unfold Buildability.calculate_buildability.
  rewrite (area_of_negative a H), (negative_truthy a H). cbn [negb].
  unfold Buildability.envelope, PyNum.sqrt. rewrite H. reflexivity.
Qed.

Lemma negative_area_raises_witness :
  Buildability.calculate_buildability
    {| Buildability.area_sqm := Some (-600)%float |}
    (Some {| Zone.code := Some "Rural Zone"; Zone.category := None;
             Zone.label := None; Zone.description := None |})
    None None None
  = Raise ValueError.
Proof. apply negative_area_raises. reflexivity. Defined.

(** X4. The calculator writes exactly one constraint note for every layer
    of every overlay group, except for the layers of a group whose category
    is "Height of Buildings and Structures" in any letter case, for which it
    writes none. *)
Theorem one_note_per_overlay_layer :
  forall overlays : option (list Overlay.group),
    length (Buildability.overlay_constraints overlays)
    = length (OverlaySpec.noted_layers (default [] overlays))
    /\ (Forall (fun g => OverlaySpec.height_group g = true)
          (default [] overlays) ->
        Buildability.overlay_constraints overlays = []).
Proof.
  intros overlays. unfold Buildability.overlay_constraints.
  generalize (default [] overlays) as groups. intros groups.
  assert (Hlen : length
            (flat_map
               (fun group =>
                  omap (fun layer =>
                          Buildability.constraint_note
                            (default EmptyString (Overlay.category group))
                            (Buildability.layer_name layer))
                       (Overlay.layers group)) groups)
          = length (OverlaySpec.noted_layers groups)).
  { unfold OverlaySpec.noted_layers.
    induction groups as [|g groups IH]; [reflexivity|].
    cbn [flat_map List.filter]. rewrite length_app, IH, group_notes.
    unfold OverlaySpec.height_group, OverlaySpec.category_text.
    destruct (String.eqb _ _); cbn [negb flat_map];
      [reflexivity|rewrite length_app; reflexivity]. }
  split; [exact Hlen|].
  intros Hall. apply length_zero_iff_nil. rewrite Hlen. clear Hlen.
  unfold OverlaySpec.noted_layers.
  induction Hall as [|g groups Hg _ IH]; [reflexivity|].
  cbn [List.filter]. rewrite Hg. exact IH.
Qed.

Lemma one_note_per_overlay_layer_witness :
  Buildability.overlay_constraints
    (Some [{| Overlay.category := Some "Height of Buildings and Structures";
              Overlay.layers :=
                [{| Overlay.layer_id := 50; Overlay.name := None;
                    Overlay.label := Some "8.5 metres";
                    Overlay.height_m := Some 8.5%float;
                    Overlay.attributes := None |}] |}])
  = [].
Proof.
  apply (proj2 (one_note_per_overlay_layer _)).
  repeat constructor.
Defined.

(** X5. The calculator and the scorer sort an overlay group by the same
    keywords. The calculator files a layer of the group under "other"
    exactly when the scorer takes no points for the group, or takes only the
    five points for scenic amenity; and the group for which the calculator
    writes no note, the height group, costs no points. *)
Theorem calculator_and_scorer_agree :
  forall (g : Overlay.group) (lname : string),
    match Buildability.constraint_note (OverlaySpec.category_text g) lname with
    | Some n =>
        Buildability.type n = "other"%string
        <-> (AiSummary.overlay_deduction g = None
             \/ AiSummary.overlay_deduction g
                = Some (5, "Scenic amenity (-5)"%string))
    | None => AiSummary.overlay_deduction g = None
    end.
Proof.
  intros g lname.
  unfold Buildability.constraint_note, AiSummary.overlay_deduction,
    OverlaySpec.category_text, Buildability.note.
  set (c := PyStr.lower (default EmptyString (Overlay.category g))).
  set (n := Z.of_nat (length (Overlay.layers g))).
  assert (Hn : 0 <= n) by (subst n; lia).
  assert (Hsome : forall (t : string) (k : Z) (r : string) (x : Buildability.Constraint),
             k <> 5 \/ r <> "Scenic amenity (-5)"%string ->
             Buildability.type x = t -> t <> "other"%string ->
             Buildability.type x = "other"%string
             <-> (Some (k, r) = None
                  \/ Some (k, r) = Some (5, "Scenic amenity (-5)"%string))).
  { intros t k r x Hkr Ht Hne. split; [congruence|].
    intros [E|E]; [discriminate|]. injection E as -> ->.
    destruct Hkr as [Hk|Hr]; [destruct (Hk eq_refl)|destruct (Hr eq_refl)]. }
  destruct (PyStr.contains "bushfire" c);
    [apply (Hsome "bushfire"%string);
     [left; lia|reflexivity|discriminate]|].
  destruct (PyStr.contains "flood" c);
    [apply (Hsome "flood"%string); [left; lia|reflexivity|discriminate]|].
  destruct (PyStr.contains "heritage" c || PyStr.contains "character" c);
    [apply (Hsome "heritage"%string); [left; lia|reflexivity|discriminate]|].
  destruct (PyStr.contains "landslide" c);
    [apply (Hsome "landslide"%string); [left; lia|reflexivity|discriminate]|].
  destruct (PyStr.contains "steep" c || PyStr.contains "slope" c);
    [apply (Hsome "steep_land"%string);
     [left; lia|reflexivity|discriminate]|].
  destruct (PyStr.contains "biodiversity" c || PyStr.contains "waterway" c
            || PyStr.contains "wetland" c);
    [apply (Hsome "biodiversity"%string);
     [left; lia|reflexivity|discriminate]|].
  destruct (PyStr.contains "coastal" c);
    [apply (Hsome "coastal"%string); [left; lia|reflexivity|discriminate]|].
  destruct (PyStr.contains "acid" c);
    [apply (Hsome "acid_sulfate"%string);
     [right; discriminate|reflexivity|discriminate]|].
  destruct (String.eqb_spec c "height of buildings and structures")
    as [->|_]; cbn [negb].
  - reflexivity.
  - destruct (PyStr.contains "scenic" c); split; auto.
Qed.


(** ** The application history *)

Section HistoryFacts.
Import DaSpec.

Lemma lstrip_head (s : string) :
  match PyStr.lstrip s with
  | String c _ => PyStr.isspace c = false
  | EmptyString => True
  end.
Proof.
  induction s as [|c s IH]; [exact I|]. cbn [PyStr.lstrip].
  destruct (PyStr.isspace c) eqn:E; [exact IH|exact E].
Qed.

Lemma rstrip_idem (s : string) : PyStr.rstrip (PyStr.rstrip s) = PyStr.rstrip s.
Proof.
  induction s as [|c s IH]; [reflexivity|]. cbn [PyStr.rstrip].
  destruct (PyStr.rstrip s) as [|d r] eqn:E.
  - destruct (PyStr.isspace c) eqn:Ec; [reflexivity|].
    cbn [PyStr.rstrip]. rewrite Ec. reflexivity.
  - cbn [PyStr.rstrip]. cbn [PyStr.rstrip] in IH. rewrite IH. reflexivity.
Qed.

Lemma rstrip_head (c : ascii) (s : string) :
  PyStr.isspace c = false ->
  exists r, PyStr.rstrip (String c s) = String c r.
Proof.
  intros Hc. cbn [PyStr.rstrip].
  destruct (PyStr.rstrip s); [rewrite Hc|]; eauto.
Qed.

Lemma strip_trimmed (s : string) : trimmed (PyStr.strip s).
Proof.
  unfold trimmed, PyStr.strip. pose proof (lstrip_head s) as Hh.
  destruct (PyStr.lstrip s) as [|c u]; [reflexivity|].
  destruct (rstrip_head c u Hh) as [r Er]. rewrite Er.
  assert (El : PyStr.lstrip (String c r) = String c r)
    by (cbn [PyStr.lstrip]; rewrite Hh; reflexivity).
  rewrite El, <- Er. apply rstrip_idem.
Qed.

Lemma stripped_trimmed (t : text) (s : string) :
  DaHistory.stripped t = Return s -> trimmed s.
Proof.
  destruct t; cbn [DaHistory.stripped]; intros [= <-];
    [reflexivity|apply strip_trimmed].
Qed.

Lemma process_feature_clean strftime (feat : DaHistory.feature) (da : Da.t) :
  DaHistory.process_feature strftime feat = Return (Some da) ->
  identified da /\ clean da.
Proof.
  unfold DaHistory.process_feature.
  destruct (DaHistory.stripped (DaHistory.description feat)) as [x1|] eqn:E1;
    [|discriminate].
  destruct (DaHistory.stripped (DaHistory.category_desc feat)) as [x2|] eqn:E2;
    [|discriminate].
  destruct (DaHistory.stripped (DaHistory.decision feat)) as [x3|] eqn:E3;
    [|discriminate].
  destruct (DaHistory.stripped (DaHistory.progress feat)) as [x4|] eqn:E4;
    [|discriminate].
  destruct (DaHistory.stripped (DaHistory.assessment_level feat)) as [x5|]
    eqn:E5; [|discriminate].
  cbn [py_bind].
  destruct (DaHistory._format_date strftime (DaHistory.d_date_rec feat))
    as [d1|]; [|discriminate].
  destruct (DaHistory._format_date strftime (DaHistory.d_decision_made feat))
    as [d2|]; [|discriminate].
  destruct (DaHistory.stripped (DaHistory.land_parcel_relationship feat))
    as [x6|] eqn:E6; [|discriminate].
  cbn [py_bind Da.ram_id Da.description].
  destruct (negb (ident_truthy (DaHistory.ram_id feat))
            && negb (PyStr.nonempty x1)) eqn:Ek; [discriminate|].
  intros [= <-]. split.
  - unfold identified. cbn [Da.ram_id Da.description].
    apply andb_false_iff in Ek as [Ek|Ek]; apply negb_false_iff in Ek.
    + left. exact Ek.
    + right. intros ->. discriminate.
  - unfold clean. cbn.
    repeat split; eauto using stripped_trimmed.
Qed.

Lemma process_features_clean strftime (feats : list DaHistory.feature) :
  forall das,
    DaHistory._process_da_features strftime feats = Return das ->
    (length das <= length feats)%nat
    /\ Forall identified das /\ Forall clean das.
Proof.
  induction feats as [|feat feats IH]; intros das.
  - intros [= <-]. repeat constructor.
  - cbn [DaHistory._process_da_features].
    destruct (DaHistory.process_feature strftime feat) as [o|] eqn:Ef;
      [|discriminate].
    destruct (DaHistory._process_da_features strftime feats) as [rest|];
      [|discriminate].
    cbn [py_bind]. destruct (IH rest eq_refl) as (Hl & Hi & Hc).
    destruct o as [da|]; intros [= <-].
    + destruct (process_feature_clean _ _ _ Ef) as [Hid Hcl].
      cbn [length]. repeat split; [lia|constructor; assumption..].
    + cbn [length]. repeat split; [lia|assumption..].
Qed.

End HistoryFacts.

(** X6. Whenever [_process_da_features] returns, it returns no more
    applications than it was given features; every application it returns
    has a case identifier that counts as one, or a description that is not
    empty; and its description, category, decision, progress, assessment
    level and parcel relationship are present and carry no white space at
    either end. *)
Theorem processed_applications_are_clean :
  forall strftime (feats : list DaHistory.feature) (das : list Da.t),
    DaHistory._process_da_features strftime feats = Return das ->
    (length das <= length feats)%nat
    /\ Forall DaSpec.identified das
    /\ Forall DaSpec.clean das.
Proof. intros strftime feats das. apply process_features_clean. Qed.

Lemma processed_applications_are_clean_witness :
  (length
     [{| Da.ram_id := IntId 7; Da.description := "Dwelling house";
         Da.category := Some ""; Da.decision := Some "Approved";
         Da.progress := Some ""; Da.assessment_level := "";
         Da.date_received := None; Da.date_decided := None;
         Da.land_parcel_relationship := "" |}] <= 2)%nat
  /\ Forall DaSpec.identified
       [{| Da.ram_id := IntId 7; Da.description := "Dwelling house";
           Da.category := Some ""; Da.decision := Some "Approved";
           Da.progress := Some ""; Da.assessment_level := "";
           Da.date_received := None; Da.date_decided := None;
           Da.land_parcel_relationship := "" |}]
  /\ Forall DaSpec.clean
       [{| Da.ram_id := IntId 7; Da.description := "Dwelling house";
           Da.category := Some ""; Da.decision := Some "Approved";
           Da.progress := Some ""; Da.assessment_level := "";
           Da.date_received := None; Da.date_decided := None;
           Da.land_parcel_relationship := "" |}].
Proof.
  apply (processed_applications_are_clean (fun _ => Raise ValueError)
           [{| DaHistory.ram_id := IntId 7;
               DaHistory.description := Text "  Dwelling house ";
               DaHistory.category_desc := Absent;
               DaHistory.decision := Text "Approved ";
               DaHistory.progress := Absent;
               DaHistory.assessment_level := Absent;
               DaHistory.d_date_rec := None;
               DaHistory.d_decision_made := None;
               DaHistory.land_parcel_relationship := Absent |};
            {| DaHistory.ram_id := IntId 0;
               DaHistory.description := Text "   ";
               DaHistory.category_desc := Text "Building";
               DaHistory.decision := Absent;
               DaHistory.progress := Absent;
               DaHistory.assessment_level := Absent;
               DaHistory.d_date_rec := None;
               DaHistory.d_decision_made := None;
               DaHistory.land_parcel_relationship := Absent |}]).
  vm_compute. reflexivity.
Defined.

Section HistoryCountFacts.
Import DaSpec.

Lemma head_decimal_app (s t : string) :
  head_decimal s = true -> head_decimal (s +:+ t) = true.
Proof. destruct s; [discriminate|]. rewrite append_cons. exact id. Qed.

Lemma str_of_int_head (n : Z) : 0 <= n -> head_decimal (PyStr.str_of_int n) = true.
Proof.
  intros Hn. pose proof (str_of_nonneg_chars n Hn) as Hall.
  assert (Hne : PyStr.str_of_int n <> EmptyString).
  { unfold PyStr.str_of_int. destruct n as [|p|p]; [discriminate| |lia].
    simpl. pose proof (DecimalPos.Unsigned.to_uint_nonnil p) as Hp.
    rewrite nilzero_string by exact Hp.
    destruct (Pos.to_uint p); [congruence|discriminate..]. }
  destruct (PyStr.str_of_int n) as [|c s]; [congruence|].
  cbn [StrSpec.all] in Hall. apply andb_true_iff in Hall as [Hc _]. exact Hc.
Qed.

Lemma build_summary_head (n m k : Z) :
  0 <= n -> 0 <= m -> n + m <> 0 ->
  head_decimal (DaHistory._build_summary n m k) = true.
Proof.
  intros Hn Hm Hnm. unfold DaHistory._build_summary.
  assert (Hhead : forall parts : string,
             head_decimal parts = true ->
             head_decimal
               (if k >? 0
                then parts +:+ " (" +:+ PyStr.str_of_int k +:+ " in progress)"
                else parts) = true).
  { intros parts Hp. destruct (k >? 0); [apply head_decimal_app|]; exact Hp. }
  destruct (Z.eqb_spec n 0) as [->|Hn0]; cbn [andb].
  - destruct (Z.eqb_spec m 0) as [->|Hm0]; [lia|].
    replace (0 >? 0) with false by reflexivity.
    replace (m >? 0) with true by (symmetry; apply Z.gtb_lt; lia).
    cbn [app PyStr.join]. apply Hhead, head_decimal_app, str_of_int_head, Hm.
  - replace (n >? 0) with true by (symmetry; apply Z.gtb_lt; lia).
    destruct (m >? 0); cbn [app PyStr.join]; apply Hhead;
      repeat apply head_decimal_app; apply str_of_int_head, Hn.
Qed.

Lemma count_in_progress_bounds (das : list Da.t) :
  0 <= DaHistory.count_in_progress das <= Z.of_nat (length das).
Proof.
  unfold DaHistory.count_in_progress. split; [lia|].
  apply inj_le. induction das as [|d das IH]; [reflexivity|].
  cbn [List.filter]. destruct (DaHistory._is_in_progress d); cbn [length]; lia.
Qed.

(** What a returned history is made of: the four processed lists. *)
Lemma history_shape strftime (fetch : Z -> Z -> response DaHistory.feature)
    lot_plan (h : DaHistory.History) :
  DaHistory.get_da_history strftime fetch lot_plan = Return h ->
  exists on_das on_bld near_das near_bld,
    DaHistory._process_da_features strftime
      (DaHistory._query_da_layer (fetch DaHistory.DA_IN_PROGRESS 50)
       ++ DaHistory._query_da_layer (fetch DaHistory.DA_DECIDED_PAST 50))
    = Return on_das
    /\ DaHistory._process_da_features strftime
         (DaHistory._query_da_layer (fetch DaHistory.BUILDING_IN_PROGRESS 50)
          ++ DaHistory._query_da_layer
               (fetch DaHistory.BUILDING_DECIDED_PAST 50))
       = Return on_bld
    /\ DaHistory._process_da_features strftime
         (DaHistory._query_da_layer (fetch DaHistory.DA_IN_PROGRESS 500)
          ++ DaHistory._query_da_layer (fetch DaHistory.DA_DECIDED_PAST 500))
       = Return near_das
    /\ DaHistory._process_da_features strftime
         (DaHistory._query_da_layer (fetch DaHistory.BUILDING_IN_PROGRESS 500)
          ++ DaHistory._query_da_layer
               (fetch DaHistory.BUILDING_DECIDED_PAST 500))
       = Return near_bld
    /\ DaHistory.on_parcel h = on_das ++ on_bld
    /\ DaHistory.nearby h
       = List.filter
           (fun da =>
              negb (bool_decide
                      (Da.ram_id da
                       ∈ (list_to_set
                            (List.filter ident_truthy
                               (map Da.ram_id (on_das ++ on_bld)))
                          : gset ident))))
           (near_das ++ near_bld)
    /\ DaHistory.on_parcel_count h = Z.of_nat (length (DaHistory.on_parcel h))
    /\ DaHistory.nearby_count h = Z.of_nat (length (DaHistory.nearby h))
    /\ DaHistory.total_count h
       = DaHistory.on_parcel_count h + DaHistory.nearby_count h
    /\ DaHistory.on_parcel_in_progress h
       = DaHistory.count_in_progress (DaHistory.on_parcel h)
    /\ DaHistory.nearby_in_progress h
       = DaHistory.count_in_progress (DaHistory.nearby h)
    /\ DaHistory.total_in_progress h
       = DaHistory.on_parcel_in_progress h + DaHistory.nearby_in_progress h
    /\ DaHistory.portal_link h = DaHistory.make_portal_link lot_plan
    /\ DaHistory.summary h
       = DaHistory._build_summary (DaHistory.on_parcel_count h)
           (DaHistory.nearby_count h) (DaHistory.total_in_progress h).
Proof.
  intros Hh. unfold DaHistory.get_da_history in Hh.
  destruct (DaHistory._process_da_features strftime
              (DaHistory._query_da_layer (fetch DaHistory.DA_IN_PROGRESS 50)
               ++ _)) as [on_das|] eqn:E1; [|discriminate].
  destruct (DaHistory._process_da_features strftime
              (DaHistory._query_da_layer
                 (fetch DaHistory.BUILDING_IN_PROGRESS 50) ++ _))
    as [on_bld|] eqn:E2; [|discriminate].
  destruct (DaHistory._process_da_features strftime
              (DaHistory._query_da_layer (fetch DaHistory.DA_IN_PROGRESS 500)
               ++ _)) as [near_das|] eqn:E3; [|discriminate].
  destruct (DaHistory._process_da_features strftime
              (DaHistory._query_da_layer
                 (fetch DaHistory.BUILDING_IN_PROGRESS 500) ++ _))
    as [near_bld|] eqn:E4; [|discriminate].
  cbn [py_bind] in Hh. injection Hh as <-.
  exists on_das, on_bld, near_das, near_bld.
  repeat (split; [reflexivity|]). reflexivity.
Qed.

End HistoryCountFacts.

(** X7. In every history [get_da_history] returns the counts agree with
    the lists: each count is the length of its list and the total is their
    sum; the applications in progress are counted among those of their list,
    so there are never more of them than applications, on the parcel, nearby
    and in total; and the summary reads "No development applications found
    in area" exactly when both lists are empty, and starts with a number
    otherwise. *)
Theorem history_counts_are_consistent :
  forall strftime (fetch : Z -> Z -> response DaHistory.feature) lot_plan
         (h : DaHistory.History),
    DaHistory.get_da_history strftime fetch lot_plan = Return h ->
    DaHistory.on_parcel_count h = Z.of_nat (length (DaHistory.on_parcel h))
    /\ DaHistory.nearby_count h = Z.of_nat (length (DaHistory.nearby h))
    /\ DaHistory.total_count h
       = DaHistory.on_parcel_count h + DaHistory.nearby_count h
    /\ 0 <= DaHistory.on_parcel_in_progress h <= DaHistory.on_parcel_count h
    /\ 0 <= DaHistory.nearby_in_progress h <= DaHistory.nearby_count h
    /\ 0 <= DaHistory.total_in_progress h <= DaHistory.total_count h
    /\ (DaHistory.summary h
        = "No development applications found in area"%string
        <-> DaHistory.on_parcel h = [] /\ DaHistory.nearby h = [])
    /\ (DaHistory.total_count h <> 0 ->
        DaSpec.head_decimal (DaHistory.summary h) = true).
Proof.
  intros strftime fetch lot_plan h Hh.
  destruct (history_shape _ _ _ _ Hh)
    as (on_das & on_bld & near_das & near_bld & _ & _ & _ & _ & _ & _
        & Hc1 & Hc2 & Hc3 & Hp1 & Hp2 & Hp3 & _ & Hs).
  pose proof (count_in_progress_bounds (DaHistory.on_parcel h)) as B1.
  pose proof (count_in_progress_bounds (DaHistory.nearby h)) as B2.
  rewrite <- Hp1, <- Hc1 in B1. rewrite <- Hp2, <- Hc2 in B2.
  assert (Hhead : DaHistory.total_count h <> 0 ->
                  DaSpec.head_decimal (DaHistory.summary h) = true).
  { intros Hne. rewrite Hs. apply build_summary_head; lia. }
  do 6 (split; [lia|]). split; [|exact Hhead]. split.
  - intros Hsum.
    destruct (Z.eq_dec (DaHistory.total_count h) 0) as [Hz|Hnz].
    + split; apply length_zero_iff_nil; lia.
    + apply Hhead in Hnz. rewrite Hsum in Hnz. discriminate.
  - intros [Ho Hn]. rewrite Hs, Hc1, Hc2, Ho, Hn. reflexivity.
Qed.

Lemma history_counts_are_consistent_witness :
  exists h,
    DaHistory.get_da_history (fun _ => Raise ValueError)
      (fun lid distance : Z =>
         if (lid =? 0) && (distance =? 500)
         then Json (Some [{| DaHistory.ram_id := IntId 7;
                             DaHistory.description := Text "Dual occupancy";
                             DaHistory.category_desc := Absent;
                             DaHistory.decision := Absent;
                             DaHistory.progress := Text "In Progress";
                             DaHistory.assessment_level := Absent;
                             DaHistory.d_date_rec := None;
                             DaHistory.d_decision_made := None;
                             DaHistory.land_parcel_relationship := Absent |}])
         else Json None)
      None = Return h
    /\ DaHistory.total_count h = 1
    /\ 0 <= DaHistory.total_in_progress h <= DaHistory.total_count h
    /\ DaSpec.head_decimal (DaHistory.summary h) = true.
Proof.
  eexists. split; [vm_compute; reflexivity|].
  split; [reflexivity|].
  match goal with
  | |- (0 <= DaHistory.total_in_progress ?h <= _) /\ _ =>
      pose proof (history_counts_are_consistent (fun _ => Raise ValueError)
                    (fun lid distance : Z =>
                       if (lid =? 0) && (distance =? 500)
                       then Json (Some [{| DaHistory.ram_id := IntId 7;
                                           DaHistory.description :=
                                             Text "Dual occupancy";
                                           DaHistory.category_desc := Absent;
                                           DaHistory.decision := Absent;
                                           DaHistory.progress :=
                                             Text "In Progress";
                                           DaHistory.assessment_level := Absent;
                                           DaHistory.d_date_rec := None;
                                           DaHistory.d_decision_made := None;
                                           DaHistory.land_parcel_relationship :=
                                             Absent |}])
                       else Json None)
                    None h ltac:(vm_compute; reflexivity))
        as (_ & _ & _ & _ & _ & Ht & _ & Hd)
  end.
  split; [exact Ht|]. apply Hd. discriminate.
Defined.

(** X8. Removing duplicates from the nearby applications removes nothing
    else. In a returned history the on-parcel list holds every processed
    on-parcel application, and a processed nearby application is in the
    nearby list exactly when no on-parcel application has the same case
    identifier counting as one. *)
Theorem nearby_drops_only_duplicates :
  forall strftime (fetch : Z -> Z -> response DaHistory.feature) lot_plan
         (h : DaHistory.History) (on_das on_bld near_das near_bld : list Da.t),
    DaHistory.get_da_history strftime fetch lot_plan = Return h ->
    DaHistory._process_da_features strftime
      (DaHistory._query_da_layer (fetch DaHistory.DA_IN_PROGRESS 50)
       ++ DaHistory._query_da_layer (fetch DaHistory.DA_DECIDED_PAST 50))
    = Return on_das ->
    DaHistory._process_da_features strftime
      (DaHistory._query_da_layer (fetch DaHistory.BUILDING_IN_PROGRESS 50)
       ++ DaHistory._query_da_layer (fetch DaHistory.BUILDING_DECIDED_PAST 50))
    = Return on_bld ->
    DaHistory._process_da_features strftime
      (DaHistory._query_da_layer (fetch DaHistory.DA_IN_PROGRESS 500)
       ++ DaHistory._query_da_layer (fetch DaHistory.DA_DECIDED_PAST 500))
    = Return near_das ->
    DaHistory._process_da_features strftime
      (DaHistory._query_da_layer (fetch DaHistory.BUILDING_IN_PROGRESS 500)
       ++ DaHistory._query_da_layer (fetch DaHistory.BUILDING_DECIDED_PAST 500))
    = Return near_bld ->
    DaHistory.on_parcel h = on_das ++ on_bld
    /\ (forall d : Da.t,
           In d (DaHistory.nearby h)
           <-> In d (near_das ++ near_bld)
               /\ ~ DaSpec.same_case_in (DaHistory.on_parcel h) d).
Proof.
  intros strftime fetch lot_plan h on_das on_bld near_das near_bld Hh
    E1 E2 E3 E4.
  destruct (history_shape _ _ _ _ Hh)
    as (a & b & c & d' & F1 & F2 & F3 & F4 & Hon & Hnear & _).
  rewrite E1 in F1. rewrite E2 in F2. rewrite E3 in F3. rewrite E4 in F4.
  injection F1 as <-. injection F2 as <-. injection F3 as <-.
  injection F4 as <-.
  split; [exact Hon|]. intros d. rewrite Hnear, Hon, filter_In.
  apply and_iff_compat_l. rewrite negb_true_iff, bool_decide_eq_false.
  unfold DaSpec.same_case_in. split.
  - intros Hnot (on & Hin & Ht & Heq). apply Hnot. rewrite <- Heq.
    apply on_parcel_ids_complete; assumption.
  - intros Hnot Hel. apply Hnot.
    apply elem_of_list_to_set, list_elem_of_In, filter_In in Hel as [Hm Ht].
    apply in_map_iff in Hm as (on & Heq & Hin). exists on.
    rewrite Heq. repeat split; assumption.
Qed.

Lemma nearby_drops_only_duplicates_witness :
  let app (n : Z) :=
    {| DaHistory.ram_id := IntId n;
       DaHistory.description := Text "Dwelling house";
       DaHistory.category_desc := Text "Building";
       DaHistory.decision := Text "Approved";
       DaHistory.progress := Text "Decided";
       DaHistory.assessment_level := Absent;
       DaHistory.d_date_rec := None;
       DaHistory.d_decision_made := None;
       DaHistory.land_parcel_relationship := Absent |} in
  let da (n : Z) :=
    {| Da.ram_id := IntId n; Da.description := "Dwelling house";
       Da.category := Some "Building"; Da.decision := Some "Approved";
       Da.progress := Some "Decided"; Da.assessment_level := "";
       Da.date_received := None; Da.date_decided := None;
       Da.land_parcel_relationship := "" |} in
  let fetch (lid distance : Z) :=
    if (lid =? 1) && (distance =? 50) then Json (Some [app 7])
    else if (lid =? 1) && (distance =? 500) then Json (Some [app 7; app 8])
         else Json None in
  exists h,
    DaHistory.get_da_history (fun _ => Raise ValueError) fetch None = Return h
    /\ DaHistory.on_parcel h = [da 7] ++ []
    /\ (forall d : Da.t,
           In d (DaHistory.nearby h)
           <-> In d ([da 7; da 8] ++ [])
               /\ ~ DaSpec.same_case_in (DaHistory.on_parcel h) d).
Proof.
  intros app da fetch. eexists. split; [vm_compute; reflexivity|].
  apply (nearby_drops_only_duplicates (fun _ => Raise ValueError) fetch None _
           [da 7] [] [da 7; da 8] []);
    vm_compute; reflexivity.
Defined.

(** ** Lot and plan references *)

Section LotPlanFacts.

Lemma contains_cons_false (n : string) (c : ascii) (s : string) :
  PyStr.contains n (String c s) = false ->
  String.prefix n (String c s) = false /\ PyStr.contains n s = false.
Proof. cbn [PyStr.contains]. apply orb_false_iff. Qed.

Lemma split_once_none (sep s : string) :
  PyStr.contains sep s = false -> PyStr.split_once sep s = None.
Proof.
  induction s as [|c s IH]; [reflexivity|].
  intros H. apply contains_cons_false in H as [Hp Hc].
  cbn [PyStr.split_once]. rewrite Hp, (IH Hc). reflexivity.
Qed.

Lemma split_once_first (lot rest : string) :
  PyStr.contains "/" lot = false ->
  PyStr.split_once "/" (lot +:+ "/" +:+ rest) = Some (lot, rest).
Proof.
  induction lot as [|c lot IH]; intros H.
  - rewrite append_nil, append_cons, append_nil.
    cbn [PyStr.split_once String.prefix String.length PyStr.drop].
    destruct (ascii_dec "/" "/"); [destruct rest; reflexivity|congruence].
  - apply contains_cons_false in H as [Hp Hc].
    rewrite append_cons. cbn [PyStr.split_once].
    assert (Hp' : String.prefix "/" (String c (lot +:+ "/" +:+ rest)) = false).
    { cbn [String.prefix] in Hp |- *.
      destruct (ascii_dec "/" c); [|reflexivity].
      destruct lot; discriminate. }
    rewrite Hp', (IH Hc). reflexivity.
Qed.

Lemma replace_absent (old new s : string) :
  PyStr.contains old s = false -> PyStr.replace old new s = s.
Proof.
  unfold PyStr.replace. induction s as [|c s IH]; [reflexivity|].
  intros H. apply contains_cons_false in H as [Hp Hc].
  cbn [PyStr.replace_from]. rewrite Hp, (IH Hc). reflexivity.
Qed.

Lemma replace_leading (a b : ascii) (new s : string) :
  PyStr.replace (String a (String b "")) new (String a (String b s))
  = new +:+ PyStr.replace (String a (String b "")) new s.
Proof.
  assert (Hp : String.prefix (String a (String b "")) (String a (String b s))
               = true).
  { cbn [String.prefix]. destruct (ascii_dec a a); [|congruence].
    destruct (ascii_dec b b); [|congruence]. destruct s; reflexivity. }
  unfold PyStr.replace.
  change (PyStr.replace_from (String a (String b "")) new 0
            (String a (String b s)))
    with (if String.prefix (String a (String b "")) (String a (String b s))
          then new +:+ PyStr.replace_from (String a (String b "")) new 0 s
          else String a
                 (PyStr.replace_from (String a (String b "")) new 0
                    (String b s))).
  rewrite Hp. reflexivity.
Qed.

Lemma digits_without (x : ascii) (n : string) :
  PyStr.isdecimal x = false ->
  StrSpec.all PyStr.isdecimal n = true -> StrSpec.all (StrSpec.is_not x) n = true.
Proof.
  intros Hx. apply all_impl. intros c Hc. unfold StrSpec.is_not.
  destruct (Ascii.eqb_spec c x) as [->|_]; [congruence|reflexivity].
Qed.

Lemma plan_number_cleaned (n : string) :
  StrSpec.all PyStr.isdecimal n = true ->
  PyStr.replace "SP" "" (PyStr.replace "RP" "" n) = n
  /\ PyStr.replace "SP" "" (PyStr.replace "RP" "" ("RP" +:+ n)) = n
  /\ PyStr.replace "SP" "" (PyStr.replace "RP" "" ("SP" +:+ n)) = n.
Proof.
  intros Hn.
  assert (HR : PyStr.contains "RP" n = false)
    by (apply contains_without, digits_without; [reflexivity|exact Hn]).
  assert (HS : PyStr.contains "SP" n = false)
    by (apply contains_without, digits_without; [reflexivity|exact Hn]).
  assert (HRn : PyStr.replace "RP" "" n = n) by (apply replace_absent, HR).
  assert (HSn : PyStr.replace "SP" "" n = n) by (apply replace_absent, HS).
  split; [rewrite HRn; exact HSn|]. split.
  - assert (E : PyStr.replace "RP" "" ("RP" +:+ n) = n).
    { rewrite !append_cons, append_nil, replace_leading, append_nil.
      exact HRn. }
    rewrite E. exact HSn.
  - assert (E : PyStr.replace "RP" "" ("SP" +:+ n) = ("SP" +:+ n)%string).
    { apply replace_absent. rewrite !append_cons, append_nil.
      cbn [PyStr.contains]. rewrite HR.
      assert (Hp : forall u, String.prefix "RP" (String "P" u) = false)
        by reflexivity.
      rewrite Hp. reflexivity. }
    rewrite E, !append_cons, append_nil, replace_leading, append_nil.
    exact HSn.
Qed.

End LotPlanFacts.

(** X9. The link to the application portal. Without a lot and plan
    reference, or with one that has no "/", there is no link. For a
    reference "lot/plan" whose lot has no "/" and whose plan mentions
    neither "RP" nor "SP" the link is the portal address followed by the
    reference as it is; for a plan "RP" or "SP" followed by digits the link
    carries the digits alone. *)
Theorem portal_link_of_reference :
  DaHistory.make_portal_link None = None
  /\ (forall lot_plan : string,
         PyStr.contains "/" lot_plan = false ->
         DaHistory.make_portal_link (Some lot_plan) = None)
  /\ (forall lot plan : string,
         PyStr.contains "/" lot = false ->
         PyStr.contains "RP" plan = false ->
         PyStr.contains "SP" plan = false ->
         DaHistory.make_portal_link (Some (lot +:+ "/" +:+ plan))
         = Some ("https://developmenti.sunshinecoast.qld.gov.au/Home/FilterDirect?LotPlan="
                 +:+ lot +:+ "/" +:+ plan))
  /\ (forall lot n : string,
         PyStr.contains "/" lot = false ->
         StrSpec.all PyStr.isdecimal n = true ->
         DaHistory.make_portal_link (Some (lot +:+ "/" +:+ "RP" +:+ n))
         = Some ("https://developmenti.sunshinecoast.qld.gov.au/Home/FilterDirect?LotPlan="
                 +:+ lot +:+ "/" +:+ n)
         /\ DaHistory.make_portal_link (Some (lot +:+ "/" +:+ "SP" +:+ n))
            = Some ("https://developmenti.sunshinecoast.qld.gov.au/Home/FilterDirect?LotPlan="
                    +:+ lot +:+ "/" +:+ n)).
Proof.
  split; [reflexivity|]. split; [|split].
  - intros lot_plan H. unfold DaHistory.make_portal_link.
    rewrite (split_once_none _ _ H). reflexivity.
  - intros lot plan Hl HR HS. unfold DaHistory.make_portal_link.
    rewrite (split_once_first lot plan Hl).
    rewrite (replace_absent "RP" "" plan HR), (replace_absent "SP" "" plan HS).
    reflexivity.
  - intros lot n Hl Hn. destruct (plan_number_cleaned n Hn) as (_ & ER & ES).
    unfold DaHistory.make_portal_link.
    rewrite !(split_once_first lot _ Hl), ER, ES. split; reflexivity.
Qed.

Lemma portal_link_of_reference_witness :
  DaHistory.make_portal_link (Some "12RP901532") = None
  /\ DaHistory.make_portal_link (Some "12/BUP4077")
     = Some "https://developmenti.sunshinecoast.qld.gov.au/Home/FilterDirect?LotPlan=12/BUP4077"
  /\ DaHistory.make_portal_link (Some "12/RP901532")
     = Some "https://developmenti.sunshinecoast.qld.gov.au/Home/FilterDirect?LotPlan=12/901532".
Proof.
  destruct portal_link_of_reference as (_ & H1 & H2 & H3).
  split; [apply H1; reflexivity|]. split.
  - apply (H2 "12" "BUP4077"); reflexivity.
  - apply (H3 "12" "901532"); reflexivity.
Defined.


(** ** The categories of the precedent analysis *)

Section CategoryFacts.
Import AiSummary CategorySpec.

Lemma category_count_snoc (c : string) (l : list Da.t) (d : Da.t) :
  category_count c (l ++ [d])
  = category_count c l + (if String.eqb (category_of d) c then 1 else 0).
Proof.
  unfold category_count. rewrite List.filter_app, length_app. cbn [List.filter].
  destruct (String.eqb (category_of d) c); cbn [length]; lia.
Qed.

Lemma category_count_nonneg (c : string) (l : list Da.t) :
  0 <= category_count c l.
Proof. unfold category_count. lia. Qed.

Lemma bump_keys (cs : list (string * Z)) (k : string) :
  (In k (map fst cs) /\ map fst (bump cs k) = map fst cs)
  \/ (~ In k (map fst cs) /\ map fst (bump cs k) = map fst cs ++ [k]).
Proof.
  induction cs as [|[c n] cs IH]; [right; split; [intros []|reflexivity]|].
  cbn [bump map fst]. destruct (String.eqb_spec c k) as [->|Hne].
  - left. split; [left; reflexivity|reflexivity].
  - destruct IH as [[Hin E]|[Hnin E]]; [left|right]; cbn [map fst];
      rewrite E; (split; [|reflexivity]).
    + right. exact Hin.
    + intros [H|H]; [exact (Hne H)|exact (Hnin H)].
Qed.

Lemma bump_NoDup (cs : list (string * Z)) (k : string) :
  NoDup (map fst cs) -> NoDup (map fst (bump cs k)).
Proof.
  intros Hnd. destruct (bump_keys cs k) as [[_ ->]|[Hnin ->]]; [exact Hnd|].
  apply NoDup_app. split; [exact Hnd|]. split; [|apply NoDup_singleton].
  intros x Hx Hk. apply list_elem_of_singleton in Hk as ->.
  apply Hnin, list_elem_of_In, Hx.
Qed.

Lemma bump_In (cs : list (string * Z)) (k c : string) (n : Z) :
  NoDup (map fst cs) ->
  In (c, n) (bump cs k)
  <-> (c <> k /\ In (c, n) cs)
      \/ (c = k /\ ((exists m, In (k, m) cs /\ n = m + 1)
                     \/ (~ In k (map fst cs) /\ n = 1))).
Proof.
  induction cs as [|[c' m] cs IH]; intros Hnd.
  - cbn [bump In map]. split.
    + intros [[= <- <-]|[]]. right. split; [reflexivity|].
      right. split; [intros []|reflexivity].
    + intros [[_ []]|[-> [(m & [] & _)|[_ ->]]]]. left. reflexivity.
  - cbn [map fst] in Hnd. apply NoDup_cons in Hnd as [Hc' Hnd].
    specialize (IH Hnd). cbn [bump].
    destruct (String.eqb_spec c' k) as [->|Hne].
    + cbn [In map fst]. split.
      * intros [[= <- <-]|Hin].
        -- right. split; [reflexivity|]. left. exists m.
           split; [left|]; reflexivity.
        -- left. split; [|right; exact Hin]. intros ->. apply Hc'.
           apply list_elem_of_In, (in_map fst _ _ Hin).
      * intros [[Hck [[= E _]|Hin]]|[-> [(m' & [[= <-]|Hin] & ->)|[Hnin _]]]].
        -- congruence.
        -- right. exact Hin.
        -- left. reflexivity.
        -- exfalso. apply Hc'.
           apply list_elem_of_In, (in_map fst _ _ Hin).
        -- exfalso. apply Hnin. left. reflexivity.
    + cbn [In map fst]. rewrite IH. split.
      * intros [[= <- <-]|[[Hck Hin]|[-> H]]].
        -- left. split; [exact Hne|left; reflexivity].
        -- left. split; [exact Hck|right; exact Hin].
        -- right. split; [reflexivity|].
           destruct H as [(m' & Hin & ->)|[Hnin ->]].
           ++ left. exists m'. split; [right; exact Hin|reflexivity].
           ++ right. split; [|reflexivity].
              intros [H|H]; [exact (Hne H)|exact (Hnin H)].
      * intros [[Hck [[= <- <-]|Hin]]|[-> H]].
        -- left. reflexivity.
        -- right. left. split; assumption.
        -- right. right. split; [reflexivity|].
           destruct H as [(m' & [[= E _]|Hin] & ->)|[Hnin ->]].
           ++ congruence.
           ++ left. exists m'. split; [exact Hin|reflexivity].
           ++ right. split; [|reflexivity]. intros H. apply Hnin.
              right. exact H.
Qed.

Lemma tallies_key (cs : list (string * Z)) (l : list Da.t) (k : string) :
  tallies cs l -> (In k (map fst cs) <-> 0 < category_count k l).
Proof.
  intros [_ Hcs]. split.
  - intros Hin. apply in_map_iff in Hin as ([c n] & <- & Hin).
    apply Hcs in Hin as [-> Hpos]. exact Hpos.
  - intros Hpos. apply in_map_iff. exists (k, category_count k l).
    split; [reflexivity|]. apply Hcs. split; [reflexivity|exact Hpos].
Qed.

Lemma tallies_bump (cs : list (string * Z)) (l : list Da.t) (d : Da.t) :
  tallies cs l -> tallies (bump cs (category_of d)) (l ++ [d]).
Proof.
  intros Ht. pose proof Ht as [Hnd Hcs]. split; [apply bump_NoDup, Hnd|].
  intros c n. rewrite (bump_In _ _ _ _ Hnd), category_count_snoc.
  pose proof (tallies_key cs l (category_of d) Ht) as Hkey.
  pose proof (category_count_nonneg (category_of d) l) as Hnn.
  destruct (String.eqb_spec (category_of d) c) as [E|Hne].
  - subst c. split.
    + intros [[Hck _]|[_ [(m & Hin & ->)|[Hnin ->]]]]; [congruence| |].
      * apply Hcs in Hin as [-> Hpos]. split; [reflexivity|lia].
      * split; [|lia].
        assert (category_count (category_of d) l = 0)
          by (destruct (Z.eq_dec (category_count (category_of d) l) 0);
              [assumption|exfalso; apply Hnin, Hkey; lia]).
        lia.
    + intros [-> _]. right. split; [reflexivity|].
      destruct (Z.eq_dec (category_count (category_of d) l) 0) as [Hz|Hnz].
      * right. split; [rewrite Hkey; lia|lia].
      * left. exists (category_count (category_of d) l).
        split; [apply Hcs; split; [reflexivity|lia]|reflexivity].
  - rewrite Z.add_0_r, <- Hcs. split.
    + intros [[_ Hin]|[-> _]]; [exact Hin|congruence].
    + intros Hin. left. split; [congruence|exact Hin].
Qed.

Lemma tally_categories (l : list Da.t) (t : Tally) :
  categories (fold_left tally_step l t)
  = fold_left (fun cs d => bump cs (category_of d)) l (categories t).
Proof.
  revert t. induction l as [|d l IH]; intros t; [reflexivity|].
  cbn [fold_left]. rewrite IH. f_equal. unfold tally_step.
  destruct (classify d); reflexivity.
Qed.

Lemma tallies_fold (das : list Da.t) :
  forall cs l,
    tallies cs l ->
    tallies (fold_left (fun cs d => bump cs (category_of d)) das cs) (l ++ das).
Proof.
  induction das as [|d das IH]; intros cs l Ht.
  - rewrite app_nil_r. exact Ht.
  - cbn [fold_left]. replace (l ++ d :: das) with ((l ++ [d]) ++ das)
      by (rewrite <- app_assoc; reflexivity).
    apply IH, tallies_bump, Ht.
Qed.

Lemma insert_by_count_perm (x : string * Z) (l : list (string * Z)) :
  insert_by_count x l ≡ₚ x :: l.
Proof.
  induction l as [|y l IH]; [reflexivity|]. cbn [insert_by_count].
  destruct (snd y >? snd x); [|reflexivity].
  rewrite IH. apply Permutation_swap.
Qed.

Lemma sorted_by_count_perm (l : list (string * Z)) : sorted_by_count l ≡ₚ l.
Proof.
  unfold sorted_by_count. induction l as [|x l IH]; [reflexivity|].
  cbn [foldr]. rewrite insert_by_count_perm, IH. reflexivity.
Qed.

Lemma insert_by_count_sorted (x : string * Z) (l : list (string * Z)) :
  descending l -> descending (insert_by_count x l).
Proof.
  unfold descending. induction 1 as [|y l Hs IH Hall]; cbn [insert_by_count].
  - repeat constructor.
  - destruct (Z.gtb_spec (snd y) (snd x)) as [Hgt|Hle].
    + constructor; [exact IH|].
      rewrite (insert_by_count_perm x l).
      constructor; [lia|exact Hall].
    + constructor; [constructor; assumption|].
      constructor; [exact Hle|].
      eapply Forall_impl; [exact Hall|]. cbv beta. intros z Hz. lia.
Qed.

Lemma sorted_by_count_sorted (l : list (string * Z)) :
  descending (sorted_by_count l).
Proof.
  unfold sorted_by_count. induction l as [|x l IH]; [constructor|].
  cbn [foldr]. apply insert_by_count_sorted, IH.
Qed.

Lemma descending_app (l1 l2 : list (string * Z)) :
  descending (l1 ++ l2) ->
  descending l1
  /\ forall x y, In x l1 -> In y l2 -> snd y <= snd x.
Proof.
  unfold descending. induction l1 as [|a l1 IH]; cbn [app]; intros Hs.
  - split; [constructor|intros ? ? []].
  - apply StronglySorted_inv in Hs as [Hs Hall]. destruct (IH Hs) as [H1 H2].
    apply Forall_app in Hall as [Ha1 Ha2]. split; [constructor; assumption|].
    intros x y [<-|Hx] Hy; [|apply (H2 x y Hx Hy)].
    rewrite Forall_forall in Ha2. apply Ha2, list_elem_of_In, Hy.
Qed.

End CategoryFacts.

(** X10. The top categories of the precedent analysis. There are at most
    five, each named once, in non-increasing order of their counts; the
    count of each is the number of applications, on the parcel and nearby,
    of that category (of category "Other" when an application has none),
    and is at least one; and a category that is left out has no more
    applications than any of the five listed. *)
Theorem top_categories_are_the_largest :
  forall h : AiSummary.DaInput,
    let top := AiSummary.top_categories (AiSummary._analyze_da_precedent h) in
    let das := PrecedentSpec.all_das h in
    (length top <= 5)%nat
    /\ NoDup (map fst top)
    /\ CategorySpec.descending top
    /\ (forall c n, In (c, n) top ->
                    n = CategorySpec.category_count c das /\ 0 < n)
    /\ (forall d, In d das ->
                  In (CategorySpec.category_of d) (map fst top)
                  \/ (length top = 5%nat
                      /\ forall x, In x top ->
                           CategorySpec.category_count
                             (CategorySpec.category_of d) das <= snd x)).
Proof.
  intros h top das.
  set (cs := AiSummary.categories
               (fold_left AiSummary.tally_step das
                  {| AiSummary.approved := 0; AiSummary.refused := 0;
                     AiSummary.in_progress := 0; AiSummary.lapsed := 0;
                     AiSummary.categories := [] |})).
  assert (Etop : top = take 5 (AiSummary.sorted_by_count cs)).
  { subst top cs das.
    unfold AiSummary._analyze_da_precedent, PrecedentSpec.all_das.
    destruct (AiSummary.assess _ _ _). reflexivity. }
  assert (Ht : CategorySpec.tallies cs das).
  { subst cs. rewrite tally_categories.
    apply (tallies_fold das [] []). split; [constructor|].
    intros c n. cbn [In]. unfold CategorySpec.category_count. cbn.
    split; [intros []|lia]. }
  clearbody top cs. destruct Ht as [Hnd Hcs].
  pose proof (sorted_by_count_perm cs) as Hperm.
  pose proof (sorted_by_count_sorted cs) as Hsorted.
  set (sorted := AiSummary.sorted_by_count cs) in *.
  rewrite <- (take_drop 5 sorted) in Hsorted.
  apply descending_app in Hsorted as [Hdesc Hcross]. rewrite <- Etop in *.
  assert (Hsub : forall x, In x top -> In x cs).
  { intros x Hx. apply list_elem_of_In. rewrite <- Hperm.
    apply list_elem_of_In in Hx. subst top.
    apply (elem_of_sublist _ _ _ Hx), sublist_take. }
  split; [subst top; apply firstn_le_length|].
  split.
  { subst top. rewrite <- firstn_map.
    apply (sublist_NoDup _ (map fst sorted)); [|apply sublist_take].
    rewrite Hperm. exact Hnd. }
  split; [exact Hdesc|]. split.
  { intros c n Hin. apply Hcs, Hsub, Hin. }
  intros d Hd.
  assert (Hpos : 0 < CategorySpec.category_count (CategorySpec.category_of d) das).
  { unfold CategorySpec.category_count.
    assert (In d (List.filter
                    (fun d' => String.eqb (CategorySpec.category_of d')
                                 (CategorySpec.category_of d)) das))
      by (apply filter_In; split; [exact Hd|apply String.eqb_refl]).
    destruct (List.filter _ das); [contradiction|cbn [length]; lia]. }
  assert (Hin : In (CategorySpec.category_of d,
                    CategorySpec.category_count (CategorySpec.category_of d) das)
                   sorted).
  { apply list_elem_of_In. rewrite Hperm. apply list_elem_of_In, Hcs.
    split; [reflexivity|exact Hpos]. }
  rewrite <- (take_drop 5 sorted), <- Etop in Hin.
  apply in_app_iff in Hin as [Hin|Hin].
  - left. apply (in_map fst _ _ Hin).
  - right. split.
    + subst top. apply length_take_le.
      destruct (le_lt_dec 5 (length sorted)) as [Hle|Hlt]; [exact Hle|].
      rewrite drop_ge in Hin by lia. destruct Hin.
    + intros x Hx. apply (Hcross x _ Hx Hin).
Qed.

Lemma top_categories_are_the_largest_witness :
  let da (c : option string) :=
    {| Da.ram_id := IntId 1; Da.description := "Works";
       Da.category := c; Da.decision := Some "Approved";
       Da.progress := Some "Decided"; Da.assessment_level := "";
       Da.date_received := None; Da.date_decided := None;
       Da.land_parcel_relationship := "" |} in
  let h :=
    {| AiSummary.on_parcel := Some [da (Some "Building"); da None];
       AiSummary.nearby :=
         Some [da (Some "MCU"); da (Some "Building"); da (Some "MCU");
               da (Some "MCU")] |} in
  AiSummary.top_categories (AiSummary._analyze_da_precedent h)
  = [("MCU"%string, 3); ("Building"%string, 2); ("Other"%string, 1)]
  /\ 3 = CategorySpec.category_count "MCU" (PrecedentSpec.all_das h)
  /\ 0 < 3.
Proof.
  intros da h. split; [vm_compute; reflexivity|].
  apply (proj1 (proj2 (proj2 (proj2 (top_categories_are_the_largest h))))).
  vm_compute. left. reflexivity.
Defined.


(** ** Overlay entries and their groups *)

Section EntryFacts.
Import SccPlanning EntrySpec.

Lemma layers_registered : forallb registered ALL_OVERLAY_LAYER_IDS = true.
Proof. vm_compute. reflexivity. Qed.

Lemma listed_spec (cat : string) (lid : Z) (name : string) :
  listed cat lid name = true ->
  exists layers, In (cat, layers) OVERLAY_LAYERS /\ In (lid, name) layers.
Proof.
  unfold listed. intros H. apply existsb_exists in H as ([c layers] & Hin & H).
  apply andb_true_iff in H as [Hc H]. apply String.eqb_eq in Hc as ->.
  apply existsb_exists in H as ([i n] & Hin' & H).
  apply andb_true_iff in H as [Hi Hn]. apply Z.eqb_eq in Hi as ->.
  apply String.eqb_eq in Hn as ->. exists layers. split; assumption.
Qed.

Lemma get_overlays_In (fetch : Z -> response feature) (en : entry) :
  In en (get_overlays fetch) ->
  exists lid feat,
    In lid ALL_OVERLAY_LAYER_IDS /\ In feat (_query_layer (fetch lid))
    /\ en = make_entry lid feat.
Proof.
  unfold get_overlays. intros H. apply in_flat_map in H as (lid & Hlid & H).
  apply in_map_iff in H as (feat & <- & Hfeat). eauto.
Qed.

Lemma make_entry_fields (lid : Z) (feat : feature) (cat nm : string) :
  LAYER_INFO !! lid = Some (cat, nm) ->
  category (make_entry lid feat) = cat
  /\ name (make_entry lid feat) = nm
  /\ label (make_entry lid feat) = default nm (LABEL feat)
  /\ height_m (make_entry lid feat)
     = (if lid =? HEIGHT_LAYER then HeightRestrictionMetres feat else None)
  /\ attributes (make_entry lid feat)
     = List.filter
         (fun '(k, v) =>
            negb (key_in ["OBJECTID"; "Shape"; "Shape.STArea()";
                          "Shape.STLength()"]%string k)
            && negb (is_null v))
         (attrs_items feat).
Proof.
  intros E. unfold make_entry. rewrite E. repeat split; reflexivity.
Qed.

Lemma key_in_spec (keys : list string) (k : string) :
  key_in keys k = false -> ~ In k keys.
Proof.
  unfold key_in. intros H Hin.
  assert (existsb (String.eqb k) keys = true)
    by (apply existsb_exists; exists k; split;
        [exact Hin|apply String.eqb_refl]).
  congruence.
Qed.

End EntryFacts.

(** X11. Every entry [get_overlays] returns belongs to a layer of
    [ALL_OVERLAY_LAYER_IDS] and carries the category and the name under
    which [OVERLAY_LAYERS] lists that layer, never the fallback "Unknown";
    it has a height only if it is an entry of the height layer 50; and its
    attributes hold no null value and none of the keys OBJECTID, Shape,
    Shape.STArea() and Shape.STLength(). *)
Theorem overlay_entries_are_registered :
  forall (fetch : Z -> response SccPlanning.feature) (en : SccPlanning.entry),
    In en (SccPlanning.get_overlays fetch) ->
    In (SccPlanning.layer_id en) SccPlanning.ALL_OVERLAY_LAYER_IDS
    /\ (exists layers,
           In (SccPlanning.category en, layers) SccPlanning.OVERLAY_LAYERS
           /\ In (SccPlanning.layer_id en, SccPlanning.name en) layers)
    /\ (SccPlanning.height_m en <> None ->
        SccPlanning.layer_id en = SccPlanning.HEIGHT_LAYER)
    /\ Forall EntrySpec.kept (SccPlanning.attributes en).
Proof.
  intros fetch en Hin.
  apply get_overlays_In in Hin as (lid & feat & Hlid & _ & ->).
  pose proof layers_registered as Hreg. rewrite forallb_forall in Hreg.
  specialize (Hreg lid Hlid). unfold EntrySpec.registered in Hreg.
  destruct (SccPlanning.LAYER_INFO !! lid) as [[cat nm]|] eqn:E;
    [|discriminate].
  destruct (make_entry_fields lid feat cat nm E) as (-> & -> & _ & -> & ->).
  rewrite make_entry_layer_id.
  split; [exact Hlid|]. split; [apply listed_spec, Hreg|]. split.
  - destruct (Z.eqb_spec lid SccPlanning.HEIGHT_LAYER) as [->|_];
      [reflexivity|congruence].
  - apply Forall_forall. intros [k v] Hkv.
    apply list_elem_of_In, filter_In in Hkv as [_ Hkv].
    apply andb_true_iff in Hkv as [Hk Hv]. split; cbn [fst snd].
    + intros ->. discriminate.
    + apply key_in_spec, negb_true_iff, Hk.
Qed.

Lemma overlay_entries_are_registered_witness :
  let feat :=
    {| SccPlanning.LABEL := Some "8.5 metres";
       SccPlanning.HeightRestrictionMetres := Some 8.5%float;
       SccPlanning.others := [("OBJECTID"%string, SInt 4);
                              ("ComplexComment"%string, SNull)] |} in
  let fetch (lid : Z) :=
    if lid =? 50 then Json (Some [feat]) else Failed TimeoutException in
  let en := SccPlanning.make_entry 50 feat in
  In (SccPlanning.layer_id en) SccPlanning.ALL_OVERLAY_LAYER_IDS
  /\ (exists layers,
         In (SccPlanning.category en, layers) SccPlanning.OVERLAY_LAYERS
         /\ In (SccPlanning.layer_id en, SccPlanning.name en) layers)
  /\ (SccPlanning.height_m en <> None ->
      SccPlanning.layer_id en = SccPlanning.HEIGHT_LAYER)
  /\ Forall EntrySpec.kept (SccPlanning.attributes en).
Proof.
  intros feat fetch en.
  apply (overlay_entries_are_registered fetch en).
  vm_compute. left. reflexivity.
Defined.

Section GroupFacts.
Import SccPlanning EntrySpec.

Lemma add_layer_names (groups : list (string * list Overlay.layer))
    (cat : string) (l : Overlay.layer) :
  (In cat (map fst groups) /\ map fst (add_layer groups cat l) = map fst groups)
  \/ (~ In cat (map fst groups)
      /\ map fst (add_layer groups cat l) = map fst groups ++ [cat]).
Proof.
  induction groups as [|[c ls] groups IH];
    [right; split; [intros []|reflexivity]|].
  cbn [add_layer map fst]. destruct (String.eqb_spec c cat) as [->|Hne].
  - left. split; [left; reflexivity|reflexivity].
  - destruct IH as [[Hin E]|[Hnin E]]; [left|right]; cbn [map fst];
      rewrite E; (split; [|reflexivity]).
    + right. exact Hin.
    + intros [H|H]; [exact (Hne H)|exact (Hnin H)].
Qed.

Lemma add_layer_NoDup (groups : list (string * list Overlay.layer))
    (cat : string) (l : Overlay.layer) :
  NoDup (map fst groups) -> NoDup (map fst (add_layer groups cat l)).
Proof.
  intros Hnd. destruct (add_layer_names groups cat l) as [[_ ->]|[Hnin ->]];
    [exact Hnd|].
  apply NoDup_app. split; [exact Hnd|]. split; [|apply NoDup_singleton].
  intros x Hx Hk. apply list_elem_of_singleton in Hk as ->.
  apply Hnin, list_elem_of_In, Hx.
Qed.

Lemma add_layer_In (groups : list (string * list Overlay.layer))
    (cat : string) (l : Overlay.layer) (c : string) (ls : list Overlay.layer) :
  In (c, ls) (add_layer groups cat l) ->
  In (c, ls) groups
  \/ (c = cat /\ exists ls0, ls = ls0 ++ [l]
                             /\ (In (cat, ls0) groups \/ ls0 = [])).
Proof.
  induction groups as [|[c' ls'] groups IH]; cbn [add_layer].
  - intros [[= <- <-]|[]]. right. split; [reflexivity|].
    exists []. split; [reflexivity|right; reflexivity].
  - destruct (String.eqb_spec c' cat) as [->|Hne].
    + intros [[= <- <-]|Hin].
      * right. split; [reflexivity|]. exists ls'.
        split; [reflexivity|left; left; reflexivity].
      * left. right. exact Hin.
    + intros [[= <- <-]|Hin]; [left; left; reflexivity|].
      destruct (IH Hin) as [H|(-> & ls0 & -> & [H| ->])].
      * left. right. exact H.
      * right. split; [reflexivity|]. exists ls0.
        split; [reflexivity|left; right; exact H].
      * right. split; [reflexivity|]. exists [].
        split; [reflexivity|right; reflexivity].
Qed.

Lemma add_layer_keeps (groups : list (string * list Overlay.layer))
    (cat : string) (l : Overlay.layer) (c : string) (ls : list Overlay.layer) :
  In (c, ls) groups ->
  exists ls', In (c, ls') (add_layer groups cat l)
              /\ forall x, In x ls -> In x ls'.
Proof.
  induction groups as [|[c' ls'] groups IH]; [intros []|].
  cbn [add_layer]. destruct (String.eqb_spec c' cat) as [->|Hne].
  - intros [[= <- <-]|Hin].
    + exists (ls' ++ [l]). split; [left; reflexivity|].
      intros x Hx. apply in_or_app. left. exact Hx.
    + exists ls. split; [right; exact Hin|auto].
  - intros [[= <- <-]|Hin].
    + exists ls'. split; [left; reflexivity|auto].
    + destruct (IH Hin) as (ls2 & H2 & Hsub). exists ls2.
      split; [right; exact H2|exact Hsub].
Qed.

Lemma add_layer_adds (groups : list (string * list Overlay.layer))
    (cat : string) (l : Overlay.layer) :
  exists ls, In (cat, ls) (add_layer groups cat l) /\ In l ls.
Proof.
  induction groups as [|[c' ls'] groups IH]; cbn [add_layer].
  - exists [l]. split; left; reflexivity.
  - destruct (String.eqb_spec c' cat) as [->|Hne].
    + exists (ls' ++ [l]). split; [left; reflexivity|].
      apply in_or_app. right. left. reflexivity.
    + destruct IH as (ls & H & Hl). exists ls. split; [right; exact H|exact Hl].
Qed.

Lemma add_layer_length (groups : list (string * list Overlay.layer))
    (cat : string) (l : Overlay.layer) :
  length (flat_map snd (add_layer groups cat l))
  = S (length (flat_map snd groups)).
Proof.
  induction groups as [|[c' ls'] groups IH]; [reflexivity|].
  cbn [add_layer]. destruct (String.eqb c' cat); cbn [flat_map snd].
  - rewrite !length_app. cbn [length]. lia.
  - rewrite !length_app, IH. lia.
Qed.

Lemma grouped_step (st : list (string * list Overlay.layer) * gset string)
    (done : list entry) (item : entry) :
  grouped st done -> grouped (group_step st item) (done ++ [item]).
Proof.
  destruct st as [groups seen].
  intros (I1 & I2 & I3 & I4 & I5 & I6). cbn [fst snd] in *.
  unfold group_step.
  destruct (bool_decide (dedup_key item ∈ seen)) eqn:Ek.
  - apply bool_decide_eq_true in Ek. unfold grouped. cbn [fst snd].
    split; [exact I1|]. split; [exact I2|]. split.
    { intros c ls l Hc Hl. destruct (I3 c ls l Hc Hl) as (it & Hit & H).
      exists it. split; [apply in_or_app; left; exact Hit|exact H]. }
    split.
    { intros it Hit. apply in_app_iff in Hit as [Hit|[<-|[]]];
        [apply I4, Hit|exact Ek]. }
    split; [exact I5|]. rewrite length_app. lia.
  - clear Ek. unfold grouped. cbn [fst snd].
    split; [apply add_layer_NoDup, I1|]. split.
    { intros c ls Hc.
      destruct (add_layer_In _ _ _ _ _ Hc) as [H|(_ & ls0 & -> & _)];
        [apply (I2 c ls H)|].
      destruct ls0; discriminate. }
    split.
    { intros c ls l Hc Hl.
      destruct (add_layer_In _ _ _ _ _ Hc) as [H|(-> & ls0 & -> & H)].
      - destruct (I3 c ls l H Hl) as (it & Hit & Hx).
        exists it. split; [apply in_or_app; left; exact Hit|exact Hx].
      - apply in_app_iff in Hl as [Hl|[<-|[]]].
        + destruct H as [H| ->]; [|destruct Hl].
          destruct (I3 _ _ l H Hl) as (it & Hit & Hx).
          exists it. split; [apply in_or_app; left; exact Hit|exact Hx].
        + exists item. split; [apply in_or_app; right; left; reflexivity|].
          split; reflexivity. }
    split.
    { intros it Hit. apply elem_of_union.
      apply in_app_iff in Hit as [Hit|[<-|[]]];
        [right; apply I4, Hit|left; apply elem_of_singleton; reflexivity]. }
    split.
    { intros k Hk. apply elem_of_union in Hk as [Hk|Hk].
      - apply elem_of_singleton in Hk as ->.
        destruct (add_layer_adds groups (category item) (layer_entry item))
          as (ls & H & Hl).
        exists (category item), ls, item. repeat split; assumption.
      - destruct (I5 k Hk) as (c & ls & it & Hc & Hl & Hkey).
        destruct (add_layer_keeps groups (category item) (layer_entry item)
                    c ls Hc) as (ls' & Hc' & Hsub).
        exists c, ls', it. repeat split; [exact Hc'|apply Hsub, Hl|exact Hkey]. }
    rewrite add_layer_length, length_app. cbn [length]. lia.
Qed.

Lemma grouped_fold (raw : list entry) :
  forall st done,
    grouped st done -> grouped (fold_left group_step raw st) (done ++ raw).
Proof.
  induction raw as [|item raw IH]; intros st done H.
  - rewrite app_nil_r. exact H.
  - cbn [fold_left]. replace (done ++ item :: raw) with ((done ++ [item]) ++ raw)
      by (rewrite <- app_assoc; reflexivity).
    apply IH, grouped_step, H.
Qed.

Lemma grouped_all (raw : list entry) :
  grouped (fold_left group_step raw ([], ∅)) raw.
Proof.
  apply (grouped_fold raw ([], ∅) []). unfold grouped. cbn [fst snd].
  split; [constructor|]. split; [intros ? ? []|]. split; [intros ? ? ? []|].
  split; [intros ? []|]. split; [|reflexivity].
  intros k Hk. apply elem_of_empty in Hk. destruct Hk.
Qed.

Lemma bar_split (u u' s s' : string) :
  StrSpec.all (StrSpec.is_not "|") u = true ->
  StrSpec.all (StrSpec.is_not "|") u' = true ->
  (u +:+ "|" +:+ s = u' +:+ "|" +:+ s')%string -> u = u' /\ s = s'.
Proof.
  revert u'. induction u as [|c u IH]; intros [|c' u'] Hu Hu';
    rewrite ?append_nil, ?append_cons; intros E.
  - injection E as E. rewrite !append_nil in E. split; [reflexivity|exact E].
  - injection E as E1 E2. subst c'. cbn [StrSpec.all] in Hu'. discriminate.
  - injection E as E1 E2. subst c. cbn [StrSpec.all] in Hu. discriminate.
  - injection E as E1 E2. subst c'. cbn [StrSpec.all] in Hu, Hu'.
    apply andb_true_iff in Hu as [_ Hu]. apply andb_true_iff in Hu' as [_ Hu'].
    destruct (IH u' Hu Hu' E2) as [-> ->]. split; reflexivity.
Qed.

Lemma dedup_key_inj (a b : entry) :
  dedup_key a = dedup_key b -> layer_id a = layer_id b /\ label a = label b.
Proof.
  unfold dedup_key. intros E.
  assert (Hbar : forall z, StrSpec.all (StrSpec.is_not "|") (PyStr.str_of_int z)
                           = true).
  { intros z. apply (all_impl StrSpec.int_char); [|apply str_of_int_chars].
    intros c Hc. unfold StrSpec.is_not, StrSpec.int_char in *.
    destruct (Ascii.eqb_spec c "|") as [->|_]; [discriminate|reflexivity]. }
  apply bar_split in E as [E1 E2]; [|apply Hbar..]. split; [|exact E2].
  pose proof (int_of_str_of_int (layer_id a)) as Ha.
  rewrite E1, int_of_str_of_int in Ha. congruence.
Qed.

End GroupFacts.

(** X12. The grouped overlays. Whatever the raw entries, the groups have
    distinct categories and no group is empty; every layer of a group is the
    layer entry of a raw item of the group's category; every raw item is
    represented by a layer with its layer id and its label; and there are no
    more layers than raw items. *)
Theorem grouped_overlays_structure :
  forall raw : list SccPlanning.entry,
    let groups := SccPlanning.group_overlays raw in
    NoDup (map Overlay.category groups)
    /\ Forall (fun g => Overlay.layers g <> []) groups
    /\ (forall g l,
           In g groups -> In l (Overlay.layers g) ->
           exists item,
             In item raw /\ l = SccPlanning.layer_entry item
             /\ Overlay.category g = Some (SccPlanning.category item))
    /\ (forall item,
           In item raw ->
           exists g l,
             In g groups /\ In l (Overlay.layers g)
             /\ Overlay.layer_id l = SccPlanning.layer_id item
             /\ Overlay.label l = Some (SccPlanning.label item))
    /\ (length (flat_map Overlay.layers groups) <= length raw)%nat.
Proof.
  intros raw groups. subst groups. unfold SccPlanning.group_overlays.
  destruct (grouped_all raw) as (I1 & I2 & I3 & I4 & I5 & I6).
  set (gs := fst (fold_left SccPlanning.group_step raw ([], ∅))) in *.
  set (seen := snd (fold_left SccPlanning.group_step raw ([], ∅))) in *.
  clearbody gs seen.
  set (mk := fun '(cat, ls) =>
               {| Overlay.category := Some cat; Overlay.layers := ls |}).
  assert (Hin : forall g, In g (map mk gs) <->
                          exists c ls, In (c, ls) gs /\ g = mk (c, ls)).
  { intros g. rewrite in_map_iff. split.
    - intros ([c ls] & <- & H). eauto.
    - intros (c & ls & H & ->). exists (c, ls). split; [reflexivity|exact H]. }
  split.
  { rewrite map_map.
    replace (map (fun x => Overlay.category (mk x)) gs)
      with (map Some (map fst gs)).
    - apply (NoDup_fmap_2 Some), I1.
    - rewrite map_map. apply map_ext. intros [c ls]. reflexivity. }
  split.
  { apply Forall_forall. intros g Hg. apply list_elem_of_In, Hin in Hg
      as (c & ls & H & ->). exact (I2 c ls H). }
  split.
  { intros g l Hg Hl. apply Hin in Hg as (c & ls & H & ->).
    destruct (I3 c ls l H Hl) as (item & Hitem & -> & ->).
    exists item. repeat split. exact Hitem. }
  split.
  { intros item Hitem. destruct (I5 _ (I4 item Hitem))
      as (c & ls & it & Hc & Hl & Hkey).
    apply dedup_key_inj in Hkey as [Hid Hlab].
    exists (mk (c, ls)), (SccPlanning.layer_entry it).
    split; [apply Hin; eauto|]. split; [exact Hl|].
    split; [exact Hid|]. cbn. rewrite Hlab. reflexivity. }
  replace (flat_map Overlay.layers (map mk gs)) with (flat_map snd gs);
    [exact I6|].
  clear. induction gs as [|[c ls] gs IH]; [reflexivity|].
  cbn [flat_map map snd]. rewrite IH. reflexivity.
Qed.

Lemma grouped_overlays_structure_witness :
  let feat (l : string) :=
    {| SccPlanning.LABEL := Some l;
       SccPlanning.HeightRestrictionMetres := None;
       SccPlanning.others := [] |} in
  let raw :=
    [SccPlanning.make_entry 32 (feat "High"); SccPlanning.make_entry 45 (feat "A");
     SccPlanning.make_entry 32 (feat "High")] in
  exists g l,
    In g (SccPlanning.group_overlays raw) /\ In l (Overlay.layers g)
    /\ Overlay.layer_id l = 45
    /\ Overlay.label l = Some "A"%string.
Proof.
  intros feat raw.
  apply (proj1 (proj2 (proj2 (proj2 (grouped_overlays_structure raw))))
           (SccPlanning.make_entry 45 (feat "A"))).
  right. left. reflexivity.
Defined.


(** ** The zone, the roads and the envelope of a parcel *)

Section FloatOrderFacts.
Import LookupSpec.
Local Open Scope float_scope.

Ltac order_case :=
  let H := fresh in
  split;
  [intros H; first [discriminate H|lia]
  |intros H; first [reflexivity|exfalso; lia]].

Ltac order_cases x y :=
  let sx := fresh "sx" in
  let sy := fresh "sy" in
  let mx := fresh "mx" in
  let my := fresh "my" in
  let ex := fresh "ex" in
  let ey := fresh "ey" in
  destruct x as [sx|sx| |sx mx ex], y as [sy|sy| |sy my ey];
  try congruence; cbn [SFcompare ord fst snd];
  try (change (PosDef.Pos.compare_cont Eq mx my) with (Pos.compare mx my);
       destruct (Z.compare_spec ex ey); destruct (Pos.compare_spec mx my));
  try destruct sx; try destruct sy; cbn [fst snd CompOpp]; order_case.

Lemma SFleb_ord (x y : spec_float) :
  x <> S754_nan -> y <> S754_nan ->
  SFleb x y = true <-> lex_le (ord x) (ord y).
Proof. intros Hx Hy. unfold SFleb, lex_le. order_cases x y. Qed.

Lemma SFltb_ord (x y : spec_float) :
  x <> S754_nan -> y <> S754_nan ->
  SFltb x y = true <-> ~ lex_le (ord y) (ord x).
Proof. intros Hx Hy. unfold SFltb, lex_le. order_cases x y. Qed.

Lemma leb_trans (x y z : float) :
  (x <=? y) = true -> (y <=? z) = true -> (x <=? z) = true.
Proof.
  rewrite !FloatAxioms.leb_spec. intros Hxy Hyz.
  assert (Hx : Prim2SF x <> S754_nan)
    by (intros E; rewrite E in Hxy; discriminate).
  assert (Hy : Prim2SF y <> S754_nan)
    by (intros E; rewrite E in Hyz; discriminate).
  assert (Hz : Prim2SF z <> S754_nan)
    by (intros E; rewrite E in Hyz; destruct (Prim2SF y); discriminate).
  apply SFleb_ord in Hxy; [|assumption..].
  apply SFleb_ord in Hyz; [|assumption..].
  apply SFleb_ord; [assumption..|]. unfold lex_le in *. lia.
Qed.

Lemma leb_refl (x : float) : number x -> (x <=? x) = true.
Proof.
  intros Hx. rewrite FloatAxioms.leb_spec.
  apply SFleb_ord; [assumption..|]. unfold lex_le. lia.
Qed.

Lemma ltb_leb (x y : float) : (x <? y) = true -> (x <=? y) = true.
Proof.
  rewrite FloatAxioms.ltb_spec, FloatAxioms.leb_spec. intros H.
  assert (Hx : Prim2SF x <> S754_nan)
    by (intros E; rewrite E in H; discriminate).
  assert (Hy : Prim2SF y <> S754_nan)
    by (intros E; rewrite E in H; destruct (Prim2SF x); discriminate).
  apply SFltb_ord in H; [|assumption..].
  apply SFleb_ord; [assumption..|]. unfold lex_le in *. lia.
Qed.

Lemma not_ltb_leb (x y : float) :
  number x -> number y -> (x <? y) = false -> (y <=? x) = true.
Proof.
  rewrite FloatAxioms.ltb_spec, FloatAxioms.leb_spec. intros Hx Hy H.
  apply SFleb_ord; [assumption..|].
  destruct (SFltb_ord _ _ Hx Hy) as [_ Hlt].
  unfold lex_le in *.
  destruct (ord (Prim2SF x)) as [[a1 a2] a3], (ord (Prim2SF y)) as [[b1 b2] b3].
  cbn [fst snd] in *.
  assert (Hdec : (b1 < a1 \/ b1 = a1 /\ (b2 < a2 \/ b2 = a2 /\ b3 <= a3))
                 \/ ~ (b1 < a1 \/ b1 = a1 /\ (b2 < a2 \/ b2 = a2 /\ b3 <= a3)))
    by lia.
  destruct Hdec as [Hle|Hn]; [exact Hle|].
  rewrite (Hlt Hn) in H. discriminate.
Qed.

End FloatOrderFacts.

Section LookupFacts.
Import SccLookup LookupSpec.
Local Open Scope float_scope.




Lemma py_min_least (l : list float) :
  forall x,
    number x -> Forall number l ->
    number (py_min x l)
    /\ (py_min x l <=? x) = true
    /\ Forall (fun y => (py_min x l <=? y) = true) l.
Proof.
  unfold py_min. induction l as [|y l IH]; intros x Hx Hl.
  - cbn [fold_left]. split; [exact Hx|]. split; [apply leb_refl, Hx|constructor].
  - apply Forall_cons in Hl as [Hy Hl]. cbn [fold_left].
    destruct (y <? x) eqn:E.
    + destruct (IH y Hy Hl) as (Hn & Hm & Hall).
      split; [exact Hn|]. split; [|constructor; assumption].
      apply (leb_trans _ y); [exact Hm|apply ltb_leb, E].
    + destruct (IH x Hx Hl) as (Hn & Hm & Hall).
      split; [exact Hn|]. split; [exact Hm|constructor; [|exact Hall]].
      apply (leb_trans _ x); [exact Hm|apply not_ltb_leb; assumption].
Qed.

Lemma py_max_greatest (l : list float) :
  forall x,
    number x -> Forall number l ->
    number (py_max x l)
    /\ (x <=? py_max x l) = true
    /\ Forall (fun y => (y <=? py_max x l) = true) l.
Proof.
  unfold py_max. induction l as [|y l IH]; intros x Hx Hl.
  - cbn [fold_left]. split; [exact Hx|]. split; [apply leb_refl, Hx|constructor].
  - apply Forall_cons in Hl as [Hy Hl]. cbn [fold_left].
    destruct (x <? y) eqn:E.
    + destruct (IH y Hy Hl) as (Hn & Hm & Hall).
      split; [exact Hn|]. split; [|constructor; assumption].
      apply (leb_trans _ y); [apply ltb_leb, E|exact Hm].
    + destruct (IH x Hx Hl) as (Hn & Hm & Hall).
      split; [exact Hn|]. split; [exact Hm|constructor; [|exact Hall]].
      apply (leb_trans _ x); [apply not_ltb_leb; assumption|exact Hm].
Qed.

Lemma py_min_In (l : list float) (x : float) : In (py_min x l) (x :: l).
Proof.
  unfold py_min. revert x. induction l as [|y l IH]; intros x;
    [left; reflexivity|].
  cbn [fold_left]. destruct (IH (if y <? x then y else x)) as [H|H].
  - rewrite <- H. destruct (y <? x); [right; left|left]; reflexivity.
  - right. right. exact H.
Qed.

Lemma py_max_In (l : list float) (x : float) : In (py_max x l) (x :: l).
Proof.
  unfold py_max. revert x. induction l as [|y l IH]; intros x;
    [left; reflexivity|].
  cbn [fold_left]. destruct (IH (if x <? y then y else x)) as [H|H].
  - rewrite <- H. destruct (x <? y); [right; left|left]; reflexivity.
  - right. right. exact H.
Qed.

End LookupFacts.





(** X15. The envelope of a parcel. [_compute_parcel_bbox] returns none
    exactly when the geometry has no position (an empty polygon, or a type
    other than Polygon, MultiPolygon and Point). Otherwise each side of the
    envelope is a coordinate of some position, and when no coordinate is
    NaN every position of the geometry lies within the envelope. *)
Theorem parcel_bbox_contains_vertices :
  forall g : SccLookup.geometry,
    (SccLookup._compute_parcel_bbox g = None <-> SccLookup.coords_of g = [])
    /\ (forall b : SccLookup.bbox,
           SccLookup._compute_parcel_bbox g = Some b ->
           In (SccLookup.min_lng b) (map fst (SccLookup.coords_of g))
           /\ In (SccLookup.max_lng b) (map fst (SccLookup.coords_of g))
           /\ In (SccLookup.min_lat b) (map snd (SccLookup.coords_of g))
           /\ In (SccLookup.max_lat b) (map snd (SccLookup.coords_of g))
           /\ (Forall LookupSpec.located (SccLookup.coords_of g) ->
               Forall (LookupSpec.inside b) (SccLookup.coords_of g))).
Proof.
  intros g. unfold SccLookup._compute_parcel_bbox.
  destruct (SccLookup.coords_of g) as [|c coords].
  - split; [split; reflexivity|discriminate].
  - split; [split; discriminate|]. intros b [= <-].
    cbn [SccLookup.min_lng SccLookup.max_lng SccLookup.min_lat
           SccLookup.max_lat map].
    split; [apply py_min_In|]. split; [apply py_max_In|].
    split; [apply py_min_In|]. split; [apply py_max_In|].
    intros Hall. apply Forall_cons in Hall as [[Hc1 Hc2] Hall].
    assert (H1 : Forall LookupSpec.number (map fst coords)).
    { apply Forall_fmap. eapply Forall_impl; [exact Hall|].
      intros p [Hp _]. exact Hp. }
    assert (H2 : Forall LookupSpec.number (map snd coords)).
    { apply Forall_fmap. eapply Forall_impl; [exact Hall|].
      intros p [_ Hp]. exact Hp. }
    destruct (py_min_least _ _ Hc1 H1) as (_ & A1 & A2).
    destruct (py_max_greatest _ _ Hc1 H1) as (_ & B1 & B2).
    destruct (py_min_least _ _ Hc2 H2) as (_ & C1 & C2).
    destruct (py_max_greatest _ _ Hc2 H2) as (_ & D1 & D2).
    constructor; [repeat split; assumption|].
    apply Forall_fmap in A2, B2, C2, D2.
    rewrite Forall_forall in A2, B2, C2, D2. apply Forall_forall.
    intros p Hp. repeat split;
      [apply (A2 p Hp)|apply (B2 p Hp)|apply (C2 p Hp)|apply (D2 p Hp)].
Qed.

Lemma parcel_bbox_contains_vertices_witness :
  let g :=
    SccLookup.Polygon
      [[(153.0625, -26.625); (153.125, -26.625); (153.125, -26.75);
        (153.0625, -26.75); (153.0625, -26.625)]%float] in
  exists b,
    SccLookup._compute_parcel_bbox g = Some b
    /\ Forall (LookupSpec.inside b) (SccLookup.coords_of g).
Proof.
  intros g. eexists. split; [vm_compute; reflexivity|].
  apply (proj2 (parcel_bbox_contains_vertices g)); [vm_compute; reflexivity|].
  repeat constructor; vm_compute; discriminate.
Defined.


(** ** Easements, covenants and habitat *)

Section ConstraintFacts.
Import SiteConstraints ConstraintSpec.
Context {G K : Type}.

Lemma process_easements_named (feats : list (feature G)) :
  forall es,
    _process_easements feats = Return es ->
    Forall named es /\ (length es <= length feats)%nat.
Proof.
  induction feats as [|feat feats IH]; intros es.
  - intros [= <-]. split; [constructor|reflexivity].
  - cbn [_process_easements].
    destruct (process_easement feat) as [o|] eqn:Ef; [|discriminate].
    destruct (_process_easements feats) as [rest|]; [|discriminate].
    cbn [py_bind]. destruct (IH rest eq_refl) as [Hn Hl].
    destruct o as [e|]; intros [= <-]; cbn [length]; (split; [|lia]);
      [|exact Hn].
    constructor; [|exact Hn]. revert Ef. unfold process_easement.
    repeat match goal with
           | |- context [DaHistory.stripped ?t] =>
               destruct (DaHistory.stripped t); [|discriminate]
           end.
    cbn [py_bind].
    match goal with
    | |- context [PyStr.nonempty ?a || PyStr.nonempty ?b] =>
        destruct a, b; cbn [PyStr.nonempty orb negb]; intros [= <-];
          unfold named; cbn [e_name e_purpose]; (left + right); discriminate
    end.
Qed.

Lemma process_covenants_named (feats : list (feature G)) :
  forall cs,
    _process_covenants feats = Return cs ->
    Forall covenant_named cs /\ (length cs <= length feats)%nat.
Proof.
  induction feats as [|feat feats IH]; intros cs.
  - intros [= <-]. split; [constructor|reflexivity].
  - cbn [_process_covenants].
    destruct (process_covenant feat) as [o|] eqn:Ef; [|discriminate].
    destruct (_process_covenants feats) as [rest|]; [|discriminate].
    cbn [py_bind]. destruct (IH rest eq_refl) as [Hn Hl].
    destruct o as [c|]; intros [= <-]; cbn [length]; (split; [|lia]);
      [|exact Hn].
    constructor; [|exact Hn]. revert Ef. unfold process_covenant.
    repeat match goal with
           | |- context [DaHistory.stripped ?t] =>
               destruct (DaHistory.stripped t); [|discriminate]
           end.
    cbn [py_bind].
    match goal with
    | |- context [negb (PyStr.nonempty ?a) && negb (PyStr.nonempty ?b)] =>
        destruct a, b; cbn [PyStr.nonempty andb negb]; intros [= <-];
          unfold covenant_named; cbn [c_name c_purpose]; (left + right);
          discriminate
    end.
Qed.

Lemma koala_status_cases (p h c : list K) :
  let k := _process_koala_habitat p h c in
  (k_status k = None <-> p = [] /\ h = [] /\ c = [])
  /\ (c <> [] -> k_status k = Some "Core Koala Habitat"%string)
  /\ (c = [] -> h <> [] -> k_status k = Some "Koala Habitat Area"%string)
  /\ (c = [] -> h = [] -> p <> [] ->
      k_status k = Some "Koala Priority Area"%string)
  /\ text_truthy (k_status k) = negb (bool_decide (k_status k = None)).
Proof.
  unfold _process_koala_habitat, count.
  destruct p, h, c; cbn; repeat split; intros; try congruence;
    try discriminate;
    repeat match goal with H : _ /\ _ |- _ => destruct H end;
    try discriminate.
Qed.

Lemma esa_status_cases (a b : list K) :
  let e := _process_esa_areas a b in
  (s_status e = None <-> a = [] /\ b = [])
  /\ (a <> [] ->
      s_status e = Some "Environmentally Sensitive Area (Category A)"%string)
  /\ (a = [] -> b <> [] ->
      s_status e = Some "Environmentally Sensitive Area (Category B)"%string)
  /\ text_truthy (s_status e) = negb (bool_decide (s_status e = None)).
Proof.
  unfold _process_esa_areas, count.
  destruct a, b; cbn; repeat split; intros; try congruence;
    try discriminate;
    repeat match goal with H : _ /\ _ |- _ => destruct H end;
    try discriminate.
Qed.

End ConstraintFacts.

Section ConstraintResultFacts.
Import SiteConstraints ConstraintSpec.
Context {G K : Type}.

(** What a returned result is made of. *)
Lemma constraints_shape (er cr : response (feature G))
    (pr hr kr ar br : response K) (c : Result G) :
  get_constraints er cr pr hr kr ar br = Return c ->
  _process_easements (SccLookup.answered er) = Return (easements c)
  /\ _process_covenants (SccLookup.answered cr) = Return (covenants c)
  /\ koala c
     = _process_koala_habitat (SccLookup.answered pr) (SccLookup.answered hr)
         (SccLookup.answered kr)
  /\ esa c
     = _process_esa_areas (SccLookup.answered ar) (SccLookup.answered br)
  /\ easements_count c = Z.of_nat (length (easements c))
  /\ covenants_count c = Z.of_nat (length (covenants c))
  /\ has_constraints c
     = (if easements_count c >? 0 then FlagTrue
        else if covenants_count c >? 0 then FlagTrue
        else if text_truthy (k_status (koala c))
        then FlagValue (k_status (koala c))
        else FlagValue (s_status (esa c)))
  /\ (unconstrained c ->
      summary c = "✅ No major site constraints identified"%string)
  /\ (~ unconstrained c ->
      exists rest, summary c = ("⚠️ " +:+ rest)%string).
Proof.
  unfold get_constraints.
  destruct (_process_easements (SccLookup.answered er)) as [es|]; [|discriminate].
  destruct (_process_covenants (SccLookup.answered cr)) as [cs|]; [|discriminate].
  cbn [py_bind]. intros [= <-].
  cbn [easements covenants koala esa easements_count covenants_count
         has_constraints summary].
  repeat (split; [reflexivity|]).
  set (k := _process_koala_habitat _ _ _). set (e := _process_esa_areas _ _).
  pose proof (koala_status_cases (SccLookup.answered pr) (SccLookup.answered hr)
                (SccLookup.answered kr)) as (_ & _ & _ & _ & Hk).
  pose proof (esa_status_cases (SccLookup.answered ar) (SccLookup.answered br))
    as (_ & _ & Hs).
  cbv zeta in Hk, Hs. fold k in Hk. fold e in Hs. destruct Hs as [_ Hs].
  unfold unconstrained.
  cbn [easements covenants koala esa]. split.
  - intros (-> & -> & Ek & Ee). rewrite Hk, Hs, Ek, Ee. reflexivity.
  - intros Hnot.
    destruct es as [|e0 es]; [destruct cs as [|c0 cs]|]; cbn [app];
      try (eexists; reflexivity).
    assert (Hk2 : k_status k = None \/ text_truthy (k_status k) = true).
    { revert Hk. destruct (k_status k); intros Hk; [right|left; reflexivity].
      rewrite Hk, bool_decide_eq_false_2 by discriminate. reflexivity. }
    assert (Hs2 : s_status e = None \/ text_truthy (s_status e) = true).
    { revert Hs. destruct (s_status e); intros Hs; [right|left; reflexivity].
      rewrite Hs, bool_decide_eq_false_2 by discriminate. reflexivity. }
    destruct Hk2 as [Ek|Ek]; rewrite Ek; cbn [text_truthy app];
      [|eexists; reflexivity].
    destruct Hs2 as [Ee|Ee]; rewrite Ee; cbn [text_truthy app];
      [|eexists; reflexivity].
    exfalso. apply Hnot. repeat split; assumption.
Qed.

Lemma flag_unconstrained (c : Result G) :
  easements_count c = Z.of_nat (length (easements c)) ->
  covenants_count c = Z.of_nat (length (covenants c)) ->
  text_truthy (k_status (koala c))
  = negb (bool_decide (k_status (koala c) = None)) ->
  text_truthy (s_status (esa c))
  = negb (bool_decide (s_status (esa c) = None)) ->
  has_constraints c
  = (if easements_count c >? 0 then FlagTrue
     else if covenants_count c >? 0 then FlagTrue
     else if text_truthy (k_status (koala c))
     then FlagValue (k_status (koala c))
     else FlagValue (s_status (esa c))) ->
  (flag_truthy (has_constraints c) = false <-> unconstrained c)
  /\ (points c = 0 <-> unconstrained c)
  /\ 0 <= points c.
Proof.
  intros He Hc Hk Hs Hf.
  assert (Hgt : forall n : Z, 0 <= n -> ((n >? 0) = false <-> n = 0)).
  { intros n Hn. rewrite Z.gtb_ltb, Z.ltb_ge. lia. }
  assert (Hne : 0 <= easements_count c) by lia.
  assert (Hnc : 0 <= covenants_count c) by lia.
  assert (Hes : easements_count c = 0 <-> easements c = []).
  { rewrite He. destruct (easements c); cbn [length];
      [split; reflexivity|split; [lia|discriminate]]. }
  assert (Hcs : covenants_count c = 0 <-> covenants c = []).
  { rewrite Hc. destruct (covenants c); cbn [length];
      [split; reflexivity|split; [lia|discriminate]]. }
  assert (Hks : text_truthy (k_status (koala c)) = false
                <-> k_status (koala c) = None).
  { rewrite Hk, negb_false_iff, bool_decide_eq_true. reflexivity. }
  assert (Hss : text_truthy (s_status (esa c)) = false
                <-> s_status (esa c) = None).
  { rewrite Hs, negb_false_iff, bool_decide_eq_true. reflexivity. }
  assert (Hflag : flag_truthy (has_constraints c)
                  = (easements_count c >? 0) || (covenants_count c >? 0)
                    || text_truthy (k_status (koala c))
                    || text_truthy (s_status (esa c))).
  { rewrite Hf. destruct (easements_count c >? 0); [reflexivity|].
    destruct (covenants_count c >? 0); [reflexivity|]. cbn [orb].
    destruct (text_truthy (k_status (koala c))) eqn:Et; cbn [flag_truthy];
      [exact Et|reflexivity]. }
  unfold unconstrained, points. rewrite <- Hes, <- Hcs, <- Hks, <- Hss, Hflag.
  rewrite !orb_false_iff, (Hgt _ Hne), (Hgt _ Hnc).
  split; [tauto|].
  destruct (text_truthy (k_status (koala c))),
    (text_truthy (s_status (esa c)));
    (split; [|lia]);
    (split;
     [intros H0; repeat split; try reflexivity; lia
     |intros (H1 & H2 & H3 & H4); try discriminate; lia]).
Qed.

End ConstraintResultFacts.

Section ConstraintSummaryFacts.
Import SiteConstraints ConstraintSpec.
Context {G : Type}.

Lemma unconstrained_dec (c : Result G) : unconstrained c \/ ~ unconstrained c.
Proof.
  unfold unconstrained.
  destruct (easements c); [|right; intros (H & _); discriminate].
  destruct (covenants c); [|right; intros (_ & H & _); discriminate].
  destruct (k_status (koala c)); [right; intros (_ & _ & H & _); discriminate|].
  destruct (s_status (esa c)); [right; intros (_ & _ & _ & H); discriminate|].
  left. repeat split; reflexivity.
Qed.

Lemma warning_is_not_clear (rest : string) :
  ("⚠️ " +:+ rest)%string <> "✅ No major site constraints identified"%string.
Proof. rewrite !append_cons. intros [= H]. Qed.

End ConstraintSummaryFacts.

(** X16. The result of [get_constraints]. Each count is the length of
    its list; every easement and every covenant that is kept has a name or a
    purpose; the habitat status is absent exactly when none of the three
    habitat layers answered with a feature, and is "Core Koala Habitat"
    whenever the core layer did; the sensitive-area status is absent exactly
    when neither category layer answered with a feature. The flag
    [has_constraints] is false, and the summary reads "No major site
    constraints identified", exactly when there is no easement, no covenant,
    no habitat status and no sensitive-area status. *)
Theorem constraints_result_is_consistent :
  forall (G K : Type) (er cr : response (SiteConstraints.feature G))
         (pr hr kr ar br : response K) (c : SiteConstraints.Result G),
    SiteConstraints.get_constraints er cr pr hr kr ar br = Return c ->
    SiteConstraints.easements_count c
    = Z.of_nat (length (SiteConstraints.easements c))
    /\ SiteConstraints.covenants_count c
       = Z.of_nat (length (SiteConstraints.covenants c))
    /\ Forall ConstraintSpec.named (SiteConstraints.easements c)
    /\ Forall ConstraintSpec.covenant_named (SiteConstraints.covenants c)
    /\ (SiteConstraints.k_status (SiteConstraints.koala c) = None
        <-> SccLookup.answered pr = [] /\ SccLookup.answered hr = []
            /\ SccLookup.answered kr = [])
    /\ (SccLookup.answered kr <> [] ->
        SiteConstraints.k_status (SiteConstraints.koala c)
        = Some "Core Koala Habitat"%string)
    /\ (SiteConstraints.s_status (SiteConstraints.esa c) = None
        <-> SccLookup.answered ar = [] /\ SccLookup.answered br = [])
    /\ (SiteConstraints.flag_truthy (SiteConstraints.has_constraints c) = false
        <-> ConstraintSpec.unconstrained c)
    /\ (SiteConstraints.summary c
        = "✅ No major site constraints identified"%string
        <-> ConstraintSpec.unconstrained c).
Proof.
  intros G K er cr pr hr kr ar br c Hc.
  destruct (constraints_shape _ _ _ _ _ _ _ _ Hc)
    as (He & Hcv & Hk & Hs & Hne & Hnc & Hf & Hclear & Hwarn).
  destruct (koala_status_cases (SccLookup.answered pr) (SccLookup.answered hr)
              (SccLookup.answered kr)) as (K1 & K2 & _ & _ & K5).
  destruct (esa_status_cases (SccLookup.answered ar) (SccLookup.answered br))
    as (S1 & _ & _ & S4).
  cbv zeta in K1, K2, K5, S1, S4. rewrite <- Hk in K1, K2, K5.
  rewrite <- Hs in S1, S4.
  split; [exact Hne|]. split; [exact Hnc|].
  split; [apply (process_easements_named _ _ He)|].
  split; [apply (process_covenants_named _ _ Hcv)|].
  split; [exact K1|]. split; [exact K2|]. split; [exact S1|].
  split; [apply (flag_unconstrained c Hne Hnc K5 S4 Hf)|].
  split; [|exact Hclear].
  intros Hsum. destruct (unconstrained_dec c) as [H|H]; [exact H|].
  destruct (Hwarn H) as [rest Hrest]. rewrite Hrest in Hsum.
  destruct (warning_is_not_clear rest Hsum).
Qed.

Lemma constraints_result_is_consistent_witness :
  let er : response (SiteConstraints.feature unit) :=
    Json (Some [{| SiteConstraints.LOTPLAN := Text "3RP12";
                   SiteConstraints.GAZETTEDAREA := Absent;
                   SiteConstraints.NAME := Text " Drainage ";
                   SiteConstraints.PURPOSE1 := Absent;
                   SiteConstraints.INFAVOUR1 := Absent;
                   SiteConstraints.STATUS := Absent;
                   SiteConstraints.geometry := None |}]) in
  exists c : SiteConstraints.Result unit,
    SiteConstraints.get_constraints er (Failed TimeoutException)
      (Json None) (Json (Some [tt])) (Json (Some []))
      (Failed TransportError) (Json (Some []))
    = Return c
    /\ SiteConstraints.easements_count c = 1
    /\ Forall ConstraintSpec.named (SiteConstraints.easements c).
Proof.
  intros er. eexists. split; [vm_compute; reflexivity|].
  split; [reflexivity|].
  refine (proj1 (proj2 (proj2
            (constraints_result_is_consistent unit unit er
               (Failed TimeoutException) (Json None) (Json (Some [tt]))
               (Json (Some [])) (Failed TransportError) (Json (Some []))
               _ _)))).
  vm_compute. reflexivity.
Defined.

(** X17. The constraints the scorer is given by [get_constraints]. The
    scorer takes five points for each easement and each covenant and ten for
    a habitat status and for a sensitive-area status; it takes nothing
    exactly when [has_constraints] is false. When every query fails the
    result is returned all the same: nothing found, and no points taken. *)
Theorem constraints_and_score_agree :
  (forall (G K : Type) (er cr : response (SiteConstraints.feature G))
          (pr hr kr ar br : response K) (c : SiteConstraints.Result G)
          (st : Z * list string),
      SiteConstraints.get_constraints er cr pr hr kr ar br = Return c ->
      fst (AiSummary.constraints_step (Some (SiteConstraints.scored c)) st)
      = fst st - ConstraintSpec.points c
      /\ 0 <= ConstraintSpec.points c
      /\ (SiteConstraints.flag_truthy (SiteConstraints.has_constraints c)
          = false
          <-> AiSummary.constraints_step (Some (SiteConstraints.scored c)) st
              = st))
  /\ (forall (G K : Type) (e : failure),
         exists c : SiteConstraints.Result G,
           SiteConstraints.get_constraints (K := K)
             (Failed e) (Failed e) (Failed e) (Failed e) (Failed e)
             (Failed e) (Failed e)
           = Return c
           /\ ConstraintSpec.unconstrained c
           /\ ConstraintSpec.points c = 0).
Proof.
  split.
  - intros G K er cr pr hr kr ar br c st Hc.
    destruct (constraints_shape _ _ _ _ _ _ _ _ Hc)
      as (_ & _ & Hk & Hs & Hne & Hnc & Hf & _ & _).
    destruct (koala_status_cases (SccLookup.answered pr)
                (SccLookup.answered hr) (SccLookup.answered kr))
      as (_ & _ & _ & _ & K5).
    destruct (esa_status_cases (SccLookup.answered ar) (SccLookup.answered br))
      as (_ & _ & _ & S4).
    cbv zeta in K5, S4. rewrite <- Hk in K5. rewrite <- Hs in S4.
    destruct (flag_unconstrained c Hne Hnc K5 S4 Hf) as (Hflag & Hpts & Hpos).
    assert (Hfst : fst (AiSummary.constraints_step
                          (Some (SiteConstraints.scored c)) st)
                   = fst st - ConstraintSpec.points c).
    { rewrite constraints_step_fst. unfold ConstraintSpec.points.
      cbn [ScoreSpec.easements ScoreSpec.covenants ScoreSpec.koala_flag
             ScoreSpec.esa_flag SiteConstraints.scored
             AiSummary.easements_count AiSummary.covenants_count
             AiSummary.koala AiSummary.esa default from_option id].
      unfold ScoreSpec.per_item, ScoreSpec.flag, AiSummary.status_truthy.
      cbn [AiSummary.status].
      change (DaHistory.str_truthy ?x) with (SiteConstraints.text_truthy x).
      destruct (Z.gtb_spec (SiteConstraints.easements_count c) 0),
        (Z.gtb_spec (SiteConstraints.covenants_count c) 0);
        destruct (SiteConstraints.text_truthy _),
          (SiteConstraints.text_truthy _); lia. }
    split; [exact Hfst|]. split; [exact Hpos|].
    rewrite Hflag, <- Hpts. split.
    + intros Hz. unfold ConstraintSpec.unconstrained in Hflag.
      apply Hpts in Hz as (He & Hcv & Ek & Es).
      unfold AiSummary.constraints_step.
      cbn [SiteConstraints.scored AiSummary.easements_count
             AiSummary.covenants_count AiSummary.koala AiSummary.esa
             default from_option id].
      rewrite Hne, Hnc, He, Hcv. cbn [length Z.of_nat Z.gtb Z.compare].
      unfold AiSummary.status_truthy. cbn [AiSummary.status].
      rewrite Ek, Es. reflexivity.
    + intros Heq. rewrite Heq in Hfst. lia.
  - intros G K e. eexists. split; [reflexivity|].
    split; [repeat split; reflexivity|reflexivity].
Qed.

Lemma constraints_and_score_agree_witness :
  let er : response (SiteConstraints.feature unit) :=
    Json (Some [{| SiteConstraints.LOTPLAN := Text "3RP12";
                   SiteConstraints.GAZETTEDAREA := Absent;
                   SiteConstraints.NAME := Text "Drainage";
                   SiteConstraints.PURPOSE1 := Absent;
                   SiteConstraints.INFAVOUR1 := Absent;
                   SiteConstraints.STATUS := Absent;
                   SiteConstraints.geometry := None |}]) in
  exists c : SiteConstraints.Result unit,
    SiteConstraints.get_constraints er (Json None)
      (Json None) (Json (Some [tt])) (Json None) (Json None) (Json None)
    = Return c
    /\ fst (AiSummary.constraints_step (Some (SiteConstraints.scored c))
              (100, []))
       = 100 - ConstraintSpec.points c
    /\ ConstraintSpec.points c = 15.
Proof.
  intros er. eexists. split; [vm_compute; reflexivity|].
  split; [|reflexivity].
  refine (proj1 (proj1 constraints_and_score_agree unit unit er (Json None)
                   (Json None) (Json (Some [tt])) (Json None) (Json None)
                   (Json None) _ (100, []) _)).
  vm_compute. reflexivity.
Defined.


(** ** Flood mapping and flood studies *)

Section FloodFacts.
Import Flood FloodSpec.

Lemma lstrip_plain (s : string) :
  StrSpec.all StrSpec.not_space s = true -> PyStr.lstrip s = s.
Proof.
  destruct s as [|c s]; [reflexivity|]. cbn [StrSpec.all PyStr.lstrip].
  intros H. apply andb_true_iff in H as [Hc _]. unfold StrSpec.not_space in Hc.
  apply negb_true_iff in Hc. rewrite Hc. reflexivity.
Qed.

Lemma rstrip_plain (s : string) :
  StrSpec.all StrSpec.not_space s = true -> PyStr.rstrip s = s.
Proof.
  induction s as [|c s IH]; [reflexivity|]. cbn [StrSpec.all PyStr.rstrip].
  intros H. apply andb_true_iff in H as [Hc Hs]. rewrite (IH Hs).
  unfold StrSpec.not_space in Hc. apply negb_true_iff in Hc.
  destruct s; [rewrite Hc|]; reflexivity.
Qed.

Lemma strip_plain (s : string) :
  StrSpec.all StrSpec.not_space s = true -> PyStr.strip s = s.
Proof.
  intros H. unfold PyStr.strip. rewrite (lstrip_plain s H). apply rstrip_plain, H.
Qed.

Lemma digits_plain (s : string) :
  StrSpec.all PyStr.isdecimal s = true ->
  StrSpec.all StrSpec.not_space s = true.
Proof.
  apply all_impl. intros c Hc.
  destruct (int_char_facts c (decimal_is_int_char c Hc)) as (_ & H & _).
  exact H.
Qed.

Lemma digits_no_slash (s : string) :
  StrSpec.all PyStr.isdecimal s = true -> PyStr.contains "/" s = false.
Proof.
  intros H. apply contains_without, digits_without; [reflexivity|exact H].
Qed.

Lemma split_once_found (a : ascii) (sep s : string) :
  PyStr.contains (String a sep) s = true ->
  exists p, PyStr.split_once (String a sep) s = Some p.
Proof.
  induction s as [|c s IH]; [discriminate|]. cbn [PyStr.contains].
  intros H. cbn [PyStr.split_once].
  destruct (String.prefix (String a sep) (String c s)); [eauto|].
  cbn [orb] in H. destruct (IH H) as [[u v] ->]. eauto.
Qed.

Lemma kept_filled (t : text) (s : string) :
  DaHistory.stripped t = Return s -> filled (kept s).
Proof.
  intros H. unfold kept. destruct s as [|c s]; [exact I|].
  cbn [PyStr.nonempty filled]. split; [discriminate|].
  apply (stripped_trimmed _ _ H).
Qed.

Lemma process_scc_flood_well_formed (features : list feature)
    (fd : flood_data) :
  _process_scc_flood features = Return (Some fd) -> well_formed fd.
Proof.
  unfold _process_scc_flood. destruct features as [|feat _]; [discriminate|].
  destruct (DaHistory.stripped (SCENARIO feat)) as [x1|] eqn:E1; [|discriminate].
  destruct (DaHistory.stripped (MAX_FLOOD_FORMAT feat)) as [x2|] eqn:E2;
    [|discriminate].
  destruct (DaHistory.stripped (MAX_FLOOR_FORMAT feat)) as [x3|] eqn:E3;
    [|discriminate].
  destruct (DaHistory.stripped (FREEBOARD feat)) as [x4|] eqn:E4; [|discriminate].
  destruct (DaHistory.stripped (MAX_VEL_FORMAT feat)) as [x5|] eqn:E5;
    [|discriminate].
  destruct (DaHistory.stripped (SOURCE feat)) as [x6|] eqn:E6; [|discriminate].
  destruct (DaHistory.stripped (NOTES feat)) as [x7|] eqn:E7; [|discriminate].
  destruct (DaHistory.stripped (COMPLEX feat)) as [x8|] eqn:E8; [|discriminate].
  destruct (DaHistory.stripped (address_format feat)) as [x9|] eqn:E9;
    [|discriminate].
  destruct (DaHistory.stripped (lotplan feat)) as [x10|] eqn:E10;
    [|discriminate].
  cbn [py_bind].
  destruct (_ || _) eqn:Eany; [|discriminate]. intros [= <-].
  unfold well_formed, fields.
  cbn [scenario max_flood_level min_floor_level freeboard velocity source
         notes complex_note address fd_lotplan].
  split; [repeat constructor; eauto using kept_filled|].
  unfold kept.
  destruct x1; [|eexists; left; reflexivity].
  destruct x2; [|eexists; right; left; reflexivity].
  destruct x3; [|eexists; do 2 right; left; reflexivity].
  destruct x4; [|eexists; do 3 right; left; reflexivity].
  destruct x5; [|eexists; do 4 right; left; reflexivity].
  destruct x6; [|eexists; do 5 right; left; reflexivity].
  destruct x7; [|eexists; do 6 right; left; reflexivity].
  destruct x8; [|eexists; do 7 right; left; reflexivity].
  destruct x9; [|eexists; do 8 right; left; reflexivity].
  destruct x10; [discriminate|eexists; do 9 right; left; reflexivity].
Qed.

Lemma study_name_inj (k k' : string) (f f' : study_feature) :
  DaSpec.trimmed k -> DaSpec.trimmed k' ->
  name (make_study k f) = name (make_study k' f') -> k = k'.
Proof.
  unfold DaSpec.trimmed. cbn [name make_study]. intros Hk Hk'.
  destruct k, k'; cbn [PyStr.nonempty]; try discriminate; [reflexivity|].
  rewrite Hk, Hk'. intros [= -> ->]. reflexivity.
Qed.

Lemma gathered_step (st : list study * gset string)
    (done : list study_feature) (feat : study_feature) :
  gathered st done -> gathered (study_step st feat) (done ++ [feat]).
Proof.
  destruct st as [out seen]. intros (J1 & J2 & J3 & J4).
  cbn [fst snd] in *. unfold study_step.
  assert (Hold : forall x, In x out ->
            exists f raw, In f (done ++ [feat]) /\ study_name_of f = Some raw
                          /\ PyStr.strip raw ∈ seen
                          /\ x = make_study (PyStr.strip raw) f).
  { intros x Hx. destruct (J3 x Hx) as (f & raw & Hf & H).
    exists f, raw. split; [apply in_or_app; left; exact Hf|exact H]. }
  destruct (study_name_of feat) as [raw|] eqn:En.
  - destruct (bool_decide (PyStr.strip raw ∈ seen)) eqn:Ek.
    + apply bool_decide_eq_true in Ek. unfold gathered. cbn [fst snd].
      split; [exact J1|]. split; [exact J2|]. split; [exact Hold|].
      intros f r Hf Hr. apply in_app_iff in Hf as [Hf|[<-|[]]];
        [apply (J4 f r Hf Hr)|].
      rewrite En in Hr. injection Hr as <-. exact Ek.
    + apply bool_decide_eq_false in Ek. unfold gathered. cbn [fst snd].
      split.
      { rewrite map_app. apply NoDup_app. split; [exact J1|].
        split; [|apply NoDup_singleton].
        intros nm Hnm Hx. apply list_elem_of_singleton in Hx as ->.
        apply list_elem_of_In, in_map_iff in Hnm as (x & Hx & Hin).
        destruct (J3 x Hin) as (f & r & _ & _ & Hseen & ->).
        apply Ek. replace (PyStr.strip raw) with (PyStr.strip r); [exact Hseen|].
        apply (study_name_inj _ _ f feat); [apply strip_trimmed..|exact Hx]. }
      split.
      { intros k Hk. apply elem_of_union in Hk as [Hk|Hk]; [|apply J2, Hk].
        apply elem_of_singleton in Hk as ->. apply strip_trimmed. }
      split.
      { intros x Hx. apply in_app_iff in Hx as [Hx|[<-|[]]].
        - destruct (Hold x Hx) as (f & r & Hf & Hr & Hs & ->).
          exists f, r. repeat split; try assumption.
          apply elem_of_union. right. exact Hs.
        - exists feat, raw. split; [apply in_or_app; right; left; reflexivity|].
          split; [exact En|]. split; [|reflexivity].
          apply elem_of_union. left. apply elem_of_singleton. reflexivity. }
      intros f r Hf Hr. apply elem_of_union.
      apply in_app_iff in Hf as [Hf|[<-|[]]]; [right; apply (J4 f r Hf Hr)|].
      rewrite En in Hr. injection Hr as <-. left.
      apply elem_of_singleton. reflexivity.
  - unfold gathered. cbn [fst snd].
    split; [exact J1|]. split; [exact J2|]. split; [exact Hold|].
    intros f r Hf Hr. apply in_app_iff in Hf as [Hf|[<-|[]]];
      [apply (J4 f r Hf Hr)|congruence].
Qed.

Lemma gathered_fold (l : list study_feature) :
  forall st done,
    gathered st done -> gathered (fold_left study_step l st) (done ++ l).
Proof.
  induction l as [|x l IH]; intros st done H.
  - rewrite app_nil_r. exact H.
  - cbn [fold_left]. replace (done ++ x :: l) with ((done ++ [x]) ++ l)
      by (rewrite <- app_assoc; reflexivity).
    apply IH, gathered_step, H.
Qed.

Lemma gathered_all (l : list study_feature) :
  gathered (fold_left study_step l ([], ∅)) l.
Proof.
  apply (gathered_fold l ([], ∅) []). unfold gathered. cbn [fst snd].
  split; [constructor|].
  split; [intros k Hk; apply elem_of_empty in Hk; destruct Hk|].
  split; [intros ? []|intros ? ? []].
Qed.

End FloodFacts.

(** X18. The reference the flood mapping is searched with. There is
    none exactly when the lot and plan text has no "/". For a lot and a plan
    number made of digits the reference is the lot followed by the number,
    whether the plan is written with "RP", with "SP" or bare; so where the
    lot ends and the number begins is lost: lot [a ++ b] on plan [n] and lot
    [a] on plan [b ++ n] are searched with the same reference. *)
Theorem flood_reference_of_lot_plan :
  (forall lot_plan : string,
      Flood._parse_lotplan_for_flood lot_plan = None
      <-> PyStr.contains "/" lot_plan = false)
  /\ (forall lot n : string,
         StrSpec.all PyStr.isdecimal lot = true ->
         StrSpec.all PyStr.isdecimal n = true ->
         Flood._parse_lotplan_for_flood (lot +:+ "/" +:+ "RP" +:+ n)
         = Some (lot +:+ n)
         /\ Flood._parse_lotplan_for_flood (lot +:+ "/" +:+ "SP" +:+ n)
            = Some (lot +:+ n)
         /\ Flood._parse_lotplan_for_flood (lot +:+ "/" +:+ n)
            = Some (lot +:+ n))
  /\ (forall a b n : string,
         StrSpec.all PyStr.isdecimal a = true ->
         StrSpec.all PyStr.isdecimal b = true ->
         StrSpec.all PyStr.isdecimal n = true ->
         Flood._parse_lotplan_for_flood ((a +:+ b) +:+ "/" +:+ "RP" +:+ n)
         = Flood._parse_lotplan_for_flood (a +:+ "/" +:+ "RP" +:+ (b +:+ n))).
Proof.
  assert (Hdigits : forall lot n : string,
             StrSpec.all PyStr.isdecimal lot = true ->
             StrSpec.all PyStr.isdecimal n = true ->
             Flood._parse_lotplan_for_flood (lot +:+ "/" +:+ "RP" +:+ n)
             = Some (lot +:+ n)
             /\ Flood._parse_lotplan_for_flood (lot +:+ "/" +:+ "SP" +:+ n)
                = Some (lot +:+ n)
             /\ Flood._parse_lotplan_for_flood (lot +:+ "/" +:+ n)
                = Some (lot +:+ n)).
  { intros lot n Hl Hn. unfold Flood._parse_lotplan_for_flood.
    destruct (plan_number_cleaned n Hn) as (E0 & ER & ES).
    rewrite !(split_once_first lot _ (digits_no_slash lot Hl)), E0, ER, ES.
    rewrite (strip_plain lot (digits_plain lot Hl)).
    rewrite (strip_plain n (digits_plain n Hn)). repeat split; reflexivity. }
  split; [|split; [exact Hdigits|]].
  - intros lot_plan. unfold Flood._parse_lotplan_for_flood. split.
    + intros H. destruct (PyStr.contains "/" lot_plan) eqn:E; [|reflexivity].
      destruct (split_once_found _ _ _ E) as [[u v] Ep]. rewrite Ep in H.
      discriminate.
    + intros H. rewrite (split_once_none _ _ H). reflexivity.
  - intros a b n Ha Hb Hn.
    assert (Hab : StrSpec.all PyStr.isdecimal (a +:+ b) = true)
      by (rewrite all_app, Ha, Hb; reflexivity).
    assert (Hbn : StrSpec.all PyStr.isdecimal (b +:+ n) = true)
      by (rewrite all_app, Hb, Hn; reflexivity).
    destruct (Hdigits (a +:+ b)%string n Hab Hn) as (-> & _).
    destruct (Hdigits a (b +:+ n)%string Ha Hbn) as (-> & _).
    rewrite append_assoc. reflexivity.
Qed.

Lemma flood_reference_of_lot_plan_witness :
  Flood._parse_lotplan_for_flood "12/RP3" = Some "123"%string
  /\ Flood._parse_lotplan_for_flood "12/RP3"
     = Flood._parse_lotplan_for_flood "1/RP23".
Proof.
  destruct flood_reference_of_lot_plan as (_ & H2 & H3). split.
  - apply (H2 "12" "3"); reflexivity.
  - apply (H3 "1" "2" "3"); reflexivity.
Defined.

(** X19. The flood information [get_flood_info] returns. The flag
    [has_flood_data] tells whether there is flood data, and
    [has_flood_studies] whether there are studies, of which there are at
    most five. Flood data, when there is some, holds at least one value, and
    every value it holds is a trimmed text that is not empty. Without a
    reference to search with (no lot and plan, or one without "/", or an
    empty reference) there is never flood data. The scorer takes its
    fifteen points for flood mapping exactly when [has_flood_data] is
    true. *)
Theorem flood_info_is_consistent :
  forall (mapping : string -> response Flood.feature)
         (s0 s1 s2 : response Flood.study_feature) (lot_plan : option string)
         (f : Flood.Info) (st : Z * list string),
    Flood.get_flood_info mapping s0 s1 s2 lot_plan = Return f ->
    (Flood.has_flood_data f = true <-> Flood.info_flood_data f <> None)
    /\ (Flood.has_flood_studies f = true <-> Flood.flood_studies f <> [])
    /\ (length (Flood.flood_studies f) <= 5)%nat
    /\ (forall fd, Flood.info_flood_data f = Some fd -> FloodSpec.well_formed fd)
    /\ (lot_plan = None \/ Flood.lotplan_searched f = None
        \/ Flood.lotplan_searched f = Some EmptyString ->
        Flood.has_flood_data f = false)
    /\ fst (AiSummary.flood_step (Some (Flood.scored f)) st)
       = fst st - (if Flood.has_flood_data f then 15 else 0).
Proof.
  intros mapping s0 s1 s2 lot_plan f st. unfold Flood.get_flood_info.
  set (lotplan := match lot_plan with
                  | Some lp => if PyStr.nonempty lp
                               then Flood._parse_lotplan_for_flood lp else None
                  | None => None
                  end).
  set (features := match lotplan with
                   | Some ref => if PyStr.nonempty ref
                                 then SccLookup.answered (mapping ref) else []
                   | None => []
                   end).
  destruct (Flood._process_scc_flood features) as [fd|] eqn:Efd; [|discriminate].
  cbn [py_bind]. intros [= <-].
  cbn [Flood.has_flood_data Flood.info_flood_data Flood.flood_studies
         Flood.has_flood_studies Flood.lotplan_searched].
  split; [destruct fd; split; congruence|]. split.
  { destruct (Flood._process_qld_flood_studies _ _ _) as [|x l];
      cbn [length]; split; try congruence; try discriminate.
    intros _. apply Z.gtb_lt. lia. }
  split; [apply firstn_le_length|]. split.
  { intros fd' [= ->]. apply (process_scc_flood_well_formed _ _ Efd). }
  split.
  { intros H. assert (Hnone : features = []).
    { subst features lotplan.
      destruct H as [-> |[H|H]]; [reflexivity|rewrite H..]; reflexivity. }
    rewrite Hnone in Efd. injection Efd as <-. reflexivity. }
  rewrite flood_step_fst. unfold ScoreSpec.flag, ScoreSpec.flood_flag.
  cbn. destruct fd; reflexivity.
Qed.

Lemma flood_info_is_consistent_witness :
  let mapping (ref : string) : response Flood.feature :=
    Json (Some [{| Flood.SCENARIO := Text "1% AEP";
                   Flood.MAX_FLOOD_FORMAT := Text " 3.2m AHD ";
                   Flood.MAX_FLOOR_FORMAT := Text "3.7m AHD";
                   Flood.FREEBOARD := Absent;
                   Flood.MAX_VEL_FORMAT := Absent;
                   Flood.SOURCE := Absent;
                   Flood.NOTES := Text "  ";
                   Flood.COMPLEX := Absent;
                   Flood.address_format := Absent;
                   Flood.lotplan := Text ref |}]) in
  exists f,
    Flood.get_flood_info mapping (Json None) (Json None) (Json None)
      (Some "12/RP3"%string) = Return f
    /\ Flood.has_flood_data f = true
    /\ fst (AiSummary.flood_step (Some (Flood.scored f)) (100, [])) = 100 - 15.
Proof.
  intros mapping. eexists. split; [vm_compute; reflexivity|].
  split; [reflexivity|].
  refine (proj2 (proj2 (proj2 (proj2 (proj2
            (flood_info_is_consistent mapping (Json None) (Json None)
               (Json None) (Some "12/RP3"%string) _ (100, []) _)))))).
  vm_compute. reflexivity.
Defined.

(** X20. The flood studies. [_process_qld_flood_studies] returns at most
    five studies, no two with the same name; each of them was made from a
    feature of one of the three layers that has a name, and carries that
    name trimmed. *)
Theorem flood_studies_are_distinct :
  forall l0 l1 l2 : list Flood.study_feature,
    let studies := Flood._process_qld_flood_studies l0 l1 l2 in
    (length studies <= 5)%nat
    /\ NoDup (map Flood.name studies)
    /\ (forall x, In x studies ->
          exists feat raw,
            In feat (l0 ++ l1 ++ l2)
            /\ Flood.study_name_of feat = Some raw
            /\ x = Flood.make_study (PyStr.strip raw) feat).
Proof.
  intros l0 l1 l2 studies. subst studies.
  unfold Flood._process_qld_flood_studies.
  destruct (gathered_all (l0 ++ l1 ++ l2)) as (J1 & _ & J3 & _).
  split; [apply firstn_le_length|]. split.
  - rewrite <- firstn_map.
    apply (sublist_NoDup _ _ J1), sublist_take.
  - intros x Hx.
    assert (Hin : In x (fst (fold_left Flood.study_step (l0 ++ l1 ++ l2)
                               ([], ∅)))).
    { apply list_elem_of_In. apply list_elem_of_In in Hx.
      apply (elem_of_sublist _ _ _ Hx), sublist_take. }
    destruct (J3 x Hin) as (feat & raw & Hf & Hr & _ & ->). eauto.
Qed.

Lemma flood_studies_are_distinct_witness :
  let feat (n : text) :=
    {| Flood.STUDY_NAME := Null; Flood.StudyName := n; Flood.NAME := Absent;
       Flood.name_ := Absent; Flood.TITLE := Text "Other";
       Flood.AUTHORITY := SStr " SCC "; Flood.Authority := SNull;
       Flood.DATE := SInt 1500000000000; Flood.Date := SNull;
       Flood.STATUS := SNull; Flood.Status := SNull;
       Flood.TYPE := SNull; Flood.Type_ := SNull |} in
  Flood._process_qld_flood_studies
    [feat (Text "Maroochy River "); feat (Text "")] [feat (Text " Other")] []
  = [Flood.make_study "Maroochy River" (feat (Text "Maroochy River "));
     Flood.make_study "Other" (feat (Text ""))]
  /\ NoDup (map Flood.name
              (Flood._process_qld_flood_studies
                 [feat (Text "Maroochy River "); feat (Text "")]
                 [feat (Text " Other")] [])).
Proof.
  intros feat. split; [vm_compute; reflexivity|].
  apply (flood_studies_are_distinct
           [feat (Text "Maroochy River "); feat (Text "")]
           [feat (Text " Other")] []).
Defined.

(** ** The network services *)

Section InfraFacts.
Import Infrastructure.
Context {G : Type}.
Variable float_of_str : string -> option float.
Variable int_of_str : string -> option Z.
Variable str_of_float : float -> string.

Lemma water_step_set (x : float) (m : scalar) (feat : feature G)
    (st : option float * scalar) :
  water_step float_of_str (Some x, m) feat = Return st -> st = (Some x, m).
Proof.
  unfold water_step. destruct (main_diameter float_of_str feat) as [[v|]|];
    cbn [py_bind fst is_none orb]; try discriminate.
  - destruct (0 <? v)%float; intros [= <-]; reflexivity.
  - intros [= <-]. reflexivity.
Qed.

Lemma water_loop_set (l : list (feature G)) (x : float) (m : scalar)
    (st : option float * scalar) :
  water_loop float_of_str l (Some x, m) = Return st -> st = (Some x, m).
Proof.
  induction l as [|feat l IH]; cbn [water_loop].
  - intros [= <-]. reflexivity.
  - destruct (water_step float_of_str (Some x, m) feat) as [st'|] eqn:E;
      cbn [py_bind]; [|discriminate].
    apply water_step_set in E. subst st'. exact IH.
Qed.

Lemma water_loop_none (l : list (feature G)) (m : scalar)
    (st : option float * scalar) :
  Forall (InfraSpec.unmeasured float_of_str) l ->
  water_loop float_of_str l (None, m) = Return st -> st = (None, m).
Proof.
  induction 1 as [|feat l Hf _ IH]; cbn [water_loop].
  - intros [= <-]. reflexivity.
  - unfold water_step. rewrite Hf. cbn [py_bind]. exact IH.
Qed.

Lemma water_loop_first (pre post : list (feature G)) (feat : feature G)
    (x : float) (m : scalar) (st : option float * scalar) :
  Forall (InfraSpec.unmeasured float_of_str) pre ->
  main_diameter float_of_str feat = Return (Some x) ->
  water_loop float_of_str (pre ++ feat :: post) (None, m) = Return st ->
  st = (Some x, Material feat).
Proof.
  intros Hpre Hx. induction Hpre as [|a pre Ha _ IH];
    cbn [app water_loop].
  - unfold water_step. rewrite Hx. cbn [py_bind fst is_none orb].
    apply water_loop_set.
  - unfold water_step at 1. rewrite Ha. cbn [py_bind]. exact IH.
Qed.

Lemma water_loop_returns (l : list (feature G)) (st : option float * scalar) :
  returns (water_loop float_of_str l st)
  <-> Forall (fun feat => returns (main_diameter float_of_str feat)) l.
Proof.
  revert st. induction l as [|feat l IH]; intros st; cbn [water_loop].
  - split; [constructor|]. intros _. eexists. reflexivity.
  - unfold water_step.
    destruct (main_diameter float_of_str feat) as [d|e] eqn:E;
      cbn [py_bind].
    + assert (Hst : exists st', match d with
                                | Some diam_val =>
                                    if is_none (fst st) || (0 <? diam_val)%float
                                    then if is_none (fst st)
                                         then Return (Some diam_val,
                                                      Material feat)
                                         else Return st
                                    else Return st
                                | None => Return st
                                end = Return st').
      { destruct d as [v|]; [|eauto].
        destruct (is_none (fst st)), (0 <? v)%float; cbn [orb]; eauto. }
      destruct Hst as [st' ->]. cbn [py_bind]. rewrite IH. split.
      * intros H. constructor; [exists d; exact E|exact H].
      * intros H. inversion H. assumption.
    + split.
      * intros [a Ha]. discriminate.
      * intros H. inversion H as [|? ? [a Ha] _]. congruence.
Qed.

Lemma process_water_shape (mains hydrants : list (feature G))
    (r : Water.t G) :
  _process_water float_of_str str_of_float mains hydrants = Return r ->
  exists found,
    water_loop float_of_str mains (None, SNull) = Return found
    /\ diameter_mm (fst found) = Return (Water.nearest_diameter_mm r)
    /\ Water.nearest_material r = snd found
    /\ Water.available r = (len mains >? 0)
    /\ Water.mains_count r = len mains.
Proof.
  unfold _process_water.
  destruct (water_loop float_of_str mains (None, SNull)) as [found|] eqn:E;
    cbn [py_bind]; [|discriminate].
  unfold diameter_text.
  destruct (diameter_mm (fst found)) as [mm|] eqn:Em; cbn [py_bind].
  - destruct (len mains >? 0) eqn:Ea; cbn [py_bind]; intros [= <-];
      exists found; cbn; rewrite ?Ea; auto.
  - destruct (len mains >? 0); cbn [py_bind]; discriminate.
Qed.

Lemma process_water_returns (mains hydrants : list (feature G))
    (found : option float * scalar) :
  water_loop float_of_str mains (None, SNull) = Return found ->
  returns (diameter_mm (fst found)) ->
  returns (_process_water float_of_str str_of_float mains hydrants).
Proof.
  intros E [mm Em]. unfold _process_water, diameter_text.
  rewrite E. cbn [py_bind]. rewrite Em. cbn [py_bind].
  destruct (len mains >? 0); cbn [py_bind]; eexists; reflexivity.
Qed.

Lemma sewer_step_set (type : string) (x : float) (t : option string)
    (feat : feature G) (st : option float * option string) :
  sewer_step float_of_str type (Some x, t) feat = Return st ->
  st = (Some x, t).
Proof.
  unfold sewer_step. destruct (main_diameter float_of_str feat) as [[v|]|];
    cbn [py_bind fst is_none]; try discriminate; intros [= <-]; reflexivity.
Qed.

Lemma sewer_loop_set (type : string) (l : list (feature G)) (x : float)
    (t : option string) (st : option float * option string) :
  sewer_loop float_of_str type l (Some x, t) = Return st -> st = (Some x, t).
Proof.
  induction l as [|feat l IH]; cbn [sewer_loop].
  - intros [= <-]. reflexivity.
  - destruct (sewer_step float_of_str type (Some x, t) feat) as [st'|] eqn:E;
      cbn [py_bind]; [|discriminate].
    apply sewer_step_set in E. subst st'. exact IH.
Qed.

Lemma sewer_loop_none (type : string) (l : list (feature G))
    (t : option string) (st : option float * option string) :
  Forall (InfraSpec.unmeasured float_of_str) l ->
  sewer_loop float_of_str type l (None, t) = Return st -> st = (None, t).
Proof.
  induction 1 as [|feat l Hf _ IH]; cbn [sewer_loop].
  - intros [= <-]. reflexivity.
  - unfold sewer_step. rewrite Hf. cbn [py_bind]. exact IH.
Qed.

Lemma sewer_loop_first (type : string) (pre post : list (feature G))
    (feat : feature G) (x : float) (t : option string)
    (st : option float * option string) :
  Forall (InfraSpec.unmeasured float_of_str) pre ->
  main_diameter float_of_str feat = Return (Some x) ->
  sewer_loop float_of_str type (pre ++ feat :: post) (None, t) = Return st ->
  st = (Some x, Some type).
Proof.
  intros Hpre Hx. induction Hpre as [|a pre Ha _ IH];
    cbn [app sewer_loop].
  - unfold sewer_step. rewrite Hx. cbn [py_bind fst is_none].
    apply sewer_loop_set.
  - unfold sewer_step at 1. rewrite Ha. cbn [py_bind]. exact IH.
Qed.

Lemma process_sewer_shape (gravity pressure : list (feature G))
    (r : Sewer.t G) :
  _process_sewer float_of_str gravity pressure = Return r ->
  exists st found,
    sewer_loop float_of_str "gravity" gravity (None, None) = Return st
    /\ sewer_loop float_of_str "pressure" pressure st = Return found
    /\ diameter_mm (fst found) = Return (Sewer.nearest_diameter_mm r)
    /\ Sewer.nearest_type r = snd found
    /\ Sewer.available r = (len gravity + len pressure >? 0)
    /\ Sewer.mains_count r = Sewer.gravity_count r + Sewer.pressure_count r
    /\ Sewer.gravity_count r = len gravity
    /\ Sewer.pressure_count r = len pressure.
Proof.
  unfold _process_sewer.
  destruct (sewer_loop float_of_str "gravity" gravity (None, None))
    as [st|] eqn:E1; cbn [py_bind]; [|discriminate].
  destruct (sewer_loop float_of_str "pressure" pressure st)
    as [found|] eqn:E2; cbn [py_bind]; [|discriminate].
  unfold diameter_text.
  destruct (diameter_mm (fst found)) as [mm|] eqn:Em; cbn [py_bind].
  - destruct (len gravity + len pressure >? 0) eqn:Ea; cbn [py_bind];
      intros [= <-]; exists st, found; cbn; rewrite ?Ea; auto 10.
  - destruct (len gravity + len pressure >? 0); cbn [py_bind]; discriminate.
Qed.

Lemma int_of_raises (v : scalar) :
  returns (int_of int_of_str v) <-> InfraSpec.infinite v = false.
Proof.
  destruct v as [|b|n|x|s]; cbn [int_of InfraSpec.infinite];
    try (split; [reflexivity|intros _; eexists; reflexivity]).
  unfold PyNum.int_of_float.
  destruct (Prim2SF x) as [sg|sg| |sg m e]; split; intros H;
    try reflexivity; try discriminate H; try (eexists; reflexivity).
  destruct H as [a Ha]. discriminate Ha.
Qed.

Lemma largest_step_returns (acc : option Z) (feat : feature G) :
  returns (largest_step int_of_str acc feat)
  <-> InfraSpec.infinite (PipeDiameter_mm feat) = false.
Proof.
  rewrite <- int_of_raises. unfold largest_step.
  destruct (PipeDiameter_mm feat) as [|b|n|x|s] eqn:E;
    try (split; intros _; eexists; reflexivity).
  destruct (int_of int_of_str (SFloat x)) as [c|e]; cbn [py_bind]; split;
    intros [a Ha]; try discriminate Ha; eexists; reflexivity.
Qed.

Lemma largest_loop_returns (l : list (feature G)) (acc : option Z) :
  returns (largest_loop int_of_str l acc)
  <-> Forall (fun feat => InfraSpec.infinite (PipeDiameter_mm feat) = false) l.
Proof.
  revert acc. induction l as [|feat l IH]; intros acc; cbn [largest_loop].
  - split; [constructor|]. intros _. eexists. reflexivity.
  - destruct (largest_step int_of_str acc feat) as [acc'|e] eqn:E;
      cbn [py_bind].
    + rewrite IH. split.
      * intros H. constructor; [|exact H].
        apply (largest_step_returns acc). eexists. exact E.
      * intros H. inversion H. assumption.
    + split.
      * intros [a Ha]. discriminate.
      * intros H. inversion H as [|? ? H1 _].
        apply (largest_step_returns acc) in H1 as [a Ha]. congruence.
Qed.

Lemma largest_update_spec (acc : option Z) (c : option Z) (r : option Z) :
  match c with
  | Some diam_val =>
      if (diam_val >? 0)
         && match acc with
            | None => true
            | Some largest => diam_val >? largest
            end
      then Some diam_val
      else acc
  | None => acc
  end = r ->
  (forall d, r = Some d -> acc = Some d \/ (0 < d /\ c = Some d))
  /\ (forall a, acc = Some a -> exists d, r = Some d /\ a <= d)
  /\ (forall v, c = Some v -> 0 < v -> exists d, r = Some d /\ v <= d).
Proof.
  intros <-. destruct c as [v|].
  - destruct (Z.gtb_spec v 0) as [Hpos|Hpos]; cbn [andb].
    + destruct acc as [a|].
      * destruct (Z.gtb_spec v a) as [Hgt|Hgt]; repeat split.
        -- intros d [= <-]. right. split; [lia|reflexivity].
        -- intros a' [= <-]. exists v. split; [reflexivity|lia].
        -- intros v' [= <-] _. exists v. split; [reflexivity|lia].
        -- intros d Hd. left. exact Hd.
        -- intros a' [= <-]. exists a. split; [reflexivity|lia].
        -- intros v' [= <-] _. exists a. split; [reflexivity|lia].
      * repeat split.
        -- intros d [= <-]. right. split; [lia|reflexivity].
        -- intros a' [=].
        -- intros v' [= <-] _. exists v. split; [reflexivity|lia].
    + repeat split.
      * intros d Hd. left. exact Hd.
      * intros a ->. exists a. split; [reflexivity|lia].
      * intros v' [= <-] Hv. lia.
  - repeat split.
    + intros d Hd. left. exact Hd.
    + intros a ->. exists a. split; [reflexivity|lia].
    + intros v [=].
Qed.

Lemma largest_step_spec (acc : option Z) (feat : feature G) (r : option Z) :
  largest_step int_of_str acc feat = Return r ->
  (forall d, r = Some d ->
     acc = Some d
     \/ (0 < d /\ int_of int_of_str (PipeDiameter_mm feat) = Return (Some d)))
  /\ (forall a, acc = Some a -> exists d, r = Some d /\ a <= d)
  /\ (forall v, int_of int_of_str (PipeDiameter_mm feat) = Return (Some v) ->
        0 < v -> exists d, r = Some d /\ v <= d).
Proof.
  intros H.
  assert (Hc : exists c, int_of int_of_str (PipeDiameter_mm feat) = Return c
                         /\ match c with
                            | Some diam_val =>
                                if (diam_val >? 0)
                                   && match acc with
                                      | None => true
                                      | Some largest => diam_val >? largest
                                      end
                                then Some diam_val
                                else acc
                            | None => acc
                            end = r).
  { unfold largest_step in H.
    destruct (PipeDiameter_mm feat) as [|b|n|x|s].
    - exists None. split; [reflexivity|]. injection H as <-. reflexivity.
    - destruct (int_of int_of_str (SBool b)) as [c|e]; cbn [py_bind] in H;
        [|discriminate]. exists c. split; [reflexivity|congruence].
    - destruct (int_of int_of_str (SInt n)) as [c|e]; cbn [py_bind] in H;
        [|discriminate]. exists c. split; [reflexivity|congruence].
    - destruct (int_of int_of_str (SFloat x)) as [c|e]; cbn [py_bind] in H;
        [|discriminate]. exists c. split; [reflexivity|congruence].
    - destruct (int_of int_of_str (SStr s)) as [c|e]; cbn [py_bind] in H;
        [|discriminate]. exists c. split; [reflexivity|congruence]. }
  destruct Hc as (c & Hi & Hu). rewrite Hi.
  destruct (largest_update_spec acc c r Hu) as (U1 & U2 & U3).
  repeat split.
  - intros d Hd. destruct (U1 d Hd) as [Ha|(Hpos & ->)]; [left; exact Ha|].
    right. split; [exact Hpos|reflexivity].
  - exact U2.
  - intros v [= Hv]. apply U3. exact Hv.
Qed.

Lemma largest_loop_spec (l : list (feature G)) (acc r : option Z) :
  largest_loop int_of_str l acc = Return r ->
  InfraSpec.largest_of int_of_str acc l r.
Proof.
  revert acc. induction l as [|feat l IH]; intros acc; cbn [largest_loop].
  - intros [= <-]. repeat split.
    + intros d ->. left. reflexivity.
    + intros a ->. exists a. split; [reflexivity|lia].
    + intros feat v [].
  - destruct (largest_step int_of_str acc feat) as [acc'|e] eqn:E;
      cbn [py_bind]; [|discriminate].
    intros Hr. destruct (IH _ Hr) as (I1 & I2 & I3).
    destruct (largest_step_spec _ _ _ E) as (S1 & S2 & S3).
    repeat split.
    + intros d Hd. destruct (I1 d Hd) as [Ha|(Hpos & f & Hf & Hi)].
      * destruct (S1 d Ha) as [Hacc|(Hpos & Hi)]; [left; exact Hacc|].
        right. split; [exact Hpos|]. exists feat. split; [left; reflexivity|].
        exact Hi.
      * right. split; [exact Hpos|]. exists f. split; [right; exact Hf|].
        exact Hi.
    + intros a Ha. destruct (S2 a Ha) as (d & Hd & Hle).
      destruct (I2 d Hd) as (d' & Hd' & Hle'). exists d'. split; [exact Hd'|].
      lia.
    + intros f v [<-|Hf] Hi Hpos.
      * destruct (S3 v Hi Hpos) as (d & Hd & Hle).
        destruct (I2 d Hd) as (d' & Hd' & Hle'). exists d'.
        split; [exact Hd'|]. lia.
      * apply (I3 f v Hf Hi Hpos).
Qed.

Lemma process_stormwater_shape
    (waterways pipes pits culverts : list (feature G))
    (r : Stormwater.t G) :
  _process_stormwater int_of_str str_of_float waterways pipes pits culverts
  = Return r ->
  largest_loop int_of_str (pipes ++ culverts) None
  = Return (Stormwater.largest_diameter_mm r)
  /\ Stormwater.available r = (len pipes + len culverts >? 0)
  /\ Stormwater.pipe_count r = len pipes
  /\ Stormwater.culvert_count r = len culverts
  /\ Stormwater.pit_count r = len pits
  /\ Stormwater.nearby_waterways r = len waterways
  /\ Stormwater.drainage_info r = drainage waterways.
Proof.
  unfold _process_stormwater.
  destruct (largest_loop int_of_str (pipes ++ culverts) None) as [d|] eqn:E;
    cbn [py_bind]; [|discriminate].
  intros [= <-]. cbn. auto 10.
Qed.

Lemma len_positive {A : Type} (l : list A) : (len l >? 0) = true <-> l <> [].
Proof.
  unfold len. destruct l; cbn [length]; split; try congruence; try discriminate.
  intros _. apply Z.gtb_lt. lia.
Qed.

Lemma len_sum_positive {A : Type} (l l' : list A) :
  (len l + len l' >? 0) = true <-> l <> [] \/ l' <> [].
Proof.
  unfold len. rewrite Z.gtb_ltb, Z.ltb_lt.
  destruct l, l'; cbn [length]; split; intros H; try lia;
    try (left; discriminate); try (right; discriminate).
  destruct H as [H|H]; congruence.
Qed.

End InfraFacts.

Section InfraLoopFacts.
Import Infrastructure.
Context {G : Type}.
Variable float_of_str : string -> option float.

Lemma water_loop_cases (l : list (feature G)) (m : scalar)
    (st : option float * scalar) :
  water_loop float_of_str l (None, m) = Return st ->
  Forall (InfraSpec.unmeasured float_of_str) l
  \/ exists pre feat post x,
       l = pre ++ feat :: post
       /\ Forall (InfraSpec.unmeasured float_of_str) pre
       /\ main_diameter float_of_str feat = Return (Some x).
Proof.
  revert st. induction l as [|feat l IH]; intros st; cbn [water_loop].
  - intros _. left. constructor.
  - unfold water_step.
    destruct (main_diameter float_of_str feat) as [[x|]|e] eqn:E;
      cbn [py_bind]; [| |discriminate].
    + intros _. right. exists [], feat, l, x. repeat split; [constructor|exact E].
    + intros H. destruct (IH _ H) as [Hall|(pre & f & post & x & -> & Hp & Hx)].
      * left. constructor; [exact E|exact Hall].
      * right. exists (feat :: pre), f, post, x.
        repeat split; [constructor; [exact E|exact Hp]|exact Hx].
Qed.

Lemma diameter_mm_some (x : float) (d : Z) :
  diameter_mm (Some x) = Return (Some d) ->
  PyNum.truthy x = true /\ PyNum.int_of_float x = Return d.
Proof.
  unfold diameter_mm. destruct (PyNum.truthy x); [|discriminate].
  destruct (PyNum.int_of_float x) as [n|e]; cbn [py_bind]; [|discriminate].
  intros [= ->]. split; reflexivity.
Qed.

End InfraLoopFacts.

(** X21. The network services and the scorer. For the result of
    [get_infrastructure], water is available exactly when the water main
    layer answered with a feature, sewer exactly when one of the two sewer
    layers did, and stormwater exactly when the pipe layer or the culvert
    layer did. The scorer takes eight points when water is not available
    and eight when sewer is not; hydrants, waterways and stormwater do not
    count. When all eight queries fail the result is returned all the same,
    and the scorer takes the sixteen points of a site without water and
    sewer. *)
Theorem infrastructure_and_score_agree :
  (forall (G : Type) (float_of_str : string -> option float)
          (int_of_str : string -> option Z) (str_of_float : float -> string)
          (water_mains hydrants sewer_gravity sewer_pressure waterways
             sw_pipes sw_pits sw_culverts
           : response (Infrastructure.feature G))
          (i : Infrastructure.t G) (st : Z * list string),
      Infrastructure.get_infrastructure float_of_str int_of_str str_of_float
        water_mains hydrants sewer_gravity sewer_pressure waterways sw_pipes
        sw_pits sw_culverts = Return i ->
      (Infrastructure.Water.available (Infrastructure.water i) = true
       <-> SccLookup.answered water_mains <> [])
      /\ (Infrastructure.Sewer.available (Infrastructure.sewer i) = true
          <-> SccLookup.answered sewer_gravity <> []
              \/ SccLookup.answered sewer_pressure <> [])
      /\ (Infrastructure.Stormwater.available (Infrastructure.stormwater i)
          = true
          <-> SccLookup.answered sw_pipes <> []
              \/ SccLookup.answered sw_culverts <> [])
      /\ fst (AiSummary.infrastructure_step
                (Some (Infrastructure.scored i)) st)
         = fst st
           - (if Infrastructure.Water.available (Infrastructure.water i)
              then 0 else 8)
           - (if Infrastructure.Sewer.available (Infrastructure.sewer i)
              then 0 else 8))
  /\ (forall (G : Type) (float_of_str : string -> option float)
             (int_of_str : string -> option Z)
             (str_of_float : float -> string) (e : failure),
         exists i : Infrastructure.t G,
           Infrastructure.get_infrastructure float_of_str int_of_str
             str_of_float (Failed e) (Failed e) (Failed e) (Failed e)
             (Failed e) (Failed e) (Failed e) (Failed e) = Return i
           /\ forall st,
               fst (AiSummary.infrastructure_step
                      (Some (Infrastructure.scored i)) st)
               = fst st - 16).
Proof.
  split.
  - intros G fs ios sf wm hy sg sp ww pi pt cu i st.
    unfold Infrastructure.get_infrastructure.
    destruct (Infrastructure._process_water _ _ _ _) as [w|] eqn:Ew;
      cbn [py_bind]; [|discriminate].
    destruct (Infrastructure._process_sewer _ _ _) as [s|] eqn:Es;
      cbn [py_bind]; [|discriminate].
    destruct (Infrastructure._process_stormwater _ _ _ _ _ _) as [d|] eqn:Ed;
      cbn [py_bind]; [|discriminate].
    intros [= <-].
    cbn [Infrastructure.water Infrastructure.sewer Infrastructure.stormwater].
    destruct (process_water_shape _ _ _ _ _ Ew) as (_ & _ & _ & _ & Hw & _).
    destruct (process_sewer_shape _ _ _ _ Es)
      as (_ & _ & _ & _ & _ & _ & Hs & _).
    destruct (process_stormwater_shape _ _ _ _ _ _ _ Ed) as (_ & Hd & _).
    rewrite Hw, Hs, Hd, len_positive, !len_sum_positive.
    split; [reflexivity|]. split; [reflexivity|]. split; [reflexivity|].
    rewrite infrastructure_step_fst.
    unfold ScoreSpec.flag, ScoreSpec.water_missing, ScoreSpec.sewer_missing.
    cbn. rewrite Hw, Hs.
    destruct (_ >? 0), (_ >? 0); cbn; lia.
  - intros G fs ios sf e. eexists. split; [reflexivity|].
    intros st. rewrite infrastructure_step_fst.
    change (fst st - 8 - 8 = fst st - 16). lia.
Qed.

Lemma infrastructure_and_score_agree_witness :
  let main : Infrastructure.feature unit :=
    {| Infrastructure.NominalDiameter := SInt 150;
       Infrastructure.Diameter := SNull;
       Infrastructure.Material := SStr "PVC";
       Infrastructure.Name := SNull; Infrastructure.GNAME := SNull;
       Infrastructure.name_ := SNull;
       Infrastructure.PipeDiameter_mm := SNull;
       Infrastructure.InletType := SNull;
       Infrastructure.geometry := Some tt |} in
  exists i : Infrastructure.t unit,
    Infrastructure.get_infrastructure (fun _ => None) (fun _ => None)
      (fun _ => EmptyString) (Json (Some [main])) (Json None)
      (Failed TimeoutException) (Json (Some [])) (Json None) (Json None)
      (Json None) (Json None) = Return i
    /\ Infrastructure.Water.nearest_diameter_mm (Infrastructure.water i)
       = Some 150
    /\ fst (AiSummary.infrastructure_step
              (Some (Infrastructure.scored i)) (100, []))
       = 100 - 0 - 8.
Proof.
  intros main. eexists. split; [vm_compute; reflexivity|].
  split; [reflexivity|].
  refine (proj2 (proj2 (proj2
            (proj1 infrastructure_and_score_agree unit (fun _ => None)
               (fun _ => None) (fun _ => EmptyString) (Json (Some [main]))
               (Json None) (Failed TimeoutException) (Json (Some []))
               (Json None) (Json None) (Json None) (Json None) _
               (100, []) _)))).
  vm_compute. reflexivity.
Defined.

(** X22. The largest stormwater diameter. [_process_stormwater] returns
    unless the diameter of a pipe or of a culvert is an infinite float, in
    which case it raises. When it returns, [largest_diameter_mm], if there
    is one, is positive and is the diameter of a pipe or of a culvert, and
    no pipe or culvert has a larger diameter; there is none only when no
    pipe or culvert has a positive diameter. *)
Theorem stormwater_largest_diameter :
  forall (G : Type) (int_of_str : string -> option Z)
         (str_of_float : float -> string)
         (waterways sw_pipes sw_pits sw_culverts
          : list (Infrastructure.feature G)),
    (returns (Infrastructure._process_stormwater int_of_str str_of_float
                waterways sw_pipes sw_pits sw_culverts)
     <-> Forall (fun feat =>
                   InfraSpec.infinite (Infrastructure.PipeDiameter_mm feat)
                   = false) (sw_pipes ++ sw_culverts))
    /\ (forall r : Infrastructure.Stormwater.t G,
          Infrastructure._process_stormwater int_of_str str_of_float
            waterways sw_pipes sw_pits sw_culverts = Return r ->
          (forall d,
              Infrastructure.Stormwater.largest_diameter_mm r = Some d ->
              0 < d
              /\ exists feat,
                  In feat (sw_pipes ++ sw_culverts)
                  /\ Infrastructure.int_of int_of_str
                       (Infrastructure.PipeDiameter_mm feat)
                     = Return (Some d))
          /\ (forall feat v,
                 In feat (sw_pipes ++ sw_culverts) ->
                 Infrastructure.int_of int_of_str
                   (Infrastructure.PipeDiameter_mm feat) = Return (Some v) ->
                 0 < v ->
                 exists d,
                   Infrastructure.Stormwater.largest_diameter_mm r = Some d
                   /\ v <= d)).
Proof.
  intros G ios sf ww pi pt cu. split.
  - rewrite <- (largest_loop_returns ios (pi ++ cu) None).
    unfold Infrastructure._process_stormwater.
    destruct (Infrastructure.largest_loop ios (pi ++ cu) None) as [d|e];
      cbn [py_bind]; split; intros [a Ha]; try discriminate Ha;
      eexists; reflexivity.
  - intros r Hr.
    destruct (process_stormwater_shape _ _ _ _ _ _ _ Hr) as (Hl & _).
    destruct (largest_loop_spec _ _ _ _ Hl) as (L1 & _ & L3). split.
    + intros d Hd. destruct (L1 d Hd) as [[=]|H]. exact H.
    + exact L3.
Qed.

Lemma stormwater_largest_diameter_witness :
  let pipe (d : scalar) : Infrastructure.feature unit :=
    {| Infrastructure.NominalDiameter := SNull;
       Infrastructure.Diameter := SNull;
       Infrastructure.Material := SStr "RCP";
       Infrastructure.Name := SNull; Infrastructure.GNAME := SNull;
       Infrastructure.name_ := SNull;
       Infrastructure.PipeDiameter_mm := d;
       Infrastructure.InletType := SNull;
       Infrastructure.geometry := None |} in
  exists r : Infrastructure.Stormwater.t unit,
    Infrastructure._process_stormwater (fun _ => None) (fun _ => EmptyString)
      [] [pipe (SInt 300); pipe (SFloat 450.5); pipe (SInt (-900))]
      [] [pipe (SInt 375)] = Return r
    /\ Infrastructure.Stormwater.largest_diameter_mm r = Some 450
    /\ exists d,
        Infrastructure.Stormwater.largest_diameter_mm r = Some d /\ 375 <= d.
Proof.
  intros pipe. eexists. split; [vm_compute; reflexivity|].
  split; [reflexivity|].
  refine (proj2 (proj2 (stormwater_largest_diameter unit (fun _ => None)
                          (fun _ => EmptyString) []
                          [pipe (SInt 300); pipe (SFloat 450.5);
                           pipe (SInt (-900))] [] [pipe (SInt 375)]) _ _)
            (pipe (SInt 375)) 375 _ _ _).
  - vm_compute. reflexivity.
  - right. right. right. left. reflexivity.
  - reflexivity.
  - reflexivity.
Defined.

(** X23. The water main that is reported. When [_process_water] returns,
    the diameter and the material it reports are those of the first main
    whose diameter can be read, whatever the diameters of the mains after
    it: the material is the material of that main, and the diameter is its
    diameter cut to a whole number, or none when that diameter is zero.
    When no main has a diameter that can be read, neither is reported. A
    diameter that is reported comes from a main of the list. *)
Theorem water_diameter_of_first_main :
  forall (G : Type) (float_of_str : string -> option float)
         (str_of_float : float -> string)
         (water_mains hydrants : list (Infrastructure.feature G))
         (r : Infrastructure.Water.t G),
    Infrastructure._process_water float_of_str str_of_float water_mains
      hydrants = Return r ->
    (forall pre feat post x,
        water_mains = pre ++ feat :: post ->
        Forall (InfraSpec.unmeasured float_of_str) pre ->
        Infrastructure.main_diameter float_of_str feat = Return (Some x) ->
        Infrastructure.Water.nearest_material r
        = Infrastructure.Material feat
        /\ Infrastructure.diameter_mm (Some x)
           = Return (Infrastructure.Water.nearest_diameter_mm r))
    /\ (Forall (InfraSpec.unmeasured float_of_str) water_mains ->
        Infrastructure.Water.nearest_material r = SNull
        /\ Infrastructure.Water.nearest_diameter_mm r = None)
    /\ (forall d,
           Infrastructure.Water.nearest_diameter_mm r = Some d ->
           exists feat x,
             In feat water_mains
             /\ Infrastructure.main_diameter float_of_str feat
                = Return (Some x)
             /\ PyNum.truthy x = true
             /\ PyNum.int_of_float x = Return d
             /\ Infrastructure.Water.nearest_material r
                = Infrastructure.Material feat).
Proof.
  intros G fs sf mains hydrants r Hr.
  destruct (process_water_shape _ _ _ _ _ Hr)
    as (found & Hloop & Hmm & Hmat & _).
  assert (Hfirst : forall pre feat post x,
             mains = pre ++ feat :: post ->
             Forall (InfraSpec.unmeasured fs) pre ->
             Infrastructure.main_diameter fs feat = Return (Some x) ->
             Infrastructure.Water.nearest_material r
             = Infrastructure.Material feat
             /\ Infrastructure.diameter_mm (Some x)
                = Return (Infrastructure.Water.nearest_diameter_mm r)).
  { intros pre feat post x -> Hpre Hx.
    rewrite (water_loop_first fs _ _ _ _ _ _ Hpre Hx Hloop) in Hmm, Hmat.
    split; [exact Hmat|exact Hmm]. }
  assert (Hnone : Forall (InfraSpec.unmeasured fs) mains ->
                  Infrastructure.Water.nearest_material r = SNull
                  /\ Infrastructure.Water.nearest_diameter_mm r = None).
  { intros Hall. rewrite (water_loop_none fs _ _ _ Hall Hloop) in Hmm, Hmat.
    split; [exact Hmat|]. injection Hmm as <-. reflexivity. }
  split; [exact Hfirst|]. split; [exact Hnone|].
  intros d Hd.
  destruct (water_loop_cases fs _ _ _ Hloop)
    as [Hall|(pre & feat & post & x & Hl & Hpre & Hx)].
  - destruct (Hnone Hall) as (_ & Hn). congruence.
  - destruct (Hfirst pre feat post x Hl Hpre Hx) as (Hm & Hdm).
    rewrite Hd in Hdm. apply diameter_mm_some in Hdm as (Ht & Hi).
    exists feat, x. split; [rewrite Hl; apply in_elt|]. auto.
Qed.

Lemma water_diameter_of_first_main_witness :
  let main (d : scalar) (m : string) : Infrastructure.feature unit :=
    {| Infrastructure.NominalDiameter := SNull;
       Infrastructure.Diameter := d;
       Infrastructure.Material := SStr m;
       Infrastructure.Name := SNull; Infrastructure.GNAME := SNull;
       Infrastructure.name_ := SNull;
       Infrastructure.PipeDiameter_mm := SNull;
       Infrastructure.InletType := SNull;
       Infrastructure.geometry := None |} in
  exists r : Infrastructure.Water.t unit,
    Infrastructure._process_water (fun _ => None) (fun _ => EmptyString)
      [main SNull "AC"; main (SFloat 0.5) "PVC"; main (SInt 150) "DICL"] []
    = Return r
    /\ Infrastructure.Water.nearest_material r = SStr "PVC"
    /\ Infrastructure.Water.nearest_diameter_mm r = Some 0.
Proof.
  intros main. eexists. split; [vm_compute; reflexivity|].
  split; [|reflexivity].
  refine (proj1 (proj1 (water_diameter_of_first_main unit (fun _ => None)
                          (fun _ => EmptyString)
                          [main SNull "AC"; main (SFloat 0.5) "PVC";
                           main (SInt 150) "DICL"] [] _ _)
                   [main SNull "AC"] (main (SFloat 0.5) "PVC")
                   [main (SInt 150) "DICL"] 0.5%float _ _ _)).
  - vm_compute. reflexivity.
  - reflexivity.
  - constructor; [reflexivity|constructor].
  - reflexivity.
Defined.

(** X24. The sewer main that is reported. When [_process_sewer] returns,
    the diameter it reports is that of the first gravity main whose
    diameter can be read, and the type is then "gravity"; a pressure main
    is reported only when no gravity main has a diameter that can be read,
    the first such pressure main, with the type "pressure"; when no main of
    either list has one, there is neither a diameter nor a type. The number
    of mains is the number of gravity mains plus that of pressure mains. *)
Theorem sewer_diameter_prefers_gravity :
  forall (G : Type) (float_of_str : string -> option float)
         (sewer_gravity sewer_pressure : list (Infrastructure.feature G))
         (r : Infrastructure.Sewer.t G),
    Infrastructure._process_sewer float_of_str sewer_gravity sewer_pressure
    = Return r ->
    (forall pre feat post x,
        sewer_gravity = pre ++ feat :: post ->
        Forall (InfraSpec.unmeasured float_of_str) pre ->
        Infrastructure.main_diameter float_of_str feat = Return (Some x) ->
        Infrastructure.Sewer.nearest_type r = Some "gravity"%string
        /\ Infrastructure.diameter_mm (Some x)
           = Return (Infrastructure.Sewer.nearest_diameter_mm r))
    /\ (forall pre feat post x,
           Forall (InfraSpec.unmeasured float_of_str) sewer_gravity ->
           sewer_pressure = pre ++ feat :: post ->
           Forall (InfraSpec.unmeasured float_of_str) pre ->
           Infrastructure.main_diameter float_of_str feat = Return (Some x) ->
           Infrastructure.Sewer.nearest_type r = Some "pressure"%string
           /\ Infrastructure.diameter_mm (Some x)
              = Return (Infrastructure.Sewer.nearest_diameter_mm r))
    /\ (Forall (InfraSpec.unmeasured float_of_str) sewer_gravity ->
        Forall (InfraSpec.unmeasured float_of_str) sewer_pressure ->
        Infrastructure.Sewer.nearest_type r = None
        /\ Infrastructure.Sewer.nearest_diameter_mm r = None)
    /\ Infrastructure.Sewer.mains_count r
       = Z.of_nat (length sewer_gravity) + Z.of_nat (length sewer_pressure).
Proof.
  intros G fs gravity pressure r Hr.
  destruct (process_sewer_shape _ _ _ _ Hr)
    as (st & found & Hg & Hp & Hmm & Hty & _ & Hn & Hng & Hnp).
  split; [|split; [|split]].
  - intros pre feat post x -> Hpre Hx.
    rewrite (sewer_loop_first fs _ _ _ _ _ _ _ Hpre Hx Hg) in Hp.
    rewrite (sewer_loop_set fs _ _ _ _ _ Hp) in Hmm, Hty.
    split; [exact Hty|exact Hmm].
  - intros pre feat post x Hall -> Hpre Hx.
    rewrite (sewer_loop_none fs _ _ _ _ Hall Hg) in Hp.
    rewrite (sewer_loop_first fs _ _ _ _ _ _ _ Hpre Hx Hp) in Hmm, Hty.
    split; [exact Hty|exact Hmm].
  - intros Hall Hall'.
    rewrite (sewer_loop_none fs _ _ _ _ Hall Hg) in Hp.
    rewrite (sewer_loop_none fs _ _ _ _ Hall' Hp) in Hmm, Hty.
    split; [exact Hty|]. injection Hmm as <-. reflexivity.
  - rewrite Hn, Hng, Hnp. reflexivity.
Qed.

Lemma sewer_diameter_prefers_gravity_witness :
  let main (d : scalar) : Infrastructure.feature unit :=
    {| Infrastructure.NominalDiameter := d;
       Infrastructure.Diameter := SNull;
       Infrastructure.Material := SNull;
       Infrastructure.Name := SNull; Infrastructure.GNAME := SNull;
       Infrastructure.name_ := SNull;
       Infrastructure.PipeDiameter_mm := SNull;
       Infrastructure.InletType := SNull;
       Infrastructure.geometry := None |} in
  exists r : Infrastructure.Sewer.t unit,
    Infrastructure._process_sewer (fun _ => None)
      [main SNull; main (SStr "n/a")] [main (SInt 100); main (SInt 225)]
    = Return r
    /\ Infrastructure.Sewer.nearest_type r = Some "pressure"%string
    /\ Infrastructure.Sewer.nearest_diameter_mm r = Some 100.
Proof.
  intros main. eexists. split; [vm_compute; reflexivity|].
  split; [|reflexivity].
  refine (proj1 (proj1 (proj2 (sewer_diameter_prefers_gravity unit
                                 (fun _ => None)
                                 [main SNull; main (SStr "n/a")]
                                 [main (SInt 100); main (SInt 225)] _ _))
                   [] (main (SInt 100)) [main (SInt 225)] 100%float
                   _ _ _ _)).
  - vm_compute. reflexivity.
  - constructor; [reflexivity|constructor; [reflexivity|constructor]].
  - reflexivity.
  - constructor.
  - reflexivity.
Defined.

(** ** Strengths, risks and the score *)

Section FindingFacts.
Import AiSummary.

Ltac chain_case k cat :=
  destruct (PyStr.contains k cat); cbn [orb]; try discriminate;
  try (intros _; left; reflexivity); try (intros _; right; reflexivity);
  try reflexivity.

Lemma overlay_risk_none (g : Overlay.group) :
  Findings.overlay_risk g = None ->
  overlay_deduction g = None
  \/ overlay_deduction g = Some (5, "Scenic amenity (-5)"%string).
Proof.
  unfold Findings.overlay_risk, overlay_deduction.
  set (cat := PyStr.lower (default EmptyString (Overlay.category g))).
  clearbody cat.
  chain_case "bushfire" cat. chain_case "flood" cat.
  chain_case "heritage" cat. chain_case "character" cat.
  chain_case "landslide" cat. chain_case "steep" cat. chain_case "slope" cat.
  chain_case "biodiversity" cat. chain_case "waterway" cat.
  chain_case "wetland" cat. chain_case "coastal" cat. chain_case "acid" cat.
  chain_case "scenic" cat.
Qed.

Lemma overlay_deduction_none (g : Overlay.group) :
  overlay_deduction g = None -> Findings.overlay_risk g = None.
Proof.
  unfold Findings.overlay_risk, overlay_deduction.
  set (cat := PyStr.lower (default EmptyString (Overlay.category g))).
  clearbody cat.
  chain_case "bushfire" cat. chain_case "flood" cat.
  chain_case "heritage" cat. chain_case "character" cat.
  chain_case "landslide" cat. chain_case "steep" cat. chain_case "slope" cat.
  chain_case "biodiversity" cat. chain_case "waterway" cat.
  chain_case "wetland" cat. chain_case "coastal" cat. chain_case "acid" cat.
Qed.

Lemma omap_nil {A B : Type} (f : A -> option B) (l : list A) :
  omap f l = [] <-> Forall (fun x => f x = None) l.
Proof.
  induction l as [|a l IH]; unfold omap; cbn [list_omap];
    [split; [constructor|reflexivity]|].
  fold (omap f l). destruct (f a) eqn:E; split.
  - discriminate.
  - intros H. inversion H. congruence.
  - intros H. constructor; [exact E|]. apply IH. exact H.
  - intros H. inversion H. apply IH. assumption.
Qed.

Lemma deduct_snd (st : Z * list string) (amount : Z) (reason : string) :
  snd (deduct st amount reason) <> [].
Proof. unfold deduct. cbn [snd]. destruct (snd st); discriminate. Qed.

Lemma overlay_fold_quiet (l : list Overlay.group) (st : Z * list string) :
  Forall (fun g => overlay_deduction g = None) l ->
  fold_left overlay_step l st = st.
Proof.
  intros H. revert st. induction H as [|g l Hg _ IH]; intros st;
    [reflexivity|].
  cbn [fold_left]. unfold overlay_step at 2. rewrite Hg. apply IH.
Qed.

Lemma overlay_fold_no_reason (l : list Overlay.group) (st : Z * list string) :
  snd (fold_left overlay_step l st) = [] ->
  snd st = [] /\ Forall (fun g => overlay_deduction g = None) l.
Proof.
  revert st. induction l as [|g l IH]; intros st; cbn [fold_left].
  - intros H. split; [exact H|constructor].
  - intros H. destruct (IH _ H) as (Hs & Hl). unfold overlay_step in Hs.
    destruct (overlay_deduction g) as [[amount reason]|] eqn:E.
    + destruct (deduct_snd _ _ _ Hs).
    + split; [exact Hs|]. constructor; [exact E|exact Hl].
Qed.

Lemma overlay_fold_scenic (P : string -> Prop) (l : list Overlay.group)
    (st : Z * list string) :
  P "Scenic amenity (-5)"%string ->
  Forall (fun g => Findings.overlay_risk g = None) l ->
  Forall P (snd st) ->
  Forall P (snd (fold_left overlay_step l st))
  /\ fst st - 5 * Z.of_nat (length l) <= fst (fold_left overlay_step l st)
     <= fst st.
Proof.
  intros HP H. revert st. induction H as [|g l Hg _ IH]; intros st Hst.
  - cbn [fold_left length]. split; [exact Hst|lia].
  - cbn [fold_left length]. unfold overlay_step at 2 4 6.
    destruct (overlay_risk_none g Hg) as [-> | ->].
    + destruct (IH st Hst) as (I1 & I2). split; [exact I1|].
      rewrite Nat2Z.inj_succ. lia.
    + destruct (IH (deduct st 5 "Scenic amenity (-5)")) as (I1 & I2).
      { unfold deduct. cbn [snd]. apply Forall_app. split; [exact Hst|].
        constructor; [exact HP|constructor]. }
      split; [exact I1|]. unfold deduct in I2 |- *. cbn [fst] in I2.
      rewrite Nat2Z.inj_succ. lia.
Qed.

Lemma sum_zero (l : list Z) (acc : Z) :
  Forall (fun n => 0 <= n) l -> 0 <= acc ->
  fold_left Z.add l acc = 0 -> acc = 0 /\ Forall (fun n => n = 0) l.
Proof.
  intros H. revert acc. induction H as [|n l Hn _ IH]; intros acc Hacc;
    cbn [fold_left].
  - intros ->. split; [reflexivity|constructor].
  - intros Hs. destruct (IH (acc + n) ltac:(lia) Hs) as (Ha & Hl).
    split; [lia|]. constructor; [lia|exact Hl].
Qed.

Lemma no_significant_overlays (overlays : list Overlay.group) :
  Forall (fun g => Overlay.layers g <> []) overlays ->
  Findings.overlay_count overlays = 0 ->
  Forall (fun g => overlay_deduction g = None) overlays.
Proof.
  unfold Findings.overlay_count. intros Hne Hc.
  apply sum_zero in Hc as (_ & Hz); [|apply List.Forall_forall; intros n Hn;
    apply in_map_iff in Hn as (g & <- & _); lia|lia].
  apply List.Forall_forall. intros g Hg.
  rewrite List.Forall_forall in Hne, Hz. specialize (Hne g Hg).
  destruct (String.eqb
              (PyStr.lower (default EmptyString (Overlay.category g)))
              "height of buildings and structures") eqn:E.
  - apply String.eqb_eq in E. unfold overlay_deduction. rewrite E.
    reflexivity.
  - exfalso. assert (Hin : In (Z.of_nat (length (Overlay.layers g)))
                             (map (fun g => Z.of_nat (length (Overlay.layers g)))
                                (List.filter
                                   (fun g =>
                                      negb (String.eqb
                                              (PyStr.lower
                                                 (default EmptyString
                                                    (Overlay.category g)))
                                              "height of buildings and structures"))
                                   overlays))).
    { apply in_map_iff. exists g. split; [reflexivity|].
      apply filter_In. split; [exact Hg|]. rewrite E. reflexivity. }
    specialize (Hz _ Hin). destruct (Overlay.layers g); [congruence|].
    discriminate.
Qed.

End FindingFacts.

Section FindingStepFacts.
Import AiSummary.
Context {G H : Type}.

Lemma flood_quiet (flood : option Flood.Info) (st : Z * list string) :
  Findings.flood_risks flood = Return [] ->
  flood_step (option_map Flood.scored flood) st = st.
Proof.
  destruct flood as [f|]; [|reflexivity].
  unfold Findings.flood_risks, flood_step.
  cbn [option_map Flood.scored has_flood_data default from_option id].
  destruct (Flood.has_flood_data f); [|reflexivity].
  destruct (Flood.info_flood_data f); discriminate.
Qed.

Lemma flood_no_reason (flood : option Flood.Info) (st : Z * list string) :
  snd (flood_step (option_map Flood.scored flood) st) = [] ->
  snd st = [] /\ flood_step (option_map Flood.scored flood) st = st
  /\ Findings.flood_risks flood = Return [].
Proof.
  destruct flood as [f|]; [|intros Hs; repeat split; exact Hs].
  unfold Findings.flood_risks, flood_step.
  cbn [option_map Flood.scored has_flood_data default from_option id].
  destruct (Flood.has_flood_data f).
  - intros Hs. destruct (deduct_snd _ _ _ Hs).
  - intros Hs. repeat split. exact Hs.
Qed.

Lemma constraints_quiet (constraints : option (SiteConstraints.Result G))
    (st : Z * list string) :
  Findings.constraint_risks constraints = [] ->
  constraints_step (option_map SiteConstraints.scored constraints) st = st.
Proof.
  destruct constraints as [c|]; [|reflexivity].
  unfold Findings.constraint_risks, constraints_step.
  cbn [option_map SiteConstraints.scored easements_count covenants_count
         koala esa default from_option id].
  unfold status_truthy. cbn [status].
  change (DaHistory.str_truthy ?x) with (SiteConstraints.text_truthy x).
  destruct (SiteConstraints.easements_count c >? 0); [discriminate|].
  destruct (SiteConstraints.covenants_count c >? 0); [discriminate|].
  destruct (SiteConstraints.text_truthy (SiteConstraints.k_status _));
    [discriminate|].
  destruct (SiteConstraints.text_truthy (SiteConstraints.s_status _));
    [discriminate|].
  reflexivity.
Qed.

Lemma constraints_no_reason (constraints : option (SiteConstraints.Result G))
    (st : Z * list string) :
  snd (constraints_step (option_map SiteConstraints.scored constraints) st)
  = [] ->
  snd st = []
  /\ constraints_step (option_map SiteConstraints.scored constraints) st = st
  /\ Findings.constraint_risks constraints = [].
Proof.
  destruct constraints as [c|]; [|intros Hs; repeat split; exact Hs].
  unfold Findings.constraint_risks, constraints_step.
  cbn [option_map SiteConstraints.scored easements_count covenants_count
         koala esa default from_option id].
  unfold status_truthy. cbn [status].
  change (DaHistory.str_truthy ?x) with (SiteConstraints.text_truthy x).
  destruct (SiteConstraints.text_truthy (SiteConstraints.s_status _));
    [intros Hs; destruct (deduct_snd _ _ _ Hs)|].
  destruct (SiteConstraints.text_truthy (SiteConstraints.k_status _));
    [intros Hs; destruct (deduct_snd _ _ _ Hs)|].
  destruct (SiteConstraints.covenants_count c >? 0);
    [intros Hs; destruct (deduct_snd _ _ _ Hs)|].
  destruct (SiteConstraints.easements_count c >? 0);
    [intros Hs; destruct (deduct_snd _ _ _ Hs)|].
  intros Hs. repeat split. exact Hs.
Qed.

Lemma infrastructure_quiet (infra : option (Infrastructure.t H))
    (st : Z * list string) :
  Findings.infrastructure_risks infra = [] ->
  infrastructure_step (option_map Infrastructure.scored infra) st = st.
Proof.
  destruct infra as [i|]; [|reflexivity].
  unfold Findings.infrastructure_risks, infrastructure_step.
  cbn [option_map Infrastructure.scored water sewer service_available
         available default from_option id].
  destruct (Infrastructure.Water.available _); [|discriminate].
  destruct (Infrastructure.Sewer.available _); [|discriminate].
  reflexivity.
Qed.

Lemma infrastructure_no_reason (infra : option (Infrastructure.t H))
    (st : Z * list string) :
  snd (infrastructure_step (option_map Infrastructure.scored infra) st) = [] ->
  snd st = []
  /\ infrastructure_step (option_map Infrastructure.scored infra) st = st
  /\ Findings.infrastructure_risks infra = [].
Proof.
  destruct infra as [i|]; [|intros Hs; repeat split; exact Hs].
  unfold Findings.infrastructure_risks, infrastructure_step.
  cbn [option_map Infrastructure.scored water sewer service_available
         available default from_option id].
  destruct (Infrastructure.Sewer.available _); cbn [negb];
    [|intros Hs; destruct (deduct_snd _ _ _ Hs)].
  destruct (Infrastructure.Water.available _); cbn [negb];
    [|intros Hs; destruct (deduct_snd _ _ _ Hs)].
  intros Hs. repeat split. exact Hs.
Qed.

Lemma compliance_no_reason (b : option Buildability.Outcome)
    (st : Z * list string) :
  snd (compliance_step b st) = [] ->
  snd st = [] /\ compliance_step b st = st.
Proof.
  unfold compliance_step. destruct b as [b|]; [|intros Hs; split; [exact Hs|reflexivity]].
  destruct (lot_compliant b); cbn [negb].
  - intros Hs. split; [exact Hs|reflexivity].
  - intros Hs. destruct (deduct_snd _ _ _ Hs).
Qed.

Lemma compliance_reason (b : option Buildability.Outcome)
    (st : Z * list string) :
  compliance_step b st = st
  \/ compliance_step b st = deduct st 5 "Lot non-compliant (-5)".
Proof.
  unfold compliance_step. destruct b as [b|]; [|left; reflexivity].
  destruct (lot_compliant b); [left|right]; reflexivity.
Qed.

(** A result that says it has no constraints: the scorer and the risks
    find none. *)
Lemma no_constraints_quiet {K : Type}
    (er cr : response (SiteConstraints.feature G))
    (pr hr kr ar br : response K) (c : SiteConstraints.Result G) :
  SiteConstraints.get_constraints er cr pr hr kr ar br = Return c ->
  SiteConstraints.flag_truthy (SiteConstraints.has_constraints c) = false ->
  Findings.constraint_risks (Some c) = [].
Proof.
  intros Hc Hf.
  destruct (constraints_shape _ _ _ _ _ _ _ _ Hc)
    as (_ & _ & _ & _ & _ & _ & Hflag & _).
  rewrite Hflag in Hf. unfold Findings.constraint_risks.
  destruct (SiteConstraints.easements_count c >? 0); [discriminate|].
  destruct (SiteConstraints.covenants_count c >? 0); [discriminate|].
  destruct (SiteConstraints.text_truthy (SiteConstraints.k_status _)) eqn:Ek;
    cbn [SiteConstraints.flag_truthy] in Hf; [congruence|].
  rewrite Hf. reflexivity.
Qed.

Section Strengths.
Variables (zone : option Zone.t) (overlays : list Overlay.group)
  (flood : option Flood.Info)
  (constraints : option (SiteConstraints.Result G))
  (infra : option (Infrastructure.t H))
  (build : option Buildability.Outcome) (precedent : Precedent).

Ltac strengths_cases Hin :=
  unfold Findings._identify_strengths in Hin; cbv zeta in Hin;
  repeat (apply in_app_or in Hin as [Hin|Hin]);
  repeat case_match; cbn [In] in Hin;
  repeat match type of Hin with
         | _ \/ _ => destruct Hin as [Hin|Hin]
         end;
  try contradiction;
  try (rewrite ?append_cons in Hin; discriminate Hin);
  try match goal with
      | E : false && _ = true |- _ => discriminate E
      end.

Lemma strength_services :
  In "Full reticulated water and sewer services available"%string
    (Findings._identify_strengths zone overlays flood constraints infra
       build precedent) ->
  exists i, infra = Some i
            /\ Infrastructure.Water.available (Infrastructure.water i) = true
            /\ Infrastructure.Sewer.available (Infrastructure.sewer i) = true.
Proof.
  intros Hin. strengths_cases Hin.
  eexists. split; [reflexivity|]. apply andb_prop. assumption.
Qed.

Lemma strength_flood :
  In "No direct flood mapping on parcel"%string
    (Findings._identify_strengths zone overlays flood constraints infra
       build precedent) ->
  exists f, flood = Some f /\ Flood.has_flood_data f = false.
Proof.
  intros Hin. strengths_cases Hin.
  eexists. split; [reflexivity|]. apply negb_true_iff. assumption.
Qed.

Lemma strength_overlays :
  In "No significant planning overlays"%string
    (Findings._identify_strengths zone overlays flood constraints infra
       build precedent) ->
  Findings.overlay_count overlays = 0.
Proof.
  intros Hin. strengths_cases Hin. apply Z.eqb_eq. assumption.
Qed.

Lemma strength_constraints :
  In "No easements, covenants, or environmental constraints"%string
    (Findings._identify_strengths zone overlays flood constraints infra
       build precedent) ->
  exists c, constraints = Some c
            /\ SiteConstraints.flag_truthy (SiteConstraints.has_constraints c)
               = false.
Proof.
  intros Hin. strengths_cases Hin.
  eexists. split; [reflexivity|]. apply negb_true_iff. assumption.
Qed.

Lemma strength_compliant :
  In "Lot size compliant with zone requirements"%string
    (Findings._identify_strengths zone overlays flood constraints infra
       build precedent) ->
  exists b, build = Some b /\ lot_compliant b = true.
Proof.
  intros Hin. strengths_cases Hin.
  eexists. split; [reflexivity|]. assumption.
Qed.

End Strengths.

End FindingStepFacts.

(** X25. The risks and the deductions of one report. When
    [_identify_risks] finds no risk, the only deductions the scorer makes
    from the same data are those for scenic amenity and for a lot that is
    not compliant, so the score is at least 95 less five for each overlay
    group, and the precedent is not negative. When the scorer makes no
    deduction, [_identify_risks] returns, and the only risks are the
    messages about the size of the lot and the negative precedent. *)
Theorem risks_and_deductions_agree :
  forall (G H : Type) (format_whole str_of_float : float -> string)
         (zone : option Zone.t) (overlays : list Overlay.group)
         (flood : option Flood.Info)
         (constraints : option (SiteConstraints.Result G))
         (infra : option (Infrastructure.t H))
         (build : option Buildability.Outcome)
         (precedent : AiSummary.Precedent),
    (Findings._identify_risks format_whole str_of_float zone overlays flood
       constraints infra build precedent = Return [] ->
     Forall (fun d => d = "Scenic amenity (-5)"%string
                      \/ d = "Lot non-compliant (-5)"%string)
       (snd (Findings.score overlays flood constraints infra build))
     /\ 100 - 5 * Z.of_nat (length overlays) - 5
        <= fst (Findings.score overlays flood constraints infra build)
     /\ AiSummary.outlook precedent <> AiSummary.negative)
    /\ (snd (Findings.score overlays flood constraints infra build) = [] ->
        Findings._identify_risks format_whole str_of_float zone overlays
          flood constraints infra build precedent
        = Return (Findings.lot_risks format_whole str_of_float build
                  ++ Findings.precedent_risks precedent)).
Proof.
  intros G H fw sf zone overlays flood constraints infra build precedent.
  split.
  - unfold Findings._identify_risks.
    destruct (Findings.flood_risks flood) as [fl|] eqn:Ef; cbn [py_bind];
      [|discriminate].
    intros [= Hr].
    apply List.app_eq_nil in Hr as (Hr & Hp).
    apply List.app_eq_nil in Hr as (Hr & _).
    apply List.app_eq_nil in Hr as (Hr & Hi).
    apply List.app_eq_nil in Hr as (Hr & Hc).
    apply List.app_eq_nil in Hr as (Ho & Hf). subst fl.
    cbn [app] in Ho. apply omap_nil in Ho.
    assert (Hout : AiSummary.outlook precedent <> AiSummary.negative).
    { unfold Findings.precedent_risks in Hp. intros E. rewrite E in Hp.
      discriminate. }
    unfold Findings.score, AiSummary._calculate_constraints_score.
    cbv zeta. rewrite (flood_quiet _ _ Ef), (constraints_quiet _ _ Hc),
      (infrastructure_quiet _ _ Hi).
    destruct (overlay_fold_scenic
                (fun d => d = "Scenic amenity (-5)"%string
                          \/ d = "Lot non-compliant (-5)"%string)
                overlays (100, []) (or_introl eq_refl) Ho
                (List.Forall_nil _)) as (S1 & S2).
    cbn [fst snd] in S2 |- *.
    destruct (compliance_reason build
                (fold_left AiSummary.overlay_step overlays (100, [])))
      as [-> | ->].
    + split; [exact S1|]. split; [lia|exact Hout].
    + unfold AiSummary.deduct. cbn [fst snd]. split.
      * apply Forall_app. split; [exact S1|].
        constructor; [right; reflexivity|constructor].
      * split; [lia|exact Hout].
  - unfold Findings.score, AiSummary._calculate_constraints_score.
    cbv zeta. cbn [snd]. intros Hs.
    apply compliance_no_reason in Hs as (Hs & _).
    apply infrastructure_no_reason in Hs as (Hs & _ & Hi).
    apply constraints_no_reason in Hs as (Hs & _ & Hc).
    apply flood_no_reason in Hs as (Hs & _ & Hf).
    apply overlay_fold_no_reason in Hs as (_ & Ho).
    unfold Findings._identify_risks. rewrite Hf. cbn [py_bind].
    rewrite Hc, Hi.
    replace (omap Findings.overlay_risk overlays) with (@nil string).
    + reflexivity.
    + symmetry. apply omap_nil.
      eapply Forall_impl; [exact Ho|]. intros g. apply overlay_deduction_none.
Qed.

Lemma risks_and_deductions_agree_witness :
  let scenic :=
    {| Overlay.category := Some "Scenic Amenity Overlay"%string;
       Overlay.layers := [] |} in
  let precedent :=
    AiSummary._analyze_da_precedent
      {| AiSummary.on_parcel := None; AiSummary.nearby := None |} in
  Findings._identify_risks (G := unit) (H := unit) (fun _ => EmptyString)
    (fun _ => EmptyString) None [scenic] None None None None precedent
  = Return []
  /\ Forall (fun d => d = "Scenic amenity (-5)"%string
                      \/ d = "Lot non-compliant (-5)"%string)
       (snd (Findings.score (G := unit) (H := unit) [scenic] None None None
               None))
  /\ fst (Findings.score (G := unit) (H := unit) [scenic] None None None None)
     = 95.
Proof.
  intros scenic precedent.
  assert (Hr : Findings._identify_risks (G := unit) (H := unit)
                 (fun _ => EmptyString) (fun _ => EmptyString) None [scenic]
                 None None None None precedent = Return [])
    by (vm_compute; reflexivity).
  split; [exact Hr|]. split; [|vm_compute; reflexivity].
  exact (proj1 (proj1 (risks_and_deductions_agree unit unit
                         (fun _ => EmptyString) (fun _ => EmptyString) None
                         [scenic] None None None None precedent) Hr)).
Defined.

(** X26. A report without findings scores 100. When the overlay groups
    are not empty, the constraints are a result of [get_constraints], and
    the strengths list full water and sewer services, no direct flood
    mapping, no significant planning overlays, no easements, covenants or
    environmental constraints, and a lot of compliant size, then the score
    is 100 with no deduction, and the only risks that can be listed are the
    messages about the size of the lot and the negative precedent. *)
Theorem clear_report_scores_100 :
  forall (G H K : Type) (format_whole str_of_float : float -> string)
         (er cr : response (SiteConstraints.feature G))
         (pr hr kr ar br : response K) (c : SiteConstraints.Result G)
         (zone : option Zone.t) (overlays : list Overlay.group)
         (flood : option Flood.Info) (infra : option (Infrastructure.t H))
         (build : option Buildability.Outcome)
         (precedent : AiSummary.Precedent),
    SiteConstraints.get_constraints er cr pr hr kr ar br = Return c ->
    Forall (fun g => Overlay.layers g <> []) overlays ->
    let strengths :=
      Findings._identify_strengths zone overlays flood (Some c) infra build
        precedent in
    In "Full reticulated water and sewer services available"%string
      strengths ->
    In "No direct flood mapping on parcel"%string strengths ->
    In "No significant planning overlays"%string strengths ->
    In "No easements, covenants, or environmental constraints"%string
      strengths ->
    In "Lot size compliant with zone requirements"%string strengths ->
    Findings.score overlays flood (Some c) infra build = (100, [])
    /\ Findings._identify_risks format_whole str_of_float zone overlays flood
         (Some c) infra build precedent
       = Return (Findings.lot_risks format_whole str_of_float build
                 ++ Findings.precedent_risks precedent).
Proof.
  intros G H K fw sf er cr pr hr kr ar br c zone overlays flood infra build
    precedent Hc Hne strengths Hs Hf Ho Hn Hl. subst strengths.
  apply strength_services in Hs as (i & -> & Hw & Hsw).
  apply strength_flood in Hf as (f & -> & Hfd).
  apply strength_overlays in Ho.
  apply strength_constraints in Hn as (c' & [= <-] & Hflag).
  apply strength_compliant in Hl as (b & -> & Hb).
  pose proof (no_significant_overlays overlays Hne Ho) as Hq.
  pose proof (no_constraints_quiet _ _ _ _ _ _ _ _ Hc Hflag) as Hcr.
  assert (Hfr : Findings.flood_risks (Some f) = Return []).
  { unfold Findings.flood_risks. rewrite Hfd. reflexivity. }
  assert (Hir : Findings.infrastructure_risks (Some i) = []).
  { unfold Findings.infrastructure_risks. rewrite Hw, Hsw. reflexivity. }
  split.
  - unfold Findings.score, AiSummary._calculate_constraints_score.
    cbv zeta. rewrite (overlay_fold_quiet _ _ Hq), (flood_quiet _ _ Hfr),
      (constraints_quiet _ _ Hcr), (infrastructure_quiet _ _ Hir).
    unfold AiSummary.compliance_step. rewrite Hb. reflexivity.
  - unfold Findings._identify_risks. rewrite Hfr. cbn [py_bind].
    rewrite Hcr, Hir.
    replace (omap Findings.overlay_risk overlays) with (@nil string).
    + reflexivity.
    + symmetry. apply omap_nil.
      eapply Forall_impl; [exact Hq|]. intros g. apply overlay_deduction_none.
Qed.

Lemma clear_report_scores_100_witness :
  let main : Infrastructure.feature unit :=
    {| Infrastructure.NominalDiameter := SInt 150;
       Infrastructure.Diameter := SNull;
       Infrastructure.Material := SStr "PVC";
       Infrastructure.Name := SNull; Infrastructure.GNAME := SNull;
       Infrastructure.name_ := SNull;
       Infrastructure.PipeDiameter_mm := SNull;
       Infrastructure.InletType := SNull;
       Infrastructure.geometry := None |} in
  let flood :=
    match Flood.get_flood_info (fun _ => Json None) (Json None) (Json None)
            (Json None) None with
    | Return f => Some f
    | Raise _ => None
    end in
  let infra :=
    match Infrastructure.get_infrastructure (fun _ => None) (fun _ => None)
            (fun _ => EmptyString) (Json (Some [main])) (Json None)
            (Json (Some [main])) (Json None) (Json None) (Json None)
            (Json None) (Json None) with
    | Return i => Some i
    | Raise _ => None
    end in
  let build := Some (Buildability.NoArea "Rural Zone" "Rural" "no area") in
  let precedent :=
    AiSummary._analyze_da_precedent
      {| AiSummary.on_parcel := None; AiSummary.nearby := None |} in
  exists c : SiteConstraints.Result unit,
    SiteConstraints.get_constraints (K := unit) (Failed TimeoutException)
      (Failed TimeoutException) (Failed TimeoutException)
      (Failed TimeoutException) (Failed TimeoutException)
      (Failed TimeoutException) (Failed TimeoutException) = Return c
    /\ Findings.score [] flood (Some c) infra build = (100, []).
Proof.
  intros main flood infra build precedent. eexists.
  split; [vm_compute; reflexivity|].
  refine (proj1 (clear_report_scores_100 unit unit unit
                   (fun _ => EmptyString) (fun _ => EmptyString)
                   (Failed TimeoutException) (Failed TimeoutException)
                   (Failed TimeoutException) (Failed TimeoutException)
                   (Failed TimeoutException) (Failed TimeoutException)
                   (Failed TimeoutException) _ None [] flood infra build
                   precedent _ _ _ _ _ _ _)).
  - vm_compute. reflexivity.
  - constructor.
  - vm_compute. repeat first [left; reflexivity|right].
  - vm_compute. repeat first [left; reflexivity|right].
  - vm_compute. repeat first [left; reflexivity|right].
  - vm_compute. repeat first [left; reflexivity|right].
  - vm_compute. repeat first [left; reflexivity|right].
Defined.
